(* ===== verification/_CoqProject ===== *)
-Q . S2P
Prelude.v
Sql.v
Calendar.v
Post.v
Metrics.v
Hashtags.v
Predict.v
Trends.v
Recommend.v
Alerts.v
Store.v
Routes.v
ApiTypes.v
App.v
Reports.v
Forms.v
Pages.v
Views.v
Upload.v
AddPostForm.v
Csv.v
CsvExport.v
Consistency.v
HashtagsRef.v
