(* ===== verification/Prelude.v ===== *)
(** * Instagram-Analytics: a verification development of [src/app.py]

    [src/app.py] is a Flask application: users log Instagram posts with
    their engagement counts, the app stores them in SQLite (table [posts])
    and derives analytics from them.  The analytics engine is six Python
    functions, each one or more SQL queries over the posts of the user's
    projects followed by Python arithmetic and branching:
    [calculate_metrics] and [extract_hashtags] run once per new post (from
    [add_post]); [analyze_growth_trends], [predict_post_performance],
    [generate_smart_recommendations] and [check_performance_alerts] run on
    demand (from [reports], [api_predict_performance] and [dashboard]).
    The four on-demand functions share no state: each reads the same
    snapshot of the posts table through [WHERE project_id IN (...)].

    ** Files and what they model
    - [Prelude] (this file): Python's exceptions as values ([py_exc],
      [result] with stdpp's monad notation), Python division ([py_div])
      and [x or d] on SQL values ([py_or]), [round(x, n)] ([py_round],
      round-half-even on exact rationals, with monotonicity and
      compatibility with [Qeq]); IEEE binary64 rounding on rationals
      ([round_double]: round to nearest even, subnormals, [None] from
      2^1024 on; [double_overflows]); string lemmas; the hint databases.
    - [Sql]: SQLite's query semantics as list operations: [where_in],
      [group_by] (one group per distinct key, in key order, through the
      [SqlOrd] interface of key orders), [sql_avg]/[sql_sum] (NULL on no
      rows), [order_by_desc] (stable), [sql_cast_integer], [substr_prefix],
      [string_lower], C white space ([ascii_strip]), the host-parameter
      limit of a statement ([sqlite_prepare]); and their lemmas (group membership, sortedness, the
      head of a descending order is a maximum, averages lie between bounds).
    - [Calendar]: dates as SQLite computes with them: day numbers
      ([days_from_civil], [civil_from_days]), [strftime('%Y-%m')] and
      [strftime('%Y-%W')] keys, the text order of ISO dates ([date_le]),
      and [date(now, modifier)] ([date_modify]) for the ["NNN unit"]
      modifiers, NULL on a unit SQLite does not know.
    - [Post]: a row of the [posts] table ([Post], columns with their SQL
      types), [post_hour], [scope] (the analysis window), sample rows.
    - [Metrics] (Module [Metrics]): [calculate_metrics], lines 135-157.
    - [Hashtags] (Module [Hashtags]): [extract_hashtags], lines 159-166.
    - [Predict] (Module [Predict]): [predict_post_performance], 177-217.
    - [Trends] (Module [Trends]): [analyze_growth_trends], 219-261.
    - [Recommend] (Module [Recommend]): [generate_smart_recommendations],
      lines 263-370, one definition per heuristic.
    - [Alerts] (Module [Alerts]): [check_performance_alerts], 372-449.
    - [Store]: the database.  [Db] holds the tables [users], [projects],
      [posts], [hashtags], [post_comments] of [init_db] (lines 32-133) as
      stdpp [gmap]s from rowid to row, and [sqlite_sequence]
      (AUTOINCREMENT, [next_rowid]); each SQL statement of a route is a
      function [Db -> Db] ([insert_project], [delete_post_row], ...),
      each query a function of [Db]; the transaction monad [txM] (a
      committed and a working copy) models Python's sqlite3: [exec],
      [commit], [rollback], [close] (which drops uncommitted work),
      [try_except]; each statement's integer parameters are bound as
      SQLite's 64-bit INTEGER first ([Sql.sqlite_bind]: [OverflowError]
      outside [-2^63, 2^63-1]); [wf_db] is the integrity the schema declares (foreign
      keys, which SQLite does not enforce by default, and unique project
      names per user), with one preservation lemma per statement group.
    - [Routes]: the seven routes that write the database, each a [txM]
      program of the view function's name: [add_post] (540-671, with
      [save_hashtags] 168-175 and [db.lastrowid] raising
      [AttributeError]), [add_project], [post_comments],
      [api_post_comments], [delete_post], [delete_multiple_posts],
      [delete_project]; [serve] runs one request on the committed
      database, and one lemma per route computes it.
    - [App]: the application as a transition system: [step] relates a
      database to the one any request of a logged-in user leaves,
      [reachable] is its closure from [initial_db] (start-up, lines
      1469-1492); invariants are proved by rule induction.
    - [Reports] (Module [Reports]): the ten chart queries of [reports]
      (716-978) and of the chart endpoints (981-1045) as functions of the
      scoped posts, each the query's GROUP BY / ORDER BY / LIMIT chain.
    - [Pages] (Module [Pages]): the pages that only read: [dashboard]
      (483-538), [reports], [api_engagement_data], [api_reach_data],
      [api_predict_performance] (1268-1293, with [int()] of its [hour]
      argument) and [generate_project_report]
      (1421-1467), as functions of the session and the committed [Db].
    - [Views] (Module [Views]): [index], [login], [logout] (451-481; the
      password check is a section variable) and the listings [posts]
      (673-714), [projects] (1114-1129), [project_posts] (1170-1195).
    - [Upload] (Module [Upload]): [allowed_file] (22-25) and the upload
      block of [add_post] (576-596); [secure_filename] is a parameter.
    - [AddPostForm] (Module [AddPostForm]): the POST branch of [add_post]
      from the raw request: the first connection, the form reads
      ([Forms]), the upload block ([Upload]) and the rest of the route
      ([Routes.add_post_db]), composed as the handler composes them.
    - [Csv] (Module [Csv]): the [csv.writer] rows [export_csv] writes
      (excel dialect, QUOTE_MINIMAL) and a reference reader.
    - [CsvExport] (Module [CsvExport]): [export_csv] (1047-1111): the
      query, the header, the twenty values per post, the file name.
    - [Forms] (Module [Forms]): the [request.form] reads of [add_post]
      (554-574) and Python's [float()] on text ([py_float]: CPython's
      underscore pass, [strip()], [inf]/[infinity]/[nan] with a sign, then
      a decimal literal read to the end); [Sql] holds [int()] on text
      ([py_int]), the decimal literal shared by [float()] and SQLite
      ([decimal_literal]) and SQLite's numeric affinity on text
      ([sqlite_text_rowid]), with which [Routes.resolve_project] matches
      the form's [project_id] text against the INTEGER [id] column before
      [int(project_id)] (lines 599-631).
    - [ApiTypes] (Module [ApiTypes]): a type language for JSON values and
      the types of the JSON routes' answers.
    - [Consistency] (Module [Consistency]): the dashboard, the CSV
      export and the projects page on the same database.
    - [HashtagsRef] (Module [HashtagsRef]): the hashtag scan defined by
      well-founded recursion (Equations), the reference for the fuelled
      scan of [Hashtags].
    Each function is one Rocq function of the same name over the list of
    posts (and an explicit evaluation time [now] where the SQL says
    ['now']); its SQL queries are separate definitions ([monthly_growth],
    [timing_rows], [recent_posts], ...) built from [Sql].  Where Python
    would raise, the model returns [Raise e].

    ** What is proved
    - The application (Routes, App): [add_post] never stores a post (it ends
      in [ValueError], [TypeError], [OverflowError] or [AttributeError]
      before [commit]); hence every
      reachable state has empty [posts], [hashtags] and [post_comments];
      every reachable state satisfies [wf_db] (rule induction over
      [step], [App.reachable_wf], a lemma that relies on requests being
      served one at a time); no request touches another user's posts or projects;
      [delete_multiple_posts] is all-or-nothing, refuses repeated
      ids and answers a JSON 500 for more than 32765 ids (SQLite's
      host-parameter limit); [delete_project] removes exactly its posts and their children;
      the access query of [post_comments] is exactly ownership while
      [api_post_comments] has no ownership check.
    - The pages (Pages): in every reachable state every chart of
      [reports] is empty, the
      prediction API answers the baseline defaults, and the project report
      redirects; on a project with posts [generate_project_report] raises
      [TypeError].
    - Sessions and listings (Views): [login] only writes sessions naming
      the [users] row whose hash accepts the password (the sessions [step]
      admits); the posts page lists exactly the user's posts in the order
      asked, and only a valid column and direction reach its SQL; the
      projects page's post counts add up to the user's posts.
    - Reports: the score distribution partitions the posts; the
      engagement chart shows the latest 30 dates while the chart endpoint
      serves the earliest 30; the hashtag and velocity tables respect their
      HAVING, ORDER BY and LIMIT.
    - Errors: exactly when [calculate_metrics] raises [OverflowError]
      (a quotient or the reel length beyond the largest double) and
      [TypeError] (a missing reel length), exactly when [analyze_growth_trends] raises
      [ZeroDivisionError] (a previous month averaging 0);
      [predict_post_performance] raises only [OverflowError], exactly
      when the hour does not fit 64 bits.
    - Machine integers: an id of the URL or the JSON body outside SQLite's
      64-bit INTEGER crashes the route with [OverflowError] (or a JSON 500)
      and changes nothing ([Routes.serve_int_overflow]).
    - Types: the JSON routes answer bodies of their documented shapes
      ([ApiTypes.json_routes_typed]).
    - Text the form sends (AddPostForm, Forms): the project select's
      [str(k)] matches project [k] in SQL and reads back as [k] through
      [int()] ([AddPostForm.resolve_project_str]); [str(k) + '.0'] also
      matches project [k] in SQL (numeric affinity) but makes [int()]
      raise [ValueError], a 500 page, for every [|k| < 2^53]
      ([AddPostForm.add_post_project_point_zero]); [float(str(n))] is
      the double [n] for every [|n| < 2^53], negative durations included
      ([Forms.avg_view_duration_int]).
    - Functional behaviour of every heuristic: the timing and caption advice
      name the best group; content advice is given iff two types differ by
      the factor 1.2; the frequency thresholds; the alert classification,
      with soundness and completeness of the alert list.
    - Safety and dead code: no frequency recommendation is ever produced
      ([date('now', '-8 weeks')] is NULL in SQLite); the 'No posts this
      week' alert is unreachable; posts outside the scope never change a
      prediction.
    - Bounds: confidence in [30, 95]; predicted scores between the similar
      posts' extremes; weighted engagement at least the plain one.
    - Hashtags: soundness, completeness and a render/extract round trip;
      the fuelled scan equals the terminating one ([HashtagsRef]).
    - Dates: SQLite's day arithmetic is a bijection between day numbers
      and valid dates that preserves order (Calendar, by reduction to one
      400-year period checked by evaluation); hence the alerts' split at
      [date('now', '-7 days')] is exactly "dated at most seven days ago"
      ([Alerts.recent_window]).
    - Consistency: the dashboard's post count, the CSV export's rows and
      the projects page's counts agree ([Consistency.pages_agree]).
    - Project creation: one [add_project] request of a user with a name
      that is new to them is a step that answers the success redirect and
      stores the project under a fresh id ([App.project_creation_live]);
      the growth report compares the latest month with a post against
      the latest one before it ([Trends.analyze_growth_trends_latest_months]).
    - AUTOINCREMENT: every reachable state keeps each project id at or
      below [sqlite_sequence]'s value, which never decreases; hence a
      deleted project's id never names a new project
      ([App.deleted_project_id_never_reused]).
    - Round trips: [int(str(n)) == n] below 4300 digits and
      [float(str(n)) == n] below 2^53; the CSV export reads back as the header and the
      user's posts, newest first (and in a reachable state as the header
      alone); [allowed_file] is its reference reading [base.ext]; a form
      that reads carries in each count the integer its text spells.
    - Boundary examples that separate the code from the spec (the content
      factor, the caption preview, the 0.0 baseline).

    ** Modelling choices and bounds
    - REAL values are rationals [Q].  Rounding to binary64 is modelled
      where the code turns something into a double: [float()] of text
      (correctly rounded, as CPython's [_Py_dg_strtod]; [inf] beyond the
      largest double), [int / int] and [float / int] ([OverflowError]
      beyond it, as CPython's [long_true_divide] and [PyLong_AsDouble]),
      and SQLite's numeric affinity on text that is not a 64-bit integer
      literal (read as a double, taken as correctly rounded, then kept
      when it is an integer strictly inside 64 bits).  Arithmetic on
      values already stored as doubles is exact.  [round] is exact
      round-half-even, which is CPython's result whenever the float is
      the exact decimal.
    - Captions are ASCII ([string]); [\w] is [A-Za-z0-9_].
    - Dates are valid ISO dates ([Date]); ['now'] is a parameter.
    - [int()] and [float()] strip C white space (tab, newline, vertical
      tab, form feed, carriage return, space), as CPython does on ASCII
      text, and [int()] refuses more than 4300 digits (CPython's
      default [sys.get_int_max_str_digits()]).
    - Requests are served one at a time: [step] is one whole request.
      [app.run] (line 1501) serves with threads, so requests can
      interleave; [add_project]'s name check and INSERT (lines 1147-1161)
      are then not atomic and the schema has no UNIQUE constraint, so two
      concurrent requests can create the same name twice (a finding).
      The unique-name part of [wf_db] holds for serialized requests only.
    - A row of [posts] has non-NULL counts ([Post]): no INSERT into
      [posts] ever commits, so no stored row is read; Python's [nan]
      stored as NULL is not modelled.
    - Python ints are [Z]; SQLite's INTEGER is checked where sqlite3
      binds a parameter the request supplies (URL and JSON ids, the form's
      counts, the prediction's hour).  Session user ids and rowids are
      rowids of SQLite tables and fit by construction, so their binding is
      not checked.
    - Rows with equal sort keys keep their GROUP BY key order (SQLite
      leaves this order unspecified).
    - The hashtag scan takes fuel [length + 1], one step per character,
      enough by [findall_hashtags_fuel] and [findall_hashtags_ref].
    - The calendar checks run over one period of 146097 day numbers and
      the valid dates of 400 years: the formulas are periodic with that
      period ([civil_from_days_period], [days_from_civil_period]), so one
      period covers every date.
    - Library functions the code calls are parameters (section variables):
      [check_password_hash], [secure_filename] and the [repr] of a REAL;
      every theorem holds for any of them.  [float()] and [int()] on text
      and SQLite's numeric affinity are modelled from CPython's and
      SQLite's sources (ASCII text without NUL characters); the value of
      a decimal literal is its double, and infinities and NaNs, which
      no rational is, take their value from a parameter.  A statement
      with more than 32766 parameters raises [OperationalError]
      ([SQLITE_MAX_VARIABLE_NUMBER]).

    ** Not modelled, and why
    Every function of [src/app.py] has a model.  What is left out:
    password hashing and Flask's signed session cookie (library code; a
    session is an input naming a row of [users]); the HTML templates
    (presentation; a page is the data passed to [render_template]); the
    file system calls of the upload (their outcome is an input); Python's
    float [repr] (a parameter); the [post_date] text of the form, kept as the [Date] it
    names.  Non-ASCII text is not modelled.  Rows whose ORDER BY
    keys tie keep rowid order.
    SQLite's [SUM] over integers raises "integer overflow" when the sum
    leaves 64 bits; the model's sums are unbounded integers, so that error
    (reachable only with stored counts near 2^63) is not modelled. *)

From Stdlib Require Import ZArith QArith Qround Qabs Lqa.
From Stdlib Require Import Ascii.
From stdpp Require Import base list strings.

(** ** Python exceptions and the result monad *)

(** The exceptions the modelled Python code can raise. *)
Inductive py_exc :=
  | TypeError
  | ZeroDivisionError
  | AttributeError
  | ValueError            (* int() of malformed text *)
  | BadRequestKeyError    (* request.form[k] without k: werkzeug answers 400 *)
  | OverflowError         (* an int outside 64 bits bound by sqlite3, or outside the doubles *)
  | OperationalError.     (* sqlite3: a statement with too many host parameters *)

#[export] Instance py_exc_eq_dec : EqDecision py_exc.
Proof. solve_decision. Defined.

(** A Python computation either returns a value or raises. *)
Inductive result (A : Type) :=
  | Ok (a : A)
  | Raise (e : py_exc).
Arguments Ok {A} a.
Arguments Raise {A} e.

#[export] Instance result_ret : MRet result := @Ok.
#[export] Instance result_bind : MBind result := fun A B f r =>
  match r with Ok a => f a | Raise e => Raise e end.
#[export] Instance result_fmap : FMap result := fun A B f r =>
  match r with Ok a => Ok (f a) | Raise e => Raise e end.

Lemma result_ret_Ok {A} (a : A) : mret (M := result) a = Ok a.
Proof. reflexivity. Qed.

Lemma result_bind_Ok {A B} (a : A) (f : A -> result B) : (Ok a ≫= f) = f a.
Proof. reflexivity. Qed.

Lemma result_bind_Raise {A B} (e : py_exc) (f : A -> result B) : (Raise e ≫= f) = Raise e.
Proof. reflexivity. Qed.

Declare Scope py_scope.
Delimit Scope py_scope with py.
Open Scope py_scope.
Open Scope Q_scope.

(** Python's [/] on numbers: raises [ZeroDivisionError] on a zero divisor. *)
Definition py_div (x y : Q) : result Q :=
  if Qeq_bool y 0 then Raise ZeroDivisionError else Ok (x / y).
Infix "/?" := py_div (at level 40, left associativity) : py_scope.

(** [x or d] for a value read from SQLite: [None] (NULL) and [0.0] are falsy. *)
Definition py_or (o : option Q) (d : Q) : Q :=
  match o with
  | Some x => if Qeq_bool x 0 then d else x
  | None => d
  end.
Infix "or?" := py_or (at level 50, left associativity) : py_scope.

(** ** Python's [round(x, n)] on numbers

    Floats are modelled by their exact rational value.  [round(x, n)] is
    round-half-to-even at [n] decimal digits (CPython's [float.__round__]
    is exact on the binary value, hence half-even on exact ties). The result
    is normalised with [Qred], so rounded values compare with [=]. *)
Definition round_half_even (y : Q) : Z :=
  let f := Qfloor y in
  match Qcompare (y - inject_Z f) (1 # 2) with
  | Lt => f
  | Gt => (f + 1)%Z
  | Eq => if Z.even f then f else (f + 1)%Z
  end.

Definition py_round (n : positive) (x : Q) : Q :=
  Qred (round_half_even (x * inject_Z (Zpos (10 ^ n))) # (10 ^ n)).

(** ** Binary64

    CPython's floats and SQLite's REAL values are IEEE 754 binary64
    numbers.  [round_double x] is the double nearest [x] (ties to even,
    subnormals included), or [None] when [x] rounds past the largest
    double: there CPython's conversions of an int ([int / int],
    [float(n)]) raise [OverflowError] and [float()] of text gives an
    infinity. *)
Definition pow2 (e : Z) : Q :=
  if (0 <=? e)%Z then inject_Z (2 ^ e) else / inject_Z (2 ^ (- e)).

(** The exponent of the last mantissa bit of the double nearest [x <> 0]:
    [floor(log2 |x|) - 52], and at least [-1074]. *)
Definition ulp_exp (x : Q) : Z :=
  let e0 := (Z.log2 (Z.abs (Qnum x)) - Z.log2 (Zpos (Qden x)))%Z in
  let e := if Qlt_le_dec (Qabs x) (pow2 e0) then (e0 - 1)%Z else e0 in
  Z.max (e - 52) (-1074).

Definition round_double (x : Q) : option Q :=
  let x := Qred x in
  if Qeq_bool x 0 then Some 0
  else
    let e := ulp_exp x in
    let r := inject_Z (round_half_even (x / pow2 e)) * pow2 e in
    if Qlt_le_dec (Qabs r) (pow2 1024) then Some r else None.

Definition double_overflows (x : Q) : bool :=
  match round_double x with Some _ => false | None => true end.

(** ** Sums and counts over lists *)

Definition sumQ (l : list Q) : Q := fold_right Qplus 0 l.
Definition sumZ (l : list Z) : Z := fold_right Z.add 0%Z l.

(** ** Strings *)

(** [str.isspace()] on an ASCII character: tab to carriage return, the
    four separators 0x1c-0x1f, and space. *)
Definition py_is_space (c : ascii) : bool :=
  let n := nat_of_ascii c in
  (Nat.leb 9 n && Nat.leb n 13) || (Nat.leb 28 n && Nat.leb n 32).

Fixpoint py_lstrip (s : string) : string :=
  match s with
  | EmptyString => EmptyString
  | String c r => if py_is_space c then py_lstrip r else s
  end.

(** [s.strip()]. *)
Definition py_strip (s : string) : string := String.rev (py_lstrip (String.rev (py_lstrip s))).

Lemma string_length_app (s1 s2 : string) :
  String.length (s1 +:+ s2) = (String.length s1 + String.length s2)%nat.
Proof. induction s1; simpl; auto. Qed.

Lemma string_app_cons (c : ascii) (s1 s2 : string) : String c s1 +:+ s2 = String c (s1 +:+ s2).
Proof. reflexivity. Qed.

Lemma string_app_nil_l (s : string) : EmptyString +:+ s = s.
Proof. reflexivity. Qed.

Lemma string_app_assoc (s1 s2 s3 : string) : s1 +:+ (s2 +:+ s3) = (s1 +:+ s2) +:+ s3.
Proof. induction s1 as [|c s1 IH]; [done|]. rewrite !string_app_cons. by rewrite IH. Qed.

Lemma list_ascii_of_string_app (s1 s2 : string) :
  String.list_ascii_of_string (s1 +:+ s2) = String.list_ascii_of_string s1 ++ String.list_ascii_of_string s2.
Proof. induction s1 as [|c s1 IH]; [done|]. rewrite string_app_cons. simpl. by rewrite IH. Qed.

Lemma string_app_nil_r (s : string) : s +:+ EmptyString = s.
Proof. induction s as [|c s IH]; [done|]. rewrite string_app_cons. by rewrite IH. Qed.

(** The development's hint database. *)
Create HintDb analytics.
Create Rewrite HintDb analytics_rw.

(** ** Lemmas on rounding *)

Lemma round_half_even_close (y : Q) :
  y - (1 # 2) <= inject_Z (round_half_even y) <= y + (1 # 2).
Proof.
  unfold round_half_even.
  pose proof (Qfloor_le y) as Hlo. pose proof (Qlt_floor y) as Hhi.
  rewrite inject_Z_plus in Hhi. change (inject_Z 1) with 1 in Hhi.
  destruct (Qcompare_spec (y - inject_Z (Qfloor y)) (1 # 2)) as [E|E|E];
    [destruct (Z.even (Qfloor y))|..];
    rewrite ?inject_Z_plus; change (inject_Z 1) with 1; split; lra.
Qed.

#[export] Instance round_half_even_proper : Proper (Qeq ==> eq) round_half_even.
Proof.
  intros y y' E. unfold round_half_even.
  rewrite (Qfloor_comp _ _ E).
  assert (E2 : y - inject_Z (Qfloor y') == y' - inject_Z (Qfloor y')) by (rewrite E; reflexivity).
  by rewrite (Qcompare_comp _ _ E2 (1 # 2) (1 # 2) (Qeq_refl _)).
Qed.

Lemma round_half_even_mono (y y' : Q) :
  y <= y' -> (round_half_even y <= round_half_even y')%Z.
Proof.
  intros Hle. destruct (Z_le_gt_dec (round_half_even y) (round_half_even y')) as [|Hgt]; [done|].
  exfalso.
  assert (Hq : inject_Z (round_half_even y') + 1 <= inject_Z (round_half_even y)).
  { change 1 with (inject_Z 1). rewrite <- inject_Z_plus, <- Zle_Qle. lia. }
  pose proof (round_half_even_close y). pose proof (round_half_even_close y').
  assert (E : y == y') by lra.
  rewrite E in Hgt. lia.
Qed.

Lemma round_half_even_Z (z : Z) : round_half_even (inject_Z z) = z.
Proof.
  unfold round_half_even. rewrite Qfloor_Z.
  assert (E : inject_Z z - inject_Z z == 0) by ring.
  by rewrite (Qcompare_comp _ _ E (1 # 2) (1 # 2) (Qeq_refl _)).
Qed.

(** ** Lemmas on doubles *)

Lemma Qred_inject_Z_id (n : Z) : Qred (inject_Z n) = inject_Z n.
Proof.
  unfold Qred, inject_Z.
  pose proof (Z.ggcd_gcd n 1) as Hg. pose proof (Z.ggcd_correct_divisors n 1) as Hd.
  destruct (Z.ggcd n 1) as [g [a b]]. simpl in *. rewrite Z.gcd_1_r in Hg. subst g.
  destruct Hd as [-> Hb]. replace b with 1%Z by lia. f_equal. lia.
Qed.

Lemma pow2_nonpos (e : Z) : (e <= 0)%Z -> pow2 e == / inject_Z (2 ^ (- e)).
Proof.
  intros He. unfold pow2. destruct (Z.leb_spec 0 e) as [H0|H0]; [|reflexivity].
  replace e with 0%Z by lia. reflexivity.
Qed.

(** An integer below [2^53] is a double. *)
Lemma round_double_int (x : Q) (k : Z) :
  x == inject_Z k -> (Z.abs k < 2 ^ 53)%Z -> exists r, round_double x = Some r /\ r == inject_Z k.
Proof.
  intros Hx Hk. unfold round_double. rewrite (Qred_complete _ _ Hx), Qred_inject_Z_id.
  destruct (Z.eq_dec k 0%Z) as [->|Hk0]; [by exists 0|].
  assert (Hne : Qeq_bool (inject_Z k) 0 = false).
  { apply not_true_iff_false. intros Hq%Qeq_bool_eq. apply Hk0. unfold Qeq in Hq. simpl in Hq. lia. }
  rewrite Hne. cbv zeta.
  assert (Hlog : (Z.log2 (Z.abs k) <= 52)%Z).
  { apply Z.lt_succ_r, Z.log2_lt_pow2; lia. }
  assert (He : (ulp_exp (inject_Z k) <= 0)%Z).
  { unfold ulp_exp. cbn [Qnum Qden inject_Z]. rewrite Z.log2_1, Z.sub_0_r.
    destruct (Qlt_le_dec _ _); lia. }
  set (e := ulp_exp (inject_Z k)) in *.
  assert (Hp : 0 < inject_Z (2 ^ (- e))).
  { change 0 with (inject_Z 0). rewrite <- Zlt_Qlt. apply Z.pow_pos_nonneg; lia. }
  assert (Hdiv : inject_Z k / pow2 e == inject_Z (k * 2 ^ (- e))).
  { rewrite pow2_nonpos, inject_Z_mult by done. field. lra. }
  rewrite (round_half_even_proper _ _ Hdiv), round_half_even_Z.
  assert (Hr : inject_Z (k * 2 ^ (- e)) * pow2 e == inject_Z k).
  { rewrite pow2_nonpos, inject_Z_mult by done. field. lra. }
  destruct (Qlt_le_dec _ _) as [_|Hle]; [by eexists|exfalso].
  rewrite Hr in Hle. change (pow2 1024) with (inject_Z (2 ^ 1024)) in Hle.
  assert (Hb : (Z.abs k < 2 ^ 1024)%Z) by (eapply Z.lt_le_trans; [exact Hk|apply Z.pow_le_mono_r; lia]).
  change (Qabs (inject_Z k)) with (inject_Z (Z.abs k)) in Hle. rewrite <- Zle_Qle in Hle. lia.
Qed.

#[export] Instance round_double_proper : Proper (Qeq ==> eq) round_double.
Proof. intros x y E. unfold round_double. by rewrite (Qred_complete _ _ E). Qed.

#[export] Instance py_round_proper n : Proper (Qeq ==> eq) (py_round n).
Proof. intros x x' E. unfold py_round. by rewrite E. Qed.

Lemma py_round_mono (n : positive) (x x' : Q) :
  x <= x' -> py_round n x <= py_round n x'.
Proof.
  intros Hle. unfold py_round. apply Qred_le.
  assert (Hs : 0 <= inject_Z (Zpos (10 ^ n))) by (unfold Qle; simpl; lia).
  pose proof (round_half_even_mono _ _ (Qmult_le_compat_r _ _ _ Hle Hs)) as Hz.
  unfold Qle; simpl. nia.
Qed.

Lemma py_round_Z (n : positive) (z : Z) : py_round n (inject_Z z) == inject_Z z.
Proof.
  unfold py_round. rewrite Qred_correct.
  rewrite <- inject_Z_mult, round_half_even_Z.
  unfold Qeq; simpl. lia.
Qed.

Lemma py_round_0 (n : positive) : py_round n 0 = 0.
Proof.
  unfold py_round. change 0 with (inject_Z 0) at 1.
  rewrite <- inject_Z_mult, round_half_even_Z. reflexivity.
Qed.

Lemma py_round_nonneg (n : positive) (x : Q) : 0 <= x -> 0 <= py_round n x.
Proof. intros H. rewrite <- (py_round_0 n). by apply py_round_mono. Qed.

(** [sum] does not depend on the order of the rows: setoid rewriting
    under [≡ₚ]. *)
#[export] Instance sumZ_perm : Proper ((≡ₚ) ==> (=)) sumZ.
Proof. induction 1; simpl; lia. Qed.

Lemma sumZ_app l l' : sumZ (l ++ l') = (sumZ l + sumZ l')%Z.
Proof. induction l; simpl; lia. Qed.

#[export] Hint Resolve py_round_mono py_round_nonneg : analytics.
#[export] Hint Rewrite py_round_0 @result_ret_Ok @result_bind_Ok @result_bind_Raise sumZ_app : analytics_rw.
