(* ===== verification/Sql.v ===== *)
(** * SQLite's query semantics used by the analytics queries of [src/app.py]

    Each analytics function of [src/app.py] is one or more SQL statements over
    the [posts] table.  This file gives the pieces they are built from:
    - [where_in]: [WHERE project_id IN (...)] (the user scoping);
    - [group_by]: [GROUP BY key], one group per distinct key, in key order;
    - [sql_avg], [sql_sum]: the aggregates, NULL ([None]) on an empty group;
    - [order_by_desc]: [ORDER BY e DESC] (stable on ties) and [take] for LIMIT;
    - [sql_cast_integer], [substr]: [CAST(substr(post_time, 1, 2) AS INTEGER)];
    - [decimal_literal], [sqlite_text_rowid]: numeric text, and the rowid a
      text bound to [WHERE id = ?] matches (numeric affinity: an integer
      literal within 64 bits exactly, any other number through a double);
    - [ascii_strip]: the C white space SQLite and CPython skip around a
      number;
    - [sqlite_int], [sqlite_bind]: the 64-bit INTEGER of a bound parameter;
    - [sqlite_prepare]: the limit of 32766 host parameters a statement has;
    - [py_int]: Python's [int()] on text, which the routes apply to the
      same texts, with its limit of 4300 digits.
    Grouping keys are ordered through the [SqlOrd] interface, with instances
    for the key types the queries use. *)

From Stdlib Require Import ZArith QArith Qround Lqa Ascii Sorted.
From stdpp Require Import base list strings sorting sets.
From S2P Require Import Prelude.

Open Scope Q_scope.

(** ** The ordering interface of grouping keys *)

(** What [GROUP BY] and [ORDER BY key] need of a key type: a decidable,
    total and transitive order (SQLite's comparison of the key values). *)
Class SqlOrd (K : Type) := {
  sql_le : relation K;
  sql_le_dec :: RelDecision sql_le;
  sql_le_total :: Total sql_le;
  sql_le_trans :: Transitive sql_le;
}.

#[export] Instance sql_ord_Z : SqlOrd Z := { sql_le := Z.le }.

#[export] Instance sql_ord_string : SqlOrd string := { sql_le := String.le }.

(** Lexicographic order on pairs of integers: the order of SQLite's text
    keys ['YYYY-MM'] and ['YYYY-WW'] for four-digit years. *)
Definition lex_le (a b : Z * Z) : Prop :=
  (a.1 < b.1)%Z \/ (a.1 = b.1 /\ (a.2 <= b.2)%Z).

#[export] Instance lex_le_dec : RelDecision lex_le.
Proof. intros a b. unfold lex_le. apply _. Defined.

#[export] Instance sql_ord_pair : SqlOrd (Z * Z).
Proof.
  refine {| sql_le := lex_le |}.
  - intros [a1 a2] [b1 b2]; unfold lex_le; simpl; lia.
  - intros [a1 a2] [b1 b2] [c1 c2]; unfold lex_le; simpl; lia.
Defined.

#[export] Instance Qle_rel_dec : RelDecision Qle.
Proof.
  intros x y. destruct (Qlt_le_dec y x) as [H|H]; [right; lra | left; exact H].
Defined.

#[export] Instance Qlt_rel_dec : RelDecision Qlt.
Proof.
  intros x y. destruct (Qlt_le_dec x y) as [H|H]; [left; exact H | right; lra].
Defined.

(** REAL columns compare numerically. *)
#[export] Instance sql_ord_Q : SqlOrd Q.
Proof.
  refine {| sql_le := Qle |}.
  - intros a b. destruct (Qlt_le_dec a b); [left|right]; lra.
  - intros a b c. lra.
Defined.

(** ** Row-set operations *)

Section Rows.
Context {A : Type}.

(** [WHERE project_id IN (ids)]. *)
Definition where_in (project_of : A -> Z) (ids : list Z) (rows : list A) : list A :=
  filter (fun r => project_of r ∈ ids) rows.

Context {K : Type} `{EqDecision K} `{SqlOrd K}.

(** The distinct keys of the rows, in ascending order. *)
Definition group_keys (key : A -> K) (rows : list A) : list K :=
  merge_sort sql_le (remove_dups (map key rows)).

(** [GROUP BY key]: one group per distinct key value. *)
Definition group_by (key : A -> K) (rows : list A) : list (K * list A) :=
  map (fun k => (k, filter (fun r => key r = k) rows)) (group_keys key rows).
End Rows.

(** [AVG(e)]: NULL on no rows, else the sum over the count. *)
Definition sql_avg (l : list Q) : option Q :=
  match l with
  | [] => None
  | _ => Some (sumQ l / inject_Z (Z.of_nat (length l)))
  end.

(** [SUM(e)] over integers: NULL on no rows. *)
Definition sql_sum (l : list Z) : option Z :=
  match l with
  | [] => None
  | _ => Some (sumZ l)
  end.

(** SQLite's INTEGER is a 64-bit two's complement integer. *)
Definition INT64_MIN : Z := (- 2 ^ 63)%Z.
Definition INT64_MAX : Z := (2 ^ 63 - 1)%Z.

Definition sqlite_int (z : Z) : bool := (INT64_MIN <=? z)%Z && (z <=? INT64_MAX)%Z.

(** [cursor.execute(sql, params)]: sqlite3 converts each Python [int]
    parameter to a 64-bit integer before the statement runs; one that does
    not fit raises [OverflowError] ("Python int too large to convert to
    SQLite INTEGER"). *)
Definition sqlite_bind (params : list Z) : result unit :=
  if forallb sqlite_int params then Ok tt else Raise OverflowError.

(** SQLite's limit on the host parameters of one statement
    ([SQLITE_MAX_VARIABLE_NUMBER], 32766 by default since 3.32). *)
Definition SQLITE_MAX_VARIABLE_NUMBER : nat := Z.to_nat 32766.

(** [cursor.execute(sql, ...)] prepares the statement before it binds:
    one with more [?] than the limit raises [OperationalError] ("too many
    SQL variables"). *)
Definition sqlite_prepare (nparams : nat) : result unit :=
  if (nparams <=? SQLITE_MAX_VARIABLE_NUMBER)%nat then Ok tt else Raise OperationalError.

(** The order of [ORDER BY f DESC]: [a] may precede [b] when [f b <= f a]. *)
Definition desc_by {B} (f : B -> Q) : relation B := fun a b => f b <= f a.

#[export] Instance desc_by_dec {B} (f : B -> Q) : RelDecision (desc_by f) :=
  fun a b => decide (f b <= f a).

(** [ORDER BY f DESC]; rows with equal [f] keep their input order. *)
Definition order_by_desc {B} (f : B -> Q) (rows : list B) : list B :=
  merge_sort (desc_by f) rows.

(** [ORDER BY k ASC] ([desc = false]) or [ORDER BY k DESC] on a column with
    an [SqlOrd]: a stable sort, rows with equal keys stay in input order. *)
Definition order_rel {B K} `{SqlOrd K} (k : B -> K) (desc : bool) : relation B :=
  fun a b => if desc then sql_le (k b) (k a) else sql_le (k a) (k b).

#[export] Instance order_rel_dec {B K} `{SqlOrd K} (k : B -> K) desc : RelDecision (order_rel k desc).
Proof. intros a b. unfold order_rel. destruct desc; apply _. Defined.

Definition order_by {B K} `{SqlOrd K} (k : B -> K) (desc : bool) (rows : list B) : list B :=
  merge_sort (order_rel k desc) rows.

(** ** Text functions *)

Definition is_digit (c : ascii) : bool :=
  bool_decide (48 <= Ascii.nat_of_ascii c <= 57)%nat.

Definition digit_value (c : ascii) : Z := Z.of_nat (Ascii.nat_of_ascii c - 48).

(** The white space of C's [isspace] in the C locale: space, \t, \n,
    \v, \f, \r.  SQLite skips it around numeric text, and CPython's
    [int()] and [float()] ([Py_ISSPACE]) around a number; unlike
    [str.strip()], they keep \x1c-\x1f. *)
Definition sql_is_space (c : ascii) : bool :=
  bool_decide (Ascii.nat_of_ascii c = 32 \/ 9 <= Ascii.nat_of_ascii c <= 13)%nat.

Fixpoint digits_value (acc : Z) (s : string) : Z :=
  match s with
  | String c s' => if is_digit c then digits_value (acc * 10 + digit_value c)%Z s' else acc
  | EmptyString => acc
  end.

Definition signed_digits (s : string) : Z :=
  match s with
  | String "-" s' => (- digits_value 0 s')%Z
  | String "+" s' => digits_value 0 s'
  | _ => digits_value 0 s
  end.

(** [CAST(s AS INTEGER)]: leading white space, an optional sign, then the
    longest run of digits; text with no leading number gives 0. *)
Fixpoint sql_cast_integer (s : string) : Z :=
  match s with
  | String c s' => if sql_is_space c then sql_cast_integer s' else signed_digits s
  | EmptyString => 0%Z
  end.

(** Lower-casing of ASCII letters ([str.lower] and SQLite's [sqlite3_strnicmp]). *)
Definition ascii_lower (c : ascii) : ascii :=
  let n := Ascii.nat_of_ascii c in
  if bool_decide (65 <= n <= 90)%nat then Ascii.ascii_of_nat (n + 32) else c.

Fixpoint string_lower (s : string) : string :=
  match s with
  | String c s' => String (ascii_lower c) (string_lower s')
  | EmptyString => EmptyString
  end.

Lemma ascii_lower_idem (c : ascii) : ascii_lower (ascii_lower c) = ascii_lower c.
Proof. destruct c as [[] [] [] [] [] [] [] []]; reflexivity. Qed.

Lemma string_lower_app (s1 s2 : string) :
  string_lower (s1 +:+ s2) = string_lower s1 +:+ string_lower s2.
Proof. induction s1 as [|c s1 IH]; [done|]. rewrite string_app_cons. simpl. by rewrite IH. Qed.

(** Every character of a lower-cased text is lower case. *)
Lemma string_lower_chars (s : string) :
  Forall (fun c => ascii_lower c = c) (String.list_ascii_of_string (string_lower s)).
Proof. induction s as [|c s IH]; simpl; constructor; [apply ascii_lower_idem|done]. Qed.

(** [substr(s, 1, n)]: the first [n] characters. *)
Definition substr_prefix (n : nat) (s : string) : string := String.substring 0 n s.

(** ** Numeric text *)

(** The run of digits at the front of [s]: the value [acc] continued by
    them, their number added to [n], and the text after them. *)
Fixpoint take_digits (acc : Z) (n : nat) (s : string) : Z * nat * string :=
  match s with
  | String c s' => if is_digit c then take_digits (acc * 10 + digit_value c)%Z (S n) s' else (acc, n, s)
  | EmptyString => (acc, n, s)
  end.

(** An optional sign; [true] for [-]. *)
Definition sign_prefix (s : string) : bool * string :=
  match s with
  | String c s' => if Ascii.eqb c "-" then (true, s') else if Ascii.eqb c "+" then (false, s') else (false, s)
  | EmptyString => (false, s)
  end.

Definition apply_sign (neg : bool) (z : Z) : Z := if neg then (- z)%Z else z.

(** The text after the digits of a decimal literal: nothing, or [e] or
    [E], an optional sign and at least one digit, up to the end. *)
Definition exponent_part (s : string) : option Z :=
  match s with
  | EmptyString => Some 0%Z
  | String c s' =>
      if Ascii.eqb c "e" || Ascii.eqb c "E" then
        let '(neg, r) := sign_prefix s' in
        let '(e, n, rest) := take_digits 0 0 r in
        if (0 <? n)%nat && String.eqb rest "" then Some (apply_sign neg e) else None
      else None
  end.

(** A decimal literal as SQLite's [sqlite3AtoF] (util.c) and CPython's
    [_Py_dg_strtod] (dtoa.c) read it: an optional sign, digits with at
    most one decimal point and at least one digit, an optional exponent,
    and nothing after.  Its exact value. *)
Definition decimal_literal (s : string) : option Q :=
  let '(neg, r) := sign_prefix s in
  let '(i, ni, r1) := take_digits 0 0 r in
  let '(m, nf, r2) := match r1 with
                      | String c r1' => if Ascii.eqb c "." then take_digits i 0 r1' else (i, 0%nat, r1)
                      | EmptyString => (i, 0%nat, r1)
                      end in
  if (ni + nf =? 0)%nat then None
  else match exponent_part r2 with
       | Some e => Some (inject_Z (apply_sign neg m) * 10 ^ (e - Z.of_nat nf))
       | None => None
       end.

Fixpoint sql_lstrip (s : string) : string :=
  match s with
  | String c s' => if sql_is_space c then sql_lstrip s' else s
  | EmptyString => EmptyString
  end.

(** The text without the C white space around it. *)
Definition ascii_strip (t : string) : string := String.rev (sql_lstrip (String.rev (sql_lstrip t))).

(** Text with neither a decimal point nor an exponent: [sqlite3AtoF]
    calls it a pure integer. *)
Definition integer_text (t : string) : bool :=
  forallb (fun c => negb (Ascii.eqb c "." || Ascii.eqb c "e" || Ascii.eqb c "E")) (String.list_ascii_of_string t).

(** Numeric affinity on text ([applyNumericAffinity], vdbe.c): the text
    is a number when, white space around it apart, it is a decimal
    literal; its exact value. *)
Definition sql_numeric_text (t : string) : option Q := decimal_literal (ascii_strip t).

(** [WHERE id = ?] with text bound to [?] ([OP_SeekRowid], which applies
    numeric affinity and seeks only an integer): a pure integer of 64
    bits is read exactly ([sqlite3Atoi64]); any other number becomes the
    double nearest it ([sqlite3AtoF]), which seeks a row when it is an
    integer strictly between the smallest and the largest 64-bit integer
    ([sqlite3VdbeIntegerAffinity]); other text seeks no row. *)
Definition sqlite_text_rowid (t : string) : option Z :=
  match sql_numeric_text t with
  | Some q =>
      let q' := Qred q in
      if integer_text (ascii_strip t) && sqlite_int (Qnum q') then Some (Qnum q')
      else match round_double q with
           | Some r =>
               let r' := Qred r in
               if (Qden r' =? 1)%positive && (INT64_MIN <? Qnum r')%Z && (Qnum r' <? INT64_MAX)%Z
               then Some (Qnum r') else None
           | None => None
           end
  | None => None
  end.

(** Decimal digits with single underscores between them, as Python's
    [int()] reads them; [acc] is [None] before the first digit. *)
Fixpoint dec_digits (acc : option Z) (s : string) : option Z :=
  match s with
  | EmptyString => acc
  | String c s' =>
      if is_digit c then dec_digits (Some (default 0 acc * 10 + digit_value c)%Z) s'
      else if Ascii.eqb c "_" then
        match acc, s' with
        | Some _, String d _ => if is_digit d then dec_digits acc s' else None
        | _, _ => None
        end
      else None
  end.

(** CPython's limit on the digits [int()] converts from text
    ([sys.get_int_max_str_digits()], 4300 by default). *)
Definition INT_MAX_STR_DIGITS : nat := 4300.

Definition digit_count (s : string) : nat := length (filter (fun c => is_digit c = true) (String.list_ascii_of_string s)).

(** Python's [int(s)] on text ([PyLong_FromString]): C white space
    around it stripped, an optional sign, then digits with single
    underscores between them, at most [INT_MAX_STR_DIGITS] of them;
    anything else raises [ValueError]. *)
Definition py_int (s : string) : result Z :=
  let t := ascii_strip s in
  let n := match t with
           | String c r =>
               if Ascii.eqb c "-" then option_map Z.opp (dec_digits None r)
               else if Ascii.eqb c "+" then dec_digits None r
               else dec_digits None t
           | EmptyString => None
           end in
  match n with
  | Some z => if (digit_count t <=? INT_MAX_STR_DIGITS)%nat then Ok z else Raise ValueError
  | None => Raise ValueError
  end.

(** ** Lemmas on the row-set operations *)

Lemma filter_none {T} (P : T -> Prop) `{forall x, Decision (P x)} (l : list T) :
  Forall (fun x => ~ P x) l -> filter P l = [].
Proof. induction 1; [done|]. by rewrite filter_cons_False. Qed.

Section RowLemmas.
Context {A : Type} {K : Type} `{EqDecision K} `{SqlOrd K}.
Implicit Types (rows : list A) (key : A -> K).

Lemma elem_of_group_by key rows k g :
  (k, g) ∈ group_by key rows <->
  k ∈ map key rows /\ g = filter (fun r => key r = k) rows.
Proof.
  unfold group_by, group_keys. rewrite list_elem_of_fmap. split.
  - intros (k' & [= -> ->] & Hk). rewrite merge_sort_Permutation in Hk.
    by rewrite elem_of_remove_dups in Hk.
  - intros [Hk ->]. exists k. split; [done|].
    by rewrite merge_sort_Permutation, elem_of_remove_dups.
Qed.

Lemma group_by_nonempty key rows k g :
  (k, g) ∈ group_by key rows -> g <> [] /\ Forall (fun r => key r = k) g.
Proof.
  rewrite elem_of_group_by, list_elem_of_fmap. intros [(r & -> & Hr) ->].
  split.
  - intros Hnil. assert (Hin : r ∈ filter (fun r' => key r' = key r) rows)
      by (apply list_elem_of_filter; done).
    rewrite Hnil in Hin. by apply not_elem_of_nil in Hin.
  - apply Forall_forall. intros x Hx.
    by apply list_elem_of_filter in Hx as [? _].
Qed.

Lemma group_by_keys_NoDup key rows : NoDup (map fst (group_by key rows)).
Proof.
  unfold group_by. rewrite <- list_fmap_compose.
  change (fst ∘ _) with (@id K). rewrite list_fmap_id.
  unfold group_keys. rewrite merge_sort_Permutation. apply NoDup_remove_dups.
Qed.

Lemma elem_of_group_keys key rows k : k ∈ group_keys key rows <-> k ∈ map key rows.
Proof. unfold group_keys. by rewrite merge_sort_Permutation, elem_of_remove_dups. Qed.

Lemma group_keys_sorted key rows : StronglySorted sql_le (group_keys key rows).
Proof. apply StronglySorted_merge_sort; apply _. Qed.

Lemma group_by_keys key rows : map fst (group_by key rows) = group_keys key rows.
Proof.
  unfold group_by. rewrite map_map. simpl. apply map_id.
Qed.

(** A single key value gives at most one group. *)
Lemma group_keys_single key rows :
  (forall r r', r ∈ rows -> r' ∈ rows -> key r = key r') -> (length (group_keys key rows) <= 1)%nat.
Proof.
  intros Hk. unfold group_keys. rewrite merge_sort_Permutation.
  pose proof (NoDup_remove_dups (map key rows)) as Hnd.
  assert (Hall : forall k k', k ∈ remove_dups (map key rows) -> k' ∈ remove_dups (map key rows) -> k = k').
  { intros k k'. rewrite !elem_of_remove_dups, !list_elem_of_fmap.
    intros (r & -> & Hr) (r' & -> & Hr'). by apply Hk. }
  destruct (remove_dups (map key rows)) as [|k [|k' l]]; simpl; [lia|lia|].
  apply NoDup_cons in Hnd as [Hnin _]. exfalso. apply Hnin. rewrite (Hall k k'); [by left| |]; set_solver.
Qed.

Lemma group_by_nil key : group_by key [] = [].
Proof. reflexivity. Qed.

Lemma group_by_covers key rows r :
  r ∈ rows -> exists g, (key r, g) ∈ group_by key rows /\ r ∈ g.
Proof.
  intros Hr. exists (filter (fun r' => key r' = key r) rows).
  rewrite elem_of_group_by, list_elem_of_filter, list_elem_of_fmap.
  split; [split; [eauto|done] | done].
Qed.
(** The groups of [GROUP BY] partition the rows. *)
Lemma concat_filter_keys key (ks : list K) rows :
  NoDup ks -> (forall r, r ∈ rows -> key r ∈ ks) ->
  concat (map (fun k => filter (fun r => key r = k) rows) ks) ≡ₚ rows.
Proof.
  revert rows. induction ks as [|k ks IH]; intros rows Hnd Hks; simpl.
  - destruct rows as [|r rows]; [done|]. exfalso.
    apply (not_elem_of_nil (key r)), Hks. left.
  - apply NoDup_cons in Hnd as [Hk Hnd].
    transitivity (filter (fun r => key r = k) rows ++ filter (fun r => key r <> k) rows);
      [|apply filter_app_complement].
    apply Permutation_app_head.
    rewrite <-(IH (filter (fun r => key r <> k) rows) Hnd).
    + erewrite map_ext_in; [reflexivity|]. intros k' Hk'%list_elem_of_In.
      symmetry. apply list_filter_filter_l. intros r -> ->. by apply Hk.
    + intros r [Hne Hr]%list_elem_of_filter. apply Hks in Hr.
      apply elem_of_cons in Hr as [?|?]; [done|done].
Qed.

Lemma group_by_perm key rows : concat (map snd (group_by key rows)) ≡ₚ rows.
Proof.
  pose proof (group_by_keys_NoDup key rows) as Hnd. rewrite group_by_keys in Hnd.
  unfold group_by. rewrite map_map. simpl. apply concat_filter_keys; [done|].
  intros r Hr. apply elem_of_group_keys, list_elem_of_fmap. eauto.
Qed.

End RowLemmas.

(** A map that carries one order into another keeps a list sorted. *)
Lemma StronglySorted_map_impl {B C} (R : relation B) (R' : relation C) (g : B -> C) (l : list B) :
  (forall a b, R a b -> R' (g a) (g b)) -> StronglySorted R l -> StronglySorted R' (map g l).
Proof.
  intros HR. induction 1 as [|a l _ IH Hall]; simpl; constructor; [done|].
  apply Forall_map. eapply Forall_impl; [exact Hall|]. auto.
Qed.

#[export] Instance order_rel_trans {B K} `{SqlOrd K} (k : B -> K) desc : Transitive (order_rel k desc).
Proof. intros a b c; unfold order_rel; destruct desc; intros ??; by etrans. Qed.

#[export] Instance order_rel_total {B K} `{SqlOrd K} (k : B -> K) desc : Total (order_rel k desc).
Proof. intros a b; unfold order_rel; destruct desc; apply sql_le_total. Qed.

Section OrderByLemmas.
Context {B K : Type} `{SqlOrd K} (k : B -> K) (desc : bool).

Lemma order_by_perm rows : order_by k desc rows ≡ₚ rows.
Proof. apply merge_sort_Permutation. Qed.

Lemma order_by_sorted rows : StronglySorted (order_rel k desc) (order_by k desc rows).
Proof. apply StronglySorted_merge_sort; apply _. Qed.

End OrderByLemmas.

Section OrderLemmas.
Context {B : Type} (f : B -> Q).

#[local] Instance desc_by_trans : Transitive (desc_by f).
Proof. intros a b c; unfold desc_by; lra. Qed.

#[local] Instance desc_by_total : Total (desc_by f).
Proof.
  intros a b; unfold desc_by. destruct (Qlt_le_dec (f a) (f b)); [right|left]; lra.
Qed.

Lemma order_by_desc_perm rows : order_by_desc f rows ≡ₚ rows.
Proof. apply merge_sort_Permutation. Qed.

Lemma order_by_desc_sorted rows : StronglySorted (desc_by f) (order_by_desc f rows).
Proof. apply StronglySorted_merge_sort; apply _. Qed.

(** The first row of [ORDER BY f DESC] has the greatest [f]. *)
Lemma order_by_desc_head_max rows r rest :
  order_by_desc f rows = r :: rest -> forall x, x ∈ rows -> f x <= f r.
Proof.
  intros E x Hx. pose proof (order_by_desc_sorted rows) as HS. rewrite E in HS.
  rewrite <- (order_by_desc_perm rows), E in Hx.
  apply StronglySorted_inv in HS as [_ HF].
  apply elem_of_cons in Hx as [->|Hx]; [lra|].
  rewrite Forall_forall in HF. by apply HF.
Qed.

(** The last row of [ORDER BY f DESC] has the least [f]. *)
Lemma order_by_desc_last_min rows r :
  last (order_by_desc f rows) = Some r -> forall x, x ∈ rows -> f r <= f x.
Proof.
  intros E x Hx. pose proof (order_by_desc_sorted rows) as HS.
  rewrite <- (order_by_desc_perm rows) in Hx.
  apply last_Some in E as [pre Epre]. rewrite Epre in HS, Hx.
  apply elem_of_app in Hx as [Hx|Hx%list_elem_of_singleton]; [|subst; lra].
  clear Epre. revert HS Hx. induction pre as [|p pre IH]; intros HS Hx;
    [by apply not_elem_of_nil in Hx|].
  simpl in HS. apply StronglySorted_inv in HS as [HS HF].
  apply elem_of_cons in Hx as [->|Hx]; [|by apply IH].
  rewrite Forall_forall in HF. apply (HF r).
  apply elem_of_app. right. by apply list_elem_of_singleton.
Qed.
End OrderLemmas.

Lemma sql_avg_None (l : list Q) : sql_avg l = None <-> l = [].
Proof. destruct l; simpl; split; congruence. Qed.

(** In a strongly sorted list ending with [a; b], [b] is above every
    element and [a] above every element other than [b]. *)
Lemma StronglySorted_last_two {T} (R : relation T) `{!Reflexive R} (pre : list T) (a b x : T) :
  StronglySorted R (pre ++ [a; b]) -> x ∈ pre ++ [a; b] -> R x b /\ (x <> b -> R x a).
Proof.
  induction pre as [|y pre IH]; simpl; intros HS Hx.
  - apply StronglySorted_inv in HS as [_ HF]. inversion HF as [|? ? Hab]; subst.
    apply elem_of_cons in Hx as [->|Hx%list_elem_of_singleton]; subst; split; auto; done.
  - apply StronglySorted_inv in HS as [HS HF]. rewrite Forall_forall in HF.
    apply elem_of_cons in Hx as [->|Hx]; [|by apply IH].
    clear IH. split; [apply HF; set_solver|]. intros _. apply HF; set_solver.
Qed.

Lemma sql_avg_Some (l : list Q) : l <> [] -> exists a, sql_avg l = Some a.
Proof. destruct l; [done|]. by eexists. Qed.

Lemma inject_Z_length_S {T} (x : T) (l : list T) :
  inject_Z (Z.of_nat (length (x :: l))) == inject_Z (Z.of_nat (length l)) + 1.
Proof. simpl length. rewrite Nat2Z.inj_succ, <- Z.add_1_r, inject_Z_plus. reflexivity. Qed.

Lemma sumQ_lower (c : Q) (l : list Q) :
  Forall (fun x => c <= x) l -> inject_Z (Z.of_nat (length l)) * c <= sumQ l.
Proof.
  induction l as [|x l IH]; [intros _; change (0 * c <= 0); lra|]. intros [Hx Hl]%Forall_cons.
  rewrite inject_Z_length_S, Qmult_plus_distr_l, Qmult_1_l. simpl sumQ. specialize (IH Hl). lra.
Qed.

Lemma sumQ_upper (c : Q) (l : list Q) :
  Forall (fun x => x <= c) l -> sumQ l <= inject_Z (Z.of_nat (length l)) * c.
Proof.
  induction l as [|x l IH]; [intros _; change (0 <= 0 * c); lra|]. intros [Hx Hl]%Forall_cons.
  rewrite inject_Z_length_S, Qmult_plus_distr_l, Qmult_1_l. simpl sumQ. specialize (IH Hl). lra.
Qed.

(** An average lies between any bounds of the averaged values. *)
Lemma sql_avg_bounds (lo hi a : Q) (l : list Q) :
  Forall (fun x => lo <= x <= hi) l -> sql_avg l = Some a -> lo <= a <= hi.
Proof.
  intros Hb Ha. destruct l as [|x l']; [discriminate|]. injection Ha as <-.
  set (l := x :: l') in *.
  assert (Hn : 0 < inject_Z (Z.of_nat (length l))).
  { change 0 with (inject_Z 0). rewrite <- Zlt_Qlt. simpl. lia. }
  pose proof (sumQ_lower lo l (Forall_impl _ _ _ Hb (fun x H => proj1 H))).
  pose proof (sumQ_upper hi l (Forall_impl _ _ _ Hb (fun x H => proj2 H))).
  split; [apply Qle_shift_div_l | apply Qle_shift_div_r]; [done| |done|];
    rewrite Qmult_comm; assumption.
Qed.

#[export] Hint Resolve group_by_keys_NoDup order_by_desc_perm : analytics.

(** ** Binding integer parameters *)

Lemma sqlite_int_spec z : sqlite_int z = true <-> (- 2 ^ 63 <= z <= 2 ^ 63 - 1)%Z.
Proof. unfold sqlite_int, INT64_MIN, INT64_MAX. rewrite andb_true_iff, !Z.leb_le. done. Qed.

Lemma forallb_sqlite_int params :
  forallb sqlite_int params = true <-> Forall (fun z => sqlite_int z = true) params.
Proof.
  rewrite forallb_forall, Forall_forall. split; intros H z Hz; apply H; by apply list_elem_of_In.
Qed.

Lemma sqlite_bind_cases params :
  (sqlite_bind params = Ok tt /\ Forall (fun z => sqlite_int z = true) params) \/
  (sqlite_bind params = Raise OverflowError /\ Exists (fun z => sqlite_int z = false) params).
Proof.
  unfold sqlite_bind. destruct (forallb sqlite_int params) eqn:E; [left|right]; split; try done.
  - apply Forall_forall. intros z Hz. apply (proj1 (forallb_forall _ _) E). by apply list_elem_of_In.
  - destruct (decide (Exists (fun z => sqlite_int z = false) params)) as [H|H]; [done|exfalso].
    assert (forallb sqlite_int params = true) as E'; [|congruence].
    apply forallb_forall. intros z Hz%list_elem_of_In. destruct (sqlite_int z) eqn:Ez; [done|].
    exfalso. apply H, Exists_exists. by exists z.
Qed.

Lemma sqlite_bind_one z : sqlite_bind [z] = if sqlite_int z then Ok tt else Raise OverflowError.
Proof. unfold sqlite_bind. simpl. by rewrite andb_true_r. Qed.
