(* ===== verification/Calendar.v ===== *)
(** * Dates as SQLite computes with them

    [src/app.py] keeps [post_date] as ISO text ['YYYY-MM-DD'] and compares
    or groups it through SQLite's date functions:
    - [strftime('%Y-%m', post_date)]  (monthly trends, line 224);
    - [strftime('%Y-%W', post_date)]  (posting frequency, line 342);
    - [date('now', '-8 weeks')]       (posting frequency, line 347);
    - [date('now', '-7 days')]        (alerts, lines 383 and 397).
    A date is a [Date] record; a day number ([days_from_civil]) counts days
    from 1970-01-01 in the proleptic Gregorian calendar, which is the
    calendar of SQLite's Julian-day arithmetic.  The text order of
    zero-padded ISO dates is the lexicographic order [date_le] on
    (year, month, day).  [date_modify] is SQLite's modifier ["NNN unit"]
    applied to a date and time; a modifier SQLite does not recognise makes
    the whole [date(...)] call NULL ([None]).

    The lemmas: [civil_from_days] and [days_from_civil] are inverse
    bijections between day numbers and valid dates, and on valid dates the
    text order of ISO dates is the order of day numbers ([date_le_days]).
    The calendar repeats every 400 years (146097 days), so both are
    reduced to one period, which is checked by evaluation ([era_walk_all],
    [date_check_all]: every day number of the period and every valid date
    of the years 0 to 399). *)

From Stdlib Require Import ZArith Ascii.
From stdpp Require Import base list strings.
From S2P Require Import Prelude Sql.

Open Scope Z_scope.

Record Date := mkDate { year : Z; month : Z; day : Z }.

#[export] Instance Date_eq_dec : EqDecision Date.
Proof. solve_decision. Defined.

Definition is_leap (y : Z) : bool :=
  ((y mod 4 =? 0) && negb (y mod 100 =? 0)) || (y mod 400 =? 0).

Definition days_in_month (y m : Z) : Z :=
  if m =? 2 then (if is_leap y then 29 else 28)
  else if (m =? 4) || (m =? 6) || (m =? 9) || (m =? 11) then 30 else 31.

(** A calendar date, as validated by the HTML date input of the form. *)
Definition valid_date (d : Date) : bool :=
  (1 <=? month d) && (month d <=? 12) && (1 <=? day d) && (day d <=? days_in_month (year d) (month d)).

(** Days since 1970-01-01 (H. Hinnant's [days_from_civil]).  The day term
    is linear, so a day past the end of its month counts on into the next
    month, as in SQLite's Julian-day formula. *)
Definition days_from_civil (d : Date) : Z :=
  let y := if month d <=? 2 then year d - 1 else year d in
  let era := y / 400 in
  let yoe := y - era * 400 in
  let mp := (month d + 9) mod 12 in
  let doy := (153 * mp + 2) / 5 + day d - 1 in
  let doe := yoe * 365 + yoe / 4 - yoe / 100 + doy in
  era * 146097 + doe - 719468.

(** The date of a day number (H. Hinnant's [civil_from_days]). *)
Definition civil_from_days (z : Z) : Date :=
  let z := z + 719468 in
  let era := z / 146097 in
  let doe := z - era * 146097 in
  let yoe := (doe - doe / 1460 + doe / 36524 - doe / 146096) / 365 in
  let doy := doe - (365 * yoe + yoe / 4 - yoe / 100) in
  let mp := (5 * doy + 2) / 153 in
  let d := doy - (153 * mp + 2) / 5 + 1 in
  let m := if mp <? 10 then mp + 3 else mp - 9 in
  mkDate (yoe + era * 400 + (if m <=? 2 then 1 else 0)) m d.

(** Day of the week, Monday = 0 (1970-01-01 was a Thursday). *)
Definition weekday_mon0 (d : Date) : Z := (days_from_civil d + 3) mod 7.

(** Day of the year, 0 for January 1st. *)
Definition year_day (d : Date) : Z := days_from_civil d - days_from_civil (mkDate (year d) 1 1).

(** [strftime('%W', d)]: week of the year, weeks starting on Monday; the
    days before the first Monday are week 0 (SQLite: [(nDay+7-wd)/7]). *)
Definition week_W (d : Date) : Z := (year_day d + 7 - weekday_mon0 d) / 7.

(** [strftime('%Y-%m', d)] and [strftime('%Y-%W', d)] as keys. *)
Definition month_key (d : Date) : Z * Z := (year d, month d).
Definition week_key (d : Date) : Z * Z := (year d, week_W d).

(** Text order of ['YYYY-MM-DD']. *)
Definition date_le (a b : Date) : Prop := lex_le (year a, month a) (year b, month b) /\
  ((year a, month a) = (year b, month b) -> day a <= day b).

#[export] Instance date_le_dec : RelDecision date_le.
Proof. intros a b. unfold date_le. apply _. Defined.

(** [strftime('%w', d)]: day of the week, Sunday = 0. *)
Definition weekday_sun0 (d : Date) : Z := (days_from_civil d + 4) mod 7.

(** ** SQLite's [date(time, modifier)] *)

(** A date and time: a day number and the seconds into that day. *)
Record DateTime := mkDateTime { dt_days : Z; dt_secs : Z }.

Inductive time_unit := USecond | UMinute | UHour | UDay | UMonth | UYear.

(** The unit names SQLite recognises (its table [aXformType]). *)
Definition unit_names : list (string * time_unit) :=
  [("second", USecond); ("minute", UMinute); ("hour", UHour);
   ("day", UDay); ("month", UMonth); ("year", UYear)]%string.

Fixpoint skip_spaces (s : string) : string :=
  match s with
  | String c s' => if sql_is_space c then skip_spaces s' else s
  | EmptyString => EmptyString
  end.

(** The leading run of digits of [s] and the text after it. *)
Fixpoint span_digits (s : string) : string * string :=
  match s with
  | String c s' => if is_digit c then let '(ds, r) := span_digits s' in (String c ds, r) else (EmptyString, s)
  | EmptyString => (EmptyString, EmptyString)
  end.

(** The text without its last character. *)
Definition drop_last (s : string) : string := String.substring 0 (String.length s - 1) s.

Definition last_char (s : string) : option ascii := String.get (String.length s - 1) s.

(** Parse ["[+-]NNN unit[s]"]: a whole number, white space, then a unit
    name of 3 to 10 characters whose final ['s'] is dropped, compared
    without case.  Anything else is not a modifier ([None]). *)
Definition parse_modifier (s : string) : option (Z * time_unit) :=
  let '(sign, body) :=
    match s with
    | String "-" r => (-1, r)
    | String "+" r => (1, r)
    | _ => (1, s)
    end in
  let '(ds, rest) := span_digits body in
  if bool_decide (ds = EmptyString) then None else
  let name := skip_spaces rest in
  let n := String.length name in
  if bool_decide (10 < n \/ n < 3)%nat then None else
  let name := match last_char (string_lower name) with
              | Some c => if Ascii.eqb c "s"%char then drop_last name else name
              | None => name
              end in
  match list_find (fun p => p.1 = string_lower name) unit_names with
  | Some (_, (_, u)) => Some (sign * digits_value 0 ds, u)
  | None => None
  end.

Definition floor_div_mod (a b : Z) : Z * Z := (a / b, a mod b).

(** Add [n] months to a (year, month), SQLite's normalisation. *)
Definition add_months (y m n : Z) : Z * Z :=
  let m' := m + n in
  let x := if 0 <? m' then (m' - 1) ÷ 12 else (m' - 12) ÷ 12 in
  (y + x, m' - x * 12).

(** Apply an amount of a unit to a date and time. *)
Definition shift (t : DateTime) (n : Z) (u : time_unit) : DateTime :=
  let secs k := let s := dt_secs t + k in mkDateTime (dt_days t + s / 86400) (s mod 86400) in
  match u with
  | USecond => secs n
  | UMinute => secs (n * 60)
  | UHour => secs (n * 3600)
  | UDay => mkDateTime (dt_days t + n) (dt_secs t)
  | UMonth | UYear =>
      let d := civil_from_days (dt_days t) in
      let '(y, m) := if u is UMonth then add_months (year d) (month d) n
                     else (year d + n, month d) in
      mkDateTime (days_from_civil (mkDate y m 1) + day d - 1) (dt_secs t)
  end.

(** [date(now, modifier)]: NULL when the modifier is not recognised. *)
Definition date_modify (now : DateTime) (modifier : string) : option Date :=
  match parse_modifier modifier with
  | Some (n, u) => Some (civil_from_days (dt_days (shift now n u)))
  | None => None
  end.

(** ** Day numbers: the checks of one 400-year period *)

(** [p] holds at [lo], [lo + 1], ..., [lo + n - 1]. *)
Fixpoint all_from (p : Z -> bool) (lo : Z) (n : nat) : bool :=
  match n with
  | O => true
  | S n => p lo && all_from p (lo + 1) n
  end.

(** The calendar repeats every 400 years, which are 146097 days. *)
Definition shift_400 (k : Z) (d : Date) : Date := mkDate (year d + 400 * k) (month d) (day d).

(** [date_le] as a boolean. *)
Definition date_leb (a b : Date) : bool :=
  (year a <? year b) || ((year a =? year b) && ((month a <? month b) || ((month a =? month b) && (day a <=? day b)))).

(** One period of day numbers, walked in order from [z]: each maps to a
    valid date that maps back to it, and the dates do not go down ([prev]
    is the date of the day number before [z]). *)
Fixpoint era_walk (prev : Date) (z : Z) (n : nat) : bool :=
  match n with
  | O => true
  | S n => let d := civil_from_days z in
           valid_date d && (days_from_civil d =? z) && date_leb prev d && era_walk d (z + 1) n
  end.

(** Every valid date of the years 0 to 399 maps back to itself. *)
Definition date_check (y m d : Z) : bool := bool_decide (civil_from_days (days_from_civil (mkDate y m d)) = mkDate y m d).

(** ** Lemmas *)

Lemma date_le_spec a b :
  date_le a b <-> year a < year b \/ (year a = year b /\ (month a < month b \/
                  (month a = month b /\ day a <= day b))).
Proof.
  destruct a as [ya ma da], b as [yb mb db]; unfold date_le, lex_le; simpl. split.
  - intros [[H|[-> H]] Hd]; [by left|right; split; [done|]].
    destruct (Z.lt_ge_cases ma mb) as [H'|H']; [by left|].
    right. assert (ma = mb) as -> by lia. split; [done|]. by apply Hd.
  - intros [H|[-> [H|[-> H]]]]; split; try lia; intros [=]; lia.
Qed.

(** The text order of ISO dates is a key order for GROUP BY and ORDER BY. *)
#[export] Instance sql_ord_date : SqlOrd Date.
Proof.
  refine {| sql_le := date_le |}.
  - intros a b. rewrite !date_le_spec. lia.
  - intros a b c. rewrite !date_le_spec. lia.
Defined.

(** ** Day numbers and dates *)

Lemma all_from_spec p lo n : all_from p lo n = true -> forall i, lo <= i < lo + Z.of_nat n -> p i = true.
Proof.
  revert lo. induction n as [|n IH]; intros lo; simpl; [lia|].
  intros [Hp Hr]%andb_true_iff i Hi. destruct (decide (i = lo)) as [->|]; [done|]. apply (IH (lo + 1)); [done|lia].
Qed.

Lemma civil_from_days_period z k : civil_from_days (z + k * 146097) = shift_400 k (civil_from_days z).
Proof.
  unfold civil_from_days, shift_400. cbv zeta. cbn [year month day].
  replace (z + k * 146097 + 719468) with (z + 719468 + k * 146097) by ring.
  rewrite Z.div_add by lia. set (e := (z + 719468) / 146097).
  replace (z + 719468 + k * 146097 - (e + k) * 146097) with (z + 719468 - e * 146097) by ring.
  f_equal. ring.
Qed.

Lemma days_from_civil_period y m d k :
  days_from_civil (mkDate (y + 400 * k) m d) = days_from_civil (mkDate y m d) + k * 146097.
Proof.
  unfold days_from_civil. cbv zeta. cbn [year month day].
  destruct (m <=? 2).
  - replace (y + 400 * k - 1) with (y - 1 + k * 400) by ring. rewrite Z.div_add by lia.
    set (e := (y - 1) / 400). replace (y - 1 + k * 400 - (e + k) * 400) with (y - 1 - e * 400) by ring. ring.
  - replace (y + 400 * k) with (y + k * 400) by ring. rewrite Z.div_add by lia.
    set (e := y / 400). replace (y + k * 400 - (e + k) * 400) with (y - e * 400) by ring. ring.
Qed.

Lemma is_leap_period y k : is_leap (y + 400 * k) = is_leap y.
Proof.
  unfold is_leap.
  assert (H4 : (y + 400 * k) mod 4 = y mod 4)
    by (replace (y + 400 * k) with (y + (100 * k) * 4) by ring; apply Z.mod_add; lia).
  assert (H100 : (y + 400 * k) mod 100 = y mod 100)
    by (replace (y + 400 * k) with (y + (4 * k) * 100) by ring; apply Z.mod_add; lia).
  assert (H400 : (y + 400 * k) mod 400 = y mod 400)
    by (replace (y + 400 * k) with (y + k * 400) by ring; apply Z.mod_add; lia).
  by rewrite H4, H100, H400.
Qed.

Lemma valid_date_period k d : valid_date (shift_400 k d) = valid_date d.
Proof. unfold valid_date, shift_400, days_in_month. simpl. by rewrite is_leap_period. Qed.

Lemma date_le_period k a b : date_le (shift_400 k a) (shift_400 k b) <-> date_le a b.
Proof. unfold shift_400. rewrite !date_le_spec. simpl. lia. Qed.

Lemma era_walk_all : era_walk (civil_from_days (-719468 - 1)) (-719468) (Z.to_nat 146097) = true.
Proof. vm_compute. reflexivity. Qed.

(** The days of one month, and the months of one year. *)
Definition month_ok (y m : Z) : bool := all_from (date_check y m) 1 (Z.to_nat (days_in_month y m)).
Definition year_ok (y : Z) : bool := all_from (month_ok y) 1 12.

Lemma date_leb_spec a b : date_leb a b = true <-> date_le a b.
Proof.
  rewrite date_le_spec. unfold date_leb.
  rewrite orb_true_iff, andb_true_iff, orb_true_iff, andb_true_iff, Z.ltb_lt, Z.eqb_eq, Z.ltb_lt, Z.eqb_eq, Z.leb_le.
  done.
Qed.

Lemma date_le_antisym a b : date_le a b -> date_le b a -> a = b.
Proof. destruct a, b. rewrite !date_le_spec. simpl. intros. f_equal; lia. Qed.

Lemma date_le_trans' a b c : date_le a b -> date_le b c -> date_le a c.
Proof. rewrite !date_le_spec. lia. Qed.

Lemma days_in_month_period y m k : days_in_month (y + 400 * k) m = days_in_month y m.
Proof. unfold days_in_month. by rewrite is_leap_period. Qed.

Lemma days_from_civil_shift k d : days_from_civil (shift_400 k d) = days_from_civil d + k * 146097.
Proof. destruct d. apply days_from_civil_period. Qed.

Lemma era_walk_spec prev z n :
  era_walk prev z n = true -> prev = civil_from_days (z - 1) ->
  forall i, z <= i < z + Z.of_nat n ->
  valid_date (civil_from_days i) = true /\ days_from_civil (civil_from_days i) = i /\
  date_le (civil_from_days (i - 1)) (civil_from_days i).
Proof.
  revert prev z. induction n as [|n IH]; intros prev z; simpl; [lia|].
  intros [[[Hv Hz]%andb_true_iff Hle]%andb_true_iff Hw]%andb_true_iff -> i Hi.
  destruct (decide (i = z)) as [->|Hne].
  - apply Z.eqb_eq in Hz. apply date_leb_spec in Hle. done.
  - apply (IH _ (z + 1) Hw); [by rewrite Z.add_simpl_r|lia].
Qed.

Lemma era_length : Z.of_nat (Z.to_nat 146097) = 146097.
Proof. by rewrite Z2Nat.id. Qed.

(** Every day number is one of the checked period moved by whole periods. *)
Lemma day_number_period z : exists i k, z = i + k * 146097 /\ -719468 <= i < -719468 + 146097.
Proof.
  exists ((z + 719468) mod 146097 - 719468), ((z + 719468) / 146097).
  pose proof (Z.div_mod (z + 719468) 146097 ltac:(lia)). pose proof (Z.mod_pos_bound (z + 719468) 146097 ltac:(lia)).
  lia.
Qed.

(** [civil_from_days] gives a valid date, and [days_from_civil] maps it back. *)
Lemma civil_from_days_spec z :
  valid_date (civil_from_days z) = true /\ days_from_civil (civil_from_days z) = z.
Proof.
  destruct (day_number_period z) as (i & k & -> & Hi).
  destruct (era_walk_spec _ _ _ era_walk_all eq_refl i ltac:(rewrite era_length; lia)) as (Hv & Hd & _).
  rewrite civil_from_days_period, valid_date_period, days_from_civil_shift, Hd. done.
Qed.

(** The next day number never has an earlier date. *)
Lemma civil_from_days_succ z : date_le (civil_from_days z) (civil_from_days (z + 1)).
Proof.
  destruct (day_number_period (z + 1)) as (i & k & Hz & Hi).
  destruct (era_walk_spec _ _ _ era_walk_all eq_refl i ltac:(rewrite era_length; lia)) as (_ & _ & Hle).
  rewrite Hz. replace z with ((i - 1) + k * 146097) by lia. rewrite !civil_from_days_period. by apply date_le_period.
Qed.

Lemma civil_from_days_mono z1 z2 : z1 <= z2 -> date_le (civil_from_days z1) (civil_from_days z2).
Proof.
  intros Hle. replace z2 with (z1 + Z.of_nat (Z.to_nat (z2 - z1))) by lia.
  induction (Z.to_nat (z2 - z1)) as [|n IH].
  - rewrite Z.add_0_r. apply date_le_spec. lia.
  - eapply date_le_trans'; [exact IH|]. rewrite Nat2Z.inj_succ, <- Z.add_1_r, Z.add_assoc. apply civil_from_days_succ.
Qed.

(** The checked years: every valid date of the years 0 to 399 maps back
    to itself. *)
Lemma date_check_all : all_from year_ok 0 400 = true.
Proof. vm_compute. reflexivity. Qed.

(** The checks are not unfolded when their statements are compared. *)
Strategy opaque [all_from].

Lemma date_check_eq y m d :
  date_check y m d = bool_decide (civil_from_days (days_from_civil (mkDate y m d)) = mkDate y m d).
Proof. reflexivity. Qed.

Lemma date_check_spec y0 m dd :
  0 <= y0 < 400 -> 1 <= m <= 12 -> 1 <= dd <= days_in_month y0 m ->
  civil_from_days (days_from_civil (mkDate y0 m dd)) = mkDate y0 m dd.
Proof.
  intros Hy Hm Hd.
  assert (Hdim : 28 <= days_in_month y0 m) by (unfold days_in_month; repeat case_match; lia).
  pose proof (all_from_spec year_ok 0 400 date_check_all y0 ltac:(lia)) as H1. unfold year_ok in H1.
  pose proof (all_from_spec (month_ok y0) 1 12 H1 m ltac:(lia)) as H2. unfold month_ok in H2.
  pose proof (all_from_spec (date_check y0 m) 1 _ H2 dd ltac:(rewrite Z2Nat.id; lia)) as H3.
  rewrite date_check_eq in H3. exact (bool_decide_eq_true_1 _ H3).
Qed.

(** [civil_from_days] inverts [days_from_civil] on valid dates. *)
Lemma days_from_civil_inv d : valid_date d = true -> civil_from_days (days_from_civil d) = d.
Proof.
  destruct d as [y m dd]. unfold valid_date. cbn [year month day].
  intros [[[Hm1 Hm2]%andb_true_iff Hd1]%andb_true_iff Hd2]%andb_true_iff.
  apply Z.leb_le in Hm1, Hm2, Hd1, Hd2.
  generalize (Z.div_mod y 400 ltac:(lia)) (Z.mod_pos_bound y 400 ltac:(lia)).
  generalize (y / 400) (y mod 400). intros k y0 -> Hy0.
  rewrite (Z.add_comm (400 * k)) in *. rewrite days_in_month_period in Hd2.
  rewrite days_from_civil_period, civil_from_days_period, date_check_spec by lia.
  reflexivity.
Qed.

(** On valid dates the text order of ISO dates is the order of day numbers. *)
Lemma date_le_days a b :
  valid_date a = true -> valid_date b = true -> date_le a b <-> days_from_civil a <= days_from_civil b.
Proof.
  intros Ha Hb. split.
  - intros Hab. destruct (Z.le_gt_cases (days_from_civil a) (days_from_civil b)) as [|Hlt]; [done|].
    pose proof (civil_from_days_mono _ _ (Z.lt_le_incl _ _ Hlt)) as Hba.
    rewrite !days_from_civil_inv in Hba by done.
    rewrite (date_le_antisym a b Hab Hba) in Hlt. lia.
  - intros Hle. rewrite <- (days_from_civil_inv a), <- (days_from_civil_inv b) by done.
    by apply civil_from_days_mono.
Qed.
