(* ===== verification/Post.v ===== *)
(** * The [posts] table and its row type

    [init_db] (src/app.py, lines 57-84) creates the [posts] table; every
    analytics query reads it.  [Post] is one row with the columns' SQL
    types: INTEGER as [Z], REAL as [Q], TEXT as [string], [post_date] as a
    [Date] (ISO text), nullable columns as [option].  The derived columns
    ([engagement_rate] ... [performance_score]) are the values stored when
    the row was written; the analytics read them and never recompute them.
    An [AnalysisWindow] is the list of rows a query sees after its
    [WHERE project_id IN (...)] scoping. *)

From Stdlib Require Import ZArith QArith.
From stdpp Require Import base list strings.
From S2P Require Import Prelude Sql Calendar.

Record Post := mkPost {
  id : Z;
  project_id : Z;
  post_type : string;
  post_date : Date;
  post_time : string;
  reel_length : option Z;
  thumbnail_path : option string;
  caption : option string;
  caption_category : option string;
  likes : Z;
  shares : Z;
  comments : Z;
  reach : Z;
  saves : Z;
  followers_gained : Z;
  watch_time : option Z;
  avg_view_duration : option Q;
  engagement_rate : Q;
  engagement_rate_weighted : Q;
  avd_ratio : Q;
  follower_gain_rate : Q;
  performance_score : Q;
  dominant_color : option string
}.

(** The ['priority'] of recommendations and alerts. *)
Inductive priority := High | Medium | Low.

(** [CAST(substr(post_time, 1, 2) AS INTEGER)]: the hour of a post. *)
Definition post_hour (p : Post) : Z := sql_cast_integer (substr_prefix 2 (post_time p)).

(** [WHERE project_id IN (project_ids_str)]. *)
Definition scope (ids : list Z) (posts : list Post) : list Post := where_in project_id ids posts.

(** ** Lemmas *)

Lemma scope_app ids ps qs : scope ids (ps ++ qs) = scope ids ps ++ scope ids qs.
Proof. apply filter_app. Qed.

(** Rows of projects outside [ids] never reach a scoped query. *)
Lemma scope_foreign ids ps q :
  project_id q ∉ ids -> scope ids (ps ++ [q]) = scope ids ps.
Proof.
  intros Hq. unfold scope, where_in.
  by rewrite filter_app, filter_cons_False, filter_nil, app_nil_r.
Qed.

Lemma scope_foreign_list ids ps fs :
  Forall (fun q => project_id q ∉ ids) fs -> scope ids (ps ++ fs) = scope ids ps.
Proof.
  intros Hf. unfold scope, where_in. by rewrite filter_app, (filter_none _ fs Hf), app_nil_r.
Qed.

(** A row with the given key columns and zero counts, for concrete runs. *)
Definition sample_post (pid proj : Z) (ty : string) (d : Date) (time : string)
    (cap : option string) (cat : option string) (score erw : Q) : Post :=
  mkPost pid proj ty d time None None cap cat 0 0 0 0 0 0 None None 0 erw 0 0 score None.

(** A small history of project 1 (January to March 2024) and an evaluation
    time, for the concrete runs of the component files. *)
Definition sample_p1 := sample_post 1 1 "Reel" (mkDate 2024 1 10) "10:00" (Some "morning #run") (Some "Educational") 10 4.
Definition sample_p2 := sample_post 2 1 "Reel" (mkDate 2024 2 12) "10:15" (Some "again") (Some "Educational") 20 6.
Definition sample_p3 := sample_post 3 1 "Reel" (mkDate 2024 2 20) "10:45" (Some "third") (Some "Educational") 30 8.
Definition sample_p4 := sample_post 4 1 "Image" (mkDate 2024 3 12) "18:00" (Some "hi") (Some "Fun") 5 2.
Definition sample_history : list Post := [sample_p1; sample_p2; sample_p3; sample_p4].
Definition sample_now : DateTime := mkDateTime (days_from_civil (mkDate 2024 3 15)) 0.
