(* ===== verification/Metrics.v ===== *)
(** * MetricsCalculator: [calculate_metrics] (src/app.py, lines 135-157)

    The five derived ratios of a post, each rounded to two decimals.  The
    arguments are what [add_post] passes: the counts as Python [int]s, the
    reel length and average view duration as [None] when the form leaves
    them empty.  Python evaluates [reel_length > 0] first; on [None] that
    comparison raises [TypeError], and so does [None / reel_length]: the
    model returns [Raise TypeError] there.  An [int / int] quotient, and
    the conversion of the reel length when a float is divided by it, raise
    [OverflowError] past the largest double ([int_div_overflows],
    [double_overflows]); counts up to 4300 digits reach [calculate_metrics]
    from the form.  Values are exact rationals otherwise: a product that
    overflows to [inf] in Python (a quotient times 100) stays finite. *)

From Stdlib Require Import ZArith QArith Lqa.
From stdpp Require Import base list.
From S2P Require Import Prelude.

Module Metrics.

Open Scope Q_scope.

(** The dictionary [calculate_metrics] returns. *)
Record metrics := mkMetrics {
  engagement_rate : Q;
  engagement_rate_weighted : Q;
  avd_ratio : Q;
  follower_gain_rate : Q;
  performance_score : Q
}.

(** [(num / den) * 100 if den > 0 else 0]. *)
Definition rate (num den : Z) : Q :=
  if (0 <? den)%Z then (inject_Z num / inject_Z den) * 100 else 0.

(** [num / den] of two Python ints ([long_true_divide]) when [den > 0]
    raises [OverflowError] if the quotient rounds past the largest double. *)
Definition int_div_overflows (num den : Z) : bool :=
  (0 <? den)%Z && double_overflows (inject_Z num / inject_Z den).

(** [(num / den) * 100 if den > 0 else 0] with its [OverflowError]. *)
Definition rate_checked (num den : Z) : result Q :=
  if int_div_overflows num den then Raise OverflowError else Ok (rate num den).

(** [(avg_view_duration / reel_length) * 100 if reel_length > 0 else 0]:
    [None > 0] and [None / reel_length] raise [TypeError]; a float
    divided by an int converts the int ([PyLong_AsDouble]), which raises
    [OverflowError] past the largest double. *)
Definition avd_ratio_of (avg_view_duration : option Q) (reel_length : option Z) : result Q :=
  match reel_length with
  | None => Raise TypeError
  | Some rl =>
      if (0 <? rl)%Z then
        match avg_view_duration with
        | Some avd => if double_overflows (inject_Z rl) then Raise OverflowError else Ok ((avd / inject_Z rl) * 100)
        | None => Raise TypeError
        end
      else Ok 0
  end.

(** [(engagement_rate_weighted * 0.5) + (avd_ratio * 0.3) + (follower_gain_rate * 0.2)]. *)
Definition performance_score_of (erw avd fgr : Q) : Q :=
  erw * (1 # 2) + avd * (3 # 10) + fgr * (2 # 10).

Definition calculate_metrics (likes comments shares saves reach : Z)
    (avg_view_duration : option Q) (reel_length : option Z) (followers_gained : Z) : result metrics :=
  er ← rate_checked (likes + comments + shares + saves) reach;
  erw ← rate_checked (likes + comments + shares * 2 + saves * 2) reach;
  avd ← avd_ratio_of avg_view_duration reel_length;
  fgr ← rate_checked followers_gained reach;
  let ps := performance_score_of erw avd fgr in
  mret (mkMetrics (py_round 2 er) (py_round 2 erw) (py_round 2 avd) (py_round 2 fgr) (py_round 2 ps)).

(** ** Lemmas *)

Lemma rate_mono (n n' den : Z) : (n <= n')%Z -> rate n den <= rate n' den.
Proof.
  intros Hle. unfold rate. destruct (0 <? den)%Z eqn:Hd; [|lra].
  apply Z.ltb_lt in Hd.
  apply Qmult_le_compat_r; [|lra].
  apply Qmult_le_compat_r; [rewrite <- Zle_Qle; lia|].
  apply Qlt_le_weak, Qinv_lt_0_compat. change 0 with (inject_Z 0). by rewrite <- Zlt_Qlt.
Qed.

Lemma rate_nonpos_den (n den : Z) : (den <= 0)%Z -> rate n den = 0.
Proof. intros Hd. unfold rate. by destruct (Z.ltb_spec 0 den); [lia|]. Qed.

(** Inversion of a successful call: the fields are the rounded ratios. *)
Lemma calculate_metrics_Ok likes comments shares saves reach avd rl fg m :
  calculate_metrics likes comments shares saves reach avd rl fg = Ok m ->
  exists a, avd_ratio_of avd rl = Ok a /\
    m = mkMetrics (py_round 2 (rate (likes + comments + shares + saves) reach))
                  (py_round 2 (rate (likes + comments + shares * 2 + saves * 2) reach))
                  (py_round 2 a) (py_round 2 (rate fg reach))
                  (py_round 2 (performance_score_of
                     (rate (likes + comments + shares * 2 + saves * 2) reach) a (rate fg reach))).
Proof.
  unfold calculate_metrics, rate_checked, mbind, result_bind. intros H.
  destruct (int_div_overflows _ reach); [discriminate H|]. destruct (int_div_overflows _ reach); [discriminate H|].
  destruct (avd_ratio_of avd rl) as [a|e]; [|discriminate H].
  destruct (int_div_overflows fg reach); [discriminate H|]. injection H as <-. eauto.
Qed.

(** [calculate_metrics] raises only [TypeError] and [OverflowError]. *)
Lemma calculate_metrics_Raise likes comments shares saves reach avd rl fg e :
  calculate_metrics likes comments shares saves reach avd rl fg = Raise e -> e = TypeError \/ e = OverflowError.
Proof.
  unfold calculate_metrics, rate_checked, avd_ratio_of, mbind, result_bind.
  intros H. repeat case_match; simplify_eq; auto.
Qed.

(** ** Properties *)

(** C6 calculate_metrics_outcome: [calculate_metrics] returns a result
    exactly when neither engagement quotient nor the follower quotient
    overflows a double, a reel length is given and, if it is positive, an
    average view duration is given and the length converts to a double.
    Otherwise it raises [OverflowError] (an [int / int] quotient past the
    largest double, or a reel length that no double holds) or [TypeError]
    (a missing [reel_length] makes [reel_length > 0] compare [None] with
    0, a missing duration makes [None / reel_length]); the [TypeError]
    comes only after both engagement quotients are computed. *)
Theorem calculate_metrics_outcome likes comments shares saves reach avd rl fg :
  match calculate_metrics likes comments shares saves reach avd rl fg with
  | Ok _ =>
      int_div_overflows (likes + comments + shares + saves) reach = false /\
      int_div_overflows (likes + comments + shares * 2 + saves * 2) reach = false /\
      int_div_overflows fg reach = false /\
      exists r, rl = Some r /\ ((r <= 0)%Z \/ (avd <> None /\ double_overflows (inject_Z r) = false))
  | Raise e =>
      (e = OverflowError /\
       (int_div_overflows (likes + comments + shares + saves) reach = true \/
        int_div_overflows (likes + comments + shares * 2 + saves * 2) reach = true \/
        int_div_overflows fg reach = true \/
        exists r, rl = Some r /\ (0 < r)%Z /\ avd <> None /\ double_overflows (inject_Z r) = true)) \/
      (e = TypeError /\
       int_div_overflows (likes + comments + shares + saves) reach = false /\
       int_div_overflows (likes + comments + shares * 2 + saves * 2) reach = false /\
       (rl = None \/ exists r, rl = Some r /\ (0 < r)%Z /\ avd = None))
  end.
Proof.
  unfold calculate_metrics, rate_checked, avd_ratio_of.
  destruct (int_div_overflows (likes + comments + shares + saves) reach) eqn:H1; [simpl; tauto|].
  destruct (int_div_overflows (likes + comments + shares * 2 + saves * 2) reach) eqn:H2; [simpl; tauto|].
  simpl. destruct rl as [r|]; [|simpl; tauto].
  destruct (Z.ltb_spec 0 r) as [Hr|Hr].
  - destruct avd as [a|]; [|right; split_and!; eauto].
    destruct (double_overflows (inject_Z r)) eqn:H3; simpl.
    + left. split; [done|]. right; right; right. exists r. split_and!; [done|done|discriminate|done].
    + destruct (int_div_overflows fg reach) eqn:H4; simpl; [tauto|].
      split_and!; [done..|]. exists r. split; [done|right; split; [discriminate|done]].
  - simpl. destruct (int_div_overflows fg reach) eqn:H4; simpl; [tauto|].
    split_and!; [done..|]. exists r. split; [done|left; lia].
Qed.

(** with non-negative shares and saves,
    the stored weighted engagement rate is at least the unweighted one. *)
Theorem calculate_metrics_weighted_ge likes comments shares saves reach avd rl fg m :
  (0 <= shares)%Z -> (0 <= saves)%Z ->
  calculate_metrics likes comments shares saves reach avd rl fg = Ok m ->
  engagement_rate m <= engagement_rate_weighted m.
Proof.
  intros Hsh Hsv (a & _ & ->)%calculate_metrics_Ok. simpl.
  apply py_round_mono, rate_mono. lia.
Qed.

(** when [reach] is not positive the
    three reach-based ratios are stored as 0 (no division by zero). *)
Theorem calculate_metrics_zero_reach likes comments shares saves reach avd rl fg m :
  (reach <= 0)%Z ->
  calculate_metrics likes comments shares saves reach avd rl fg = Ok m ->
  engagement_rate m = 0 /\ engagement_rate_weighted m = 0 /\ follower_gain_rate m = 0.
Proof.
  intros Hr (a & _ & ->)%calculate_metrics_Ok. simpl.
  rewrite !rate_nonpos_den by done. by rewrite !py_round_0.
Qed.

(** the spec's worked example: weighted
    engagement 10, retention 20 and follower gain 5 give the performance
    score [0.5*10 + 0.3*20 + 0.2*5 = 12]. *)
Example calculate_metrics_example :
  calculate_metrics 10 0 0 0 100 (Some 20) (Some 100%Z) 5 = Ok (mkMetrics 10 10 20 5 12).
Proof. vm_compute. reflexivity. Qed.

(** ** Witnesses *)

Lemma calculate_metrics_weighted_ge_witness :
  (0 <= 2)%Z /\ (0 <= 1)%Z /\
  calculate_metrics 3 1 2 1 50 None (Some 0%Z) 4 = Ok (mkMetrics 14 20 0 8 (58 # 5)) /\
  engagement_rate (mkMetrics 14 20 0 8 (58 # 5)) <= engagement_rate_weighted (mkMetrics 14 20 0 8 (58 # 5)).
Proof.
  assert (H : calculate_metrics 3 1 2 1 50 None (Some 0%Z) 4 = Ok (mkMetrics 14 20 0 8 (58 # 5)))
    by (vm_compute; reflexivity).
  split; [lia|split; [lia|split; [exact H|]]].
  exact (calculate_metrics_weighted_ge 3 1 2 1 50 None (Some 0%Z) 4 _ ltac:(lia) ltac:(lia) H).
Defined.

Lemma calculate_metrics_zero_reach_witness :
  (0 <= 0)%Z /\
  calculate_metrics 3 1 2 1 0 (Some 12) (Some 30%Z) 4 = Ok (mkMetrics 0 0 40 0 12) /\
  engagement_rate (mkMetrics 0 0 40 0 12) = 0 /\ engagement_rate_weighted (mkMetrics 0 0 40 0 12) = 0 /\
  follower_gain_rate (mkMetrics 0 0 40 0 12) = 0.
Proof.
  assert (H : calculate_metrics 3 1 2 1 0 (Some 12) (Some 30%Z) 4 = Ok (mkMetrics 0 0 40 0 12))
    by (vm_compute; reflexivity).
  split; [lia|split; [exact H|]].
  exact (calculate_metrics_zero_reach 3 1 2 1 0 (Some 12) (Some 30%Z) 4 _ ltac:(lia) H).
Defined.

End Metrics.
