(* ===== verification/Hashtags.v ===== *)
(** * HashtagExtractor: [extract_hashtags] (src/app.py, lines 159-166)

    [re.findall(r'#\w+', text.lower())] scans the lower-cased caption left
    to right: at a ['#'] followed by at least one word character it takes
    the longest run of word characters and resumes after it; otherwise it
    moves on by one character.  [findall_hashtags] is that scan, with fuel
    (one step per character consumed, so [length + 1] suffices:
    [findall_hashtags_fuel]).  [set(...)] becomes a [gset].  Captions are
    ASCII here: the word characters are [A-Za-z0-9_]; Python's [\w] also
    accepts non-ASCII letters, which this model does not cover. *)

From Stdlib Require Import Ascii.
From stdpp Require Import base list strings gmap.
From S2P Require Import Prelude Sql.

Module Hashtags.

(** The ASCII word characters of [\w]. *)
Definition is_word_char (c : ascii) : bool :=
  let n := Ascii.nat_of_ascii c in
  bool_decide (48 <= n <= 57 \/ 65 <= n <= 90 \/ 97 <= n <= 122 \/ n = 95)%nat.

(** The longest prefix of word characters, and the rest. *)
Fixpoint word_prefix (s : string) : string * string :=
  match s with
  | String c s' =>
      if is_word_char c then let '(w, r) := word_prefix s' in (String c w, r)
      else (EmptyString, s)
  | EmptyString => (EmptyString, EmptyString)
  end.

(** [re.findall(r'#\w+', s)] with [fuel] steps. *)
Fixpoint findall_hashtags (fuel : nat) (s : string) : list string :=
  match fuel with
  | O => []
  | S fuel' =>
      match s with
      | EmptyString => []
      | String c rest =>
          if Ascii.eqb c "#" then
            match word_prefix rest with
            | (EmptyString, _) => findall_hashtags fuel' rest
            | (w, rest') => String "#" w :: findall_hashtags fuel' rest'
            end
          else findall_hashtags fuel' rest
      end
  end.

Definition re_findall (s : string) : list string := findall_hashtags (S (String.length s)) s.

(** [tag[1:]]. *)
Definition drop_hash (tag : string) : string :=
  match tag with String _ t => t | EmptyString => EmptyString end.

(** [extract_hashtags(text)]: [[]] on [None] or [''], else the set of tags. *)
Definition extract_hashtags (text : option string) : gset string :=
  match text with
  | None | Some EmptyString => ∅
  | Some t => list_to_set (map drop_hash (re_findall (string_lower t)))
  end.

(** A caption made of the given tags, each as ['#tag '] . *)
Fixpoint render_hashtags (tags : list string) : string :=
  match tags with
  | [] => EmptyString
  | t :: ts => String "#" (t +:+ String " " (render_hashtags ts))
  end.

(** The text is empty or starts with a character that is not a word character. *)
Definition starts_nonword (x : string) : Prop :=
  match x with String c _ => is_word_char c = false | EmptyString => True end.

(** A well-formed tag: non-empty, lower-case word characters. *)
Definition is_tag (t : string) : Prop :=
  t <> EmptyString /\ Forall (fun c => is_word_char c = true /\ ascii_lower c = c) (String.list_ascii_of_string t).

(** ** Lemmas on the scan *)

Lemma word_prefix_app s w r : word_prefix s = (w, r) -> s = w +:+ r.
Proof.
  revert w r. induction s as [|c s IH]; simpl; intros w r E; [by injection E as <- <-|].
  destruct (is_word_char c); [|by injection E as <- <-].
  destruct (word_prefix s) as [w' r'] eqn:E'. injection E as <- <-. simpl. by rewrite (IH w' r').
Qed.

Lemma word_prefix_length s w r : word_prefix s = (w, r) -> (String.length r <= String.length s)%nat.
Proof. intros ->%word_prefix_app. rewrite string_length_app. lia. Qed.

(** Enough fuel: any fuel above the length gives the same tags. *)
Lemma findall_hashtags_fuel f1 f2 s :
  (String.length s < f1)%nat -> (String.length s < f2)%nat ->
  findall_hashtags f1 s = findall_hashtags f2 s.
Proof.
  revert f2 s. induction f1 as [|f1 IH]; intros [|f2] s H1 H2; simpl; try lia.
  destruct s as [|c rest]; [done|]. simpl in H1, H2.
  destruct (Ascii.eqb c "#"); [|apply IH; lia].
  destruct (word_prefix rest) as [[|c' w] r] eqn:E; [apply IH; lia|].
  apply word_prefix_length in E. f_equal. apply IH; lia.
Qed.

Lemma re_findall_fuel f s : (String.length s < f)%nat -> findall_hashtags f s = re_findall s.
Proof. intros H. apply findall_hashtags_fuel; [done|lia]. Qed.

Lemma word_prefix_word s w r : word_prefix s = (w, r) ->
  Forall (fun c => is_word_char c = true) (String.list_ascii_of_string w).
Proof.
  revert w r. induction s as [|c s IH]; simpl; intros w r E; [by injection E as <- <-|].
  destruct (is_word_char c) eqn:Hc; [|by injection E as <- <-].
  destruct (word_prefix s) as [w' r'] eqn:E'. injection E as <- <-. simpl. eauto.
Qed.

(** A word followed by a non-word boundary is exactly the longest prefix. *)
Lemma word_prefix_exact w b :
  Forall (fun c => is_word_char c = true) (String.list_ascii_of_string w) -> starts_nonword b ->
  word_prefix (w +:+ b) = (w, b).
Proof.
  intros Hw Hb. induction w as [|c w IH]; simpl in *.
  - destruct b as [|c b]; simpl in *; [done|]. by rewrite Hb.
  - apply Forall_cons in Hw as [-> Hw]. by rewrite IH.
Qed.

Lemma word_prefix_app_nonword a x :
  starts_nonword x -> word_prefix (a +:+ x) = let '(w, r) := word_prefix a in (w, r +:+ x).
Proof.
  intros Hx. induction a as [|c a IH]; simpl.
  - pose proof (word_prefix_exact EmptyString x (Forall_nil_2 _) Hx) as E. exact E.
  - destruct (is_word_char c); [|done]. rewrite IH. by destruct (word_prefix a).
Qed.

Lemma findall_hashtags_step f c a :
  findall_hashtags (S f) (String c a) =
  if Ascii.eqb c "#" then
    match word_prefix a with
    | (EmptyString, _) => findall_hashtags f a
    | (w, r) => String "#" w :: findall_hashtags f r
    end
  else findall_hashtags f a.
Proof. reflexivity. Qed.

(** The fuel-free equation of the scan. *)
Lemma re_findall_cons c a :
  re_findall (String c a) =
  if Ascii.eqb c "#" then
    match word_prefix a with
    | (EmptyString, _) => re_findall a
    | (w, r) => String "#" w :: re_findall r
    end
  else re_findall a.
Proof.
  unfold re_findall at 1. change (String.length (String c a)) with (S (String.length a)).
  rewrite findall_hashtags_step.
  destruct (Ascii.eqb c "#"); [|apply re_findall_fuel; lia].
  destruct (word_prefix a) as [[|c' w] r] eqn:E; [apply re_findall_fuel; lia|].
  f_equal. apply re_findall_fuel. apply word_prefix_length in E. lia.
Qed.

(** The scan splits at a boundary that is not a word character. *)
Lemma re_findall_app a x :
  starts_nonword x -> re_findall (a +:+ x) = re_findall a ++ re_findall x.
Proof.
  intros Hx. remember (String.length a) as n eqn:En. revert a En.
  induction n as [n IH] using lt_wf_ind. intros [|c a] En; [done|].
  simpl in En. rewrite string_app_cons, !re_findall_cons.
  destruct (Ascii.eqb c "#"); [|apply (IH (String.length a)); lia].
  rewrite (word_prefix_app_nonword a x Hx).
  destruct (word_prefix a) as [w r] eqn:E.
  pose proof (word_prefix_length _ _ _ E).
  destruct w as [|c' w]; simpl; [apply (IH (String.length a)); lia|].
  f_equal. apply (IH (String.length r)); [|done]. apply word_prefix_app in E. subst a. rewrite string_length_app in En. simpl in En. lia.
Qed.

(** A ['#'], a word and a boundary give that tag, then the rest's tags. *)
Lemma re_findall_tag w b :
  w <> EmptyString -> Forall (fun c => is_word_char c = true) (String.list_ascii_of_string w) ->
  starts_nonword b ->
  re_findall (String "#" (w +:+ b)) = String "#" w :: re_findall b.
Proof.
  intros Hne Hw Hb. rewrite re_findall_cons. simpl.
  rewrite (word_prefix_exact w b Hw Hb). by destruct w.
Qed.

(** Every tag found is ['#'] and a non-empty word taken from the text. *)
Lemma findall_hashtags_sound f s t :
  t ∈ findall_hashtags f s -> exists w, t = String "#" w /\ w <> EmptyString /\
    Forall (fun c => is_word_char c = true /\ c ∈ String.list_ascii_of_string s)
           (String.list_ascii_of_string w).
Proof.
  revert s. induction f as [|f IH]; intros s Ht; simpl in Ht; [by apply not_elem_of_nil in Ht|].
  destruct s as [|c rest]; [by apply not_elem_of_nil in Ht|].
  assert (Hsub : forall s', (forall d, d ∈ String.list_ascii_of_string s' -> d ∈ String.list_ascii_of_string rest) ->
            (exists w, t = String "#" w /\ w <> EmptyString /\
              Forall (fun d => is_word_char d = true /\ d ∈ String.list_ascii_of_string s') (String.list_ascii_of_string w)) ->
            exists w, t = String "#" w /\ w <> EmptyString /\
              Forall (fun d => is_word_char d = true /\ d ∈ String.list_ascii_of_string (String c rest)) (String.list_ascii_of_string w)).
  { intros s' Hs' (w & -> & Hne & Hw). exists w. split; [done|split; [done|]].
    eapply Forall_impl; [exact Hw|]. intros d [Hd1 Hd2]. split; [done|]. simpl. by apply elem_of_cons; right; apply Hs'. }
  destruct (Ascii.eqb c "#"); [|by apply (Hsub rest); auto].
  destruct (word_prefix rest) as [w r] eqn:E. pose proof (word_prefix_app _ _ _ E) as Erest.
  assert (Hr : forall d, d ∈ String.list_ascii_of_string r -> d ∈ String.list_ascii_of_string rest)
    by (intros d Hd; rewrite Erest, list_ascii_of_string_app; apply elem_of_app; by right).
  destruct w as [|c' w']; [by apply (Hsub rest); auto|].
  apply elem_of_cons in Ht as [->|Ht]; [|by apply (Hsub r); auto].
  exists (String c' w'). split; [done|split; [done|]].
  pose proof (word_prefix_word _ _ _ E) as Hw. apply Forall_forall. intros d Hd. split.
  - by rewrite Forall_forall in Hw; apply Hw.
  - simpl. apply elem_of_cons; right. rewrite Erest, list_ascii_of_string_app. apply elem_of_app. by left.
Qed.

Lemma is_word_char_lower c : is_word_char (ascii_lower c) = is_word_char c.
Proof. destruct c as [[] [] [] [] [] [] [] []]; reflexivity. Qed.

Lemma list_ascii_of_string_lower s :
  String.list_ascii_of_string (string_lower s) = map ascii_lower (String.list_ascii_of_string s).
Proof. induction s as [|c s IH]; simpl; congruence. Qed.

Lemma string_lower_id s :
  Forall (fun c => ascii_lower c = c) (String.list_ascii_of_string s) -> string_lower s = s.
Proof. induction s as [|c s IH]; simpl; [done|]. intros [-> ?]%Forall_cons. by rewrite IH. Qed.

Lemma extract_hashtags_nonempty s :
  s <> EmptyString ->
  extract_hashtags (Some s) = list_to_set (map drop_hash (re_findall (string_lower s))).
Proof. by destruct s. Qed.

Lemma re_findall_render tags :
  Forall is_tag tags -> re_findall (render_hashtags tags) = map (String "#") tags.
Proof.
  induction tags as [|t ts IH]; [done|]. intros [[Hne Ht] Hts]%Forall_cons. simpl.
  rewrite re_findall_tag; [|done| |done].
  - rewrite re_findall_cons. simpl. by rewrite IH.
  - eapply Forall_impl; [exact Ht|]. by intros c [].
Qed.

Lemma render_hashtags_lower tags :
  Forall is_tag tags -> string_lower (render_hashtags tags) = render_hashtags tags.
Proof.
  induction tags as [|t ts IH]; [done|]. intros [[_ Ht] Hts]%Forall_cons. simpl.
  rewrite string_lower_app. simpl. rewrite IH by done. rewrite string_lower_id; [done|].
  eapply Forall_impl; [exact Ht|]. by intros c [].
Qed.

(** ** Properties *)

(** Every extracted hashtag is a non-empty
    run of lower-case word characters, without its ['#']. *)
Theorem extract_hashtags_sound text t : t ∈ extract_hashtags text -> is_tag t.
Proof.
  destruct text as [[|c s]|]; simpl; [set_solver| |set_solver].
  rewrite elem_of_list_to_set, list_elem_of_fmap. intros (t0 & -> & Ht0).
  apply findall_hashtags_sound in Ht0 as (w & -> & Hne & Hw). split; [done|].
  pose proof (string_lower_chars (String c s)) as Hl. rewrite Forall_forall in Hl.
  eapply Forall_impl; [exact Hw|]. intros d [Hd1 Hd2]. split; [done|]. by apply Hl.
Qed.

(** A ['#'] followed by a word that ends at
    a non-word character (or at the end) is extracted, lower-cased,
    wherever it stands in the caption. *)
Theorem extract_hashtags_complete a w b :
  w <> EmptyString -> Forall (fun c => is_word_char c = true) (String.list_ascii_of_string w) ->
  starts_nonword b ->
  string_lower w ∈ extract_hashtags (Some (a +:+ String "#" (w +:+ b))).
Proof.
  intros Hne Hw Hb. rewrite extract_hashtags_nonempty by (destruct a; discriminate).
  rewrite string_lower_app. change (string_lower (String "#" (w +:+ b)))
    with (String "#" (string_lower (w +:+ b))).
  rewrite string_lower_app, re_findall_app by done.
  rewrite (re_findall_tag (string_lower w)).
  - rewrite elem_of_list_to_set, list_elem_of_fmap. exists (String "#" (string_lower w)).
    split; [done|]. apply elem_of_app. right. apply elem_of_cons. by left.
  - destruct w; [done|discriminate].
  - rewrite list_ascii_of_string_lower, Forall_fmap. eapply Forall_impl; [exact Hw|].
    intros c Hc. simpl. by rewrite is_word_char_lower.
  - destruct b as [|c b]; simpl in *; [done|]. by rewrite is_word_char_lower.
Qed.

(** C32 extract_render_roundtrip: writing well-formed tags as ['#tag ']
    and extracting them gives back exactly the set of those tags. *)
Theorem extract_render_roundtrip tags :
  Forall is_tag tags -> extract_hashtags (Some (render_hashtags tags)) = list_to_set tags.
Proof.
  intros Htags. destruct tags as [|t ts]; [done|].
  rewrite extract_hashtags_nonempty by discriminate.
  rewrite render_hashtags_lower, re_findall_render by done.
  rewrite <- list_fmap_compose. by rewrite list_fmap_id.
Qed.

(** the spec's example: case is folded and a
    repeated tag is kept once. *)
Example extract_hashtags_example :
  extract_hashtags (Some "Great #Sunset vibes #sunset #NewPost") = {[ "sunset"; "newpost" ]}.
Proof. vm_compute. reflexivity. Qed.

(** ** Witnesses *)

Lemma extract_hashtags_sound_witness :
  "sunset" ∈ extract_hashtags (Some "Great #Sunset vibes") /\ is_tag "sunset".
Proof.
  assert (E : extract_hashtags (Some "Great #Sunset vibes") = {[ "sunset" ]}) by (vm_compute; reflexivity).
  assert (H : "sunset" ∈ extract_hashtags (Some "Great #Sunset vibes"))
    by (rewrite E; by apply elem_of_singleton).
  split; [exact H|exact (extract_hashtags_sound _ _ H)].
Defined.

Lemma extract_hashtags_complete_witness :
  "Sunset" <> EmptyString /\
  Forall (fun c => is_word_char c = true) (String.list_ascii_of_string "Sunset") /\
  starts_nonword " vibes" /\
  string_lower "Sunset" ∈ extract_hashtags (Some ("Great " +:+ String "#" ("Sunset" +:+ " vibes"))).
Proof.
  assert (H1 : "Sunset" <> EmptyString) by discriminate.
  assert (H2 : Forall (fun c => is_word_char c = true) (String.list_ascii_of_string "Sunset"))
    by (repeat constructor).
  assert (H3 : starts_nonword " vibes") by reflexivity.
  split; [exact H1|split; [exact H2|split; [exact H3|]]].
  exact (extract_hashtags_complete "Great " "Sunset" " vibes" H1 H2 H3).
Defined.

Lemma extract_render_roundtrip_witness :
  Forall is_tag ["sunset"; "new_post2"] /\
  extract_hashtags (Some (render_hashtags ["sunset"; "new_post2"])) = list_to_set ["sunset"; "new_post2"].
Proof.
  assert (H : Forall is_tag ["sunset"; "new_post2"])
    by (repeat constructor; discriminate).
  split; [exact H|exact (extract_render_roundtrip _ H)].
Defined.

End Hashtags.
