(* ===== verification/Predict.v ===== *)
(** * PerformancePredictor: [predict_post_performance] (src/app.py, lines 177-217)

    Two aggregate queries over the scoped posts: the posts "similar" to the
    candidate (same [post_type], same hour [CAST(substr(post_time,1,2) AS
    INTEGER)], same [caption_category]), and all posts (the baseline).
    With at least three similar posts the prediction is their average and
    the confidence [min(95, 50 + 5 * count)]; otherwise it is the baseline
    average, or 20 and 5 where that average is NULL or 0.0 ([x or 20]),
    with confidence 30.  [round(None, 1)] would raise [TypeError]; the
    result type records that this never happens, and that the one
    exception is [OverflowError] when the first query binds an hour outside
    SQLite's 64-bit INTEGER ([predict_total]). *)

From Stdlib Require Import ZArith QArith Lqa.
From stdpp Require Import base list strings.
From S2P Require Import Prelude Sql Calendar Post.

Module Predict.

Open Scope Q_scope.

(** The dictionary [predict_post_performance] returns. *)
Record prediction := mkPrediction {
  predicted_score : Q;
  predicted_engagement : Q;
  confidence : Z;
  similar_posts : Z
}.

(** The [WHERE] of the first query: [caption_category = ?] is false on NULL. *)
Definition is_similar (ty : string) (hour : Z) (category : string) (p : Post) : bool :=
  bool_decide (post_type p = ty) && bool_decide (post_hour p = hour) &&
  match caption_category p with Some c => bool_decide (c = category) | None => false end.

(** The rows of the first query (lines 180-190). *)
Definition similar_rows (ty : string) (hour : Z) (category : string)
    (project_ids : list Z) (posts : list Post) : list Post :=
  filter (fun p => is_similar ty hour category p = true) (scope project_ids posts).

(** [round(x, n)] on a value that may be NULL. *)
Definition round_opt (n : positive) (o : option Q) : result Q :=
  match o with Some x => Ok (py_round n x) | None => Raise TypeError end.

Definition predict_post_performance (ty : string) (hour : Z) (category : string)
    (project_ids : list Z) (posts : list Post) : result prediction :=
  _ ← sqlite_bind [hour];
  let scoped := scope project_ids posts in
  let similar := similar_rows ty hour category project_ids posts in
  let similar_count := Z.of_nat (length similar) in
  if (3 <=? similar_count)%Z then
    s ← round_opt 1 (sql_avg (map performance_score similar));
    e ← round_opt 2 (sql_avg (map engagement_rate_weighted similar));
    mret (mkPrediction s e (Z.min 95 (50 + similar_count * 5)) similar_count)
  else
    let s := py_or (sql_avg (map performance_score scoped)) 20 in
    let e := py_or (sql_avg (map engagement_rate_weighted scoped)) 5 in
    mret (mkPrediction (py_round 1 s) (py_round 2 e) 30 similar_count).

(** ** Lemmas *)

Lemma round_opt_avg n (l : list Q) :
  l <> [] -> exists a, sql_avg l = Some a /\ round_opt n (sql_avg l) = Ok (py_round n a).
Proof. intros Hl. destruct (sql_avg_Some l Hl) as [a Ha]. exists a. by rewrite Ha. Qed.

Lemma map_nonempty {A B} (f : A -> B) (l : list A) : (3 <= Z.of_nat (length l))%Z -> map f l <> [].
Proof. destruct l; simpl; [lia|discriminate]. Qed.

(** An hour that does not fit 64 bits stops the first query. *)
Lemma predict_overflow ty hour category ids posts :
  sqlite_int hour = false -> predict_post_performance ty hour category ids posts = Raise OverflowError.
Proof. intros Hh. unfold predict_post_performance. by rewrite sqlite_bind_one, Hh. Qed.

Lemma predict_Ok_int ty hour category ids posts r :
  predict_post_performance ty hour category ids posts = Ok r -> sqlite_int hour = true.
Proof. destruct (sqlite_int hour) eqn:Hh; [done|]. by rewrite predict_overflow. Qed.

(** The outcome of the similar-posts branch. *)
Lemma predict_similar_branch ty hour category ids posts :
  let similar := similar_rows ty hour category ids posts in
  sqlite_int hour = true -> (3 <= Z.of_nat (length similar))%Z ->
  exists s e, sql_avg (map performance_score similar) = Some s /\
    predict_post_performance ty hour category ids posts =
    Ok (mkPrediction (py_round 1 s) (py_round 2 e)
          (Z.min 95 (50 + Z.of_nat (length similar) * 5)) (Z.of_nat (length similar))).
Proof.
  intros similar Hh Hn. unfold predict_post_performance. rewrite sqlite_bind_one, Hh. simpl. fold similar.
  destruct (Z.leb_spec 3 (Z.of_nat (length similar))); [|lia].
  destruct (round_opt_avg 1 (map performance_score similar)) as (s & Hs & ->); [by apply map_nonempty|].
  destruct (round_opt_avg 2 (map engagement_rate_weighted similar)) as (e & _ & ->); [by apply map_nonempty|].
  by exists s, e.
Qed.

(** The outcome of the baseline branch. *)
Lemma predict_baseline_branch ty hour category ids posts :
  let similar := similar_rows ty hour category ids posts in
  sqlite_int hour = true -> (Z.of_nat (length similar) < 3)%Z ->
  predict_post_performance ty hour category ids posts =
  Ok (mkPrediction (py_round 1 (py_or (sql_avg (map performance_score (scope ids posts))) 20))
                   (py_round 2 (py_or (sql_avg (map engagement_rate_weighted (scope ids posts))) 5))
                   30 (Z.of_nat (length similar))).
Proof.
  intros similar Hh Hn. unfold predict_post_performance. rewrite sqlite_bind_one, Hh. simpl. fold similar.
  destruct (Z.leb_spec 3 (Z.of_nat (length similar))); [lia|done].
Qed.

(** ** Properties *)

(** C9 predict_total: [predict_post_performance] raises exactly when the
    hour does not fit SQLite's 64-bit INTEGER, and then [OverflowError]
    from binding it: with three or more similar posts both averages
    exist, so no [round(None)] occurs. *)
Theorem predict_total ty hour category ids posts :
  match predict_post_performance ty hour category ids posts with
  | Ok _ => sqlite_int hour = true
  | Raise e => e = OverflowError /\ sqlite_int hour = false
  end.
Proof.
  destruct (sqlite_int hour) eqn:Hh; [|by rewrite predict_overflow].
  destruct (Z_lt_le_dec (Z.of_nat (length (similar_rows ty hour category ids posts))) 3) as [H|H].
  - by rewrite predict_baseline_branch.
  - by destruct (predict_similar_branch ty hour category ids posts Hh H) as (s & e & _ & ->).
Qed.

(** with no post in scope the prediction is the
    prior: score 20, engagement 5, confidence 30, no similar posts. *)
Theorem predict_cold_start ty hour category ids posts :
  sqlite_int hour = true -> scope ids posts = [] ->
  predict_post_performance ty hour category ids posts = Ok (mkPrediction 20 5 30 0).
Proof.
  intros Hh Hs. rewrite predict_baseline_branch; unfold similar_rows; rewrite ?Hs; [|done|done].
  vm_compute. reflexivity.
Qed.

(** the confidence is between 30 and 95,
    and it is 30 exactly when fewer than three similar posts were found. *)
Theorem predict_confidence_bounds ty hour category ids posts r :
  predict_post_performance ty hour category ids posts = Ok r ->
  (30 <= confidence r <= 95)%Z /\ (confidence r = 30%Z <-> (similar_posts r < 3)%Z).
Proof.
  intros Hr. pose proof (predict_Ok_int _ _ _ _ _ _ Hr) as Hh. revert Hr.
  destruct (Z_lt_le_dec (Z.of_nat (length (similar_rows ty hour category ids posts))) 3) as [H|H].
  - rewrite predict_baseline_branch by done. intros [= <-]. simpl. lia.
  - destruct (predict_similar_branch ty hour category ids posts Hh H) as (s & e & _ & ->).
    intros [= <-]. simpl. lia.
Qed.

(** with three or more similar posts the
    predicted score lies between the rounded least and greatest scores of
    those posts. *)
Theorem predict_similar_score_bounds ty hour category ids posts lo hi r :
  (3 <= Z.of_nat (length (similar_rows ty hour category ids posts)))%Z ->
  Forall (fun p => lo <= performance_score p <= hi) (similar_rows ty hour category ids posts) ->
  predict_post_performance ty hour category ids posts = Ok r ->
  py_round 1 lo <= predicted_score r <= py_round 1 hi.
Proof.
  intros H Hb Hr. pose proof (predict_Ok_int _ _ _ _ _ _ Hr) as Hh. revert Hr.
  destruct (predict_similar_branch ty hour category ids posts Hh H) as (s & e & Hs & ->).
  intros [= <-]. simpl.
  apply (sql_avg_bounds lo hi) in Hs; [|by apply Forall_fmap].
  split; apply py_round_mono; lra.
Qed.

(** C33 predict_zero_baseline_default: [baseline['avg_score'] or 20]
    treats an average of 0.0 like NULL: with posts in scope whose scores
    are all 0 and fewer than three similar posts, the prediction is the
    cold-start prior 20, not the history's average 0. *)
Theorem predict_zero_baseline_default ty hour category ids posts r :
  scope ids posts <> [] ->
  Forall (fun p => performance_score p == 0) (scope ids posts) ->
  (Z.of_nat (length (similar_rows ty hour category ids posts)) < 3)%Z ->
  predict_post_performance ty hour category ids posts = Ok r ->
  predicted_score r = 20.
Proof.
  intros Hne Hz H Hr. pose proof (predict_Ok_int _ _ _ _ _ _ Hr) as Hh. revert Hr.
  rewrite predict_baseline_branch by done. intros [= <-]. simpl.
  destruct (sql_avg_Some (map performance_score (scope ids posts))) as [a Ha].
  { intros E. apply Hne. by apply map_eq_nil in E. }
  assert (Hb : 0 <= a <= 0).
  { apply (sql_avg_bounds 0 0 a (map performance_score (scope ids posts))); [|done].
    apply Forall_fmap. eapply Forall_impl; [exact Hz|]. intros p Hp. simpl. rewrite Hp. lra. }
  rewrite Ha. unfold py_or. replace (Qeq_bool a 0) with true by (symmetry; apply Qeq_bool_iff; lra).
  vm_compute. reflexivity.
Qed.

(** Posts of projects outside the scoped
    project ids never change a prediction. *)
Theorem predict_scope_isolation ty hour category ids posts foreign :
  Forall (fun q => project_id q ∉ ids) foreign ->
  predict_post_performance ty hour category ids (posts ++ foreign) =
  predict_post_performance ty hour category ids posts.
Proof.
  intros Hf. unfold predict_post_performance, similar_rows. by rewrite scope_foreign_list.
Qed.

(** ** Witnesses *)

Lemma predict_cold_start_witness :
  sqlite_int 10 = true /\ scope [2%Z] sample_history = [] /\
  predict_post_performance "Reel" 10 "Educational" [2%Z] sample_history = Ok (mkPrediction 20 5 30 0).
Proof.
  assert (Hh : sqlite_int 10 = true) by reflexivity.
  assert (H : scope [2%Z] sample_history = []) by reflexivity.
  split; [exact Hh|split; [exact H|exact (predict_cold_start "Reel" 10 "Educational" [2%Z] sample_history Hh H)]].
Defined.

Lemma predict_confidence_bounds_witness :
  predict_post_performance "Reel" 10 "Educational" [1%Z] sample_history = Ok (mkPrediction 20 6 65 3) /\
  (30 <= 65 <= 95)%Z /\ (65%Z = 30%Z <-> (3 < 3)%Z).
Proof.
  assert (H : predict_post_performance "Reel" 10 "Educational" [1%Z] sample_history =
              Ok (mkPrediction 20 6 65 3)) by (vm_compute; reflexivity).
  split; [exact H|exact (predict_confidence_bounds _ _ _ _ _ _ H)].
Defined.

Lemma predict_similar_score_bounds_witness :
  (3 <= Z.of_nat (length (similar_rows "Reel" 10 "Educational" [1%Z] sample_history)))%Z /\
  Forall (fun p => 10 <= performance_score p <= 30) (similar_rows "Reel" 10 "Educational" [1%Z] sample_history) /\
  py_round 1 10 <= predicted_score (mkPrediction 20 6 65 3) <= py_round 1 30.
Proof.
  assert (E : similar_rows "Reel" 10 "Educational" [1%Z] sample_history = [sample_p1; sample_p2; sample_p3])
    by reflexivity.
  assert (H1 : (3 <= Z.of_nat (length (similar_rows "Reel" 10 "Educational" [1%Z] sample_history)))%Z)
    by (rewrite E; simpl; lia).
  assert (H2 : Forall (fun p => 10 <= performance_score p <= 30) (similar_rows "Reel" 10 "Educational" [1%Z] sample_history))
    by (rewrite E; repeat constructor; simpl; lra).
  split; [exact H1|split; [exact H2|]].
  exact (predict_similar_score_bounds _ _ _ _ _ _ _ _ H1 H2 ltac:(vm_compute; reflexivity)).
Defined.

Definition zero_history : list Post :=
  [sample_post 9 3 "Image" (mkDate 2024 3 1) "09:00" None (Some "Fun") 0 0].

Lemma predict_zero_baseline_default_witness :
  scope [3%Z] zero_history <> [] /\
  Forall (fun p => performance_score p == 0) (scope [3%Z] zero_history) /\
  (Z.of_nat (length (similar_rows "Reel" 10 "Educational" [3%Z] zero_history)) < 3)%Z /\
  predicted_score (mkPrediction 20 5 30 0) = 20.
Proof.
  assert (H1 : scope [3%Z] zero_history <> []) by discriminate.
  assert (H2 : Forall (fun p => performance_score p == 0) (scope [3%Z] zero_history))
    by (repeat constructor).
  assert (H3 : (Z.of_nat (length (similar_rows "Reel" 10 "Educational" [3%Z] zero_history)) < 3)%Z)
    by (vm_compute; reflexivity).
  split; [exact H1|split; [exact H2|split; [exact H3|]]].
  exact (predict_zero_baseline_default _ _ _ _ _ _ H1 H2 H3 ltac:(vm_compute; reflexivity)).
Defined.

Lemma predict_scope_isolation_witness :
  Forall (fun q => project_id q ∉ [1%Z]) zero_history /\
  predict_post_performance "Reel" 10 "Educational" [1%Z] (sample_history ++ zero_history) =
  predict_post_performance "Reel" 10 "Educational" [1%Z] sample_history.
Proof.
  assert (H : Forall (fun q => project_id q ∉ [1%Z]) zero_history)
    by (repeat constructor; simpl; rewrite list_elem_of_singleton; discriminate).
  split; [exact H|exact (predict_scope_isolation _ _ _ _ _ _ H)].
Defined.

End Predict.
