(* ===== verification/Trends.v ===== *)
(** * TrendAnalyzer: [analyze_growth_trends] (src/app.py, lines 219-261)

    One query groups the scoped posts by [strftime('%Y-%m', post_date)]
    in ascending month order ([monthly_growth]).  With fewer than two
    months the result is [{'trend': 'insufficient_data', ...}].  Otherwise
    the last two rows are compared: [(recent - previous) / previous * 100]
    for the average score and the average weighted engagement.  Python
    raises [ZeroDivisionError] when the previous average is 0.0 (the code
    has no guard) and [TypeError] on a NULL average; both are results of
    the model.  Insights are kept as data with their one-decimal figure
    ([f"{x:.1f}"]); the label follows the 5% thresholds.  The theorems
    also show that the two rows compared are those of the latest month
    with a post and of the latest month before it. *)

From Stdlib Require Import ZArith QArith Qabs Lqa Sorted.
From stdpp Require Import base list strings sorting sets.
From S2P Require Import Prelude Sql Calendar Post.

Module Trends.

Open Scope Q_scope.

(** A row of the [monthly_growth] query. *)
Record month_row := mkMonthRow {
  month : Z * Z;
  avg_score : option Q;
  avg_engagement : option Q;
  followers_gained_sum : option Z;
  post_count : Z
}.

Definition month_of (p : Post) : Z * Z := month_key (post_date p).

(** [SELECT strftime('%Y-%m', post_date) as month, AVG(...), ... GROUP BY month ORDER BY month]. *)
Definition monthly_growth (project_ids : list Z) (posts : list Post) : list month_row :=
  map (fun '(k, g) => mkMonthRow k (sql_avg (map performance_score g))
                        (sql_avg (map engagement_rate_weighted g))
                        (sql_sum (map followers_gained g)) (Z.of_nat (length g)))
      (group_by month_of (scope project_ids posts)).

Inductive insight :=
  | PerformanceImproved (pct : Q)
  | PerformanceDeclined (pct : Q)
  | EngagementUp (pct : Q)
  | EngagementDown (pct : Q).

Inductive trend_label := Improving | Declining | Stable.

Inductive trend_report :=
  | InsufficientData
  | TrendReport (trend : trend_label) (score_growth engagement_growth : Q) (insights : list insight).

(** [((recent - previous) / previous) * 100] on two SQL values. *)
Definition pct_change (recent previous : option Q) : result Q :=
  match recent, previous with
  | Some r, Some p => x ← (r - p) /? p; mret (x * 100)
  | _, _ => Raise TypeError
  end.

Definition score_insights (score_change : Q) : list insight :=
  if Qlt_le_dec 10 score_change then [PerformanceImproved (py_round 1 score_change)]
  else if Qlt_le_dec score_change (-10) then [PerformanceDeclined (py_round 1 (Qabs score_change))]
  else [].

Definition engagement_insights (engagement_change : Q) : list insight :=
  if Qlt_le_dec 15 engagement_change then [EngagementUp (py_round 1 engagement_change)]
  else if Qlt_le_dec engagement_change (-15) then [EngagementDown (py_round 1 (Qabs engagement_change))]
  else [].

Definition classify (score_change : Q) : trend_label :=
  if Qlt_le_dec 5 score_change then Improving
  else if Qlt_le_dec score_change (-5) then Declining
  else Stable.

(** The comparison of the last two months. *)
Definition compare_months (previous recent : month_row) : result trend_report :=
  score_change ← pct_change (avg_score recent) (avg_score previous);
  engagement_change ← pct_change (avg_engagement recent) (avg_engagement previous);
  mret (TrendReport (classify score_change) (py_round 1 score_change) (py_round 1 engagement_change)
          (score_insights score_change ++ engagement_insights engagement_change)).

Definition analyze_growth_trends (project_ids : list Z) (posts : list Post) : result trend_report :=
  let rows := monthly_growth project_ids posts in
  if (length rows <? 2)%nat then Ok InsufficientData
  else match rev rows with
       | recent :: previous :: _ => compare_months previous recent
       | _ => Ok InsufficientData
       end.

(** ** Lemmas *)

Lemma monthly_growth_months ids posts :
  map month (monthly_growth ids posts) = group_keys month_of (scope ids posts).
Proof.
  unfold monthly_growth. rewrite map_map, <- group_by_keys.
  apply map_ext. by intros [k g].
Qed.

(** Every row aggregates a non-empty month, so its averages are not NULL. *)
Lemma monthly_growth_avgs ids posts row :
  row ∈ monthly_growth ids posts ->
  exists s e, avg_score row = Some s /\ avg_engagement row = Some e.
Proof.
  unfold monthly_growth. rewrite list_elem_of_fmap. intros ([k g] & -> & Hg).
  apply group_by_nonempty in Hg as [Hne _]. simpl.
  destruct (sql_avg_Some (map performance_score g)) as [s Hs]; [by intros ?%map_eq_nil|].
  destruct (sql_avg_Some (map engagement_rate_weighted g)) as [e He]; [by intros ?%map_eq_nil|].
  eauto.
Qed.

Lemma rev_two {T} (l : list T) (a b : T) (rest : list T) :
  rev l = a :: b :: rest -> l = rev rest ++ [b; a].
Proof. intros E. rewrite <- (rev_involutive l), E. simpl. by rewrite <- app_assoc. Qed.

(** With two or more months, the result is the comparison of the last two. *)
Lemma analyze_growth_trends_last_two ids posts :
  (2 <= length (monthly_growth ids posts))%nat ->
  exists pre previous recent, monthly_growth ids posts = pre ++ [previous; recent] /\
    analyze_growth_trends ids posts = compare_months previous recent.
Proof.
  intros Hlen. unfold analyze_growth_trends.
  destruct (Nat.ltb_spec (length (monthly_growth ids posts)) 2); [lia|].
  destruct (rev (monthly_growth ids posts)) as [|recent [|previous rest]] eqn:E.
  - apply (f_equal length) in E. rewrite length_rev in E. simpl in E. lia.
  - apply (f_equal length) in E. rewrite length_rev in E. simpl in E. lia.
  - exists (rev rest), previous, recent. split; [by apply rev_two|done].
Qed.

Lemma pct_change_raise r p e :
  pct_change (Some r) (Some p) = Raise e <-> e = ZeroDivisionError /\ p == 0.
Proof.
  unfold pct_change, py_div. destruct (Qeq_bool p 0) eqn:Hp; simpl.
  - apply Qeq_bool_iff in Hp. split; [by intros [= <-]|by intros [-> _]].
  - split; [done|]. intros [_ Hp']. apply Qeq_bool_iff in Hp'. congruence.
Qed.

Lemma pct_change_ok r p : ~ p == 0 -> pct_change (Some r) (Some p) = Ok ((r - p) / p * 100).
Proof.
  intros Hp. unfold pct_change, py_div.
  destruct (Qeq_bool p 0) eqn:E; [apply Qeq_bool_iff in E; contradiction|done].
Qed.

Lemma app_last_two_inj {T} (pre pre' : list T) (a b a' b' : T) :
  pre ++ [a; b] = pre' ++ [a'; b'] -> a = a' /\ b = b'.
Proof.
  intros E. apply (f_equal (@rev T)) in E. rewrite !rev_app_distr in E. simpl in E. by injection E.
Qed.

(** The report built from two months. *)
Lemma compare_months_Ok previous recent r :
  compare_months previous recent = Ok r ->
  exists sc ec, r = TrendReport (classify sc) (py_round 1 sc) (py_round 1 ec)
                                (score_insights sc ++ engagement_insights ec).
Proof.
  unfold compare_months.
  destruct (pct_change (avg_score recent) (avg_score previous)) as [sc|];
    autorewrite with analytics_rw; [|discriminate].
  destruct (pct_change (avg_engagement recent) (avg_engagement previous)) as [ec|];
    autorewrite with analytics_rw; [|discriminate].
  intros [= <-]. eauto.
Qed.

#[local] Instance lex_le_refl : Reflexive lex_le.
Proof. intros [a b]. unfold lex_le. simpl. lia. Qed.

(** ** Properties *)

(** C5 analyze_growth_trends_raises: [analyze_growth_trends] raises
    exactly when there are two or more months and the previous month's
    average score or average engagement is 0, and what it raises is
    [ZeroDivisionError] (never [TypeError]). *)
Theorem analyze_growth_trends_raises ids posts e :
  analyze_growth_trends ids posts = Raise e <->
  e = ZeroDivisionError /\
  exists pre previous recent, monthly_growth ids posts = pre ++ [previous; recent] /\
    ((exists s, avg_score previous = Some s /\ s == 0) \/
     (exists g, avg_engagement previous = Some g /\ g == 0)).
Proof.
  destruct (Nat.lt_ge_cases (length (monthly_growth ids posts)) 2) as [Hlt|Hge].
  - unfold analyze_growth_trends. destruct (Nat.ltb_spec (length (monthly_growth ids posts)) 2); [|lia].
    split; [discriminate|]. intros (_ & pre & p & r & E & _). rewrite E, length_app in Hlt. simpl in Hlt. lia.
  - destruct (analyze_growth_trends_last_two ids posts Hge) as (pre & p & r & E & ->).
    destruct (monthly_growth_avgs ids posts p) as (sp & ep & Hsp & Hep); [rewrite E; set_solver|].
    destruct (monthly_growth_avgs ids posts r) as (sr & er & Hsr & Her); [rewrite E; set_solver|].
    unfold compare_months. rewrite Hsp, Hsr, Hep, Her.
    destruct (pct_change (Some sr) (Some sp)) as [sc|e1] eqn:Es; autorewrite with analytics_rw.
    + destruct (pct_change (Some er) (Some ep)) as [ec|e2] eqn:Ee; autorewrite with analytics_rw.
      * split; [discriminate|]. intros (_ & pre' & p' & r' & E' & Hz).
        rewrite E in E'. apply app_last_two_inj in E' as [<- <-].
        destruct Hz as [(s & Hs & Hs0)|(g & Hg & Hg0)].
        -- rewrite Hsp in Hs. injection Hs as <-.
           assert (Hr : pct_change (Some sr) (Some sp) = Raise ZeroDivisionError)
             by (by apply pct_change_raise). congruence.
        -- rewrite Hep in Hg. injection Hg as <-.
           assert (Hr : pct_change (Some er) (Some ep) = Raise ZeroDivisionError)
             by (by apply pct_change_raise). congruence.
      * apply pct_change_raise in Ee as [-> Hz]. split; [intros [= <-]|intros [-> _]; done].
        split; [done|]. exists pre, p, r. split; [done|]. right. eauto.
    + apply pct_change_raise in Es as [-> Hz]. split; [intros [= <-]|intros [-> _]; done].
      split; [done|]. exists pre, p, r. split; [done|]. left. eauto.
Qed.

(** when every scoped post falls
    in the same calendar month (or there is none) the result is
    ['insufficient_data']. *)
Theorem analyze_growth_trends_single_month ids posts :
  (forall p q, p ∈ scope ids posts -> q ∈ scope ids posts -> month_of p = month_of q) ->
  analyze_growth_trends ids posts = Ok InsufficientData.
Proof.
  intros Hm. unfold analyze_growth_trends.
  pose proof (group_keys_single month_of (scope ids posts) Hm) as Hk.
  rewrite <- monthly_growth_months, length_map in Hk.
  by destruct (Nat.ltb_spec (length (monthly_growth ids posts)) 2); [|lia].
Qed.

(** The last two monthly rows are the latest month with a post and the
    latest month before it. *)
Lemma monthly_growth_last_two ids posts pre previous recent :
  monthly_growth ids posts = pre ++ [previous; recent] ->
  forall p, p ∈ scope ids posts ->
    lex_le (month_of p) (month recent) /\
    (month_of p <> month recent -> lex_le (month_of p) (month previous)).
Proof.
  intros E p Hp.
  assert (Hk : month_of p ∈ map month (monthly_growth ids posts)).
  { rewrite monthly_growth_months, elem_of_group_keys, list_elem_of_fmap. eauto. }
  pose proof (group_keys_sorted month_of (scope ids posts)) as HS.
  rewrite <- monthly_growth_months in HS.
  rewrite E, map_app in HS, Hk. simpl in HS, Hk.
  exact (StronglySorted_last_two lex_le _ _ _ _ HS Hk).
Qed.

(** C34 analyze_growth_trends_latest_months: with two months or more,
    [analyze_growth_trends] is [compare_months] of two rows of the
    monthly query for different months: [recent], the latest month with
    a post, and [previous], the latest month before it. *)
Theorem analyze_growth_trends_latest_months ids posts :
  (2 <= length (monthly_growth ids posts))%nat ->
  exists previous recent,
    analyze_growth_trends ids posts = compare_months previous recent /\
    previous ∈ monthly_growth ids posts /\ recent ∈ monthly_growth ids posts /\
    month previous <> month recent /\
    forall p, p ∈ scope ids posts ->
      lex_le (month_of p) (month recent) /\
      (month_of p <> month recent -> lex_le (month_of p) (month previous)).
Proof.
  intros Hlen. unfold analyze_growth_trends.
  destruct (Nat.ltb_spec (length (monthly_growth ids posts)) 2) as [Hl|_]; [lia|].
  destruct (rev (monthly_growth ids posts)) as [|recent [|previous rest]] eqn:R;
    [apply (f_equal length) in R; rewrite length_rev in R; simpl in R; lia..|].
  assert (E : monthly_growth ids posts = rev rest ++ [previous; recent]).
  { rewrite <- (rev_involutive (monthly_growth ids posts)), R. simpl. by rewrite <- app_assoc. }
  assert (Hnd : NoDup (map month (monthly_growth ids posts))).
  { rewrite monthly_growth_months, <- group_by_keys. apply group_by_keys_NoDup. }
  exists previous, recent. rewrite E in Hnd |- *. rewrite map_app in Hnd. simpl in Hnd.
  apply NoDup_app in Hnd as (_ & _ & Hnd). apply NoDup_cons in Hnd as [Hnin _].
  split_and!; [done|set_solver|set_solver|by intros Heq; apply Hnin; rewrite Heq; left|].
  apply (monthly_growth_last_two ids posts (rev rest)). by rewrite <- E.
Qed.

(** the report's
    performance insight agrees with its label (improved only when
    improving, declined only when declining), and there are at most two
    insights. *)
Theorem analyze_growth_trends_insights_consistent ids posts label sg eg ins :
  analyze_growth_trends ids posts = Ok (TrendReport label sg eg ins) ->
  (forall x, PerformanceImproved x ∈ ins -> label = Improving) /\
  (forall x, PerformanceDeclined x ∈ ins -> label = Declining) /\
  (length ins <= 2)%nat.
Proof.
  intros H.
  assert (Hc : exists p r, compare_months p r = Ok (TrendReport label sg eg ins)).
  { unfold analyze_growth_trends in H.
    destruct (_ <? _)%nat; [discriminate|].
    destruct (rev _) as [|r [|p rest]]; [discriminate|discriminate|eauto]. }
  destruct Hc as (p & r & (sc & ec & [= -> _ _ ->])%compare_months_Ok).
  unfold score_insights, engagement_insights, classify.
  destruct (Qlt_le_dec 10 sc), (Qlt_le_dec sc (-10)), (Qlt_le_dec 5 sc), (Qlt_le_dec sc (-5));
  destruct (Qlt_le_dec 15 ec), (Qlt_le_dec ec (-15));
    (split; [|split]); try (intros x Hx; set_solver); simpl; try lia; try lra.
Qed.

(** two months averaging 10 then 12:
    +20% is ['improving'] with the insight "Performance improved 20.0%". *)
Example analyze_growth_trends_example :
  analyze_growth_trends [1%Z]
    [sample_post 1 1 "Reel" (mkDate 2024 1 5) "10:00" None None 10 4;
     sample_post 2 1 "Reel" (mkDate 2024 2 5) "10:00" None None 12 4] =
  Ok (TrendReport Improving 20 0 [PerformanceImproved 20]).
Proof. vm_compute. reflexivity. Qed.

(** ** Witnesses *)

Lemma analyze_growth_trends_single_month_witness :
  (forall p q, p ∈ scope [1%Z] [sample_p2; sample_p3] -> q ∈ scope [1%Z] [sample_p2; sample_p3] ->
     month_of p = month_of q) /\
  analyze_growth_trends [1%Z] [sample_p2; sample_p3] = Ok InsufficientData.
Proof.
  assert (H : forall p q, p ∈ scope [1%Z] [sample_p2; sample_p3] -> q ∈ scope [1%Z] [sample_p2; sample_p3] ->
                month_of p = month_of q).
  { change (scope [1%Z] [sample_p2; sample_p3]) with [sample_p2; sample_p3].
    intros p q Hp Hq. rewrite !elem_of_cons in Hp, Hq.
    destruct Hp as [->| [->|[]%not_elem_of_nil]], Hq as [->| [->|[]%not_elem_of_nil]]; reflexivity. }
  split; [exact H|exact (analyze_growth_trends_single_month _ _ H)].
Defined.

Lemma analyze_growth_trends_latest_months_witness :
  (2 <= length (monthly_growth [1%Z] sample_history))%nat /\
  exists previous recent,
    analyze_growth_trends [1%Z] sample_history = compare_months previous recent /\
    previous ∈ monthly_growth [1%Z] sample_history /\ recent ∈ monthly_growth [1%Z] sample_history /\
    month previous <> month recent /\
    forall p, p ∈ scope [1%Z] sample_history ->
      lex_le (month_of p) (month recent) /\
      (month_of p <> month recent -> lex_le (month_of p) (month previous)).
Proof.
  assert (H : (2 <= length (monthly_growth [1%Z] sample_history))%nat) by (vm_compute; lia).
  split; [exact H|exact (analyze_growth_trends_latest_months _ _ H)].
Defined.

Lemma analyze_growth_trends_insights_consistent_witness :
  analyze_growth_trends [1%Z] sample_history =
    Ok (TrendReport Declining (-80) (-357 # 5) [PerformanceDeclined 80; EngagementDown (357 # 5)]) /\
  (forall x, PerformanceImproved x ∈ [PerformanceDeclined 80; EngagementDown (357 # 5)] -> Declining = Improving) /\
  (forall x, PerformanceDeclined x ∈ [PerformanceDeclined 80; EngagementDown (357 # 5)] -> Declining = Declining) /\
  (length [PerformanceDeclined 80; EngagementDown (357 # 5)] <= 2)%nat.
Proof.
  assert (H : analyze_growth_trends [1%Z] sample_history =
    Ok (TrendReport Declining (-80) (-357 # 5) [PerformanceDeclined 80; EngagementDown (357 # 5)]))
    by (vm_compute; reflexivity).
  split; [exact H|exact (analyze_growth_trends_insights_consistent _ _ _ _ _ _ H)].
Defined.

End Trends.
