(* ===== verification/Recommend.v ===== *)
(** * RecommendationEngine: [generate_smart_recommendations] (src/app.py, lines 263-370)

    Four independent heuristics, each one SQL query over the scoped posts
    and at most one recommendation, concatenated in the code's order:
    - timing (lines 268-288): hours ([post_hour]) with at least two posts,
      by average weighted engagement descending; the first one;
    - content (lines 291-311): post types by average score descending;
      the first is recommended when it exceeds the last by the factor 1.2;
    - caption (lines 314-337): captions bucketed by [LENGTH(caption)] into
      'Short' (< 50), 'Medium' (< 150) and 'Long'; the best bucket when it
      has at least three posts;
    - frequency (lines 340-368): posts per [strftime('%Y-%W')] week since
      [date('now', '-8 weeks')], the last four weeks; fewer than three
      posts a week on average or more than seven gives advice.
    Titles and descriptions are f-strings; they are kept as the data they
    show ([rec_body]), each figure with its one-decimal rounding.  The
    order of rows with equal averages is SQLite's; the model keeps them in
    key order.  Averages of non-empty groups are never NULL
    ([group_avg_some]), so [f"{None:.1f}"] does not arise. *)

From Stdlib Require Import ZArith QArith Lqa Sorted.
From stdpp Require Import base list strings sorting sets.
From S2P Require Import Prelude Sql Calendar Post.

Module Recommend.

Open Scope Q_scope.

Inductive rec_type := Timing | Content | CaptionLength | Frequency.

(** What the title and description of each recommendation show. *)
Inductive rec_body :=
  | PostAt (hour : Z) (avg_engagement : Q) (post_count : Z)
  | FocusOn (best_type : string) (best_score worst_score : Q) (worst_type : string)
  | CaptionsPerformBest (caption_length : string) (avg_engagement : Q)
  | PostMoreOften (avg_posts : Q)
  | QualityOverQuantity (avg_posts : Q).

Record recommendation := mkRec { rtype : rec_type; rpriority : priority; body : rec_body }.

(** A row of a grouped query: key, average, count. *)
Record agg_row (K : Type) := mkAgg { key : K; avg : Q; count : Z }.
Arguments mkAgg {K}. Arguments key {K}. Arguments avg {K}. Arguments count {K}.

(** The average of a non-empty group. *)
Definition group_avg (l : list Q) : Q := match sql_avg l with Some a => a | None => 0 end.

(** [SELECT key, AVG(f), COUNT( * ) ... GROUP BY key]. *)
Definition aggregate {K} `{EqDecision K} `{SqlOrd K} (k : Post -> K) (f : Post -> Q)
    (rows : list Post) : list (agg_row K) :=
  map (fun '(kv, g) => mkAgg kv (group_avg (map f g)) (Z.of_nat (length g))) (group_by k rows).

(** *** Timing *)

Definition timing_rows (project_ids : list Z) (posts : list Post) : list (agg_row Z) :=
  take 3 (order_by_desc avg
    (filter (fun r => (2 <= count r)%Z) (aggregate post_hour engagement_rate_weighted (scope project_ids posts)))).

Definition timing_recommendation (project_ids : list Z) (posts : list Post) : option recommendation :=
  match timing_rows project_ids posts with
  | best :: _ => Some (mkRec Timing High (PostAt (key best) (py_round 1 (avg best)) (count best)))
  | [] => None
  end.

(** *** Content type *)

Definition content_rows (project_ids : list Z) (posts : list Post) : list (agg_row string) :=
  order_by_desc avg (aggregate post_type performance_score (scope project_ids posts)).

Definition content_recommendation (project_ids : list Z) (posts : list Post) : option recommendation :=
  let rows := content_rows project_ids posts in
  match rows, last rows with
  | best :: _ :: _, Some worst =>
      if Qlt_le_dec (avg worst * (12 # 10)) (avg best) then
        Some (mkRec Content Medium
                (FocusOn (key best) (py_round 1 (avg best)) (py_round 1 (avg worst)) (key worst)))
      else None
  | _, _ => None
  end.

(** *** Caption length *)

Definition caption_bucket (c : string) : string :=
  if bool_decide (String.length c < 50)%nat then "Short"
  else if bool_decide (String.length c < 150)%nat then "Medium" else "Long".

Definition caption_bucket_of (p : Post) : string :=
  match caption p with Some c => caption_bucket c | None => "" end.

Definition caption_rows (project_ids : list Z) (posts : list Post) : list (agg_row string) :=
  order_by_desc avg
    (aggregate caption_bucket_of engagement_rate_weighted
       (filter (fun p => is_Some (caption p)) (scope project_ids posts))).

Definition caption_recommendation (project_ids : list Z) (posts : list Post) : option recommendation :=
  match caption_rows project_ids posts with
  | best :: _ => if (3 <=? count best)%Z
                 then Some (mkRec CaptionLength Low (CaptionsPerformBest (key best) (py_round 1 (avg best))))
                 else None
  | [] => None
  end.

(** *** Posting frequency *)

(** [post_date >= bound]: text comparison, false against NULL. *)
Definition date_ge_opt (d : Date) (bound : option Date) : bool :=
  match bound with Some b => bool_decide (date_le b d) | None => false end.

(** The counts of [... GROUP BY week ORDER BY week DESC LIMIT 4]. *)
Definition frequency_weeks (now : DateTime) (project_ids : list Z) (posts : list Post) : list Z :=
  let bound := date_modify now "-8 weeks" in
  let window := filter (fun p => date_ge_opt (post_date p) bound = true) (scope project_ids posts) in
  map (fun '(_, g) => Z.of_nat (length g)) (take 4 (rev (group_by (fun p => week_key (post_date p)) window))).

(** Lines 353-368: the advice from the weekly counts. *)
Definition frequency_advice (weeks : list Z) : option recommendation :=
  if (3 <=? length weeks)%nat then
    let avg_posts := inject_Z (sumZ weeks) / inject_Z (Z.of_nat (length weeks)) in
    if Qlt_le_dec avg_posts 3 then Some (mkRec Frequency Medium (PostMoreOften (py_round 1 avg_posts)))
    else if Qlt_le_dec 7 avg_posts then Some (mkRec Frequency Low (QualityOverQuantity (py_round 1 avg_posts)))
    else None
  else None.

Definition frequency_recommendation (now : DateTime) (project_ids : list Z) (posts : list Post) : option recommendation :=
  frequency_advice (frequency_weeks now project_ids posts).

(** *** The four heuristics in order *)

Definition option_to_list {T} (o : option T) : list T := match o with Some x => [x] | None => [] end.

Definition generate_smart_recommendations (now : DateTime) (project_ids : list Z) (posts : list Post)
    : list recommendation :=
  option_to_list (timing_recommendation project_ids posts) ++
  option_to_list (content_recommendation project_ids posts) ++
  option_to_list (caption_recommendation project_ids posts) ++
  option_to_list (frequency_recommendation now project_ids posts).

(** ** Lemmas *)

Section AggLemmas.
Context {K : Type} `{EqDecision K} `{SqlOrd K}.

Lemma elem_of_aggregate (k : Post -> K) (f : Post -> Q) (rows : list Post) r :
  r ∈ aggregate k f rows <->
  exists kv g, (kv, g) ∈ group_by k rows /\ r = mkAgg kv (group_avg (map f g)) (Z.of_nat (length g)).
Proof.
  unfold aggregate. rewrite list_elem_of_fmap. split.
  - intros ([kv g] & -> & Hg). eauto.
  - intros (kv & g & Hg & ->). by exists (kv, g).
Qed.

Lemma aggregate_keys (k : Post -> K) (f : Post -> Q) (rows : list Post) :
  map key (aggregate k f rows) = map fst (group_by k rows).
Proof. unfold aggregate. rewrite map_map. apply map_ext. by intros [kv g]. Qed.
End AggLemmas.

Lemma take_cons_inv {T} n (l : list T) x rest : take n l = x :: rest -> exists l', l = x :: l'.
Proof. destruct n, l; simpl; try discriminate. intros [= -> _]. eauto. Qed.

(** The first row of an [ORDER BY avg DESC] over [rows] is one of [rows]
    and has the greatest average. *)
Lemma order_by_desc_head {K} (rows : list (agg_row K)) best rest :
  order_by_desc avg rows = best :: rest -> best ∈ rows /\ forall r, r ∈ rows -> avg r <= avg best.
Proof.
  intros E. split.
  - rewrite <- (order_by_desc_perm avg rows), E. set_solver.
  - by apply (order_by_desc_head_max avg rows best rest).
Qed.

Lemma frequency_weeks_nil now ids posts : frequency_weeks now ids posts = [].
Proof.
  unfold frequency_weeks.
  assert (Hb : date_modify now "-8 weeks" = None) by reflexivity. rewrite Hb.
  unfold date_ge_opt. rewrite filter_none; [done|].
  apply Forall_forall. intros p _. discriminate.
Qed.

Lemma length_two_elems {T} (l : list T) x y : x ∈ l -> y ∈ l -> x <> y -> (2 <= length l)%nat.
Proof.
  destruct l as [|a [|b l]]; simpl; [set_solver| |lia].
  rewrite !list_elem_of_singleton. congruence.
Qed.

(** The head and the last row of a list of two or more rows with distinct
    keys have different keys. *)
Lemma head_last_keys {K} (l : list (agg_row K)) a b rest w :
  NoDup (map key l) -> l = a :: b :: rest -> last l = Some w -> key a <> key w.
Proof.
  intros Hnd -> Hw. simpl in Hnd. apply NoDup_cons in Hnd as [Hnin _].
  rewrite last_cons_cons in Hw. apply last_Some_elem_of in Hw.
  intros Hk. apply Hnin. rewrite Hk. change (key w ∈ map key (b :: rest)).
  apply list_elem_of_fmap. eauto.
Qed.

Lemma content_rows_keys ids posts : NoDup (map key (content_rows ids posts)).
Proof.
  unfold content_rows. rewrite (order_by_desc_perm avg). rewrite aggregate_keys.
  apply group_by_keys_NoDup.
Qed.

Lemma elem_of_content_rows ids posts r :
  r ∈ content_rows ids posts <-> r ∈ aggregate post_type performance_score (scope ids posts).
Proof. unfold content_rows. by rewrite (order_by_desc_perm avg). Qed.

Lemma elem_of_option_to_list {T} (o : option T) x : x ∈ option_to_list o <-> o = Some x.
Proof.
  destruct o; simpl; [rewrite list_elem_of_singleton; split; congruence|].
  split; [by intros ?%not_elem_of_nil|discriminate].
Qed.

Lemma elem_of_generate now ids posts r :
  r ∈ generate_smart_recommendations now ids posts <->
  timing_recommendation ids posts = Some r \/ content_recommendation ids posts = Some r \/
  caption_recommendation ids posts = Some r \/ frequency_recommendation now ids posts = Some r.
Proof. unfold generate_smart_recommendations. by rewrite !elem_of_app, !elem_of_option_to_list. Qed.

(** ** Properties *)

(** the timing advice names an hour with
    at least two posts whose average weighted engagement is the greatest
    among all such hours, with that average and that post count. *)
Theorem timing_recommendation_best ids posts r :
  timing_recommendation ids posts = Some r ->
  exists h g, (h, g) ∈ group_by post_hour (scope ids posts) /\ (2 <= length g)%nat /\
    r = mkRec Timing High (PostAt h (py_round 1 (group_avg (map engagement_rate_weighted g)))
                                  (Z.of_nat (length g))) /\
    forall h' g', (h', g') ∈ group_by post_hour (scope ids posts) -> (2 <= length g')%nat ->
      group_avg (map engagement_rate_weighted g') <= group_avg (map engagement_rate_weighted g).
Proof.
  unfold timing_recommendation, timing_rows.
  destruct (take 3 _) as [|best rest] eqn:E; [discriminate|]. intros [= <-].
  apply take_cons_inv in E as [l' E].
  apply order_by_desc_head in E as [Hin Hmax].
  apply list_elem_of_filter in Hin as [Hc Hin].
  apply elem_of_aggregate in Hin as (h & g & Hg & ->). simpl in Hc |- *.
  exists h, g. split; [done|]. split; [lia|]. split; [done|].
  intros h' g' Hg' Hlen.
  apply (Hmax (mkAgg h' (group_avg (map engagement_rate_weighted g')) (Z.of_nat (length g')))).
  apply list_elem_of_filter. split; [simpl; lia|]. apply elem_of_aggregate. eauto.
Qed.

(** the content advice is given
    exactly when two different post types have averages [a1 > 1.2 * a2]. *)
Theorem content_recommendation_emitted ids posts :
  is_Some (content_recommendation ids posts) <->
  exists t1 g1 t2 g2,
    (t1, g1) ∈ group_by post_type (scope ids posts) /\ (t2, g2) ∈ group_by post_type (scope ids posts) /\
    t1 <> t2 /\
    group_avg (map performance_score g2) * (12 # 10) < group_avg (map performance_score g1).
Proof.
  unfold content_recommendation. split.
  - destruct (content_rows ids posts) as [|best [|b rest]] eqn:E; [by intros [? ?]..|].
    destruct (last (best :: b :: rest)) as [worst|] eqn:Ew; [|by intros [? ?]].
    destruct (Qlt_le_dec (avg worst * (12 # 10)) (avg best)) as [Hlt|]; [|by intros [? ?]]. intros _.
    pose proof (head_last_keys _ _ _ _ _ (content_rows_keys ids posts) E
                  (eq_trans (f_equal (@last _) E) Ew)) as Hk.
    assert (Hb : best ∈ content_rows ids posts) by (rewrite E; set_solver).
    assert (Hw : worst ∈ content_rows ids posts) by (rewrite E; by apply last_Some_elem_of).
    apply elem_of_content_rows, elem_of_aggregate in Hb as (t1 & g1 & Hg1 & ->).
    apply elem_of_content_rows, elem_of_aggregate in Hw as (t2 & g2 & Hg2 & ->).
    exists t1, g1, t2, g2. eauto.
  - intros (t1 & g1 & t2 & g2 & Hg1 & Hg2 & Hne & Hlt).
    set (A := aggregate post_type performance_score (scope ids posts)).
    set (r1 := mkAgg t1 (group_avg (map performance_score g1)) (Z.of_nat (length g1))).
    set (r2 := mkAgg t2 (group_avg (map performance_score g2)) (Z.of_nat (length g2))).
    assert (H1 : r1 ∈ A) by (apply elem_of_aggregate; eauto).
    assert (H2 : r2 ∈ A) by (apply elem_of_aggregate; eauto).
    pose proof (length_two_elems _ _ _ (proj2 (elem_of_content_rows _ _ _) H1)
                  (proj2 (elem_of_content_rows _ _ _) H2) ltac:(by intros [= ? _])) as Hlen.
    destruct (content_rows ids posts) as [|best [|b rest]] eqn:E; simpl in Hlen; [lia|lia|].
    destruct (last (best :: b :: rest)) as [worst|] eqn:Ew;
      [|by rewrite last_cons_cons, last_None in Ew].
    pose proof (order_by_desc_head_max avg A best (b :: rest) E r1 H1) as Hmax.
    pose proof (order_by_desc_last_min avg A worst (eq_trans (f_equal (@last _) E) Ew) r2 H2) as Hmin.
    simpl in Hmax, Hmin.
    destruct (Qlt_le_dec (avg worst * (12 # 10)) (avg best)); [done|]. lra.
Qed.

(** the caption advice names the
    caption-length bucket with the greatest average weighted engagement
    among captioned posts, and only when that bucket has three or more
    posts. *)
Theorem caption_recommendation_best ids posts r :
  caption_recommendation ids posts = Some r ->
  let captioned := filter (fun p => is_Some (caption p)) (scope ids posts) in
  exists b g, (b, g) ∈ group_by caption_bucket_of captioned /\ (3 <= length g)%nat /\
    r = mkRec CaptionLength Low (CaptionsPerformBest b (py_round 1 (group_avg (map engagement_rate_weighted g)))) /\
    forall b' g', (b', g') ∈ group_by caption_bucket_of captioned ->
      group_avg (map engagement_rate_weighted g') <= group_avg (map engagement_rate_weighted g).
Proof.
  intros H captioned. unfold caption_recommendation, caption_rows in H. fold captioned in H.
  destruct (order_by_desc avg _) as [|best rest] eqn:E; [discriminate|].
  destruct (Z.leb_spec 3 (count best)) as [Hc|]; [|discriminate]. injection H as <-.
  apply order_by_desc_head in E as [Hin Hmax].
  apply elem_of_aggregate in Hin as (b & g & Hg & ->). simpl in Hc |- *.
  exists b, g. split; [done|]. split; [lia|]. split; [done|].
  intros b' g' Hg'.
  apply (Hmax (mkAgg b' (group_avg (map engagement_rate_weighted g')) (Z.of_nat (length g')))).
  apply elem_of_aggregate. eauto.
Qed.

(** given three or more weekly counts,
    the frequency advice is "post more" below 3 posts a week on average,
    "quality over quantity" above 7, and nothing from 3 to 7 inclusive. *)
Theorem frequency_advice_thresholds weeks :
  (3 <= length weeks)%nat ->
  let a := inject_Z (sumZ weeks) / inject_Z (Z.of_nat (length weeks)) in
  (a < 3 -> frequency_advice weeks = Some (mkRec Frequency Medium (PostMoreOften (py_round 1 a)))) /\
  (3 <= a <= 7 -> frequency_advice weeks = None) /\
  (7 < a -> frequency_advice weeks = Some (mkRec Frequency Low (QualityOverQuantity (py_round 1 a)))).
Proof.
  intros Hlen a. unfold frequency_advice. fold a.
  destruct (Nat.leb_spec 3 (length weeks)); [|lia].
  destruct (Qlt_le_dec a 3), (Qlt_le_dec 7 a); repeat split; intros; try done; lra.
Qed.

(** C4 frequency_never_recommended: [date('now', '-8 weeks')] is NULL in
    SQLite (there is no 'weeks' unit), so the window [post_date >= NULL]
    is empty and no frequency recommendation is ever produced. *)
Theorem frequency_never_recommended now ids posts r :
  r ∈ generate_smart_recommendations now ids posts -> rtype r <> Frequency.
Proof.
  rewrite elem_of_generate. unfold frequency_recommendation. rewrite frequency_weeks_nil.
  unfold timing_recommendation, content_recommendation, caption_recommendation.
  intros [H|[H|[H|H]]]; [..|discriminate].
  - destruct (timing_rows ids posts); [discriminate|]. by injection H as <-.
  - destruct (content_rows ids posts) as [|? [|? ?]]; [discriminate..|].
    destruct (last _); [|discriminate]. destruct (Qlt_le_dec _ _); [|discriminate]. by injection H as <-.
  - destruct (caption_rows ids posts); [discriminate|]. destruct (3 <=? _)%Z; [|discriminate].
    by injection H as <-.
Qed.

(** at most one recommendation per heuristic,
    in the order timing, content, caption, frequency, each with the
    heuristic's fixed priority (high, medium, low, medium or low). *)
Theorem recommendations_policy now ids posts :
  let recs := generate_smart_recommendations now ids posts in
  sublist (map rtype recs) [Timing; Content; CaptionLength; Frequency] /\
  Forall (fun r => rpriority r = match rtype r with
                                 | Timing => High | Content => Medium | CaptionLength => Low
                                 | Frequency => rpriority r end /\
                   (rtype r = Frequency -> rpriority r = Medium \/ rpriority r = Low)) recs.
Proof.
  assert (Ht : forall r, timing_recommendation ids posts = Some r -> rtype r = Timing /\ rpriority r = High).
  { unfold timing_recommendation. intros r. destruct (timing_rows ids posts); [discriminate|]. by intros [= <-]. }
  assert (Hc : forall r, content_recommendation ids posts = Some r -> rtype r = Content /\ rpriority r = Medium).
  { unfold content_recommendation. intros r. destruct (content_rows ids posts) as [|? [|? ?]]; [discriminate..|].
    destruct (last _); [|discriminate]. destruct (Qlt_le_dec _ _); [|discriminate]. by intros [= <-]. }
  assert (Hp : forall r, caption_recommendation ids posts = Some r -> rtype r = CaptionLength /\ rpriority r = Low).
  { unfold caption_recommendation. intros r. destruct (caption_rows ids posts); [discriminate|].
    destruct (3 <=? _)%Z; [|discriminate]. by intros [= <-]. }
  assert (Hf : forall r, frequency_recommendation now ids posts = Some r ->
                 rtype r = Frequency /\ (rpriority r = Medium \/ rpriority r = Low)).
  { unfold frequency_recommendation, frequency_advice. intros r.
    destruct (3 <=? _)%nat; [|discriminate].
    destruct (Qlt_le_dec _ 3); [intros [= <-]; simpl; auto|].
    destruct (Qlt_le_dec 7 _); [intros [= <-]; simpl; auto|discriminate]. }
  intros recs. split.
  - unfold recs, generate_smart_recommendations. rewrite !map_app.
    destruct (timing_recommendation ids posts) as [t|] eqn:Et;
      cbn [option_to_list map app]; [rewrite (proj1 (Ht t eq_refl)); apply sublist_skip|apply sublist_cons];
    (destruct (content_recommendation ids posts) as [c|] eqn:Ec;
      cbn [option_to_list map app]; [rewrite (proj1 (Hc c eq_refl)); apply sublist_skip|apply sublist_cons]);
    (destruct (caption_recommendation ids posts) as [p|] eqn:Ep;
      cbn [option_to_list map app]; [rewrite (proj1 (Hp p eq_refl)); apply sublist_skip|apply sublist_cons]);
    (destruct (frequency_recommendation now ids posts) as [f|] eqn:Ef;
      cbn [option_to_list map app]; [rewrite (proj1 (Hf f eq_refl)); apply sublist_skip|apply sublist_cons]);
    apply sublist_nil_l.
  - apply Forall_forall. intros r Hr. apply elem_of_generate in Hr as [H|[H|[H|H]]].
    + destruct (Ht r H) as [-> ->]. split; [done|discriminate].
    + destruct (Hc r H) as [-> ->]. split; [done|discriminate].
    + destruct (Hp r H) as [-> ->]. split; [done|discriminate].
    + destruct (Hf r H) as [-> Hpr]. split; [done|auto].
Qed.

(** with no post in scope there is no
    recommendation. *)
Theorem recommendations_empty_history now ids posts :
  scope ids posts = [] -> generate_smart_recommendations now ids posts = [].
Proof.
  intros Hs. unfold generate_smart_recommendations, timing_recommendation, timing_rows,
    content_recommendation, content_rows, caption_recommendation, caption_rows,
    frequency_recommendation. rewrite frequency_weeks_nil, Hs. reflexivity.
Qed.

(** two post types averaging 12 and
    10 differ by exactly 20%: the code's strict [> worst * 1.2] gives no
    content advice, where the spec's "by >= 20%" gives one. *)
Example content_recommendation_boundary :
  content_recommendation [1%Z]
    [sample_post 1 1 "Reel" (mkDate 2024 2 5) "10:00" None None 12 4;
     sample_post 2 1 "Image" (mkDate 2024 2 6) "18:00" None None 10 4] = None.
Proof. vm_compute. reflexivity. Qed.

(** ** Witnesses *)

Lemma timing_recommendation_best_witness :
  timing_recommendation [1%Z] sample_history = Some (mkRec Timing High (PostAt 10 6 3)) /\
  exists h g, (h, g) ∈ group_by post_hour (scope [1%Z] sample_history) /\ (2 <= length g)%nat /\
    mkRec Timing High (PostAt 10 6 3) =
      mkRec Timing High (PostAt h (py_round 1 (group_avg (map engagement_rate_weighted g))) (Z.of_nat (length g))) /\
    forall h' g', (h', g') ∈ group_by post_hour (scope [1%Z] sample_history) -> (2 <= length g')%nat ->
      group_avg (map engagement_rate_weighted g') <= group_avg (map engagement_rate_weighted g).
Proof.
  assert (H : timing_recommendation [1%Z] sample_history = Some (mkRec Timing High (PostAt 10 6 3)))
    by (vm_compute; reflexivity).
  split; [exact H|exact (timing_recommendation_best _ _ _ H)].
Defined.

Lemma caption_recommendation_best_witness :
  caption_recommendation [1%Z] sample_history = Some (mkRec CaptionLength Low (CaptionsPerformBest "Short" 5)) /\
  let captioned := filter (fun p => is_Some (caption p)) (scope [1%Z] sample_history) in
  exists b g, (b, g) ∈ group_by caption_bucket_of captioned /\ (3 <= length g)%nat /\
    mkRec CaptionLength Low (CaptionsPerformBest "Short" 5) =
      mkRec CaptionLength Low (CaptionsPerformBest b (py_round 1 (group_avg (map engagement_rate_weighted g)))) /\
    forall b' g', (b', g') ∈ group_by caption_bucket_of captioned ->
      group_avg (map engagement_rate_weighted g') <= group_avg (map engagement_rate_weighted g).
Proof.
  assert (H : caption_recommendation [1%Z] sample_history =
              Some (mkRec CaptionLength Low (CaptionsPerformBest "Short" 5))) by (vm_compute; reflexivity).
  split; [exact H|exact (caption_recommendation_best _ _ _ H)].
Defined.

Lemma frequency_advice_thresholds_witness :
  (3 <= length [2; 2; 2]%Z)%nat /\
  frequency_advice [2; 2; 2]%Z = Some (mkRec Frequency Medium (PostMoreOften 2)) /\
  frequency_advice [8; 8; 8]%Z = Some (mkRec Frequency Low (QualityOverQuantity 8)) /\
  frequency_advice [3; 7; 5]%Z = None.
Proof.
  assert (H2 : (3 <= length [2; 2; 2]%Z)%nat) by (simpl; lia).
  destruct (frequency_advice_thresholds [2; 2; 2]%Z H2) as [Hlow _].
  destruct (frequency_advice_thresholds [8; 8; 8]%Z ltac:(simpl; lia)) as (_ & _ & Hhigh).
  destruct (frequency_advice_thresholds [3; 7; 5]%Z ltac:(simpl; lia)) as (_ & Hmid & _).
  split; [exact H2|split; [|split]].
  - rewrite (Hlow ltac:(vm_compute; reflexivity)). vm_compute. reflexivity.
  - rewrite (Hhigh ltac:(vm_compute; reflexivity)). vm_compute. reflexivity.
  - apply Hmid. vm_compute. split; discriminate.
Defined.

Lemma frequency_never_recommended_witness :
  mkRec Timing High (PostAt 10 6 3) ∈ generate_smart_recommendations sample_now [1%Z] sample_history /\
  rtype (mkRec Timing High (PostAt 10 6 3)) <> Frequency.
Proof.
  assert (H : mkRec Timing High (PostAt 10 6 3) ∈ generate_smart_recommendations sample_now [1%Z] sample_history).
  { apply elem_of_generate. left. vm_compute. reflexivity. }
  split; [exact H|exact (frequency_never_recommended _ _ _ _ H)].
Defined.

Lemma recommendations_empty_history_witness :
  scope [2%Z] sample_history = [] /\ generate_smart_recommendations sample_now [2%Z] sample_history = [].
Proof.
  assert (H : scope [2%Z] sample_history = []) by reflexivity.
  split; [exact H|exact (recommendations_empty_history _ _ _ H)].
Defined.

End Recommend.
