(* ===== verification/Alerts.v ===== *)
(** * AlertEngine: [check_performance_alerts] (src/app.py, lines 372-449)

    The scoped posts are split at [date('now', '-7 days')]: the recent ones
    ([date(post_date) >= ...], newest first) and the historical ones
    ([< ...]), whose average score is the baseline.  No recent post, or a
    NULL or 0.0 baseline, gives no alert.  Each recent post scoring below
    0.7 times the baseline is 'underperforming' (medium), else above 1.5
    times it 'outperforming' (low).  Then one recent post adds the
    'Low posting frequency' alert (medium); the 'No posts this week'
    branch (high) is guarded by [len(recent_posts) == 0], which the early
    return has already excluded.  The caption preview is
    [caption[:40] + '...'] for a non-empty caption, else 'No caption'. *)

From Stdlib Require Import ZArith QArith Lqa.
From stdpp Require Import base list strings sorting sets.
From S2P Require Import Prelude Sql Calendar Post.

Module Alerts.

Open Scope Q_scope.

Inductive alert :=
  | Underperforming (post_id : Z) (post_type : string) (score avg : Q) (date : Date) (caption_preview : string)
  | Outperforming (post_id : Z) (post_type : string) (score avg : Q) (date : Date) (caption_preview : string)
  | NoPostsThisWeek
  | LowPostingFrequency.

Definition alert_priority (a : alert) : priority :=
  match a with
  | Underperforming _ _ _ _ _ _ => Medium
  | Outperforming _ _ _ _ _ _ => Low
  | NoPostsThisWeek => High
  | LowPostingFrequency => Medium
  end.

(** [post['caption'][:40] + '...' if post['caption'] else 'No caption']. *)
Definition caption_preview (c : option string) : string :=
  match c with
  | None | Some EmptyString => "No caption"
  | Some s => String.substring 0 40 s +:+ "..."
  end.

(** [date(post_date) >= bound] and [date(post_date) < bound]; false on NULL. *)
Definition is_recent (bound : option Date) (p : Post) : bool :=
  match bound with Some b => bool_decide (date_le b (post_date p)) | None => false end.
Definition is_historical (bound : option Date) (p : Post) : bool :=
  match bound with Some b => negb (bool_decide (date_le b (post_date p))) | None => false end.

(** [ORDER BY post_date DESC]. *)
Definition by_date_desc : relation Post := fun a b => date_le (post_date b) (post_date a).
#[export] Instance by_date_desc_dec : RelDecision by_date_desc :=
  fun a b => decide (date_le (post_date b) (post_date a)).

(** It is [ORDER BY] on the date column, descending, so a total preorder. *)
#[export] Instance by_date_desc_total : Total by_date_desc := order_rel_total post_date true.
#[export] Instance by_date_desc_trans : Transitive by_date_desc := order_rel_trans post_date true.

Definition recent_posts (now : DateTime) (project_ids : list Z) (posts : list Post) : list Post :=
  merge_sort by_date_desc (filter (fun p => is_recent (date_modify now "-7 days") p = true) (scope project_ids posts)).

Definition historical_avg (now : DateTime) (project_ids : list Z) (posts : list Post) : option Q :=
  sql_avg (map performance_score
    (filter (fun p => is_historical (date_modify now "-7 days") p = true) (scope project_ids posts))).

(** The alert of one recent post against the baseline [avg_score]. *)
Definition post_alert (avg_score : Q) (p : Post) : option alert :=
  let mk := fun k => k (id p) (post_type p) (py_round 1 (performance_score p)) (py_round 1 avg_score)
                       (post_date p) (caption_preview (caption p)) in
  if Qlt_le_dec (performance_score p) (avg_score * (7 # 10)) then Some (mk Underperforming)
  else if Qlt_le_dec (avg_score * (15 # 10)) (performance_score p) then Some (mk Outperforming)
  else None.

Definition frequency_alerts (recent : list Post) : list alert :=
  match recent with
  | [] => [NoPostsThisWeek]
  | [_] => [LowPostingFrequency]
  | _ => []
  end.

Definition check_performance_alerts (now : DateTime) (project_ids : list Z) (posts : list Post) : list alert :=
  let recent := recent_posts now project_ids posts in
  match recent with
  | [] => []
  | _ =>
      match historical_avg now project_ids posts with
      | None => []
      | Some avg_score =>
          if Qeq_bool avg_score 0 then []
          else omap (post_alert avg_score) recent ++ frequency_alerts recent
      end
  end.

(** ** Lemmas *)

(** [date('now', '-7 days')] is the date seven days before now. *)
Lemma seven_days_ago now : date_modify now "-7 days" = Some (civil_from_days (dt_days now - 7)).
Proof. reflexivity. Qed.

Lemma elem_of_recent_posts now ids posts p :
  p ∈ recent_posts now ids posts <->
  p ∈ scope ids posts /\ date_le (civil_from_days (dt_days now - 7)) (post_date p).
Proof.
  unfold recent_posts. rewrite merge_sort_Permutation, list_elem_of_filter, seven_days_ago.
  unfold is_recent. rewrite bool_decide_eq_true. tauto.
Qed.

Lemma substring_short (s : string) (n : nat) : (String.length s <= n)%nat -> String.substring 0 n s = s.
Proof.
  revert n. induction s as [|c s IH]; intros [|n] H; simpl in *; [done|done|lia|].
  by rewrite IH by lia.
Qed.

(** The three outcomes of one recent post. *)
Lemma post_alert_cases a p x :
  post_alert a p = Some x ->
  (performance_score p < a * (7 # 10) /\
     x = Underperforming (id p) (post_type p) (py_round 1 (performance_score p)) (py_round 1 a)
                         (post_date p) (caption_preview (caption p))) \/
  (a * (7 # 10) <= performance_score p /\ a * (15 # 10) < performance_score p /\
     x = Outperforming (id p) (post_type p) (py_round 1 (performance_score p)) (py_round 1 a)
                       (post_date p) (caption_preview (caption p))).
Proof.
  unfold post_alert. destruct (Qlt_le_dec _ _); [intros [= <-]; by left|].
  destruct (Qlt_le_dec _ _); [intros [= <-]; by right|discriminate].
Qed.

(** The alerts once a recent post and a non-zero baseline exist. *)
Lemma check_alerts_baseline now ids posts a :
  recent_posts now ids posts <> [] -> historical_avg now ids posts = Some a -> ~ a == 0 ->
  check_performance_alerts now ids posts =
  omap (post_alert a) (recent_posts now ids posts) ++ frequency_alerts (recent_posts now ids posts).
Proof.
  intros Hr Ha Hz. unfold check_performance_alerts.
  destruct (recent_posts now ids posts) as [|q rest]; [done|]. rewrite Ha.
  destruct (Qeq_bool a 0) eqn:E; [apply Qeq_bool_iff in E; contradiction|done].
Qed.

(** Without a recent post or a non-zero baseline there is no alert. *)
Lemma check_alerts_nil now ids posts :
  recent_posts now ids posts = [] \/ historical_avg now ids posts = None \/
  (exists a, historical_avg now ids posts = Some a /\ a == 0) ->
  check_performance_alerts now ids posts = [].
Proof.
  intros H. unfold check_performance_alerts.
  destruct (recent_posts now ids posts) as [|q rest]; [done|].
  destruct H as [H|[H|(a & H & Ha)]]; [discriminate|by rewrite H|rewrite H].
  destruct (Qeq_bool a 0) eqn:E; [done|]. apply Qeq_bool_iff in Ha. congruence.
Qed.

(** ** Properties *)

(** C7 check_alerts_sound: every alert is justified: a post alert is for
    a recent post below 0.7 (underperforming) or, not below it, above 1.5
    (outperforming) times the non-zero historical average it shows; the
    frequency alert means exactly one recent post; and 'No posts this
    week' is never produced. *)
Theorem check_alerts_sound now ids posts x :
  x ∈ check_performance_alerts now ids posts ->
  exists a, historical_avg now ids posts = Some a /\ ~ a == 0 /\
  match x with
  | Underperforming i _ _ av _ _ => av = py_round 1 a /\
      exists p, p ∈ recent_posts now ids posts /\ id p = i /\ performance_score p < a * (7 # 10)
  | Outperforming i _ _ av _ _ => av = py_round 1 a /\
      exists p, p ∈ recent_posts now ids posts /\ id p = i /\
        a * (7 # 10) <= performance_score p /\ a * (15 # 10) < performance_score p
  | LowPostingFrequency => length (recent_posts now ids posts) = 1%nat
  | NoPostsThisWeek => False
  end.
Proof.
  intros Hx.
  destruct (recent_posts now ids posts) as [|q rest] eqn:Er;
    [rewrite check_alerts_nil in Hx by (left; done); by apply not_elem_of_nil in Hx|].
  destruct (historical_avg now ids posts) as [a|] eqn:Ea;
    [|rewrite check_alerts_nil in Hx by (right; left; done); by apply not_elem_of_nil in Hx].
  destruct (Qeq_bool a 0) eqn:Ez;
    [apply Qeq_bool_iff in Ez; rewrite check_alerts_nil in Hx by (right; right; eauto);
     by apply not_elem_of_nil in Hx|].
  assert (Hz : ~ a == 0) by (intros H; apply Qeq_bool_iff in H; congruence).
  rewrite (check_alerts_baseline now ids posts a) in Hx by (by rewrite ?Er).
  rewrite Er in Hx. exists a. split; [done|split; [done|]].
  apply elem_of_app in Hx as [Hx|Hx].
  - apply list_elem_of_omap in Hx as (p & Hp & Hpa).
    apply post_alert_cases in Hpa as [[Hlt ->]|(Hge & Hgt & ->)];
      (split; [done|]); exists p; repeat split; done.
  - destruct rest; simpl in Hx; [|by apply not_elem_of_nil in Hx].
    apply list_elem_of_singleton in Hx as ->. done.
Qed.

(** C8 check_alerts_complete: with a non-zero historical average [a],
    every recent post scoring below [0.7 * a] gets the underperforming
    alert, and every recent post scoring at least [0.7 * a] and above
    [1.5 * a] gets the outperforming alert, each showing the post's id,
    type, score and date, the average and the caption preview. *)
Theorem check_alerts_complete now ids posts a p :
  historical_avg now ids posts = Some a -> ~ a == 0 -> p ∈ recent_posts now ids posts ->
  (performance_score p < a * (7 # 10) ->
     Underperforming (id p) (post_type p) (py_round 1 (performance_score p)) (py_round 1 a)
       (post_date p) (caption_preview (caption p)) ∈ check_performance_alerts now ids posts) /\
  (a * (7 # 10) <= performance_score p -> a * (15 # 10) < performance_score p ->
     Outperforming (id p) (post_type p) (py_round 1 (performance_score p)) (py_round 1 a)
       (post_date p) (caption_preview (caption p)) ∈ check_performance_alerts now ids posts).
Proof.
  intros Ha Hz Hp.
  rewrite (check_alerts_baseline now ids posts a); [|by intros E; rewrite E in Hp; apply not_elem_of_nil in Hp|done|done].
  split; [intros Hlo|intros Hge Hhi]; apply elem_of_app; left; apply list_elem_of_omap; exists p;
    (split; [done|]); unfold post_alert.
  - destruct (Qlt_le_dec _ _); [reflexivity|lra].
  - destruct (Qlt_le_dec (performance_score p) _); [lra|].
    destruct (Qlt_le_dec _ _); [reflexivity|lra].
Qed.

(** a post gets no alert exactly when its score
    is within [0.7, 1.5] times a positive baseline, the underperforming
    alert (medium) below and the outperforming alert (low) above. *)
Theorem post_alert_thresholds a p :
  0 < a ->
  (post_alert a p = None <-> a * (7 # 10) <= performance_score p <= a * (15 # 10)) /\
  (performance_score p < a * (7 # 10) ->
     exists x, post_alert a p = Some x /\ alert_priority x = Medium) /\
  (a * (15 # 10) < performance_score p ->
     exists x, post_alert a p = Some x /\ alert_priority x = Low).
Proof.
  intros Ha. unfold post_alert.
  destruct (Qlt_le_dec (performance_score p) (a * (7 # 10))),
           (Qlt_le_dec (a * (15 # 10)) (performance_score p));
    repeat split; intros; try (eexists; split; [reflexivity|done]); try done; lra.
Qed.

(** when every scoped post is recent there is no
    historical baseline and no alert at all. *)
Theorem alerts_no_baseline now ids posts :
  (forall p, p ∈ scope ids posts -> date_le (civil_from_days (dt_days now - 7)) (post_date p)) ->
  check_performance_alerts now ids posts = [].
Proof.
  intros Hall. apply check_alerts_nil. right. left.
  unfold historical_avg. rewrite seven_days_ago, filter_none; [done|].
  apply Forall_forall. intros p Hp. unfold is_historical.
  rewrite bool_decide_eq_true_2 by (by apply Hall). discriminate.
Qed.

(** A non-empty caption of at most 40
    characters is shown with '...' appended, though nothing was cut
    ([caption[:40] + '...'] binds before the conditional). *)
Theorem caption_preview_short c :
  c <> EmptyString -> (String.length c <= 40)%nat -> caption_preview (Some c) = c +:+ "...".
Proof.
  intros Hne Hlen. destruct c as [|ch c']; [done|]. unfold caption_preview.
  by rewrite substring_short.
Qed.

(** ** Witnesses *)

(** C23 recent_window: the alerts split the posts at
    [date('now', '-7 days')] by comparing ISO date texts; on valid dates
    that is the comparison of day numbers, so a post is recent exactly
    when it is dated at most seven days before today, and historical
    (part of the baseline) exactly when it is older. *)
Theorem recent_window now p :
  valid_date (post_date p) = true ->
  (is_recent (date_modify now "-7 days") p = true <-> (dt_days now - 7 <= days_from_civil (post_date p))%Z) /\
  (is_historical (date_modify now "-7 days") p = true <-> (days_from_civil (post_date p) < dt_days now - 7)%Z).
Proof.
  intros Hv. rewrite seven_days_ago. unfold is_recent, is_historical.
  destruct (civil_from_days_spec (dt_days now - 7)) as [Hb Hd].
  rewrite negb_true_iff, bool_decide_eq_true, bool_decide_eq_false, date_le_days, Hd by done. lia.
Qed.

Definition sample_alert : alert :=
  Underperforming 4 "Image" 5 20 (mkDate 2024 3 12) "hi...".

Lemma check_alerts_sound_witness :
  sample_alert ∈ check_performance_alerts sample_now [1%Z] sample_history /\
  exists a, historical_avg sample_now [1%Z] sample_history = Some a /\ ~ a == 0 /\
    20 = py_round 1 a /\
    exists p, p ∈ recent_posts sample_now [1%Z] sample_history /\ id p = 4%Z /\ performance_score p < a * (7 # 10).
Proof.
  assert (H : sample_alert ∈ check_performance_alerts sample_now [1%Z] sample_history)
    by (assert (E : check_performance_alerts sample_now [1%Z] sample_history = [sample_alert; LowPostingFrequency])
          by (vm_compute; reflexivity); rewrite E; left).
  split; [exact H|exact (check_alerts_sound _ _ _ _ H)].
Defined.

Lemma check_alerts_complete_witness :
  historical_avg sample_now [1%Z] sample_history = Some (60 # 3) /\ ~ (60 # 3) == 0 /\
  sample_p4 ∈ recent_posts sample_now [1%Z] sample_history /\
  performance_score sample_p4 < (60 # 3) * (7 # 10) /\
  sample_alert ∈ check_performance_alerts sample_now [1%Z] sample_history.
Proof.
  assert (H1 : historical_avg sample_now [1%Z] sample_history = Some (60 # 3)) by (vm_compute; reflexivity).
  assert (H2 : ~ (60 # 3) == 0) by (intros E; discriminate E).
  assert (H3 : sample_p4 ∈ recent_posts sample_now [1%Z] sample_history)
    by (assert (E : recent_posts sample_now [1%Z] sample_history = [sample_p4]) by (vm_compute; reflexivity);
        rewrite E; left).
  assert (H4 : performance_score sample_p4 < (60 # 3) * (7 # 10)) by (vm_compute; reflexivity).
  split_and!; [exact H1|exact H2|exact H3|exact H4|].
  assert (E : sample_alert = Underperforming (id sample_p4) (post_type sample_p4)
     (py_round 1 (performance_score sample_p4)) (py_round 1 (60 # 3)) (post_date sample_p4)
     (caption_preview (caption sample_p4))) by (vm_compute; reflexivity).
  rewrite E. exact (proj1 (check_alerts_complete _ _ _ _ _ H1 H2 H3) H4).
Defined.

Lemma post_alert_thresholds_witness :
  0 < 20 /\
  (post_alert 20 sample_p4 = None <-> 20 * (7 # 10) <= performance_score sample_p4 <= 20 * (15 # 10)) /\
  (performance_score sample_p4 < 20 * (7 # 10) ->
     exists x, post_alert 20 sample_p4 = Some x /\ alert_priority x = Medium) /\
  (20 * (15 # 10) < performance_score sample_p4 ->
     exists x, post_alert 20 sample_p4 = Some x /\ alert_priority x = Low).
Proof.
  assert (H : 0 < 20) by lra.
  split; [exact H|exact (post_alert_thresholds 20 sample_p4 H)].
Defined.

Lemma alerts_no_baseline_witness :
  (forall p, p ∈ scope [1%Z] [sample_p4] -> date_le (civil_from_days (dt_days sample_now - 7)) (post_date p)) /\
  check_performance_alerts sample_now [1%Z] [sample_p4] = [].
Proof.
  assert (H : forall p, p ∈ scope [1%Z] [sample_p4] ->
                date_le (civil_from_days (dt_days sample_now - 7)) (post_date p)).
  { change (scope [1%Z] [sample_p4]) with [sample_p4]. intros p Hp.
    apply list_elem_of_singleton in Hp as ->. apply (bool_decide_unpack _). vm_compute. reflexivity. }
  split; [exact H|exact (alerts_no_baseline _ _ _ H)].
Defined.

Lemma caption_preview_short_witness :
  "hi" <> EmptyString /\ (String.length "hi" <= 40)%nat /\ caption_preview (Some "hi") = "hi" +:+ "...".
Proof.
  assert (H1 : "hi" <> EmptyString) by discriminate.
  assert (H2 : (String.length "hi" <= 40)%nat) by (simpl; lia).
  split; [exact H1|split; [exact H2|exact (caption_preview_short _ H1 H2)]].
Defined.

Lemma recent_window_witness :
  valid_date (post_date sample_p4) = true /\
  ((is_recent (date_modify sample_now "-7 days") sample_p4 = true <->
    (dt_days sample_now - 7 <= days_from_civil (post_date sample_p4))%Z) /\
   (is_historical (date_modify sample_now "-7 days") sample_p4 = true <->
    (days_from_civil (post_date sample_p4) < dt_days sample_now - 7)%Z)) /\
  is_recent (date_modify sample_now "-7 days") sample_p4 = true.
Proof.
  assert (Hv : valid_date (post_date sample_p4) = true) by reflexivity.
  split; [exact Hv|split; [exact (recent_window sample_now sample_p4 Hv)|vm_compute; reflexivity]].
Defined.

End Alerts.
