(* ===== verification/Store.v ===== *)
(** * The database: the tables of [init_db] and the statements the routes run

    [init_db] (src/app.py, lines 32-133) creates seven tables.  [Db] holds
    the five the routes read or write: [users], [projects], [posts],
    [hashtags] and [post_comments], each a map from its [INTEGER PRIMARY KEY
    AUTOINCREMENT] rowid to the row, and SQLite's [sqlite_sequence] (the
    largest rowid each AUTOINCREMENT table has used).  [trends] and
    [reports] are created but never read or written by any route.

    Every SQL statement a route executes is one definition below
    ([insert_project], [delete_comments_of_post], ...), every query one
    function ([user_project_ids], [post_owned], ...).  A route runs in the
    transaction monad [txM]: statements change the connection's working
    copy, [commit] makes it durable, an exception or a [close] without
    commit leaves the last committed state ([run_route]).

    [wf_db] is the integrity the schema declares but SQLite does not
    enforce (foreign keys are off by default): every foreign key points to
    a row, a post's [id] column is its rowid, project names are unique per
    user; each statement's lemma says what it needs to keep it. *)

From Stdlib Require Import ZArith QArith.
From stdpp Require Import base list strings gmap sorting.
From S2P Require Import Prelude Sql Calendar Post.

Local Open Scope Z_scope.
Set Warnings "-clear-no-such-hyp".

Record User := mkUser { username : string; password_hash : string }.

(** [projects (id, user_id, project_name, description)]. *)
Record Project := mkProject { pr_user_id : Z; project_name : string; description : string }.

(** [hashtags (id, post_id, hashtag)]. *)
Record Hashtag := mkHashtag { h_post_id : Z; hashtag : string }.

(** [post_comments (id, post_id, user_id, comment_text, created_at)]. *)
Record PostComment := mkPostComment {
  pc_post_id : Z; pc_user_id : Z; comment_text : string; created_at : string }.

Record Db := mkDb {
  users : gmap Z User;
  projects : gmap Z Project;
  posts : gmap Z Post;
  hashtags : gmap Z Hashtag;
  post_comments : gmap Z PostComment;
  sqlite_sequence : gmap string Z
}.

(** ** Rowids *)

(** A table scanned without ORDER BY yields its rows in rowid order. *)
Definition key_le {A} (a b : Z * A) : Prop := a.1 <= b.1.
#[export] Instance key_le_dec {A} : RelDecision (@key_le A) :=
  fun a b => Z.le_dec a.1 b.1.

Definition rowid_order {A} (m : gmap Z A) : list (Z * A) :=
  merge_sort key_le (map_to_list m).

Definition max_rowid {A} (m : gmap Z A) : Z := foldr Z.max 0 (map fst (map_to_list m)).

(** AUTOINCREMENT: one more than the larger of the largest rowid ever used
    ([sqlite_sequence]) and the largest rowid in the table. *)
Definition next_rowid {A} (tbl : string) (m : gmap Z A) (db : Db) : Z :=
  Z.max (default 0 (sqlite_sequence db !! tbl)) (max_rowid m) + 1.

(** ** Statements *)

(** [INSERT INTO projects (user_id, project_name, description) VALUES (?, ?, ?)]. *)
Definition insert_project (uid : Z) (name desc : string) (db : Db) : Db :=
  let n := next_rowid "projects" (projects db) db in
  mkDb (users db) (<[n := mkProject uid name desc]> (projects db)) (posts db)
       (hashtags db) (post_comments db) (<["projects" := n]> (sqlite_sequence db)).

(** [INSERT INTO posts (...) VALUES (...)]: the row gets the next rowid. *)
Definition insert_post (p : Post) (db : Db) : Db :=
  let n := next_rowid "posts" (posts db) db in
  mkDb (users db) (projects db) (<[n := mkPost n (project_id p) (post_type p) (post_date p)
         (post_time p) (reel_length p) (thumbnail_path p) (caption p) (caption_category p)
         (likes p) (shares p) (comments p) (reach p) (saves p) (followers_gained p)
         (watch_time p) (avg_view_duration p) (engagement_rate p) (engagement_rate_weighted p)
         (avd_ratio p) (follower_gain_rate p) (performance_score p) (dominant_color p)]> (posts db))
       (hashtags db) (post_comments db) (<["posts" := n]> (sqlite_sequence db)).

(** [INSERT INTO hashtags (post_id, hashtag) VALUES (?, ?)]. *)
Definition insert_hashtag (pid : Z) (tag : string) (db : Db) : Db :=
  let n := next_rowid "hashtags" (hashtags db) db in
  mkDb (users db) (projects db) (posts db) (<[n := mkHashtag pid tag]> (hashtags db))
       (post_comments db) (<["hashtags" := n]> (sqlite_sequence db)).

(** [INSERT INTO post_comments (post_id, user_id, comment_text, created_at) VALUES (...)]. *)
Definition insert_comment (pid uid : Z) (text now : string) (db : Db) : Db :=
  let n := next_rowid "post_comments" (post_comments db) db in
  mkDb (users db) (projects db) (posts db) (hashtags db)
       (<[n := mkPostComment pid uid text now]> (post_comments db))
       (<["post_comments" := n]> (sqlite_sequence db)).

(** [DELETE FROM post_comments WHERE post_id = ?]. *)
Definition delete_comments_of_post (pid : Z) (db : Db) : Db :=
  mkDb (users db) (projects db) (posts db) (hashtags db)
       (filter (fun kv : Z * PostComment => pc_post_id kv.2 <> pid) (post_comments db))
       (sqlite_sequence db).

(** [DELETE FROM hashtags WHERE post_id = ?]. *)
Definition delete_hashtags_of_post (pid : Z) (db : Db) : Db :=
  mkDb (users db) (projects db) (posts db)
       (filter (fun kv : Z * Hashtag => h_post_id kv.2 <> pid) (hashtags db))
       (post_comments db) (sqlite_sequence db).

(** [DELETE FROM posts WHERE id = ?]. *)
Definition delete_post_row (pid : Z) (db : Db) : Db :=
  mkDb (users db) (projects db) (delete pid (posts db)) (hashtags db)
       (post_comments db) (sqlite_sequence db).

(** [DELETE FROM posts WHERE project_id = ?]. *)
Definition delete_posts_of_project (prid : Z) (db : Db) : Db :=
  mkDb (users db) (projects db)
       (filter (fun kv : Z * Post => project_id kv.2 <> prid) (posts db))
       (hashtags db) (post_comments db) (sqlite_sequence db).

(** [DELETE FROM projects WHERE id = ?]. *)
Definition delete_project_row (prid : Z) (db : Db) : Db :=
  mkDb (users db) (delete prid (projects db)) (posts db) (hashtags db)
       (post_comments db) (sqlite_sequence db).

(** ** Queries *)

(** [SELECT id FROM projects WHERE user_id = ?]. *)
Definition user_project_ids (db : Db) (uid : Z) : list Z :=
  map fst (filter (fun kv : Z * Project => pr_user_id kv.2 = uid) (rowid_order (projects db))).

(** [SELECT id FROM projects WHERE id = ? AND user_id = ?] is a row. *)
Definition project_owned (db : Db) (uid prid : Z) : bool :=
  match projects db !! prid with
  | Some pr => bool_decide (pr_user_id pr = uid)
  | None => false
  end.

(** [SELECT ... FROM posts p JOIN projects pr ON p.project_id = pr.id
    WHERE p.id = ? AND pr.user_id = ?] is a row. *)
Definition post_owned (db : Db) (uid pid : Z) : bool :=
  match posts db !! pid with
  | Some p => project_owned db uid (project_id p)
  | None => false
  end.

(** [SELECT * FROM posts] in rowid order: the rows the analytics read. *)
Definition table_posts (db : Db) : list Post := map snd (rowid_order (posts db)).

(** [SELECT id FROM posts WHERE project_id = ?]. *)
Definition project_post_ids (db : Db) (prid : Z) : list Z :=
  map fst (filter (fun kv : Z * Post => project_id kv.2 = prid) (rowid_order (posts db))).

(** [SELECT id FROM projects WHERE user_id = ? AND project_name = ?]. *)
Definition project_named (db : Db) (uid : Z) (name : string) : option Z :=
  head (map fst (filter (fun kv : Z * Project => pr_user_id kv.2 = uid /\ project_name kv.2 = name)
                        (rowid_order (projects db)))).

(** The cascade of [delete_post] for one post: its comments, then its hashtags. *)
Definition delete_post_children (pid : Z) (db : Db) : Db :=
  delete_hashtags_of_post pid (delete_comments_of_post pid db).

(** [delete_post]'s three statements for one post. *)
Definition delete_post_cascade (pid : Z) (db : Db) : Db :=
  delete_post_row pid (delete_post_children pid db).

(** The loop of [delete_project] over the ids of its posts. *)
Definition delete_children_of (ids : list Z) (db : Db) : Db :=
  foldl (fun db i => delete_post_children i db) db ids.

(** [delete_project]'s statements: the children of its posts, its posts, the project. *)
Definition delete_project_cascade (prid : Z) (ids : list Z) (db : Db) : Db :=
  delete_project_row prid (delete_posts_of_project prid (delete_children_of ids db)).

(** The loop of [delete_multiple_posts]. *)
Definition delete_posts_cascade (ids : list Z) (db : Db) : Db :=
  foldl (fun db i => delete_post_cascade i db) db ids.

(** ** Integrity of the database *)

Record wf_db (db : Db) : Prop := {
  wf_project_user : forall k pr, projects db !! k = Some pr -> is_Some (users db !! pr_user_id pr);
  wf_post_id : forall k p, posts db !! k = Some p -> id p = k;
  wf_post_project : forall k p, posts db !! k = Some p -> is_Some (projects db !! project_id p);
  wf_hashtag_post : forall k h, hashtags db !! k = Some h -> is_Some (posts db !! h_post_id h);
  wf_comment_post : forall k c, post_comments db !! k = Some c -> is_Some (posts db !! pc_post_id c);
  wf_comment_user : forall k c, post_comments db !! k = Some c -> is_Some (users db !! pc_user_id c);
  wf_project_names : forall k1 k2 p1 p2, projects db !! k1 = Some p1 -> projects db !! k2 = Some p2 ->
    pr_user_id p1 = pr_user_id p2 -> project_name p1 = project_name p2 -> k1 = k2
}.

(** ** The connection and its transaction *)

(** The state a route sees: the committed database and the working copy of
    its open transaction. *)
Record Conn := mkConn { committed : Db; working : Db }.

Definition txM (A : Type) : Type := Conn -> result A * Conn.

#[export] Instance txM_ret : MRet txM := fun A a c => (Ok a, c).
#[export] Instance txM_bind : MBind txM := fun A B f m c =>
  match m c with
  | (Ok a, c') => f a c'
  | (Raise e, c') => (Raise e, c')
  end.

(** [db.execute(...)] of a statement: changes the working copy. *)
Definition exec (st : Db -> Db) : txM unit := fun c => (Ok tt, mkConn (committed c) (st (working c))).

(** [db.execute(...).fetchall()] of a query. *)
Definition query {A} (q : Db -> A) : txM A := fun c => (Ok (q (working c)), c).

(** [db.commit()]. *)
Definition commit : txM unit := fun c => (Ok tt, mkConn (working c) (working c)).

(** [db.rollback()], and [db.close()] (which discards what was not committed). *)
Definition rollback : txM unit := fun c => (Ok tt, mkConn (committed c) (committed c)).
Definition close : txM unit := rollback.

(** [get_db_connection()]: a new connection sees the committed database. *)
Definition get_db_connection : txM unit := rollback.

Definition throw {A} (e : py_exc) : txM A := fun c => (Raise e, c).

(** [try: body except Exception as e: handler e]. *)
Definition try_except {A} (body : txM A) (handler : py_exc -> txM A) : txM A := fun c =>
  match body c with
  | (Raise e, c') => handler e c'
  | r => r
  end.

(** [json] values of [jsonify]. *)
#[warnings="-register-all"]
Inductive json :=
  | JBool (b : bool)
  | JInt (z : Z)
  | JStr (s : string)
  | JList (l : list json)
  | JObj (fields : list (string * json)).

(** What a route returns: a redirect or a rendered template (with the
    messages it flashed and, for a template, the data it shows), a JSON
    body with its status, or Flask's error page for an uncaught exception. *)
Inductive response :=
  | Redirect (endpoint : string) (flashed : list string)
  | Render (template : string) (flashed : list string) (data : json)
  | Json (status : Z) (body : json)
  | Crash (e : py_exc).

(** One request: the route runs on a fresh connection; what it committed
    stays, the rest is rolled back when the connection goes away. *)
Definition run_route (m : txM response) (db : Db) : response * Db :=
  match m (mkConn db db) with
  | (Ok r, c) => (r, committed c)
  | (Raise e, c) => (Crash e, committed c)
  end.

(** The logged-in user ([session['user_id']], [session['username']]). *)
Record Session := mkSession { s_user_id : Z; s_username : string }.

(** ** Lemmas *)

Lemma foldr_max_ge (l : list Z) x : x ∈ l -> x <= foldr Z.max 0 l.
Proof.
  induction l as [|y l IH]; [by intros ?%elem_of_nil|].
  intros [->|Hx]%elem_of_cons; simpl; [lia|]. specialize (IH Hx). lia.
Qed.

Lemma max_rowid_ge {A} (m : gmap Z A) k x : m !! k = Some x -> k <= max_rowid m.
Proof.
  intros Hk. apply foldr_max_ge, list_elem_of_fmap.
  exists (k, x). split; [done|]. by apply elem_of_map_to_list.
Qed.

Lemma foldr_max_le (l : list Z) b : 0 <= b -> Forall (fun x => x <= b) l -> foldr Z.max 0 l <= b.
Proof. intros Hb. induction 1; simpl; lia. Qed.

(** [max(rowid)] is below every bound of the keys. *)
Lemma max_rowid_le {A} (m : gmap Z A) b : 0 <= b -> (forall k x, m !! k = Some x -> k <= b) -> max_rowid m <= b.
Proof.
  intros Hb Hm. apply foldr_max_le; [done|]. apply Forall_forall. intros k [[k' x] [-> Hx]]%list_elem_of_fmap.
  apply elem_of_map_to_list in Hx. by apply (Hm k' x).
Qed.

Lemma max_rowid_nonneg {A} (m : gmap Z A) : 0 <= max_rowid m.
Proof. unfold max_rowid. induction (map fst (map_to_list m)); simpl; lia. Qed.

Lemma max_rowid_subseteq {A} (m1 m2 : gmap Z A) : m1 ⊆ m2 -> max_rowid m1 <= max_rowid m2.
Proof.
  intros Hsub. apply max_rowid_le; [apply max_rowid_nonneg|].
  intros k x Hk. apply (max_rowid_ge m2 k x). by eapply lookup_weaken.
Qed.

(** [SELECT seq FROM sqlite_sequence WHERE name = tbl], 0 before the first
    insert. *)
Definition seq_value (tbl : string) (db : Db) : Z := default 0 (sqlite_sequence db !! tbl).

(** AUTOINCREMENT's promise for a table: no rowid above the recorded
    sequence value. *)
Definition autoinc (tbl : string) {A} (m : gmap Z A) (db : Db) : Prop := max_rowid m <= seq_value tbl db.

(** An insert takes the rowid after both the sequence value and the
    largest rowid, records it, and keeps the promise. *)
Lemma insert_project_autoinc uid name desc db :
  autoinc "projects" (projects db) db ->
  seq_value "projects" (insert_project uid name desc db) = seq_value "projects" db + 1 /\
  autoinc "projects" (projects (insert_project uid name desc db)) (insert_project uid name desc db) /\
  (forall k, is_Some (projects (insert_project uid name desc db) !! k) -> projects db !! k = None ->
     seq_value "projects" db < k).
Proof.
  unfold autoinc, seq_value, insert_project, next_rowid; simpl. rewrite lookup_insert. simpl.
  intros Hm. pose proof (max_rowid_nonneg (projects db)).
  set (n := Z.max (default 0 (sqlite_sequence db !! "projects")) (max_rowid (projects db)) + 1).
  split_and!; [lia| |].
  - apply max_rowid_le; [lia|]. intros k x [[<- _]|[_ Hk]]%lookup_insert_Some; [lia|].
    pose proof (max_rowid_ge _ _ _ Hk). lia.
  - intros k [x Hk] Hnone. apply lookup_insert_Some in Hk as [[<- _]|[_ Hk]]; [lia|congruence].
Qed.

Lemma delete_posts_cascade_seq ids db : sqlite_sequence (delete_posts_cascade ids db) = sqlite_sequence db.
Proof. revert db. induction ids as [|i ids IH]; intros db; [done|]. simpl. by rewrite IH. Qed.

Lemma delete_children_of_seq ids db : sqlite_sequence (delete_children_of ids db) = sqlite_sequence db.
Proof. revert db. induction ids as [|i ids IH]; intros db; [done|]. simpl. by rewrite IH. Qed.

Lemma delete_project_cascade_seq prid ids db :
  sqlite_sequence (delete_project_cascade prid ids db) = sqlite_sequence db.
Proof. unfold delete_project_cascade. simpl. apply delete_children_of_seq. Qed.

Lemma next_rowid_fresh {A} tbl (m : gmap Z A) db : m !! next_rowid tbl m db = None.
Proof.
  destruct (m !! next_rowid tbl m db) as [x|] eqn:Hx; [|done].
  apply max_rowid_ge in Hx. unfold next_rowid in Hx. lia.
Qed.

Lemma elem_of_rowid_order {A} (m : gmap Z A) k x : (k, x) ∈ rowid_order m <-> m !! k = Some x.
Proof. unfold rowid_order. by rewrite merge_sort_Permutation, elem_of_map_to_list. Qed.

Lemma project_named_None db uid name :
  project_named db uid name = None <->
  forall k pr, projects db !! k = Some pr -> pr_user_id pr = uid -> project_name pr <> name.
Proof.
  unfold project_named. split.
  - intros Hn k pr Hk Hu Hname.
    assert ((k, pr) ∈ filter (fun kv : Z * Project => pr_user_id kv.2 = uid /\ project_name kv.2 = name)
              (rowid_order (projects db))) as Hin.
    { apply list_elem_of_filter. split; [done|]. by apply elem_of_rowid_order. }
    destruct (filter _ _) as [|[k' pr'] l]; [by apply elem_of_nil in Hin|done].
  - intros Hall. destruct (filter _ _) as [|[k pr] l] eqn:Hf; [done|].
    assert ((k, pr) ∈ filter (fun kv : Z * Project => pr_user_id kv.2 = uid /\ project_name kv.2 = name)
              (rowid_order (projects db))) as Hin by (rewrite Hf; left).
    apply list_elem_of_filter in Hin as [[Hu Hname] Hk%elem_of_rowid_order].
    by destruct (Hall k pr Hk Hu).
Qed.

Lemma project_owned_spec db uid prid :
  project_owned db uid prid = true <-> exists pr, projects db !! prid = Some pr /\ pr_user_id pr = uid.
Proof.
  unfold project_owned. destruct (projects db !! prid) as [pr|]; [|naive_solver].
  rewrite bool_decide_eq_true. naive_solver.
Qed.

Lemma post_owned_spec db uid pid :
  post_owned db uid pid = true <->
  exists p, posts db !! pid = Some p /\ project_owned db uid (project_id p) = true.
Proof. unfold post_owned. destruct (posts db !! pid); naive_solver. Qed.

Lemma project_post_ids_complete db prid k p :
  posts db !! k = Some p -> project_id p = prid -> k ∈ project_post_ids db prid.
Proof.
  intros Hk Hp. apply list_elem_of_fmap. exists (k, p). split; [done|].
  apply list_elem_of_filter. split; [done|]. by apply elem_of_rowid_order.
Qed.

(** What the loop of [delete_project] leaves of each table. *)
Lemma delete_children_of_tables ids db :
  users (delete_children_of ids db) = users db /\
  projects (delete_children_of ids db) = projects db /\
  posts (delete_children_of ids db) = posts db /\
  (forall k h, hashtags (delete_children_of ids db) !! k = Some h <->
               hashtags db !! k = Some h /\ h_post_id h ∉ ids) /\
  (forall k c, post_comments (delete_children_of ids db) !! k = Some c <->
               post_comments db !! k = Some c /\ pc_post_id c ∉ ids).
Proof.
  revert db. induction ids as [|i ids IH]; intros db; simpl.
  - repeat split; try done; [apply not_elem_of_nil|by intros []|apply not_elem_of_nil|by intros []].
  - destruct (IH (delete_post_children i db)) as (-> & -> & -> & Hh & Hc).
    split_and!; try done; intros k x; [rewrite Hh|rewrite Hc];
      unfold delete_post_children, delete_hashtags_of_post, delete_comments_of_post; simpl;
      rewrite map_lookup_filter_Some, not_elem_of_cons; naive_solver.
Qed.

Ltac wf_destruct H :=
  destruct H as [Hpu Hpi Hpp Hhp Hcp Hcu Hnames].

Lemma insert_project_wf db uid name desc :
  wf_db db -> is_Some (users db !! uid) -> project_named db uid name = None ->
  wf_db (insert_project uid name desc db).
Proof.
  intros Hwf Hu Hn. pose proof (proj1 (project_named_None db uid name) Hn) as Hall. pose proof (next_rowid_fresh "projects" (projects db) db) as Hf.
  wf_destruct Hwf. constructor; simpl; eauto.
  - intros k pr [[<- <-]|[_ Hk]]%lookup_insert_Some; eauto.
  - intros k p Hp. rewrite lookup_insert_is_Some'. eauto.
  - intros k1 k2 p1 p2 [[<- <-]|[? H1]]%lookup_insert_Some [[<- <-]|[? H2]]%lookup_insert_Some;
      simpl; intros Hu' Hnm; eauto.
    + by destruct (Hall k2 p2 H2).
    + by destruct (Hall k1 p1 H1).
Qed.

Lemma insert_comment_wf db pid uid text now :
  wf_db db -> is_Some (posts db !! pid) -> is_Some (users db !! uid) ->
  wf_db (insert_comment pid uid text now db).
Proof.
  intros Hwf Hp Hu. wf_destruct Hwf. constructor; simpl; eauto.
  - intros k c [[<- <-]|[_ Hk]]%lookup_insert_Some; eauto.
  - intros k c [[<- <-]|[_ Hk]]%lookup_insert_Some; eauto.
Qed.

Lemma delete_post_cascade_wf db pid : wf_db db -> wf_db (delete_post_cascade pid db).
Proof.
  intros Hwf. wf_destruct Hwf. constructor; simpl; eauto.
  - intros k p [_ Hk]%lookup_delete_Some. eauto.
  - intros k p [_ Hk]%lookup_delete_Some. eauto.
  - intros k h [Hk Hne]%map_lookup_filter_Some. apply lookup_delete_is_Some. eauto.
  - intros k c [Hk Hne]%map_lookup_filter_Some. apply lookup_delete_is_Some. eauto.
  - intros k c [Hk Hne]%map_lookup_filter_Some. eauto.
Qed.

Lemma delete_posts_cascade_wf ids db : wf_db db -> wf_db (delete_posts_cascade ids db).
Proof.
  revert db. induction ids as [|i ids IH]; intros db Hwf; simpl; [done|].
  apply IH, delete_post_cascade_wf, Hwf.
Qed.

Lemma delete_project_cascade_wf db prid ids :
  wf_db db -> (forall k p, posts db !! k = Some p -> project_id p = prid -> k ∈ ids) ->
  wf_db (delete_project_cascade prid ids db).
Proof.
  intros Hwf Hall. destruct (delete_children_of_tables ids db) as (Hu & Hpr & Hpo & Hh & Hc).
  unfold delete_project_cascade, delete_posts_of_project, delete_project_row.
  wf_destruct Hwf. constructor; simpl; rewrite ?Hu, ?Hpr, ?Hpo.
  - intros k pr [_ Hk]%lookup_delete_Some. eauto.
  - intros k p [Hk _]%map_lookup_filter_Some. eauto.
  - intros k p [Hk Hne]%map_lookup_filter_Some. apply lookup_delete_is_Some. eauto.
  - intros k h [Hk Hni]%Hh. destruct (Hhp k h Hk) as [p Hp].
    exists p. apply map_lookup_filter_Some. split; [done|]. simpl.
    intros Heq. exact (Hni (Hall _ p Hp Heq)).
  - intros k c [Hk Hni]%Hc. destruct (Hcp k c Hk) as [p Hp].
    exists p. apply map_lookup_filter_Some. split; [done|]. simpl.
    intros Heq. exact (Hni (Hall _ p Hp Heq)).
  - intros k c [Hk _]%Hc. eauto.
  - intros k1 k2 p1 p2 [_ H1]%lookup_delete_Some [_ H2]%lookup_delete_Some. eauto.
Qed.

Lemma NoDup_rowid_keys {A} (P : Z * A -> Prop) `{forall x, Decision (P x)} (m : gmap Z A) :
  NoDup (map fst (filter P (rowid_order m))).
Proof.
  apply (sublist_NoDup _ (map fst (rowid_order m))).
  - unfold rowid_order. rewrite (merge_sort_Permutation key_le (map_to_list m)).
    apply NoDup_fst_map_to_list.
  - apply fmap_sublist, sublist_filter.
Qed.

(** The tables the cascades leave. *)
Lemma delete_posts_cascade_tables ids db :
  users (delete_posts_cascade ids db) = users db /\
  projects (delete_posts_cascade ids db) = projects db /\
  (forall k p, posts (delete_posts_cascade ids db) !! k = Some p <-> posts db !! k = Some p /\ k ∉ ids) /\
  hashtags (delete_posts_cascade ids db) ⊆ hashtags db /\
  post_comments (delete_posts_cascade ids db) ⊆ post_comments db.
Proof.
  revert db. induction ids as [|i ids IH]; intros db; simpl.
  - split_and!; try done. intros k p. split; [|naive_solver].
    intros Hk. split; [done|apply not_elem_of_nil].
  - destruct (IH (delete_post_cascade i db)) as (-> & -> & Hp & Hh & Hc). simpl.
    split_and!; try done.
    + intros k p. rewrite Hp. simpl. rewrite lookup_delete_Some, not_elem_of_cons. naive_solver.
    + etrans; [exact Hh|apply map_filter_subseteq].
    + etrans; [exact Hc|apply map_filter_subseteq].
Qed.

Lemma delete_project_cascade_tables prid ids db :
  users (delete_project_cascade prid ids db) = users db /\
  projects (delete_project_cascade prid ids db) = delete prid (projects db) /\
  posts (delete_project_cascade prid ids db) = filter (fun kv : Z * Post => project_id kv.2 <> prid) (posts db) /\
  hashtags (delete_project_cascade prid ids db) ⊆ hashtags db /\
  post_comments (delete_project_cascade prid ids db) ⊆ post_comments db.
Proof.
  destruct (delete_children_of_tables ids db) as (Hu & Hpr & Hpo & Hh & Hc).
  unfold delete_project_cascade, delete_posts_of_project, delete_project_row; simpl.
  rewrite Hu, Hpr, Hpo. split_and!; try done; apply map_subseteq_spec.
  - intros k h Hk. by apply Hh in Hk as [? _].
  - intros k c Hk. by apply Hc in Hk as [? _].
Qed.

Lemma delete_project_cascade_children prid ids db :
  hashtags (delete_project_cascade prid ids db) = hashtags (delete_children_of ids db) /\
  post_comments (delete_project_cascade prid ids db) = post_comments (delete_children_of ids db).
Proof. split; reflexivity. Qed.
