(* ===== verification/Routes.v ===== *)
(** * The routes that change the database

    Each Flask view function of src/app.py that writes to the database is
    one definition of the same name in the transaction monad [txM] of
    [Store]: [add_post] (lines 540-671, with [save_hashtags], 168-175),
    [add_project] (1131-1168), [post_comments] (1197-1243),
    [api_post_comments] (1245-1266), [delete_post] (1296-1332),
    [delete_multiple_posts] (1334-1376) and [delete_project] (1378-1418).
    The request's form or JSON arguments are the definition's arguments,
    already converted by the code's [int(...)]/[float(...)] calls;
    [session] is an [option Session] ([None]: not logged in).  The first
    statement that binds a request's integer (a URL or JSON id, a count of
    the form) binds it as SQLite's 64-bit INTEGER ([sqlite_bind]), and
    raises [OverflowError] when it does not fit.

    [serve] runs one request on the committed database and returns the
    response and the database it leaves.  One lemma per route computes
    [serve] ([serve_add_post], [serve_delete_post], ...); the theorems
    state what each route changes, that no request touches another
    user's rows, and the findings on [add_post], [delete_multiple_posts],
    the two comment routes and ids beyond 64 bits.  [App] closes [serve] into a transition
    system. *)

From Stdlib Require Import ZArith QArith.
From stdpp Require Import base list strings gmap sets sorting.
From S2P Require Import Prelude Sql Calendar Post Metrics Hashtags Store.

Local Open Scope Z_scope.
Set Warnings "-clear-no-such-hyp".

(** ** Combinators of the transaction monad *)

(** A pure Python computation inside a route: its exception propagates. *)
Definition lift {A} (r : result A) : txM A := fun c => (r, c).

(** [for x in xs: body x]. *)
Fixpoint for_each {A} (xs : list A) (body : A -> txM unit) : txM unit :=
  match xs with
  | [] => mret tt
  | x :: xs => _ ← body x; for_each xs body
  end.

(** [db.lastrowid] where [db] is the [sqlite3.Connection]: the attribute is
    a [Cursor]'s, a [Connection] has none. *)
Definition lastrowid : txM Z := throw AttributeError.

(** [save_hashtags(post_id, caption, db)]: one INSERT per distinct tag. *)
Definition save_hashtags (post_id : Z) (caption : string) : txM unit :=
  for_each (elements (Hashtags.extract_hashtags (Some caption)))
           (fun tag => exec (insert_hashtag post_id tag)).

(** ** [add_post] *)

(** The form of [add_post] after its conversions: [project_id] is the
    text of [request.form.get('project_id')], the reel fields are [None]
    when empty; [thumbnail] is the path the upload block produced. *)
Record PostForm := mkPostForm {
  f_project_id : option string;
  f_post_type : string;
  f_post_date : Date;
  f_post_time : string;
  f_caption : string;
  f_caption_category : string;
  f_dominant_color : string;
  f_likes : Z; f_comments : Z; f_shares : Z; f_saves : Z; f_reach : Z; f_followers_gained : Z;
  f_reel_length : option Z;
  f_watch_time : option Z;
  f_avg_view_duration : option Q;
  f_thumbnail : option string
}.

(** The row of the [INSERT INTO posts] (its rowid is given by [insert_post]). *)
Definition form_row (prid : Z) (f : PostForm) (m : Metrics.metrics) : Post :=
  mkPost 0 prid (f_post_type f) (f_post_date f) (f_post_time f) (f_reel_length f)
    (f_thumbnail f) (Some (f_caption f)) (Some (f_caption_category f))
    (f_likes f) (f_shares f) (f_comments f) (f_reach f) (f_saves f) (f_followers_gained f)
    (f_watch_time f) (f_avg_view_duration f)
    (Metrics.engagement_rate m) (Metrics.engagement_rate_weighted m) (Metrics.avd_ratio m)
    (Metrics.follower_gain_rate m) (Metrics.performance_score m) (Some (f_dominant_color f)).

(** The integer parameters of the [INSERT INTO posts], in the order of
    its placeholders ([project_id], a rowid, always fits 64 bits). *)
Definition form_ints (f : PostForm) : list Z :=
  option_list (f_reel_length f) ++
  [f_likes f; f_shares f; f_comments f; f_reach f; f_saves f; f_followers_gained f] ++
  option_list (f_watch_time f).

(** [SELECT id FROM projects WHERE user_id = ? LIMIT 1], then [project['id']]
    ([TypeError] on [None]). *)
Definition first_project (uid : Z) : txM Z :=
  p ← query (fun db => head (user_project_ids db uid));
  match p with
  | Some prid => mret prid
  | None => throw TypeError
  end.

(** The default project of a user without one. *)
Definition default_project_name (s : Session) : string := s_username s +:+ "'s Instagram".

(** [if not project_id]: the default project, created when the user
    has none. *)
Definition default_project (s : Session) : txM (response + Z) :=
  first ← query (fun db => head (user_project_ids db (s_user_id s)));
  match first with
  | Some prid => mret (M := txM) (inr (A := response) prid)
  | None =>
      _ ← exec (insert_project (s_user_id s) (default_project_name s) "Default project");
      _ ← commit;
      prid ← first_project (s_user_id s);
      mret (M := txM) (inr (A := response) prid)
  end.

(** [SELECT id FROM projects WHERE id = ? AND user_id = ?] with the
    form's text bound to the first [?]. *)
Definition project_owned_text (db : Db) (uid : Z) (t : string) : bool :=
  match sqlite_text_rowid t with Some prid => project_owned db uid prid | None => false end.

(** [if not project_id]: the text when the field is there and not empty. *)
Definition project_text (f : PostForm) : option string :=
  match f_project_id f with Some t => if String.eqb t "" then None else Some t | None => None end.

(** The project the post goes to: [inl] an early response, [inr] the id;
    [int(project_id)] once the query found the project. *)
Definition resolve_project (s : Session) (f : PostForm) : txM (response + Z) :=
  match project_text f with
  | Some t =>
      owned ← query (fun db => project_owned_text db (s_user_id s) t);
      match owned with
      | true => prid ← lift (py_int t); mret (M := txM) (inr (A := response) prid)
      | false => mret (inl (Redirect "add_post" ["Invalid project selected"]))
      end
  | None => default_project s
  end.

(** The POST branch of [add_post] once the form is read: the second
    connection, the project, the metrics, the INSERT and the hashtags. *)
Definition add_post_db (s : Session) (f : PostForm) : txM response :=
  _ ← get_db_connection;
  target ← resolve_project s f;
  match target with
  | inl resp => mret resp
  | inr prid =>
      m ← lift (Metrics.calculate_metrics (f_likes f) (f_comments f) (f_shares f) (f_saves f)
                  (f_reach f) (f_avg_view_duration f) (f_reel_length f) (f_followers_gained f));
      _ ← lift (sqlite_bind (form_ints f));
      _ ← exec (insert_post (form_row prid f m));
      post_id ← lastrowid;
      _ ← save_hashtags post_id (f_caption f);
      _ ← commit;
      _ ← close;
      mret (Redirect "posts" ["Post added successfully!"])
  end.

(** The POST branch of [add_post] on a form already read ([Forms] reads
    it, [AddPostForm] composes the two): the first connection and its
    query of the user's projects, then [add_post_db]. *)
Definition add_post (session : option Session) (f : PostForm) : txM response :=
  match session with
  | None => mret (Redirect "login" [])
  | Some s =>
      _ ← get_db_connection;
      _ ← query (fun db => user_project_ids db (s_user_id s));
      _ ← close;
      add_post_db s f
  end.

(** ** The delete routes *)

(** [jsonify({'success': False, 'error': msg})]. *)
Definition json_error (msg : string) : json := JObj [("success", JBool false); ("error", JStr msg)].

(** [str(e)] of the exceptions the model raises. *)
Definition exc_str (e : py_exc) : string :=
  match e with
  | TypeError => "TypeError"
  | ZeroDivisionError => "division by zero"
  | AttributeError => "AttributeError"
  | ValueError => "ValueError"
  | BadRequestKeyError => "400 Bad Request"
  | OverflowError => "Python int too large to convert to SQLite INTEGER"
  | OperationalError => "too many SQL variables"
  end.

(** [except Exception as e: db.rollback(); db.close(); return ..., 500]. *)
Definition on_error (e : py_exc) : txM response :=
  _ ← rollback; _ ← close; mret (Json 500 (json_error (exc_str e))).

Definition delete_post (session : option Session) (post_id : Z) : txM response :=
  match session with
  | None => mret (Json 401 (json_error "Not logged in"))
  | Some s =>
      _ ← get_db_connection;
      _ ← lift (sqlite_bind [post_id]);
      owned ← query (fun db => post_owned db (s_user_id s) post_id);
      if negb owned then
        _ ← close; mret (Json 404 (json_error "Post not found or unauthorized"))
      else
        try_except
          (_ ← exec (delete_comments_of_post post_id);
           _ ← exec (delete_hashtags_of_post post_id);
           _ ← exec (delete_post_row post_id);
           _ ← commit;
           _ ← close;
           mret (Json 200 (JObj [("success", JBool true)])))
          on_error
  end.

(** [SELECT p.id FROM posts p JOIN projects pr ON p.project_id = pr.id
    WHERE p.id IN (...) AND pr.user_id = ?]: one row per owned post. *)
Definition owned_post_ids (db : Db) (uid : Z) (ids : list Z) : list Z :=
  map fst (filter (fun kv : Z * Post => kv.1 ∈ ids /\ project_owned db uid (project_id kv.2) = true)
                  (rowid_order (posts db))).

Definition delete_multiple_posts (session : option Session) (post_ids : list Z) : txM response :=
  match session with
  | None => mret (Json 401 (json_error "Not logged in"))
  | Some s =>
      if decide (post_ids = []) then mret (Json 400 (json_error "No posts selected"))
      else
        _ ← get_db_connection;
        try_except
          (_ ← lift (sqlite_prepare (length post_ids + 1));
           _ ← lift (sqlite_bind post_ids);
           owned ← query (fun db => owned_post_ids db (s_user_id s) post_ids);
           if decide (length owned <> length post_ids) then
             _ ← close; mret (Json 404 (json_error "Some posts not found or unauthorized"))
           else
             _ ← for_each owned (fun pid =>
                   _ ← exec (delete_comments_of_post pid);
                   _ ← exec (delete_hashtags_of_post pid);
                   exec (delete_post_row pid));
             _ ← commit;
             _ ← close;
             mret (Json 200 (JObj [("success", JBool true); ("deleted_count", JInt (Z.of_nat (length owned)))])))
          on_error
  end.

Definition delete_project (session : option Session) (prid : Z) : txM response :=
  match session with
  | None => mret (Json 401 (json_error "Not logged in"))
  | Some s =>
      _ ← get_db_connection;
      _ ← lift (sqlite_bind [prid]);
      owned ← query (fun db => project_owned db (s_user_id s) prid);
      if negb owned then
        _ ← close; mret (Json 404 (json_error "Project not found or unauthorized"))
      else
        try_except
          (ids ← query (fun db => project_post_ids db prid);
           _ ← for_each ids (fun pid =>
                 _ ← exec (delete_comments_of_post pid);
                 exec (delete_hashtags_of_post pid));
           _ ← exec (delete_posts_of_project prid);
           _ ← exec (delete_project_row prid);
           _ ← commit;
           _ ← close;
           mret (Json 200 (JObj [("success", JBool true)])))
          on_error
  end.

(** ** Projects and comments *)

(** The POST branch of [add_project]; [description] is
    [request.form.get('description', '')]. *)
Definition add_project (session : option Session) (name description : string) : txM response :=
  match session with
  | None => mret (Redirect "login" [])
  | Some s =>
      let project_name := py_strip name in
      let description := py_strip description in
      if decide (project_name = "") then
        mret (Render "add_project.html" ["Project name is required"] (JObj []))
      else
        _ ← get_db_connection;
        existing ← query (fun db => project_named db (s_user_id s) project_name);
        match existing with
        | Some _ =>
            _ ← close; mret (Render "add_project.html" ["Project name already exists"] (JObj []))
        | None =>
            _ ← exec (insert_project (s_user_id s) project_name description);
            _ ← commit;
            _ ← close;
            mret (Redirect "projects" ["Project created successfully!"])
        end
  end.

(** The access check of [post_comments], as written: the post's project is
    the user's, or is among the projects of the user's posts'
    [project_id]s that are the user's projects. *)
Definition comment_access (db : Db) (uid post_id : Z) : bool :=
  match posts db !! post_id with
  | Some p =>
      match projects db !! project_id p with
      | Some pr =>
          bool_decide (pr_user_id pr = uid) ||
          bool_decide (project_id p ∈ map project_id
                         (filter (fun q => project_id q ∈ user_project_ids db uid) (table_posts db)))
      | None => false
      end
  | None => false
  end.

Definition created_at_desc (a b : PostComment * string) : Prop :=
  sql_le (created_at b.1) (created_at a.1).
#[export] Instance created_at_desc_dec : RelDecision created_at_desc :=
  fun a b => sql_le_dec (created_at b.1) (created_at a.1).

(** [SELECT pc.*, u.username FROM post_comments pc JOIN users u
    ON pc.user_id = u.id WHERE pc.post_id = ? ORDER BY pc.created_at DESC]. *)
Definition comments_of_post (db : Db) (post_id : Z) : list (PostComment * string) :=
  merge_sort created_at_desc
    (omap (fun kv : Z * PostComment => u ← users db !! pc_user_id kv.2; Some (kv.2, username u))
          (filter (fun kv : Z * PostComment => pc_post_id kv.2 = post_id) (rowid_order (post_comments db)))).

(** [{'text': ..., 'author': ..., 'created_at': ...}]. *)
Definition comment_json (r : PostComment * string) : json :=
  JObj [("text", JStr (comment_text r.1)); ("author", JStr r.2); ("created_at", JStr (created_at r.1))].

(** A request of [post_comments]: GET, or POST with the form's [comment_text]
    and the time [datetime.now().isoformat()]. *)
Inductive comment_request :=
  | CommentsGet
  | CommentsPost (text now : string).

Definition post_comments (session : option Session) (post_id : Z) (req : comment_request)
    : txM response :=
  match session with
  | None => mret (Redirect "login" [])
  | Some s =>
      _ ← get_db_connection;
      _ ← lift (sqlite_bind [post_id]);
      access ← query (fun db => comment_access db (s_user_id s) post_id);
      if negb access then mret (Redirect "posts" ["Post not found"])
      else
        flashed ← match req with
          | CommentsGet => mret []
          | CommentsPost text now =>
              let comment_text := py_strip text in
              if decide (comment_text <> "") then
                _ ← exec (insert_comment post_id (s_user_id s) comment_text now);
                _ ← commit;
                mret ["Comment added successfully!"]
              else mret ["Comment cannot be empty"]
          end;
        rows ← query (fun db => comments_of_post db post_id);
        _ ← close;
        mret (Render "post_comments.html" flashed (JList (map comment_json rows)))
  end.

Definition api_post_comments (session : option Session) (post_id : Z) : txM response :=
  match session with
  | None => mret (Json 401 (JObj [("error", JStr "Unauthorized")]))
  | Some s =>
      _ ← get_db_connection;
      _ ← lift (sqlite_bind [post_id]);
      rows ← query (fun db => take 10 (comments_of_post db post_id));
      _ ← close;
      mret (Json 200 (JList (map comment_json rows)))
  end.

(** ** Requests and one request's run *)

(** The requests that reach a route writing the database. *)
Inductive request :=
  | AddPost (f : PostForm)
  | AddProject (name description : string)
  | PostComments (post_id : Z) (req : comment_request)
  | ApiPostComments (post_id : Z)
  | DeletePost (post_id : Z)
  | DeleteMultiplePosts (post_ids : list Z)
  | DeleteProject (project_id : Z).

Definition route (session : option Session) (r : request) : txM response :=
  match r with
  | AddPost f => add_post session f
  | AddProject name d => add_project session name d
  | PostComments pid req => post_comments session pid req
  | ApiPostComments pid => api_post_comments session pid
  | DeletePost pid => delete_post session pid
  | DeleteMultiplePosts ids => delete_multiple_posts session ids
  | DeleteProject prid => delete_project session prid
  end.

(** One request on the committed database: the response and the database left. *)
Definition serve (session : option Session) (r : request) (db : Db) : response * Db :=
  run_route (route session r) db.

(** [login] puts a row of [users] in the session; nothing deletes users. *)
Definition valid_session (db : Db) (session : option Session) : Prop :=
  match session with
  | None => True
  | Some s => is_Some (users db !! s_user_id s)
  end.

(** The exception [add_post] ends with once its project is found:
    [int(project_id)]'s [ValueError], [calculate_metrics]'s,
    [OverflowError] when the INSERT binds a count outside 64 bits, or
    [AttributeError] at [db.lastrowid]. *)
Definition add_post_exc (f : PostForm) : py_exc :=
  let rest :=
    match Metrics.calculate_metrics (f_likes f) (f_comments f) (f_shares f) (f_saves f)
            (f_reach f) (f_avg_view_duration f) (f_reel_length f) (f_followers_gained f) with
    | Ok _ => if forallb sqlite_int (form_ints f) then AttributeError else OverflowError
    | Raise e => e
    end in
  match project_text f with
  | Some t => match py_int t with Ok _ => rest | Raise e => e end
  | None => rest
  end.

(** The database [post_comments] leaves. *)
Definition post_comments_effect (s : Session) (pid : Z) (req : comment_request) (db : Db) : Db :=
  match req with
  | CommentsPost text now =>
      if sqlite_int pid && comment_access db (s_user_id s) pid && bool_decide (py_strip text <> "")
      then insert_comment pid (s_user_id s) (py_strip text) now db else db
  | CommentsGet => db
  end.

(** ** A sample database: user1's project 1 with post 1, its hashtag and a comment *)

Definition sample_user1 : Session := mkSession 1 "user1".
Definition sample_user2 : Session := mkSession 2 "user2".

Definition sample_db : Db :=
  mkDb {[1 := mkUser "user1" "h1"; 2 := mkUser "user2" "h2"]}
       {[1 := mkProject 1 "Travel" ""]}
       {[1 := sample_p1]}
       {[1 := mkHashtag 1 "run"]}
       {[1 := mkPostComment 1 1 "great reel" "2024-03-15T10:00:00"]}
       {["users" := 2; "projects" := 1; "posts" := 1; "hashtags" := 1; "post_comments" := 1]}.

(** The tables the analytics read are empty. *)
Definition no_content (db : Db) : Prop := posts db = ∅ /\ hashtags db = ∅ /\ Store.post_comments db = ∅.

(** ** Running the monad *)

Ltac tx_simpl :=
  cbv [serve route add_post add_post_db resolve_project add_project post_comments api_post_comments
       delete_post delete_multiple_posts delete_project run_route mbind mret txM_bind txM_ret exec query commit rollback close
       get_db_connection throw try_except lift lastrowid on_error first_project default_project sqlite_prepare sqlite_bind] in *; simpl in *.

(** A loop whose body only executes statements executes their composition. *)
Lemma for_each_stmt {A} (xs : list A) (body : A -> txM unit) (g : A -> Db -> Db) c :
  (forall x c, body x c = (Ok tt, mkConn (committed c) (g x (working c)))) ->
  for_each xs body c = (Ok tt, mkConn (committed c) (foldl (fun db x => g x db) (working c) xs)).
Proof.
  intros Hbody. revert c. induction xs as [|x xs IH]; intros c; [by destruct c|].
  simpl. unfold mbind, txM_bind. rewrite Hbody, IH. reflexivity.
Qed.

Lemma user_project_ids_spec db uid k :
  k ∈ user_project_ids db uid <-> exists pr, projects db !! k = Some pr /\ pr_user_id pr = uid.
Proof.
  unfold user_project_ids. rewrite list_elem_of_fmap. split.
  - intros ([k' pr] & -> & [Hu Hk%elem_of_rowid_order]%list_elem_of_filter). eauto.
  - intros (pr & Hk & Hu). exists (k, pr). split; [done|].
    apply list_elem_of_filter. split; [done|]. by apply elem_of_rowid_order.
Qed.

Lemma head_None_nil {A} (l : list A) : head l = None -> l = [].
Proof. by destruct l. Qed.

Lemma no_project_named db uid name :
  user_project_ids db uid = [] -> project_named db uid name = None.
Proof.
  intros Hnil. apply project_named_None. intros k pr Hk Hu _.
  assert (k ∈ user_project_ids db uid) as Hin by (apply user_project_ids_spec; eauto).
  rewrite Hnil in Hin. by apply not_elem_of_nil in Hin.
Qed.

Lemma insert_project_owner db uid name desc :
  exists k, head (user_project_ids (insert_project uid name desc db) uid) = Some k.
Proof.
  destruct (user_project_ids (insert_project uid name desc db) uid) as [|k l] eqn:Hl; [|by eexists].
  exfalso. assert (next_rowid "projects" (projects db) db ∈ user_project_ids (insert_project uid name desc db) uid)
    as Hin by (apply user_project_ids_spec; simpl; rewrite lookup_insert_eq; eauto).
  rewrite Hl in Hin. by apply not_elem_of_nil in Hin.
Qed.

(** ** What each route does *)

Lemma serve_add_post s f db :
  serve (Some s) (AddPost f) db =
  match project_text f with
  | Some t =>
      if project_owned_text db (s_user_id s) t then (Crash (add_post_exc f), db)
      else (Redirect "add_post" ["Invalid project selected"], db)
  | None =>
      match user_project_ids db (s_user_id s) with
      | _ :: _ => (Crash (add_post_exc f), db)
      | [] => (Crash (add_post_exc f),
               insert_project (s_user_id s) (default_project_name s) "Default project" db)
      end
  end.
Proof.
  unfold add_post_exc. tx_simpl.
  destruct (project_text f) as [t|] eqn:Hf; simpl.
  - destruct (project_owned_text db (s_user_id s) t) eqn:Ho; simpl; [|done].
    destruct (py_int t); simpl; [|done].
    destruct (Metrics.calculate_metrics _ _ _ _ _ _ _ _); simpl; [|done].
    by destruct (forallb sqlite_int (form_ints f)).
  - destruct (user_project_ids db (s_user_id s)) as [|k l] eqn:Hu; simpl.
    + destruct (insert_project_owner db (s_user_id s) (default_project_name s) "Default project") as [k Hk].
      rewrite Hk. simpl. destruct (Metrics.calculate_metrics _ _ _ _ _ _ _ _); simpl; [|done].
      by destruct (forallb sqlite_int (form_ints f)).
    + destruct (Metrics.calculate_metrics _ _ _ _ _ _ _ _); simpl; [|done].
      by destruct (forallb sqlite_int (form_ints f)).
Qed.

Lemma serve_logged_out r db : exists resp, serve None r db = (resp, db).
Proof. destruct r; eexists; reflexivity. Qed.

Lemma serve_delete_post s pid db :
  serve (Some s) (DeletePost pid) db =
  if negb (sqlite_int pid) then (Crash OverflowError, db)
  else if post_owned db (s_user_id s) pid
  then (Json 200 (JObj [("success", JBool true)]), delete_post_cascade pid db)
  else (Json 404 (json_error "Post not found or unauthorized"), db).
Proof. tx_simpl. destruct (sqlite_int pid); [|done]. by destruct (post_owned db (s_user_id s) pid) eqn:Ho. Qed.

Lemma serve_delete_multiple_posts s ids db :
  serve (Some s) (DeleteMultiplePosts ids) db =
  if decide (ids = []) then (Json 400 (json_error "No posts selected"), db)
  else if negb (length ids + 1 <=? SQLITE_MAX_VARIABLE_NUMBER)%nat
  then (Json 500 (json_error (exc_str OperationalError)), db)
  else if negb (forallb sqlite_int ids) then (Json 500 (json_error (exc_str OverflowError)), db)
  else if decide (length (owned_post_ids db (s_user_id s) ids) <> length ids)
  then (Json 404 (json_error "Some posts not found or unauthorized"), db)
  else (Json 200 (JObj [("success", JBool true);
                        ("deleted_count", JInt (Z.of_nat (length (owned_post_ids db (s_user_id s) ids))))]),
        delete_posts_cascade (owned_post_ids db (s_user_id s) ids) db).
Proof.
  tx_simpl. destruct (decide (ids = [])); [done|]. simpl.
  destruct (length ids + 1 <=? SQLITE_MAX_VARIABLE_NUMBER)%nat; [|done]. simpl.
  destruct (forallb sqlite_int ids); [|done]. simpl.
  destruct (decide (length (owned_post_ids db (s_user_id s) ids) <> length ids)); [done|]. simpl.
  by rewrite (for_each_stmt _ _ delete_post_cascade).
Qed.

Lemma serve_delete_project s prid db :
  serve (Some s) (DeleteProject prid) db =
  if negb (sqlite_int prid) then (Crash OverflowError, db)
  else if project_owned db (s_user_id s) prid
  then (Json 200 (JObj [("success", JBool true)]),
        delete_project_cascade prid (project_post_ids db prid) db)
  else (Json 404 (json_error "Project not found or unauthorized"), db).
Proof.
  tx_simpl. destruct (sqlite_int prid); [|done]. destruct (project_owned db (s_user_id s) prid) eqn:Ho; [|done]. simpl.
  by rewrite (for_each_stmt _ _ delete_post_children).
Qed.

Lemma serve_add_project s name d db :
  serve (Some s) (AddProject name d) db =
  if decide (py_strip name = "")
  then (Render "add_project.html" ["Project name is required"] (JObj []), db)
  else match project_named db (s_user_id s) (py_strip name) with
       | Some _ => (Render "add_project.html" ["Project name already exists"] (JObj []), db)
       | None => (Redirect "projects" ["Project created successfully!"],
                  insert_project (s_user_id s) (py_strip name) (py_strip d) db)
       end.
Proof.
  tx_simpl. destruct (decide (py_strip name = "")); [done|]. simpl.
  by destruct (project_named db (s_user_id s) (py_strip name)).
Qed.

Lemma serve_post_comments_db s pid req db :
  (serve (Some s) (PostComments pid req) db).2 = post_comments_effect s pid req db.
Proof.
  unfold post_comments_effect. tx_simpl. destruct (sqlite_int pid); simpl; [|by destruct req].
  destruct (comment_access db (s_user_id s) pid) eqn:Ha; simpl; [|destruct req; reflexivity].
  destruct req as [|text now]; simpl; [done|].
  unfold bool_decide. by repeat case_decide.
Qed.

Lemma serve_api_post_comments s pid db :
  serve (Some s) (ApiPostComments pid) db =
  if negb (sqlite_int pid) then (Crash OverflowError, db)
  else (Json 200 (JList (map comment_json (take 10 (comments_of_post db pid)))), db).
Proof. tx_simpl. by destruct (sqlite_int pid). Qed.

Lemma serve_post_comments_overflow s pid req db :
  sqlite_int pid = false -> serve (Some s) (PostComments pid req) db = (Crash OverflowError, db).
Proof. intros Hi. tx_simpl. by rewrite Hi. Qed.

(** ** Lemmas on the access checks *)

Lemma comment_access_post db uid pid :
  comment_access db uid pid = true -> is_Some (posts db !! pid).
Proof. unfold comment_access. destruct (posts db !! pid); [eauto|done]. Qed.

Lemma elem_of_owned_post_ids db uid ids k :
  k ∈ owned_post_ids db uid ids <-> k ∈ ids /\ post_owned db uid k = true.
Proof.
  unfold owned_post_ids, post_owned. rewrite list_elem_of_fmap. split.
  - intros ([k' p] & -> & [[Hin Ho] Hk%elem_of_rowid_order]%list_elem_of_filter).
    simpl in *. rewrite Hk. done.
  - intros [Hin Ho]. destruct (posts db !! k) as [p|] eqn:Hk; [|done].
    exists (k, p). split; [done|]. apply list_elem_of_filter. split; [done|].
    by apply elem_of_rowid_order.
Qed.

(** The ownership query returns as many rows as ids exactly when the ids
    are distinct and all owned. *)
Lemma owned_post_ids_length db uid ids :
  length (owned_post_ids db uid ids) = length ids <->
  NoDup ids /\ Forall (fun i => post_owned db uid i = true) ids.
Proof.
  pose proof (NoDup_rowid_keys (fun kv : Z * Post => kv.1 ∈ ids /\ project_owned db uid (project_id kv.2) = true)
                (posts db)) as Hnd.
  fold (owned_post_ids db uid ids) in Hnd. rewrite Forall_forall. split.
  - intros Hlen.
    assert (owned_post_ids db uid ids ≡ₚ ids) as Hp.
    { apply submseteq_length_Permutation; [|lia].
      apply NoDup_submseteq; [done|]. intros x Hx. by apply elem_of_owned_post_ids in Hx as [? _]. }
    split; [by rewrite <-Hp|]. intros i Hi. rewrite <-Hp in Hi. by apply elem_of_owned_post_ids in Hi as [_ ?].
  - intros [Hids Hall]. apply (anti_symm le); apply submseteq_length, NoDup_submseteq; try done.
    + intros x Hx. by apply elem_of_owned_post_ids in Hx as [? _].
    + intros x Hx. apply elem_of_owned_post_ids. auto.
Qed.

(** ** The tables each request changes *)

(** Name what a cascade leaves of each table. *)
Ltac cascade_tables :=
  match goal with
  | |- context [delete_posts_cascade ?ids ?db] =>
      destruct (delete_posts_cascade_tables ids db) as (?Hu & ?Hpr & ?Hpo & ?Hh & ?Hc)
  | |- context [delete_project_cascade ?p ?ids ?db] =>
      destruct (delete_project_cascade_tables p ids db) as (?Hu & ?Hpr & ?Hpo & ?Hh & ?Hc)
  end.

Lemma serve_users session r db : users (serve session r db).2 = users db.
Proof.
  destruct session as [s|]; [|by destruct (serve_logged_out r db) as [? ->]].
  destruct r as [f|name d|pid req|pid|pid|ids|prid].
  - rewrite serve_add_post. repeat case_match; done.
  - rewrite serve_add_project. repeat case_match; done.
  - rewrite serve_post_comments_db. unfold post_comments_effect. repeat case_match; done.
  - rewrite serve_api_post_comments. by case_match.
  - rewrite serve_delete_post. by repeat case_match.
  - rewrite serve_delete_multiple_posts. repeat case_match; cbn [snd]; try done. by cascade_tables.
  - rewrite serve_delete_project. repeat case_match; cbn [snd]; try done. by cascade_tables.
Qed.

Lemma serve_posts_subseteq session r db : posts (serve session r db).2 ⊆ posts db.
Proof.
  destruct session as [s|]; [|by destruct (serve_logged_out r db) as [? ->]].
  destruct r as [f|name d|pid req|pid|pid|ids|prid].
  - rewrite serve_add_post. repeat case_match; done.
  - rewrite serve_add_project. repeat case_match; done.
  - rewrite serve_post_comments_db. unfold post_comments_effect. repeat case_match; done.
  - rewrite serve_api_post_comments. by case_match.
  - rewrite serve_delete_post. repeat case_match; cbn [snd]; try done. apply delete_subseteq.
  - rewrite serve_delete_multiple_posts. repeat case_match; cbn [snd]; try done.
    cascade_tables. apply map_subseteq_spec. intros k p. by rewrite Hpo; intros [? _].
  - rewrite serve_delete_project. repeat case_match; cbn [snd]; try done.
    cascade_tables. rewrite Hpo. apply map_filter_subseteq.
Qed.

Lemma serve_hashtags_subseteq session r db : hashtags (serve session r db).2 ⊆ hashtags db.
Proof.
  destruct session as [s|]; [|by destruct (serve_logged_out r db) as [? ->]].
  destruct r as [f|name d|pid req|pid|pid|ids|prid].
  - rewrite serve_add_post. repeat case_match; done.
  - rewrite serve_add_project. repeat case_match; done.
  - rewrite serve_post_comments_db. unfold post_comments_effect. repeat case_match; done.
  - rewrite serve_api_post_comments. by case_match.
  - rewrite serve_delete_post. repeat case_match; cbn [snd]; try done. apply map_filter_subseteq.
  - rewrite serve_delete_multiple_posts. repeat case_match; cbn [snd]; try done. by cascade_tables.
  - rewrite serve_delete_project. repeat case_match; cbn [snd]; try done. by cascade_tables.
Qed.

Lemma serve_comments_no_posts session r db :
  posts db = ∅ -> Store.post_comments (serve session r db).2 ⊆ Store.post_comments db.
Proof.
  intros Hnone. destruct session as [s|]; [|by destruct (serve_logged_out r db) as [? ->]].
  destruct r as [f|name d|pid req|pid|pid|ids|prid].
  - rewrite serve_add_post. repeat case_match; done.
  - rewrite serve_add_project. repeat case_match; done.
  - rewrite serve_post_comments_db. unfold post_comments_effect.
    destruct req; [done|]. destruct (sqlite_int pid); [|done]. simpl.
    destruct (comment_access db (s_user_id s) pid) eqn:Ha; [|done].
    apply comment_access_post in Ha. rewrite Hnone, lookup_empty in Ha. by destruct Ha.
  - rewrite serve_api_post_comments. by case_match.
  - rewrite serve_delete_post. repeat case_match; cbn [snd]; try done. apply map_filter_subseteq.
  - rewrite serve_delete_multiple_posts. repeat case_match; cbn [snd]; try done. by cascade_tables.
  - rewrite serve_delete_project. repeat case_match; cbn [snd]; try done. by cascade_tables.
Qed.

Lemma comment_access_eq db uid pid : comment_access db uid pid = post_owned db uid pid.
Proof.
  unfold comment_access, post_owned, project_owned.
  destruct (posts db !! pid) as [p|]; [|done].
  destruct (projects db !! project_id p) as [pr|] eqn:Hpr; [|done].
  destruct (bool_decide (pr_user_id pr = uid)) eqn:Hu; [done|]. simpl.
  apply bool_decide_eq_false. apply bool_decide_eq_false in Hu. intros Hin.
  apply list_elem_of_fmap in Hin as (q & Hq & [Hqin _]%list_elem_of_filter).
  rewrite <-Hq in Hqin. apply user_project_ids_spec in Hqin as (pr' & Hpr' & Hu').
  congruence.
Qed.

(** ** Integrity and emptiness are kept by every request *)

Lemma serve_wf session r db :
  wf_db db -> valid_session db session -> wf_db (serve session r db).2.
Proof.
  intros Hwf Hs. destruct session as [s|]; [|by destruct (serve_logged_out r db) as [? ->]].
  simpl in Hs. destruct r as [f|name d|pid req|pid|pid|ids|prid].
  - rewrite serve_add_post. destruct (project_text f); [by case_match|].
    destruct (user_project_ids db (s_user_id s)) eqn:Hu; [|done].
    by apply insert_project_wf, no_project_named.
  - rewrite serve_add_project. case_decide; [done|].
    destruct (project_named db (s_user_id s) (py_strip name)) eqn:Hn; [done|].
    by apply insert_project_wf.
  - rewrite serve_post_comments_db. unfold post_comments_effect.
    destruct req; [done|]. destruct (sqlite_int pid); [|done]. simpl.
    destruct (comment_access db (s_user_id s) pid) eqn:Ha; [|done].
    case_bool_decide; [|done]. apply insert_comment_wf; [done| |done]. by eapply comment_access_post.
  - rewrite serve_api_post_comments. by case_match.
  - rewrite serve_delete_post. repeat case_match; try done. by apply delete_post_cascade_wf.
  - rewrite serve_delete_multiple_posts. repeat case_match; try done.
    by apply delete_posts_cascade_wf.
  - rewrite serve_delete_project. repeat case_match; try done.
    apply delete_project_cascade_wf; [done|]. intros k p Hk Hp. by eapply project_post_ids_complete.
Qed.

(** What a request does to the [projects] table: nothing, one
    [insert_project], or deletions that leave [sqlite_sequence] alone. *)
Lemma serve_projects_cases session r db :
  (serve session r db).2 = db \/
  (exists uid name desc, (serve session r db).2 = insert_project uid name desc db) \/
  (projects (serve session r db).2 ⊆ projects db /\
   seq_value "projects" (serve session r db).2 = seq_value "projects" db).
Proof.
  destruct session as [s|]; [|left; by destruct (serve_logged_out r db) as [? ->]].
  destruct r as [f|name d|pid req|pid|pid|ids|prid].
  - rewrite serve_add_post. repeat case_match; cbn [snd]; first [by left|right; left; by do 3 eexists].
  - rewrite serve_add_project. repeat case_match; cbn [snd]; first [by left|right; left; by do 3 eexists].
  - rewrite serve_post_comments_db. unfold post_comments_effect. repeat case_match; try by left.
    all: right; right; unfold seq_value, insert_comment; simpl; by rewrite lookup_insert_ne.
  - left. rewrite serve_api_post_comments. by case_match.
  - rewrite serve_delete_post. repeat case_match; cbn [snd]; try by left. right; right.
    unfold seq_value. split; [reflexivity|done].
  - rewrite serve_delete_multiple_posts. repeat case_match; cbn [snd]; try by left.
    right; right. cascade_tables. unfold seq_value. by rewrite Hpr, delete_posts_cascade_seq.
  - rewrite serve_delete_project. repeat case_match; cbn [snd]; try by left. right; right.
    cascade_tables. unfold seq_value. rewrite Hpr, delete_project_cascade_seq. split; [apply delete_subseteq|done].
Qed.

Lemma subseteq_empty {A} (m : gmap Z A) : m ⊆ ∅ -> m = ∅.
Proof. intros H. apply (anti_symm (⊆)); [done|apply map_empty_subseteq]. Qed.

Lemma serve_no_content session r db : no_content db -> no_content (serve session r db).2.
Proof.
  intros (Hp & Hh & Hc). split_and!; apply subseteq_empty.
  - rewrite <-Hp. apply serve_posts_subseteq.
  - rewrite <-Hh. apply serve_hashtags_subseteq.
  - rewrite <-Hc. by apply serve_comments_no_posts.
Qed.

(** ** Requests leave other users' rows alone *)

Lemma serve_keeps_foreign_posts s r db k p :
  posts db !! k = Some p -> project_owned db (s_user_id s) (project_id p) = false ->
  posts (serve (Some s) r db).2 !! k = Some p.
Proof.
  intros Hk Hno. destruct r as [f|name d|pid req|pid|pid|ids|prid].
  - rewrite serve_add_post. by repeat case_match.
  - rewrite serve_add_project. by repeat case_match.
  - rewrite serve_post_comments_db. unfold post_comments_effect. by repeat case_match.
  - rewrite serve_api_post_comments. by case_match.
  - rewrite serve_delete_post. destruct (sqlite_int pid); cbn [negb]; [|done].
    destruct (post_owned db (s_user_id s) pid) eqn:Ho; [|done].
    simpl. rewrite lookup_delete_ne; [done|]. intros <-. unfold post_owned in Ho. rewrite Hk in Ho. congruence.
  - rewrite serve_delete_multiple_posts. repeat case_match; cbn [snd]; try done.
    cascade_tables. apply Hpo. split; [done|]. rewrite elem_of_owned_post_ids.
    unfold post_owned. rewrite Hk. intros [_ Ho]. congruence.
  - rewrite serve_delete_project. destruct (sqlite_int prid); cbn [negb]; [|done].
    destruct (project_owned db (s_user_id s) prid) eqn:Ho; [|done].
    cbn [snd]. cascade_tables. rewrite Hpo. apply map_lookup_filter_Some. split; [done|].
    intros Heq. simpl in Heq. rewrite Heq in Hno. congruence.
Qed.

Lemma insert_project_keeps db uid name desc k pr :
  projects db !! k = Some pr -> projects (insert_project uid name desc db) !! k = Some pr.
Proof.
  intros Hk. simpl. rewrite lookup_insert_ne; [done|]. intros <-.
  by rewrite next_rowid_fresh in Hk.
Qed.

Lemma serve_keeps_foreign_projects s r db k pr :
  projects db !! k = Some pr -> pr_user_id pr <> s_user_id s ->
  projects (serve (Some s) r db).2 !! k = Some pr.
Proof.
  intros Hk Hne. destruct r as [f|name d|pid req|pid|pid|ids|prid].
  - rewrite serve_add_post. repeat case_match; cbn [snd]; auto using insert_project_keeps.
  - rewrite serve_add_project. repeat case_match; cbn [snd]; auto using insert_project_keeps.
  - rewrite serve_post_comments_db. unfold post_comments_effect. by repeat case_match.
  - rewrite serve_api_post_comments. by case_match.
  - rewrite serve_delete_post. by repeat case_match.
  - rewrite serve_delete_multiple_posts. repeat case_match; cbn [snd]; try done.
    cascade_tables. by rewrite Hpr.
  - rewrite serve_delete_project. destruct (sqlite_int prid); cbn [negb]; [|done].
    destruct (project_owned db (s_user_id s) prid) eqn:Ho; [|done].
    cbn [snd]. cascade_tables. rewrite Hpr, lookup_delete_ne; [done|]. intros <-.
    apply project_owned_spec in Ho as (pr' & Hpr' & Hown). congruence.
Qed.

(** [int()] raises nothing but [ValueError]. *)
Lemma py_int_Raise t e : py_int t = Raise e -> e = ValueError.
Proof. unfold py_int. intros H. by repeat case_match; simplify_eq. Qed.

Lemma add_post_exc_cases f :
  add_post_exc f = AttributeError \/ add_post_exc f = TypeError \/ add_post_exc f = OverflowError \/
  add_post_exc f = ValueError.
Proof.
  unfold add_post_exc. repeat case_match; auto;
    match goal with
    | H : py_int _ = Raise _ |- _ => apply py_int_Raise in H; subst; auto
    | H : Metrics.calculate_metrics _ _ _ _ _ _ _ _ = Raise _ |- _ =>
        destruct (Metrics.calculate_metrics_Raise _ _ _ _ _ _ _ _ _ H) as [-> | ->]; auto
    end.
Qed.

Lemma sample_db_wf : wf_db sample_db.
Proof.
  constructor; simpl.
  - intros k pr [<- <-]%lookup_singleton_Some. by eexists.
  - by intros k p [<- <-]%lookup_singleton_Some.
  - intros k p [<- <-]%lookup_singleton_Some. by eexists.
  - intros k h [<- <-]%lookup_singleton_Some. by eexists.
  - intros k c [<- <-]%lookup_singleton_Some. by eexists.
  - intros k c [<- <-]%lookup_singleton_Some. by eexists.
  - by intros k1 k2 p1 p2 [<- _]%lookup_singleton_Some [<- _]%lookup_singleton_Some.
Qed.

(** ** Properties of the application *)

(** C2 add_post_never_stores: a POST to [add_post] never adds a post or
    a hashtag: it ends in Flask's error page for [ValueError] (raised by
    [int(project_id)] on a text SQLite matched to a project, such as
    [1.0]), [TypeError] (raised by [calculate_metrics]), [OverflowError]
    (a count outside 64 bits, raised when the INSERT binds it) or
    [AttributeError] (raised by [db.lastrowid]), or redirects (invalid
    project, not logged in). *)
Theorem add_post_never_stores session f db :
  posts (serve session (AddPost f) db).2 = posts db /\
  hashtags (serve session (AddPost f) db).2 = hashtags db /\
  ((serve session (AddPost f) db).1 = Crash (add_post_exc f) \/
   (serve session (AddPost f) db).1 = Redirect "add_post" ["Invalid project selected"] \/
   (serve session (AddPost f) db).1 = Redirect "login" []) /\
  (add_post_exc f = AttributeError \/ add_post_exc f = TypeError \/ add_post_exc f = OverflowError \/
   add_post_exc f = ValueError).
Proof.
  split_and!; [| |destruct session as [s|]; [rewrite serve_add_post|]|apply add_post_exc_cases].
  - destruct session as [s|]; [rewrite serve_add_post|done]. by repeat case_match.
  - destruct session as [s|]; [rewrite serve_add_post|done]. by repeat case_match.
  - repeat case_match; simpl; auto.
  - simpl; auto.
Qed.

(** C3 serve_isolation: a request of a logged-in user never removes or
    changes a post of a project the user does not own, nor a project of
    another user. *)
Theorem serve_isolation s r db kp p kr pr :
  (posts db !! kp = Some p -> project_owned db (s_user_id s) (project_id p) = false ->
   posts (serve (Some s) r db).2 !! kp = Some p) /\
  (projects db !! kr = Some pr -> pr_user_id pr <> s_user_id s ->
   projects (serve (Some s) r db).2 !! kr = Some pr).
Proof. split; [apply serve_keeps_foreign_posts|apply serve_keeps_foreign_projects]. Qed.

Lemma serve_isolation_witness :
  (posts sample_db !! 1 = Some sample_p1 /\ project_owned sample_db 2 1 = false /\
   posts (serve (Some sample_user2) (DeleteProject 1) sample_db).2 !! 1 = Some sample_p1) /\
  (projects sample_db !! 1 = Some (mkProject 1 "Travel" "") /\ (1 <> 2) /\
   projects (serve (Some sample_user2) (DeleteProject 1) sample_db).2 !! 1 = Some (mkProject 1 "Travel" "")).
Proof.
  destruct (serve_isolation sample_user2 (DeleteProject 1) sample_db 1 sample_p1 1 (mkProject 1 "Travel" ""))
    as [Hp Hpr].
  split; split_and!.
  1, 2, 4: reflexivity.
  - apply Hp; reflexivity.
  - lia.
  - apply Hpr; simpl; [reflexivity|lia].
Defined.

(** C10 delete_multiple_posts_all_or_nothing: [delete_multiple_posts]
    deletes (with their comments and hashtags) exactly when the id list is
    non-empty, short enough for SQLite's limit on host parameters (the
    ownership query has one [?] per id and one for the user), fits
    SQLite's 64-bit INTEGER, has no repetition and every post is the
    user's; otherwise it changes nothing.  A repeated id is refused, since
    the ownership query returns one row per post. *)
Theorem delete_multiple_posts_all_or_nothing s ids db :
  (serve (Some s) (DeleteMultiplePosts ids) db).2 =
  if decide (ids <> [] /\ (length ids + 1 <= SQLITE_MAX_VARIABLE_NUMBER)%nat /\
             Forall (fun i => sqlite_int i = true) ids /\ NoDup ids /\
             Forall (fun i => post_owned db (s_user_id s) i = true) ids)
  then delete_posts_cascade (owned_post_ids db (s_user_id s) ids) db else db.
Proof.
  rewrite serve_delete_multiple_posts.
  destruct (decide (ids = [])) as [->|Hne]; [by rewrite decide_False by naive_solver|].
  destruct (Nat.leb_spec (length ids + 1) SQLITE_MAX_VARIABLE_NUMBER) as [Hn|Hn]; cbn [negb];
    [|rewrite decide_False; [done|]; intros (_ & ? & _); lia].
  destruct (forallb sqlite_int ids) eqn:Hb; cbn [negb];
    [|rewrite decide_False; [done|]; intros (_ & _ & Hf%forallb_sqlite_int & _); congruence].
  apply forallb_sqlite_int in Hb.
  pose proof (owned_post_ids_length db (s_user_id s) ids) as Hlen.
  destruct (decide (length (owned_post_ids db (s_user_id s) ids) <> length ids)) as [Hl|Hl].
  - rewrite decide_False by (intros (_ & _ & _ & ? & ?); apply Hl, Hlen; auto). done.
  - rewrite decide_True; [done|]. split_and!; [done|done|done|by apply Hlen; lia|by apply Hlen; lia].
Qed.

(** C13 comment_access_owned: the access query of [post_comments] (owner,
    or a project among those of the user's posts) grants exactly the posts
    of the user's projects: the second disjunct adds nothing. *)
Theorem comment_access_owned db uid pid : comment_access db uid pid = post_owned db uid pid.
Proof. apply comment_access_eq. Qed.

(** C11 api_post_comments_unauthorized: [api_post_comments] only checks
    that someone is logged in: for a post the user does not own, which
    [post_comments] refuses, it returns the post's ten latest comments
    with their authors. *)
Theorem api_post_comments_unauthorized s pid db :
  sqlite_int pid = true -> post_owned db (s_user_id s) pid = false ->
  (serve (Some s) (PostComments pid CommentsGet) db).1 = Redirect "posts" ["Post not found"] /\
  (serve (Some s) (ApiPostComments pid) db).1 =
    Json 200 (JList (map comment_json (take 10 (comments_of_post db pid)))).
Proof.
  intros Hi Ho. rewrite serve_api_post_comments, Hi. split; [|done]. tx_simpl. by rewrite Hi, comment_access_eq, Ho.
Qed.

Lemma api_post_comments_unauthorized_witness :
  wf_db sample_db /\ post_owned sample_db 2 1 = false /\
  (serve (Some sample_user2) (PostComments 1 CommentsGet) sample_db).1 = Redirect "posts" ["Post not found"] /\
  (serve (Some sample_user2) (ApiPostComments 1) sample_db).1 =
    Json 200 (JList (map comment_json (take 10 (comments_of_post sample_db 1)))) /\
  comments_of_post sample_db 1 = [(mkPostComment 1 1 "great reel" "2024-03-15T10:00:00", "user1")].
Proof.
  assert (Hi : sqlite_int 1 = true) by reflexivity.
  assert (Ho : post_owned sample_db 2 1 = false) by reflexivity.
  destruct (api_post_comments_unauthorized sample_user2 1 sample_db Hi Ho) as [H1 H2].
  split_and!; [exact sample_db_wf|exact Ho|exact H1|exact H2|vm_compute; reflexivity].
Defined.

(** C12 delete_project_removes: when the user owns the project,
    [delete_project] removes it, removes exactly its posts, and leaves no
    hashtag or comment of those posts. *)
Theorem delete_project_removes s prid db :
  sqlite_int prid = true -> project_owned db (s_user_id s) prid = true ->
  projects (serve (Some s) (DeleteProject prid) db).2 !! prid = None /\
  (forall k p, posts (serve (Some s) (DeleteProject prid) db).2 !! k = Some p <->
               posts db !! k = Some p /\ project_id p <> prid) /\
  (forall k h, hashtags (serve (Some s) (DeleteProject prid) db).2 !! k = Some h ->
               h_post_id h ∉ project_post_ids db prid) /\
  (forall k c, Store.post_comments (serve (Some s) (DeleteProject prid) db).2 !! k = Some c ->
               pc_post_id c ∉ project_post_ids db prid).
Proof.
  intros Hi Ho. rewrite serve_delete_project, Hi, Ho. cbn [negb snd]. cascade_tables.
  destruct (delete_project_cascade_children prid (project_post_ids db prid) db) as [Hh' Hc'].
  destruct (delete_children_of_tables (project_post_ids db prid) db) as (_ & _ & _ & Hch & Hcc).
  split_and!.
  - rewrite Hpr. apply lookup_delete_eq.
  - intros k p. rewrite Hpo, map_lookup_filter_Some. done.
  - intros k h. rewrite Hh', Hch. by intros [_ ?].
  - intros k c. rewrite Hc', Hcc. by intros [_ ?].
Qed.

Lemma delete_project_removes_witness :
  project_owned sample_db 1 1 = true /\
  projects (serve (Some sample_user1) (DeleteProject 1) sample_db).2 !! 1 = None /\
  posts (serve (Some sample_user1) (DeleteProject 1) sample_db).2 !! 1 = None.
Proof.
  assert (Hi : sqlite_int 1 = true) by reflexivity.
  assert (Ho : project_owned sample_db 1 1 = true) by reflexivity.
  destruct (delete_project_removes sample_user1 1 sample_db Hi Ho) as (H1 & H2 & _ & _).
  split_and!; [exact Ho|exact H1|].
  apply eq_None_not_Some. intros [p [Hp Hne]%H2]. apply Hne.
  vm_compute in Hp. injection Hp as <-. reflexivity.
Defined.

(** C14 serve_int_overflow: an id of the URL or of the JSON body that
    does not fit SQLite's 64-bit INTEGER (werkzeug's [int] converter and
    [request.json] take any integer) makes sqlite3 raise [OverflowError]
    when the first query binds it: [delete_post], [delete_project],
    [post_comments] and [api_post_comments] answer Flask's error page
    instead of 404, [delete_multiple_posts] catches it and answers 500
    with the exception's text; an id list too long for SQLite's limit on
    host parameters makes the ownership query fail to prepare, answered
    with 500 and "too many SQL variables"; none of them changes the
    database. *)
Theorem serve_int_overflow s db pid prid req ids :
  (sqlite_int pid = false ->
   serve (Some s) (DeletePost pid) db = (Crash OverflowError, db) /\
   serve (Some s) (PostComments pid req) db = (Crash OverflowError, db) /\
   serve (Some s) (ApiPostComments pid) db = (Crash OverflowError, db)) /\
  (sqlite_int prid = false -> serve (Some s) (DeleteProject prid) db = (Crash OverflowError, db)) /\
  (ids <> [] -> (length ids + 1 <= SQLITE_MAX_VARIABLE_NUMBER)%nat -> Exists (fun i => sqlite_int i = false) ids ->
   serve (Some s) (DeleteMultiplePosts ids) db =
     (Json 500 (json_error "Python int too large to convert to SQLite INTEGER"), db)) /\
  (SQLITE_MAX_VARIABLE_NUMBER < length ids + 1 ->
   serve (Some s) (DeleteMultiplePosts ids) db = (Json 500 (json_error "too many SQL variables"), db))%nat.
Proof.
  split_and!.
  - intros Hi. rewrite serve_delete_post, serve_api_post_comments, serve_post_comments_overflow, Hi by done.
    done.
  - intros Hi. by rewrite serve_delete_project, Hi.
  - intros Hne Hn Hex. rewrite serve_delete_multiple_posts, decide_False by done.
    rewrite (proj2 (Nat.leb_le _ _) Hn). cbn [negb].
    destruct (forallb sqlite_int ids) eqn:Hb; [|done].
    apply forallb_sqlite_int in Hb. exfalso.
    apply Exists_exists in Hex as (z & Hz & Hf). rewrite (proj1 (Forall_forall _ _) Hb z Hz) in Hf. discriminate.
  - intros Hn. rewrite serve_delete_multiple_posts, decide_False by (intros ->; simpl in Hn; unfold SQLITE_MAX_VARIABLE_NUMBER in Hn; lia).
    by rewrite (proj2 (Nat.leb_gt _ _) Hn).
Qed.

Lemma serve_int_overflow_witness :
  sqlite_int (2 ^ 63) = false /\ [1; 2 ^ 63] <> [] /\
  (length [1; 2 ^ 63]%Z + 1 <= SQLITE_MAX_VARIABLE_NUMBER)%nat /\ Exists (fun i => sqlite_int i = false) [1; 2 ^ 63] /\
  serve (Some sample_user1) (DeletePost (2 ^ 63)) sample_db = (Crash OverflowError, sample_db) /\
  serve (Some sample_user1) (DeleteProject (2 ^ 63)) sample_db = (Crash OverflowError, sample_db) /\
  serve (Some sample_user1) (DeleteMultiplePosts [1; 2 ^ 63]) sample_db =
    (Json 500 (json_error "Python int too large to convert to SQLite INTEGER"), sample_db).
Proof.
  assert (Hi : sqlite_int (2 ^ 63) = false) by reflexivity.
  assert (Hne : [1; 2 ^ 63] <> []) by discriminate.
  assert (Hn : (length [1; 2 ^ 63]%Z + 1 <= SQLITE_MAX_VARIABLE_NUMBER)%nat) by (apply Nat.leb_le; vm_compute; reflexivity).
  assert (Hex : Exists (fun i => sqlite_int i = false) [1; 2 ^ 63]) by (right; left; reflexivity).
  pose proof (serve_int_overflow sample_user1 sample_db (2 ^ 63) (2 ^ 63) CommentsGet [1; 2 ^ 63]) as H.
  refine (conj Hi (conj Hne (conj Hn (conj Hex (conj (proj1 (proj1 H Hi)) (conj (proj1 (proj2 H) Hi)
    (proj1 (proj2 (proj2 H)) Hne Hn Hex))))))).
Defined.
