(* ===== verification/ApiTypes.v ===== *)
(** * The shapes of the JSON the routes answer

    The routes a page's JavaScript calls answer JSON: [delete_post]
    (src/app.py, lines 1296-1332), [delete_multiple_posts] (1334-1376),
    [delete_project] (1378-1418) and [api_post_comments] (1245-1266).
    [jtype] is a small type language for JSON values (booleans, integers,
    strings, lists, objects with their keys in order, and a choice among
    types), [has_type] its checker.  The theorem: whatever the session, the
    request and the database, each of these routes answers a JSON body of
    its documented shape, or Flask's error page for an uncaught exception;
    never a redirect or a template. *)

From Stdlib Require Import ZArith.
From stdpp Require Import base list strings gmap.
From S2P Require Import Prelude Sql Post Store Routes.

Module ApiTypes.

Local Open Scope Z_scope.
Local Set Warnings "-register-all".

Inductive jtype :=
  | TBool
  | TInt
  | TStr
  | TList (t : jtype)
  | TObj (fields : list (string * jtype))
  | TOneOf (ts : list jtype).

(** [j] has type [t]; an object has exactly the fields of its type, in
    their order. *)
Fixpoint has_type (t : jtype) (j : json) {struct t} : bool :=
  match t, j with
  | TBool, JBool _ | TInt, JInt _ | TStr, JStr _ => true
  | TList t', JList l => forallb (has_type t') l
  | TObj fts, JObj fs =>
      (fix fields (fts : list (string * jtype)) (fs : list (string * json)) : bool :=
         match fts, fs with
         | [], [] => true
         | (k, t') :: fts', (k', v) :: fs' => String.eqb k k' && has_type t' v && fields fts' fs'
         | _, _ => false
         end) fts fs
  | TOneOf ts, _ => existsb (fun t' => has_type t' j) ts
  | _, _ => false
  end.

(** [jsonify({'success': False, 'error': msg})]. *)
Definition error_type : jtype := TObj [("success", TBool); ("error", TStr)].

(** The answers of the delete routes. *)
Definition delete_type : jtype := TOneOf [TObj [("success", TBool)]; error_type].
Definition delete_multiple_type : jtype :=
  TOneOf [TObj [("success", TBool); ("deleted_count", TInt)]; error_type].

(** [{'text': ..., 'author': ..., 'created_at': ...}] and the 401 answer. *)
Definition comment_type : jtype := TObj [("text", TStr); ("author", TStr); ("created_at", TStr)].
Definition comments_api_type : jtype := TOneOf [TList comment_type; TObj [("error", TStr)]].

(** The type of the JSON a request's route answers, for the JSON routes. *)
Definition route_type (r : request) : option jtype :=
  match r with
  | DeletePost _ | DeleteProject _ => Some delete_type
  | DeleteMultiplePosts _ => Some delete_multiple_type
  | ApiPostComments _ => Some comments_api_type
  | _ => None
  end.

(** A response of a JSON route: a body of its type, or the error page. *)
Definition typed_response (t : jtype) (resp : response) : bool :=
  match resp with
  | Json _ j => has_type t j
  | Crash _ => true
  | _ => false
  end.

(** ** Lemmas *)

Lemma has_type_error msg : has_type error_type (json_error msg) = true.
Proof. reflexivity. Qed.

Lemma has_type_comments rows : has_type (TList comment_type) (JList (map comment_json rows)) = true.
Proof. induction rows as [|r rows IH]; [done|]. exact IH. Qed.

(** ** Properties *)

(** C16 json_routes_typed: whatever the session, the request and the
    database, the routes [delete_post], [delete_multiple_posts],
    [delete_project] and [api_post_comments] answer a JSON body of their
    documented shape ([route_type]), or Flask's error page for an uncaught
    exception. *)
Theorem json_routes_typed session r db t :
  route_type r = Some t -> typed_response t (serve session r db).1 = true.
Proof.
  destruct r as [f|name d|pid req|pid|pid|ids|prid]; intros [= <-];
    (destruct session as [s|]; [|reflexivity]).
  - rewrite serve_api_post_comments. destruct (sqlite_int pid); [|done].
    apply orb_true_intro. left. apply has_type_comments.
  - rewrite serve_delete_post. by repeat case_match.
  - rewrite serve_delete_multiple_posts. by repeat case_match.
  - rewrite serve_delete_project. by repeat case_match.
Qed.

Lemma json_routes_typed_witness :
  route_type (DeleteMultiplePosts [1]) = Some delete_multiple_type /\
  typed_response delete_multiple_type (serve (Some sample_user1) (DeleteMultiplePosts [1]) sample_db).1 = true /\
  (serve (Some sample_user1) (DeleteMultiplePosts [1]) sample_db).1 =
    Json 200 (JObj [("success", JBool true); ("deleted_count", JInt 1)]).
Proof.
  assert (H : route_type (DeleteMultiplePosts [1]) = Some delete_multiple_type) by reflexivity.
  split_and!; [exact H|exact (json_routes_typed _ _ _ _ H)|vm_compute; reflexivity].
Defined.

End ApiTypes.
