(* ===== verification/App.v ===== *)
(** * The application as a transition system

    [step] relates a database to the one a request of a logged-in user
    leaves ([Routes.serve]); [reachable] is the reflexive-transitive
    closure of [step] from [initial_db], the database [__main__] creates
    on a new file (src/app.py, lines 1469-1492: [init_db()], then the
    users [user1] and [user2], whose password hashes are parameters).

    The theorems are proved by rule induction over [step]
    ([rtc_step_invariant]): [wf_db] holds in every reachable state (one
    [step] is one whole request: requests are served one at a time, and
    the unique project names of [wf_db] need it), and so
    does [no_content], the emptiness of [posts], [hashtags] and
    [post_comments], since [add_post] never commits a post.  The
    AUTOINCREMENT invariant [autoinc] (every project id at or below the
    [sqlite_sequence] value) holds in every reachable state, so a deleted
    project's id is never handed out again.  [project_creation_live]: one
    [add_project] request with a name new to its user is a step that
    stores the project under a fresh id and answers the success redirect. *)

From Stdlib Require Import ZArith.
From stdpp Require Import base list strings gmap sets.
From S2P Require Import Prelude Post Store Routes.

Local Open Scope Z_scope.
Set Warnings "-clear-no-such-hyp".

(** One request of any logged-in user (or of a visitor). *)
Inductive step : Db -> Db -> Prop :=
  | step_serve db session r : valid_session db session -> step db (serve session r db).2.

(** [init_db()] on a new file, then the two users of [__main__]. *)
Definition initial_db (hash1 hash2 : string) : Db :=
  mkDb {[1 := mkUser "user1" hash1; 2 := mkUser "user2" hash2]} ∅ ∅ ∅ ∅ {["users" := 2]}.

Definition reachable (hash1 hash2 : string) (db : Db) : Prop := rtc step (initial_db hash1 hash2) db.

(** The state after user1's first request, creating a project. *)
Definition after_add_project : Db :=
  (serve (Some sample_user1) (AddProject " Travel " "trips") (initial_db "h1" "h2")).2.

(** Project 1 deleted, then a project of the same owner added again. *)
Definition after_delete_project : Db := (serve (Some sample_user1) (DeleteProject 1) after_add_project).2.
Definition after_readd_project : Db := (serve (Some sample_user1) (AddProject " Travel " "trips") after_delete_project).2.

(** ** Invariants by rule induction *)

Lemma initial_wf h1 h2 : wf_db (initial_db h1 h2).
Proof. constructor; simpl; intros *; rewrite ?lookup_empty; done. Qed.

(** Rule induction: a property every transition keeps holds in every reachable state. *)
Lemma rtc_step_invariant (P : Db -> Prop) :
  (forall db db', step db db' -> P db -> P db') ->
  forall db db', rtc step db db' -> P db -> P db'.
Proof. intros Hstep db db' Hr. induction Hr; eauto. Qed.

(** The state after user1's first request is reachable. *)
Lemma after_add_project_reachable : reachable "h1" "h2" after_add_project.
Proof. apply rtc_once. constructor. simpl. by eexists. Qed.

(** ** Properties of the application *)

(** C1 reachable_no_content: in every state reachable from the fresh
    database of [__main__], the [posts], [hashtags] and [post_comments]
    tables are empty: [add_post] never commits its INSERT (it crashes at
    [db.lastrowid]), and comments need an existing post. *)
Theorem reachable_no_content h1 h2 db : reachable h1 h2 db -> no_content db.
Proof.
  intros Hr. refine (rtc_step_invariant no_content _ (initial_db h1 h2) db Hr _).
  - intros ? ? [? session r _]. apply serve_no_content.
  - split_and!; reflexivity.
Qed.

Lemma reachable_no_content_witness :
  reachable "h1" "h2" after_add_project /\ no_content after_add_project.
Proof.
  pose proof after_add_project_reachable as Hr.
  split; [exact Hr|exact (reachable_no_content "h1" "h2" after_add_project Hr)].
Defined.

(** Every reachable database satisfies [wf_db]: foreign keys point to
    rows, [posts.id] is its key, and, requests being served one at a time,
    project names are unique per user. *)
Theorem reachable_wf h1 h2 db : reachable h1 h2 db -> wf_db db.
Proof.
  intros Hr. refine (rtc_step_invariant wf_db _ (initial_db h1 h2) db Hr (initial_wf h1 h2)).
  intros ? ? [? session r Hs] Hwf. by apply serve_wf.
Qed.

(** C21 project_creation_live: a logged-in user of the [users] table who
    posts [add_project] with a name that is not blank after stripping and
    not yet one of their projects' names gets, in that one request, the
    redirect to [projects] with the success flash, and the request is a
    step of the server whose new state holds, under an id no row had
    before, the project with the stripped name and description, owned by
    the user. *)
Theorem project_creation_live db uid u name desc :
  users db !! uid = Some u -> py_strip name <> "" -> project_named db uid (py_strip name) = None ->
  step db (serve (Some (mkSession uid (username u))) (AddProject name desc) db).2 /\
  (serve (Some (mkSession uid (username u))) (AddProject name desc) db).1
    = Redirect "projects" ["Project created successfully!"] /\
  exists k, projects db !! k = None /\
    projects (serve (Some (mkSession uid (username u))) (AddProject name desc) db).2 !! k
      = Some (mkProject uid (py_strip name) (py_strip desc)).
Proof.
  intros Hu Hname Hfresh. split; [constructor; simpl; by eexists|].
  rewrite serve_add_project. simpl. rewrite decide_False by done. rewrite Hfresh. split; [done|].
  exists (next_rowid "projects" (projects db) db).
  split; [apply next_rowid_fresh|]. simpl. by rewrite lookup_insert_eq.
Qed.

Lemma project_creation_live_witness :
  users (initial_db "h1" "h2") !! 1 = Some (mkUser "user1" "h1") /\ py_strip "Project" <> "" /\
  project_named (initial_db "h1" "h2") 1 (py_strip "Project") = None /\
  step (initial_db "h1" "h2") (serve (Some (mkSession 1 (username (mkUser "user1" "h1")))) (AddProject "Project" "") (initial_db "h1" "h2")).2 /\
  (serve (Some (mkSession 1 (username (mkUser "user1" "h1")))) (AddProject "Project" "") (initial_db "h1" "h2")).1
    = Redirect "projects" ["Project created successfully!"] /\
  exists k, projects (initial_db "h1" "h2") !! k = None /\
    projects (serve (Some (mkSession 1 (username (mkUser "user1" "h1")))) (AddProject "Project" "") (initial_db "h1" "h2")).2 !! k
      = Some (mkProject 1 (py_strip "Project") (py_strip "")).
Proof.
  assert (Hu : users (initial_db "h1" "h2") !! 1 = Some (mkUser "user1" "h1")) by reflexivity.
  assert (Hn : py_strip "Project" <> "") by (vm_compute; discriminate).
  assert (Hf : project_named (initial_db "h1" "h2") 1 (py_strip "Project") = None) by reflexivity.
  split; [exact Hu|]. split; [exact Hn|]. split; [exact Hf|].
  exact (project_creation_live _ _ _ "Project" "" Hu Hn Hf).
Defined.

(** ** AUTOINCREMENT of [projects] *)

(** One request keeps AUTOINCREMENT's promise, never lowers the sequence
    value, and every project id it creates is above the old value. *)
Lemma step_autoinc db db' :
  step db db' -> autoinc "projects" (projects db) db ->
  seq_value "projects" db <= seq_value "projects" db' /\ autoinc "projects" (projects db') db' /\
  (forall k, is_Some (projects db' !! k) -> projects db !! k = None -> seq_value "projects" db < k).
Proof.
  destruct 1 as [d session r _]; intros Ha.
  destruct (serve_projects_cases session r d) as [->|[(uid & name & desc & ->)|[Hsub Hseq]]].
  - split_and!; [lia|done|]. intros k [x Hk] Hn. congruence.
  - destruct (insert_project_autoinc uid name desc d Ha) as (Hs & Ha' & Hk). split_and!; [lia|done|done].
  - unfold autoinc in *. rewrite Hseq. split_and!; [lia| |].
    + pose proof (max_rowid_subseteq _ _ Hsub). lia.
    + intros k [x Hk] Hn. by rewrite (lookup_weaken _ _ _ _ Hk Hsub) in Hn.
Qed.

Lemma rtc_autoinc db db' :
  rtc step db db' -> autoinc "projects" (projects db) db ->
  seq_value "projects" db <= seq_value "projects" db' /\ autoinc "projects" (projects db') db' /\
  (forall k, is_Some (projects db' !! k) -> projects db !! k = None -> seq_value "projects" db < k).
Proof.
  induction 1 as [db|db db1 db2 Hstep _ IH]; intros Ha.
  - split_and!; [lia|done|]. intros k [x Hk] Hn. congruence.
  - destruct (step_autoinc db db1 Hstep Ha) as (Hs1 & Ha1 & Hk1).
    destruct (IH Ha1) as (Hs2 & Ha2 & Hk2). split_and!; [lia|done|].
    intros k Hk Hn. destruct (projects db1 !! k) eqn:E; [apply Hk1; [by eexists|done]|].
    specialize (Hk2 k Hk E). lia.
Qed.

Lemma initial_autoinc h1 h2 : autoinc "projects" (projects (initial_db h1 h2)) (initial_db h1 h2).
Proof. unfold autoinc. vm_compute. by intros ?. Qed.

(** C22 deleted_project_id_never_reused: once a project of a reachable
    state is deleted, its id never names a project again: AUTOINCREMENT
    ([sqlite_sequence]) hands out ids above every id ever used, so a new
    project cannot take over a deleted one's id (and with it links to the
    old project that clients may keep). *)
Theorem deleted_project_id_never_reused h1 h2 db db1 db2 k :
  reachable h1 h2 db -> rtc step db db1 -> rtc step db1 db2 ->
  is_Some (projects db !! k) -> projects db1 !! k = None -> projects db2 !! k = None.
Proof.
  intros Hr H01 H12 [x Hk] Hk1.
  destruct (rtc_autoinc _ _ Hr (initial_autoinc h1 h2)) as (_ & Ha & _).
  destruct (rtc_autoinc _ _ H01 Ha) as (Hs01 & Ha1 & _).
  destruct (rtc_autoinc _ _ H12 Ha1) as (_ & _ & Hnew).
  pose proof (max_rowid_ge _ _ _ Hk). unfold autoinc in Ha.
  destruct (projects db2 !! k) eqn:E2; [|done].
  specialize (Hnew k ltac:(by eexists) Hk1). lia.
Qed.

Lemma deleted_project_id_never_reused_witness :
  reachable "h1" "h2" after_add_project /\ rtc step after_add_project after_delete_project /\
  rtc step after_delete_project after_readd_project /\ is_Some (projects after_add_project !! 1) /\
  projects after_delete_project !! 1 = None /\ projects after_readd_project !! 1 = None /\
  is_Some (projects after_readd_project !! 2).
Proof.
  pose proof after_add_project_reachable as Hr.
  assert (H01 : rtc step after_add_project after_delete_project)
    by (apply rtc_once; constructor; vm_compute; by eexists).
  assert (H12 : rtc step after_delete_project after_readd_project)
    by (apply rtc_once; constructor; vm_compute; by eexists).
  assert (Hk : is_Some (projects after_add_project !! 1)) by (vm_compute; by eexists).
  assert (Hk1 : projects after_delete_project !! 1 = None) by (vm_compute; reflexivity).
  split_and!; [exact Hr|exact H01|exact H12|exact Hk|exact Hk1| |vm_compute; by eexists].
  exact (deleted_project_id_never_reused _ _ _ _ _ 1 Hr H01 H12 Hk Hk1).
Defined.
