(* ===== verification/Reports.v ===== *)
(** * The charts of the [reports] page

    [reports] (src/app.py, lines 716-978) runs ten queries over the posts
    of the user's projects and shapes each result for a chart.  Each query
    with its Python post-processing is one definition of Module [Reports],
    a function of the scoped posts (the hashtag query also of the rows of
    the join of [hashtags] with [posts]).  GROUP BY yields its groups in
    key order ([Sql.group_by]); ORDER BY ... DESC is the stable
    [order_by_desc]; [round(x, n)] is [py_round].

    The theorems: the score distribution partitions the posts into the six
    ranges; the engagement chart shows the 30 most recent dates in
    ascending order; the hashtag table only lists tags used twice or more,
    at most 15, best first; the velocity table only lists posts with a
    positive weighted engagement, at most 10, and shortens long captions
    to 50 characters and '...'. *)

From Stdlib Require Import ZArith QArith Qround Lqa Sorted.
From stdpp Require Import base list strings sorting.
From S2P Require Import Prelude Sql Calendar Post Recommend.

Module Reports.

(** ** Engagement and reach over time (lines 748-766) *)

(** A row of [SELECT post_date, AVG(engagement_rate), SUM(reach) ...
    GROUP BY post_date]. *)
Record time_row := mkTimeRow { tr_date : Date; tr_avg_engagement : Q; tr_total_reach : Z }.

Definition time_row_of (g : Date * list Post) : time_row :=
  mkTimeRow g.1 (Recommend.group_avg (map engagement_rate g.2)) (sumZ (map reach g.2)).

(** [... ORDER BY post_date DESC LIMIT 30]. *)
Definition time_data (posts : list Post) : list time_row :=
  take 30 (rev (map time_row_of (group_by post_date posts))).

(** [[{'date': ..., 'engagement': round(avg, 2)} for row in reversed(time_data)]]. *)
Definition engagement_over_time (posts : list Post) : list (Date * Q) :=
  map (fun r => (tr_date r, py_round 2 (tr_avg_engagement r))) (rev (time_data posts)).

Definition reach_over_time (posts : list Post) : list (Date * Z) :=
  map (fun r => (tr_date r, tr_total_reach r)) (rev (time_data posts)).

(** ** Posting time (lines 768-786) *)

(** [hour, AVG(engagement_rate_weighted), COUNT( * ) ... GROUP BY hour ORDER BY hour]. *)
Definition posting_time_analysis (posts : list Post) : list (Z * Q * Z) :=
  map (fun r => (Recommend.key r, py_round 2 (Recommend.avg r), Recommend.count r))
      (Recommend.aggregate post_hour engagement_rate_weighted posts).

(** ** Caption categories (lines 788-808) *)

(** [caption_category IS NOT NULL AND caption_category != '']. *)
Definition has_category (p : Post) : bool :=
  match caption_category p with Some c => bool_decide (c <> "") | None => false end.

Definition category_of (p : Post) : string := default "" (caption_category p).

(** [... GROUP BY caption_category ORDER BY avg_score DESC]. *)
Definition caption_category_performance (posts : list Post) : list (string * Q * Z) :=
  map (fun r => (Recommend.key r, py_round 1 (Recommend.avg r), Recommend.count r))
      (order_by_desc Recommend.avg
         (Recommend.aggregate category_of performance_score (filter (fun p => has_category p = true) posts))).

(** ** Score distribution (lines 810-829) *)

(** The [CASE] of [score_range]. *)
Definition score_range (s : Q) : string :=
  if Qlt_le_dec s 10 then "0-10"
  else if Qlt_le_dec s 20 then "10-20"
  else if Qlt_le_dec s 30 then "20-30"
  else if Qlt_le_dec s 40 then "30-40"
  else if Qlt_le_dec s 50 then "40-50"
  else "50+".

Definition range_count (g : string * list Post) : Q := inject_Z (Z.of_nat (length g.2)).

(** [... GROUP BY score_range ORDER BY count DESC]. *)
Definition performance_distribution (posts : list Post) : list (string * Z) :=
  map (fun g => (g.1, Z.of_nat (length g.2)))
      (order_by_desc range_count (group_by (fun p => score_range (performance_score p)) posts)).

(** ** Hashtags (lines 831-857) *)

Record hashtag_row := mkHashtagRow {
  hr_hashtag : string; hr_score : Q; hr_count : Z; hr_engagement : Q }.

Definition tag_avg_score (g : string * list (string * Post)) : Q :=
  Recommend.group_avg (map (fun r => performance_score r.2) g.2).

(** [SELECT h.hashtag, AVG(p.performance_score), COUNT( * ),
    AVG(p.engagement_rate_weighted) FROM hashtags h JOIN posts p ...
    GROUP BY h.hashtag HAVING usage_count >= 2 ORDER BY avg_score DESC
    LIMIT 15], then the rounding; [joined] are the rows of the join. *)
Definition hashtag_performance (joined : list (string * Post)) : list hashtag_row :=
  map (fun g => mkHashtagRow g.1 (py_round 1 (tag_avg_score g)) (Z.of_nat (length g.2))
                  (py_round 2 (Recommend.group_avg (map (fun r => engagement_rate_weighted r.2) g.2))))
      (take 15 (order_by_desc tag_avg_score
         (filter (fun g => (2 <= length g.2)%nat) (group_by fst joined)))).

(** ** Content types (lines 860-882) *)

Record content_row := mkContentRow {
  cr_type : string; cr_score : Q; cr_engagement : Q; cr_reach : Z; cr_count : Z }.

(** Python's [int(x)] on a float: truncation toward zero. *)
Definition py_int_float (q : Q) : Z := Z.quot (Qnum q) (Zpos (Qden q)).

Definition type_avg_score (g : string * list Post) : Q := Recommend.group_avg (map performance_score g.2).

(** [post_type, AVG(performance_score), AVG(engagement_rate), AVG(reach),
    COUNT( * ) ... GROUP BY post_type ORDER BY avg_score DESC]. *)
Definition content_insights (posts : list Post) : list content_row :=
  map (fun g => mkContentRow g.1 (py_round 1 (type_avg_score g))
                  (py_round 2 (Recommend.group_avg (map engagement_rate g.2)))
                  (py_int_float (Recommend.group_avg (map (fun p => inject_Z (reach p)) g.2)))
                  (Z.of_nat (length g.2)))
      (order_by_desc type_avg_score (group_by post_type posts)).

(** ** Day of the week (lines 884-915) *)

(** The [CASE CAST(strftime('%w', post_date) AS INTEGER) WHEN 0 THEN 'Sunday' ...]. *)
Definition day_name (n : Z) : option string :=
  if (n =? 0)%Z then Some "Sunday" else if (n =? 1)%Z then Some "Monday"
  else if (n =? 2)%Z then Some "Tuesday" else if (n =? 3)%Z then Some "Wednesday"
  else if (n =? 4)%Z then Some "Thursday" else if (n =? 5)%Z then Some "Friday"
  else if (n =? 6)%Z then Some "Saturday" else None.

Record day_row := mkDayRow { dr_day : option string; dr_engagement : Q; dr_score : Q; dr_count : Z }.

(** [... GROUP BY day_num ORDER BY day_num]. *)
Definition day_of_week_analysis (posts : list Post) : list day_row :=
  map (fun g => mkDayRow (day_name g.1)
                  (py_round 2 (Recommend.group_avg (map engagement_rate_weighted g.2)))
                  (py_round 1 (Recommend.group_avg (map performance_score g.2)))
                  (Z.of_nat (length g.2)))
      (group_by (fun p => weekday_sun0 (post_date p)) posts).

(** ** Monthly trends (lines 917-939) *)

Record month_trend := mkMonthTrend {
  mt_month : Z * Z; mt_engagement : Q; mt_score : Q; mt_count : Z; mt_followers : Z }.

(** [... GROUP BY month ORDER BY month DESC LIMIT 12], then [reversed]. *)
Definition monthly_trends (posts : list Post) : list month_trend :=
  map (fun g => mkMonthTrend g.1
                  (py_round 2 (Recommend.group_avg (map engagement_rate_weighted g.2)))
                  (py_round 1 (Recommend.group_avg (map performance_score g.2)))
                  (Z.of_nat (length g.2)) (sumZ (map followers_gained g.2)))
      (rev (take 12 (rev (group_by (fun p => month_key (post_date p)) posts)))).

(** ** Engagement velocity (lines 941-966) *)

(** [(engagement_rate_weighted * reach / 1000) as velocity_score]. *)
Definition velocity_score (p : Post) : Q := engagement_rate_weighted p * inject_Z (reach p) / 1000.

(** [row['caption'][:50] + '...' if row['caption'] and len(row['caption']) > 50
    else row['caption']]. *)
Definition caption_preview50 (c : option string) : option string :=
  match c with
  | Some s => if Nat.ltb 50 (String.length s) then Some (String.substring 0 50 s +:+ "...") else Some s
  | None => None
  end.

Record velocity_row := mkVelocityRow {
  vr_id : Z; vr_caption : option string; vr_date : Date; vr_type : string;
  vr_engagement : Q; vr_score : Q; vr_velocity : Q }.

Definition velocity_row_of (p : Post) : velocity_row :=
  mkVelocityRow (id p) (caption_preview50 (caption p)) (post_date p) (post_type p)
    (py_round 2 (engagement_rate_weighted p)) (py_round 1 (performance_score p))
    (py_round 1 (velocity_score p)).

(** [... AND engagement_rate_weighted > 0 ORDER BY velocity_score DESC LIMIT 10]. *)
Definition engagement_velocity (posts : list Post) : list velocity_row :=
  map velocity_row_of
      (take 10 (order_by_desc velocity_score (filter (fun p => (0 < engagement_rate_weighted p)%Q) posts))).

(** ** The chart endpoints (lines 981-1045) *)

(** [SELECT post_date, AVG(engagement_rate) ... GROUP BY post_date
    ORDER BY post_date LIMIT 30] (and [SUM(reach)] for the reach chart). *)
Definition api_rows (posts : list Post) : list time_row :=
  take 30 (map time_row_of (group_by post_date posts)).

(** [{'dates': [...], 'engagement': [round(avg, 2) ...]}] of [api_engagement_data]. *)
Definition api_engagement_data (posts : list Post) : list Date * list Q :=
  (map tr_date (api_rows posts), map (fun r => py_round 2 (tr_avg_engagement r)) (api_rows posts)).

(** [{'dates': [...], 'reach': [...]}] of [api_reach_data]. *)
Definition api_reach_data (posts : list Post) : list Date * list Z :=
  (map tr_date (api_rows posts), map tr_total_reach (api_rows posts)).

(** The six labels of [score_range]. *)
Definition score_ranges : list string := ["0-10"; "10-20"; "20-30"; "30-40"; "40-50"; "50+"].

(** Posts on [n] consecutive days from 2024-01-01, for concrete runs. *)
Definition dated_post (i : nat) : Post :=
  sample_post (Z.of_nat i) 1 "Reel" (civil_from_days (19723 + Z.of_nat i)) "10:00" None None 10 4.
Definition dated_posts (n : nat) : list Post := map dated_post (seq 0 n).

(** ** Lemmas *)

Lemma length_concat_perm {B C} (L L' : list (B * list C)) :
  L ≡ₚ L' -> length (concat (map snd L)) = length (concat (map snd L')).
Proof. induction 1; simpl; rewrite ?length_app; lia. Qed.

Lemma sumZ_group_lengths {B C} (L : list (B * list C)) :
  sumZ (map (fun g => Z.of_nat (length g.2)) L) = Z.of_nat (length (concat (map snd L))).
Proof. induction L as [|[k g] L IH]; simpl; [done|]. rewrite length_app, IH. lia. Qed.

Lemma score_range_in s : score_range s ∈ score_ranges.
Proof. unfold score_range, score_ranges. repeat destruct (Qlt_le_dec _ _); rewrite !elem_of_cons; tauto. Qed.

Lemma desc_by_count (a b : string * list Post) :
  desc_by range_count a b -> (Z.of_nat (length b.2) <= Z.of_nat (length a.2))%Z.
Proof. unfold desc_by, range_count. by rewrite Zle_Qle. Qed.

Lemma rev_take_rev_suffix {T} n (l : list T) : l = rev (drop n (rev l)) ++ rev (take n (rev l)).
Proof. by rewrite <-rev_app_distr, firstn_skipn, rev_involutive. Qed.

(** The last [n] elements of a sorted list are a sorted suffix, preceded by
    elements below them, and there are [n] of them when one is left out. *)
Lemma last_n_of_sorted {T} (R : relation T) n (l : list T) x :
  StronglySorted R l -> NoDup l ->
  let shown := rev (take n (rev l)) in
  (length shown <= n)%nat /\ NoDup shown /\ StronglySorted R shown /\
  (x ∈ l -> x ∉ shown -> length shown = n /\ Forall (R x) shown).
Proof.
  intros HS Hnd shown. pose proof (rev_take_rev_suffix n l) as Hl.
  rewrite Hl in HS, Hnd. apply NoDup_app in Hnd as (_ & _ & Hnd).
  split_and!; [|done|by eapply StronglySorted_app_1_r|].
  - unfold shown. rewrite length_rev, length_take. lia.
  - intros Hx Hns. rewrite Hl in Hx. apply elem_of_app in Hx as [Hx|Hx]; [|done].
    split.
    + unfold shown. rewrite length_rev, length_take.
      assert (drop n (rev l) <> []) as Hd by (intros Hd; rewrite Hd in Hx; by apply not_elem_of_nil in Hx).
      assert (n < length (rev l))%nat; [|lia].
      destruct (decide (n < length (rev l))%nat) as [|Hge]; [done|].
      exfalso. apply Hd, nil_length_inv. rewrite length_drop. lia.
    + apply Forall_forall. intros y Hy. by eapply StronglySorted_app_1_elem_of.
Qed.

Lemma group_keys_NoDup {T K} `{EqDecision K} `{SqlOrd K} (key : T -> K) rows :
  NoDup (group_keys key rows).
Proof. rewrite <-group_by_keys. apply group_by_keys_NoDup. Qed.

Lemma engagement_over_time_dates posts :
  map fst (engagement_over_time posts) = rev (take 30 (rev (group_keys post_date posts))).
Proof.
  unfold engagement_over_time, time_data. rewrite map_map. simpl.
  rewrite map_rev, <-firstn_map, map_rev, map_map. simpl.
  by rewrite (group_by_keys post_date posts).
Qed.

Lemma api_engagement_dates posts :
  (api_engagement_data posts).1 = take 30 (group_keys post_date posts).
Proof.
  unfold api_engagement_data, api_rows. simpl.
  rewrite <-firstn_map, map_map. simpl. by rewrite (group_by_keys post_date posts).
Qed.

(** In a list without repetition longer than [n], the last element is
    among the last [n] and not among the first [n]. *)
Lemma last_not_in_prefix {T} n (l : list T) :
  NoDup l -> (0 < n < length l)%nat ->
  exists x, x ∈ rev (take n (rev l)) /\ x ∉ take n l.
Proof.
  intros Hnd Hn. assert (Hne : l <> []) by (intros ->; simpl in Hn; lia).
  destruct (exists_last Hne) as (l' & x & ->). exists x.
  rewrite length_app in Hn. simpl in Hn. split.
  - rewrite rev_app_distr. simpl. destruct n as [|n]; [lia|]. simpl.
    rewrite elem_of_app. right. left.
  - rewrite take_app, (proj2 (Nat.sub_0_le n (length l'))) by lia. simpl. rewrite app_nil_r.
    intros Hx. assert (x ∈ l') as Hx' by (rewrite <-(take_drop n l'); apply elem_of_app; by left).
    apply NoDup_app in Hnd as (_ & Hdisj & _). apply (Hdisj x Hx'). left.
Qed.

Lemma StronglySorted_take {T} (R : relation T) n (l : list T) :
  StronglySorted R l -> StronglySorted R (take n l).
Proof. rewrite <-(take_drop n l) at 1. apply StronglySorted_app_1_l. Qed.

(** The keys of a LIMIT of an ORDER BY of a HAVING of a GROUP BY are distinct. *)
Lemma limited_groups_NoDup {T K} `{EqDecision K} `{SqlOrd K} (key : T -> K) (f : K * list T -> Q)
    (P : K * list T -> Prop) `{forall g, Decision (P g)} n rows :
  NoDup (map fst (take n (order_by_desc f (filter P (group_by key rows))))).
Proof.
  apply (sublist_NoDup _ (map fst (order_by_desc f (filter P (group_by key rows))))).
  - rewrite (Permutation_map fst (order_by_desc_perm f _)).
    apply (sublist_NoDup _ (map fst (group_by key rows))); [apply group_by_keys_NoDup|].
    apply fmap_sublist, sublist_filter.
  - apply fmap_sublist, sublist_take.
Qed.

Lemma substring_prefix_length (s : string) (n : nat) :
  (String.length (String.substring 0 n s) <= n)%nat.
Proof. revert n. induction s as [|c s IH]; intros [|n]; simpl; [lia..|]. specialize (IH n). lia. Qed.

Lemma caption_preview50_length o c' :
  caption_preview50 o = Some c' -> (String.length c' <= 53)%nat.
Proof.
  unfold caption_preview50. destruct o as [c|]; [|done].
  destruct (Nat.ltb_spec 50 (String.length c)); intros [= <-]; [|lia].
  rewrite string_length_app. pose proof (substring_prefix_length c 50). simpl. lia.
Qed.

(** C29 performance_distribution_partition: the score distribution
    partitions the scoped posts: its counts add up to the number of posts,
    each of the six ranges appears at most once and only with a positive
    count, and the rows are ordered by decreasing count. *)
Theorem performance_distribution_partition posts :
  sumZ (map snd (performance_distribution posts)) = Z.of_nat (length posts) /\
  NoDup (map fst (performance_distribution posts)) /\
  Forall (fun r => r.1 ∈ score_ranges /\ (0 < r.2)%Z) (performance_distribution posts) /\
  StronglySorted (fun a b => (b.2 <= a.2)%Z) (performance_distribution posts).
Proof.
  set (G := group_by (fun p => score_range (performance_score p)) posts).
  pose proof (order_by_desc_perm range_count G) as Hperm.
  unfold performance_distribution; fold G. split_and!.
  - rewrite map_map. simpl. rewrite sumZ_group_lengths, (length_concat_perm _ _ Hperm).
    unfold G. by rewrite (Permutation_length (group_by_perm _ posts)).
  - rewrite map_map. simpl. rewrite (Permutation_map fst Hperm). apply group_by_keys_NoDup.
  - apply Forall_map, Forall_forall. intros [k g] Hin. rewrite Hperm in Hin. simpl.
    destruct (group_by_nonempty _ _ _ _ Hin) as [Hne _].
    apply elem_of_group_by, proj1, list_elem_of_fmap in Hin as (p & -> & _).
    split; [apply score_range_in|]. destruct g; [done|simpl; lia].
  - apply (StronglySorted_map_impl (desc_by range_count)); [|apply order_by_desc_sorted].
    intros a b. apply desc_by_count.
Qed.

(** C27 engagement_over_time_latest: the engagement chart of [reports]
    shows at most 30 dates, each once, in ascending order, and they are
    the latest dates: a post whose date is not shown is older than every
    shown date, and then 30 dates are shown. *)
Theorem engagement_over_time_latest posts p :
  let shown := map fst (engagement_over_time posts) in
  (length shown <= 30)%nat /\ NoDup shown /\ StronglySorted date_le shown /\
  (p ∈ posts -> post_date p ∉ shown -> length shown = 30%nat /\ Forall (date_le (post_date p)) shown).
Proof.
  intros shown. unfold shown. rewrite engagement_over_time_dates.
  assert (HS : StronglySorted date_le (group_keys post_date posts)).
  { pose proof (group_keys_sorted post_date posts) as HS. exact HS. }
  destruct (last_n_of_sorted date_le 30 (group_keys post_date posts) (post_date p)
              HS (group_keys_NoDup _ _)) as (H1 & H2 & H3 & H4).
  split_and!; [done..|]. intros Hp. apply H4, elem_of_group_keys, list_elem_of_fmap. eauto.
Qed.

(** C28 api_engagement_data_earliest: the engagement chart endpoint
    orders the dates ascending before its LIMIT 30, so with more than 30
    post dates it returns the earliest 30 while the [reports] page shows
    the latest 30: the most recent date is missing from the endpoint. *)
Theorem api_engagement_data_earliest posts :
  (30 < length (group_keys post_date posts))%nat ->
  (api_engagement_data posts).1 = take 30 (group_keys post_date posts) /\
  exists d, d ∈ map fst (engagement_over_time posts) /\ d ∉ (api_engagement_data posts).1.
Proof.
  intros Hlen. rewrite api_engagement_dates, engagement_over_time_dates. split; [done|].
  apply last_not_in_prefix; [apply group_keys_NoDup|lia].
Qed.

(** the hashtag table lists each tag at
    most once, only tags used at least twice, at most 15 of them, by
    decreasing (rounded) average score. *)
Theorem hashtag_performance_rows joined :
  (length (hashtag_performance joined) <= 15)%nat /\
  NoDup (map hr_hashtag (hashtag_performance joined)) /\
  Forall (fun r => (2 <= hr_count r)%Z) (hashtag_performance joined) /\
  StronglySorted (fun a b => (hr_score b <= hr_score a)%Q) (hashtag_performance joined).
Proof.
  set (L := take 15 (order_by_desc tag_avg_score
              (filter (fun g => (2 <= length g.2)%nat) (group_by fst joined)))).
  unfold hashtag_performance. fold L. split_and!.
  - rewrite length_map. unfold L. rewrite length_take. lia.
  - rewrite map_map. simpl. apply limited_groups_NoDup.
  - apply Forall_map, Forall_forall. intros g Hg. simpl.
    apply subseteq_take in Hg. rewrite (order_by_desc_perm tag_avg_score) in Hg.
    apply list_elem_of_filter in Hg as [Hg _]. lia.
  - apply (StronglySorted_map_impl (desc_by tag_avg_score)).
    + intros a b Hab. apply py_round_mono, Hab.
    + apply StronglySorted_take, order_by_desc_sorted.
Qed.

(** C31 engagement_velocity_rows: the velocity table lists at most 10
    posts of the scope, each with a positive weighted engagement, by
    decreasing (rounded) velocity, with captions of at most 53 characters
    (50 and '...'). *)
Theorem engagement_velocity_rows posts :
  (length (engagement_velocity posts) <= 10)%nat /\
  Forall (fun r => exists p, p ∈ posts /\ (0 < engagement_rate_weighted p)%Q /\ r = velocity_row_of p)
         (engagement_velocity posts) /\
  Forall (fun r => forall c, vr_caption r = Some c -> (String.length c <= 53)%nat) (engagement_velocity posts) /\
  StronglySorted (fun a b => (vr_velocity b <= vr_velocity a)%Q) (engagement_velocity posts).
Proof.
  set (L := take 10 (order_by_desc velocity_score (filter (fun p => (0 < engagement_rate_weighted p)%Q) posts))).
  assert (HL : forall p, p ∈ L -> p ∈ posts /\ (0 < engagement_rate_weighted p)%Q).
  { intros p Hp. apply subseteq_take in Hp. rewrite (order_by_desc_perm velocity_score) in Hp.
    apply list_elem_of_filter in Hp as [? ?]. done. }
  unfold engagement_velocity. fold L. split_and!.
  - rewrite length_map. unfold L. rewrite length_take. lia.
  - apply Forall_map, Forall_forall. intros p Hp. exists p. destruct (HL p Hp). done.
  - apply Forall_map, Forall_forall. intros p _ c. apply caption_preview50_length.
  - apply (StronglySorted_map_impl (desc_by velocity_score)).
    + intros a b Hab. apply py_round_mono, Hab.
    + apply StronglySorted_take, order_by_desc_sorted.
Qed.

Lemma engagement_over_time_latest_witness :
  (dated_post 0 ∈ dated_posts 31 /\
   post_date (dated_post 0) ∉ map fst (engagement_over_time (dated_posts 31))) /\
  (length (map fst (engagement_over_time (dated_posts 31))) = 30%nat /\
   Forall (date_le (post_date (dated_post 0))) (map fst (engagement_over_time (dated_posts 31)))).
Proof.
  assert (Hp : dated_post 0 ∈ dated_posts 31) by left.
  assert (Hn : post_date (dated_post 0) ∉ map fst (engagement_over_time (dated_posts 31)))
    by (apply (bool_decide_eq_true_1 (post_date (dated_post 0) ∉ map fst (engagement_over_time (dated_posts 31))));
        vm_compute; reflexivity).
  destruct (engagement_over_time_latest (dated_posts 31) (dated_post 0)) as (_ & _ & _ & H).
  split; [split; [exact Hp|exact Hn]|exact (H Hp Hn)].
Defined.

Lemma api_engagement_data_earliest_witness :
  (30 < length (group_keys post_date (dated_posts 31)))%nat /\
  (api_engagement_data (dated_posts 31)).1 = take 30 (group_keys post_date (dated_posts 31)) /\
  exists d, d ∈ map fst (engagement_over_time (dated_posts 31)) /\ d ∉ (api_engagement_data (dated_posts 31)).1.
Proof.
  assert (Hlen : (30 < length (group_keys post_date (dated_posts 31)))%nat)
    by (apply Nat.ltb_lt; vm_compute; reflexivity).
  split; [exact Hlen|exact (api_engagement_data_earliest (dated_posts 31) Hlen)].
Defined.

Lemma engagement_velocity_rows_witness :
  (length (engagement_velocity (dated_posts 12)) <= 10)%nat /\
  Forall (fun r => forall c, vr_caption r = Some c -> (String.length c <= 53)%nat)
         (engagement_velocity (dated_posts 12)).
Proof.
  destruct (engagement_velocity_rows (dated_posts 12)) as (H1 & _ & H3 & _).
  split; [exact H1|exact H3].
Defined.

End Reports.
