(* ===== verification/Forms.v ===== *)
(** * Reading the post form

    [add_post] (src/app.py, lines 554-574) reads [request.form] before it
    touches the database: [request.form[k]] for the required fields (a
    missing key is werkzeug's [BadRequestKeyError], answered with 400),
    [request.form.get(k, d)] for the optional ones, [int(...)] for the six
    counts and, when present and non-empty, for the reel length and watch
    time, and [float(...)] for the average view duration.  [read_post_form]
    is that sequence of statements in the result monad, in the code's
    order, so that the first failing statement decides the exception.

    [int(s)] is [Sql.py_int].  [float(s)] is [py_float], as CPython's
    [PyFloat_FromString] reads text: the underscore pass (an underscore
    only between digits), surrounding C white space stripped
    ([Sql.ascii_strip]), then [inf], [infinity] or [nan] in any case after
    an optional sign, or a decimal literal read to the end
    ([Sql.decimal_literal]) and rounded to the nearest double
    ([round_double], as [_Py_dg_strtod]; [inf] beyond the largest double);
    anything else raises [ValueError].  [project_id] is the text of the field as the form
    sends it ([Routes.resolve_project] reads it); the date text is kept
    as the [Date] it names ([date_of]).  Characters are ASCII.

    The theorems: a form that reads successfully carries, in each count,
    the integer its text spells; [float(str(n))] is the double [n] for
    every integer [|n| < 2^53]. *)

From Stdlib Require Import ZArith QArith Ascii.
From stdpp Require Import base list strings gmap pretty.
From S2P Require Import Prelude Sql Calendar Routes.

Module Forms.

(** [request.form]: field name to text. *)
Definition form := gmap string string.

(** [request.form[k]]. *)
Definition form_item (f : form) (k : string) : result string :=
  match f !! k with Some v => Ok v | None => Raise BadRequestKeyError end.

(** [request.form.get(k, d)]. *)
Definition form_get (f : form) (k d : string) : string := default d (f !! k).

(** The values [float()] gives: a number, an infinity or a NaN, each
    with its sign. *)
Inductive float_lit :=
  | FNum (q : Q)
  | FInf (neg : bool)
  | FNaN (neg : bool).

(** The underscore pass of [float()] ([_Py_string_to_number_with_underscores],
    CPython's pystrtod.c): an underscore must follow a digit and precede
    one, and the underscores are dropped; [prev] is the character before. *)
Fixpoint drop_underscores (prev : ascii) (s : string) : option string :=
  match s with
  | EmptyString => if Ascii.eqb prev "_" then None else Some EmptyString
  | String c r =>
      if Ascii.eqb c "_" then (if is_digit prev then drop_underscores c r else None)
      else if Ascii.eqb prev "_" && negb (is_digit c) then None
      else option_map (String c) (drop_underscores c r)
  end.

(** An optional sign then [inf], [infinity] or [nan] in any case
    ([_Py_parse_inf_or_nan]). *)
Definition special_float (t : string) : option float_lit :=
  let '(neg, r) := sign_prefix t in
  let r' := string_lower r in
  if String.eqb r' "inf" || String.eqb r' "infinity" then Some (FInf neg)
  else if String.eqb r' "nan" then Some (FNaN neg)
  else None.

(** Python's [float(s)] on text ([PyFloat_FromString]): the underscore
    pass, C white space stripped, then an infinity or a NaN, or a decimal
    literal read to the end, whose value is the double nearest it
    ([_Py_dg_strtod] rounds correctly), an infinity past the largest
    double; anything else raises [ValueError]. *)
Definition py_float (s : string) : result float_lit :=
  match drop_underscores "000" s with
  | None => Raise ValueError
  | Some s1 =>
      let t := ascii_strip s1 in
      match special_float t with
      | Some l => Ok l
      | None =>
          match decimal_literal t with
          | Some q => Ok (match round_double q with Some r => FNum r | None => FInf (negb (Qle_bool 0 q)) end)
          | None => Raise ValueError
          end
      end
  end.

Section Read.
(** A float read is a double, kept as its rational value; infinities and
    NaNs, which no rational is, are this parameter's. *)
Variable nonfinite : float_lit -> Q.

Definition float_q (l : float_lit) : Q := match l with FNum q => q | _ => nonfinite l end.

(** [int(request.form[k])]. *)
Definition int_field (f : form) (k : string) : result Z := v ← form_item f k; py_int v.

(** [int(request.form[k]) if request.form.get(k) else None]. *)
Definition opt_int_field (f : form) (k : string) : result (option Z) :=
  match f !! k with
  | Some v => if String.eqb v "" then Ok None else z ← py_int v; Ok (Some z)
  | None => Ok None
  end.

(** [float(request.form[k]) if request.form.get(k) else None]. *)
Definition opt_float_field (f : form) (k : string) : result (option Q) :=
  match f !! k with
  | Some v => if String.eqb v "" then Ok None else l ← py_float v; Ok (Some (float_q l))
  | None => Ok None
  end.

Definition read_post_form (date_of : string -> Date) (thumbnail : option string) (f : form) : result PostForm :=
  let project_id := f !! "project_id" in
  post_type ← form_item f "post_type";
  post_date ← form_item f "post_date";
  post_time ← form_item f "post_time";
  let caption := form_get f "caption" "" in
  caption_category ← form_item f "caption_category";
  let dominant_color := form_get f "dominant_color" "" in
  likes ← int_field f "likes";
  comments ← int_field f "comments";
  shares ← int_field f "shares";
  saves ← int_field f "saves";
  reach ← int_field f "reach";
  followers_gained ← int_field f "followers_gained";
  reel_length ← opt_int_field f "reel_length";
  watch_time ← opt_int_field f "watch_time";
  avg_view_duration ← opt_float_field f "avg_view_duration";
  Ok (mkPostForm project_id post_type (date_of post_date) post_time caption caption_category dominant_color
        likes comments shares saves reach followers_gained reel_length watch_time avg_view_duration thumbnail).

End Read.

(** ** Lemmas *)

(** Every character of [s] satisfies [p]. *)
Definition string_all (p : ascii -> bool) (s : string) : bool := forallb p (String.list_ascii_of_string s).

Lemma string_all_cons p c s : string_all p (String c s) = p c && string_all p s.
Proof. reflexivity. Qed.

Lemma string_all_app p s1 s2 : string_all p (s1 +:+ s2) = string_all p s1 && string_all p s2.
Proof. unfold string_all. by rewrite list_ascii_of_string_app, forallb_app. Qed.

Lemma rev_app_all p s1 s2 :
  string_all p s1 = true -> string_all p s2 = true -> string_all p (String.rev_app s1 s2) = true.
Proof.
  revert s2. induction s1 as [|c s1 IH]; intros s2; [done|]. rewrite string_all_cons.
  intros [Hc H1]%andb_true_iff H2. apply IH; [done|]. by rewrite string_all_cons, Hc, H2.
Qed.

Lemma rev_app_rev_app s1 s2 s3 : String.rev_app (String.rev_app s1 s2) s3 = String.rev_app s2 (s1 +:+ s3).
Proof. revert s2. induction s1 as [|c s1 IH]; intros s2; [done|]. simpl. by rewrite IH. Qed.

(** Stripping text whose ends are not white space is the identity, for
    Python's [strip()] and for SQLite's white space alike. *)
Section Strip.
Variable is_space : ascii -> bool.
Variable lstrip : string -> string.
Hypothesis lstrip_cons : forall c s, lstrip (String c s) = if is_space c then lstrip s else String c s.
Hypothesis lstrip_nil : lstrip EmptyString = EmptyString.

Lemma strip_nonspace s :
  string_all (fun c => negb (is_space c)) s = true -> String.rev (lstrip (String.rev (lstrip s))) = s.
Proof.
  assert (Hl : forall t, string_all (fun c => negb (is_space c)) t = true -> lstrip t = t).
  { intros [|c t]; [done|]. rewrite string_all_cons, lstrip_cons. intros [Hc _]%andb_true_iff. by destruct (is_space c). }
  intros Hs. unfold String.rev. rewrite (Hl s Hs), Hl by (by apply rev_app_all).
  rewrite rev_app_rev_app. simpl. apply string_app_nil_r.
Qed.
End Strip.

Lemma sql_strip_nonspace s :
  string_all (fun c => negb (sql_is_space c)) s = true -> String.rev (sql_lstrip (String.rev (sql_lstrip s))) = s.
Proof. apply strip_nonspace; reflexivity. Qed.

(** What the parsers see of a decimal digit. *)
Lemma digit_char c : is_digit c = true ->
  py_is_space c = false /\ sql_is_space c = false /\ ascii_lower c = c /\
  Ascii.eqb c "_" = false /\ Ascii.eqb c "-" = false /\ Ascii.eqb c "+" = false /\ Ascii.eqb c "." = false.
Proof. destruct c as [[] [] [] [] [] [] [] []]; vm_compute; intros H; try discriminate H; auto 10. Qed.

(** The characters of [str(n)]: digits and the minus sign. *)
Definition number_char (c : ascii) : bool := is_digit c || Ascii.eqb c "-".

Lemma string_all_number_char p s :
  (forall c, number_char c = true -> p c = true) -> string_all number_char s = true -> string_all p s = true.
Proof.
  intros Hp. induction s as [|c s IH]; [done|]. rewrite !string_all_cons.
  intros [Hc Hs]%andb_true_iff. by rewrite Hp, IH.
Qed.

Lemma pretty_N_char_digit x :
  (x < 10)%N -> is_digit (pretty_N_char x) = true /\ digit_value (pretty_N_char x) = Z.of_N x.
Proof.
  intros Hx. assert (x = 0 \/ x = 1 \/ x = 2 \/ x = 3 \/ x = 4 \/ x = 5 \/ x = 6 \/ x = 7 \/ x = 8 \/ x = 9)%N
    as H by lia.
  repeat destruct H as [->|H]; [..|subst]; split; reflexivity.
Qed.

Lemma pretty_N_go_chars x s :
  string_all number_char s = true -> string_all number_char (pretty_N_go x s) = true.
Proof.
  revert s. induction (N.lt_wf_0 x) as [x _ IH]; intros s Hs.
  destruct (decide (x = 0)%N) as [->|Hx]; [by rewrite pretty_N_go_0|].
  rewrite pretty_N_go_step by lia. apply IH; [apply N.div_lt; lia|].
  rewrite string_all_cons, Hs. unfold number_char.
  rewrite (proj1 (pretty_N_char_digit _ (N.mod_lt x 10 ltac:(lia)))). done.
Qed.

Lemma pretty_Zpos p : pretty (Zpos p) = pretty_N_go (Npos p) "".
Proof. reflexivity. Qed.

Lemma pretty_Zneg p : pretty (Zneg p) = String "-" (pretty_N_go (Npos p) "").
Proof. reflexivity. Qed.

Lemma pretty_Z_chars (z : Z) : string_all number_char (pretty z) = true.
Proof.
  destruct z as [|p|p]; [done|rewrite pretty_Zpos|rewrite pretty_Zneg, string_all_cons];
    apply pretty_N_go_chars; done.
Qed.

Lemma pretty_N_go_app x s t : pretty_N_go x s +:+ t = pretty_N_go x (s +:+ t).
Proof.
  revert s. induction (N.lt_wf_0 x) as [x _ IH]; intros s.
  destruct (decide (x = 0)%N) as [->|Hx]; [by rewrite !pretty_N_go_0|].
  rewrite !(pretty_N_go_step x) by lia. by rewrite IH by (apply N.div_lt; lia).
Qed.

Lemma pretty_N_go_head x s : (0 < x)%N -> exists c r, pretty_N_go x s = String c r /\ is_digit c = true.
Proof.
  revert s. induction (N.lt_wf_0 x) as [x _ IH]; intros s Hx.
  rewrite pretty_N_go_step by lia.
  destruct (decide (x `div` 10 = 0)%N) as [Hq|Hq].
  - rewrite Hq, pretty_N_go_0. eexists _, _. split; [done|]. apply pretty_N_char_digit, N.mod_lt. lia.
  - apply IH; [apply N.div_lt; lia|revert Hq; generalize (x `div` 10)%N; intros; lia].
Qed.

(** [str(abs(n))] starts with a digit. *)
Lemma pretty_abs_head z : exists c r, pretty (Z.abs z) = String c r /\ is_digit c = true.
Proof.
  destruct z as [|p|p]; [by eexists _, _|..];
    change (pretty (Z.abs _)) with (pretty_N_go (Npos p) ""); apply pretty_N_go_head; lia.
Qed.

(** Reading the digits [pretty_N_go] writes in front of [s] accumulates
    their value, for [int()]'s scanner and for the literal scanner. *)
Lemma dec_digits_pretty x s acc : (acc = None -> (0 < x)%N) ->
  exists m, dec_digits acc (pretty_N_go x s) = dec_digits (Some (default 0 acc * m + Z.of_N x)%Z) s.
Proof.
  revert s acc. induction (N.lt_wf_0 x) as [x _ IH]; intros s acc Hacc.
  destruct (decide (x = 0)%N) as [->|Hx].
  { rewrite pretty_N_go_0. destruct acc as [a|]; [|specialize (Hacc eq_refl); lia]. exists 1%Z. simpl. do 2 f_equal. lia. }
  rewrite pretty_N_go_step by lia.
  destruct (pretty_N_char_digit (x `mod` 10)%N) as [Hd Hv]; [apply N.mod_lt; lia|].
  destruct (decide (x `div` 10 = 0)%N) as [Hq|Hq].
  - rewrite Hq, pretty_N_go_0. exists 10%Z. simpl. rewrite Hd, Hv. do 2 f_equal.
    pose proof (N.div_mod x 10 ltac:(lia)). lia.
  - destruct (IH (x `div` 10)%N ltac:(apply N.div_lt; lia) (String (pretty_N_char (x `mod` 10)) s) acc)
      as [m Hm]; [intros _|].
    { revert Hq. generalize (x `div` 10)%N. intros; lia. }
    exists (m * 10)%Z. rewrite Hm. simpl. rewrite Hd, Hv. do 2 f_equal.
    pose proof (N.div_mod x 10 ltac:(lia)). lia.
Qed.

Lemma dec_digits_pretty_pos p s : exists m, dec_digits None (pretty_N_go (Npos p) s) = dec_digits (Some (0 * m + Zpos p)%Z) s.
Proof. apply dec_digits_pretty. lia. Qed.

Lemma take_digits_pretty x s : (0 < x)%N ->
  exists m k, (0 < k)%nat /\ forall acc n, take_digits acc n (pretty_N_go x s) = take_digits (acc * m + Z.of_N x)%Z (n + k) s.
Proof.
  revert s. induction (N.lt_wf_0 x) as [x _ IH]; intros s Hx.
  rewrite pretty_N_go_step by lia. pose proof (N.div_mod x 10 ltac:(lia)) as Hdm.
  destruct (pretty_N_char_digit (x `mod` 10)%N) as [Hd Hv]; [apply N.mod_lt; lia|].
  destruct (decide (x `div` 10 = 0)%N) as [Hq|Hq].
  - rewrite Hq, pretty_N_go_0. exists 10%Z, 1%nat. split; [lia|]. intros acc n. simpl. rewrite Hd, Hv. f_equal; lia.
  - destruct (IH (x `div` 10)%N ltac:(apply N.div_lt; lia) (String (pretty_N_char (x `mod` 10)) s))
      as (m & k & Hk & Hm); [revert Hq; generalize (x `div` 10)%N; intros; lia|].
    exists (m * 10)%Z, (S k). split; [lia|]. intros acc n. rewrite Hm. simpl. rewrite Hd, Hv. f_equal; lia.
Qed.

Definition starts_with (p : ascii -> bool) (s : string) : bool :=
  match s with String c _ => p c | EmptyString => false end.

Lemma take_digits_stop acc n s : starts_with is_digit s = false -> take_digits acc n s = (acc, n, s).
Proof. destruct s as [|c s]; [done|]. simpl. by intros ->. Qed.

Lemma zabs_pos p : Z.abs (Zpos p) = Zpos p.
Proof. reflexivity. Qed.

Lemma zabs_neg p : Z.abs (Zneg p) = Zpos p.
Proof. reflexivity. Qed.

(** The digits of [str(abs(n))] followed by a non-digit read as [abs(n)]. *)
Lemma take_digits_pretty_abs z s : starts_with is_digit s = false ->
  exists k, (0 < k)%nat /\ take_digits 0 0 (pretty (Z.abs z) +:+ s) = (Z.abs z, k, s).
Proof.
  intros Hs. destruct z as [|p|p]; rewrite ?zabs_pos, ?zabs_neg.
  - exists 1%nat. split; [lia|]. simpl. by rewrite take_digits_stop.
  - rewrite pretty_Zpos, pretty_N_go_app. destruct (take_digits_pretty (Npos p) s) as (m & k & Hk & Hm); [lia|].
    exists k. split; [done|]. rewrite Hm, take_digits_stop by done. repeat f_equal; lia.
  - rewrite pretty_Zpos, pretty_N_go_app. destruct (take_digits_pretty (Npos p) s) as (m & k & Hk & Hm); [lia|].
    exists k. split; [done|]. rewrite Hm, take_digits_stop by done. repeat f_equal; lia.
Qed.

(** [str(n)] is an optional minus sign and the digits of [abs(n)]. *)
Lemma sign_prefix_pretty z s : sign_prefix (pretty z +:+ s) = (bool_decide (z < 0)%Z, pretty (Z.abs z) +:+ s).
Proof.
  destruct z as [|p|p]; [done| |].
  - destruct (pretty_abs_head (Zpos p)) as (c & r & Hcr & Hd). rewrite ?zabs_pos, ?zabs_neg in Hcr |- *.
    destruct (digit_char c Hd) as (_ & _ & _ & _ & H1 & H2 & _).
    rewrite bool_decide_false by lia. rewrite Hcr. simpl. by rewrite H1, H2.
  - rewrite pretty_Zneg, bool_decide_true by lia. reflexivity.
Qed.

Lemma apply_sign_abs z : apply_sign (bool_decide (z < 0)%Z) (Z.abs z) = z.
Proof. unfold apply_sign. case_bool_decide; lia. Qed.

Lemma exponent_part_pretty e : exponent_part (String "e" (pretty e)) = Some e.
Proof.
  change (exponent_part (String "e" (pretty e))) with
    (let '(neg, r) := sign_prefix (pretty e) in let '(e', n, rest) := take_digits 0 0 r in
     if (0 <? n)%nat && String.eqb rest "" then Some (apply_sign neg e') else None).
  rewrite <- (string_app_nil_r (pretty e)), sign_prefix_pretty.
  destruct (take_digits_pretty_abs e "") as (k & Hk & Ht); [done|]. rewrite Ht.
  apply Nat.ltb_lt in Hk. cbn beta iota. rewrite Hk. simpl. by rewrite apply_sign_abs.
Qed.

(** What the parsers see of the characters of [str(n)]. *)
Lemma number_char_props c : number_char c = true ->
  sql_is_space c = false /\ Ascii.eqb c "_" = false /\
  negb (Ascii.eqb c "." || Ascii.eqb c "e" || Ascii.eqb c "E") = true.
Proof. destruct c as [[] [] [] [] [] [] [] []]; vm_compute; intros H; try discriminate H; auto 10. Qed.

Lemma pretty_sql_nonspace (z : Z) : string_all (fun c => negb (sql_is_space c)) (pretty z) = true.
Proof.
  apply string_all_number_char; [|apply pretty_Z_chars]. intros c Hc. by destruct (number_char_props c Hc) as (-> & _).
Qed.


(** [int()] on [str(n)] followed by [s]: the digits of [n] are read, then
    [s] decides, and the digit limit. *)
Lemma py_int_pretty_app (z : Z) s : string_all (fun c => negb (sql_is_space c)) s = true ->
  py_int (pretty z +:+ s) =
  match dec_digits (Some (Z.abs z)) s with
  | Some v =>
      if (digit_count (pretty z +:+ s) <=? INT_MAX_STR_DIGITS)%nat
      then Ok (apply_sign (bool_decide (z < 0)%Z) v) else Raise ValueError
  | None => Raise ValueError
  end.
Proof.
  intros Hs. unfold py_int, ascii_strip. rewrite sql_strip_nonspace by (by rewrite string_all_app, pretty_sql_nonspace, Hs).
  destruct z as [|p|p].
  - simpl. by rewrite string_app_nil_l.
  - rewrite pretty_Zpos, pretty_N_go_app, string_app_nil_l.
    destruct (pretty_N_go_head (Npos p) s) as (c & r & Hcr & Hd); [lia|].
    destruct (digit_char c Hd) as (_ & _ & _ & _ & H1 & H2 & _).
    rewrite Hcr, H1, H2, <- Hcr. destruct (dec_digits_pretty_pos p s) as [m ->]. rewrite ?zabs_pos, ?zabs_neg.
    rewrite bool_decide_false by lia. by destruct (dec_digits _ s).
  - rewrite pretty_Zneg. change (String "-" (pretty_N_go (Npos p) "") +:+ s) with (String "-" (pretty_N_go (Npos p) "" +:+ s)).
    rewrite pretty_N_go_app, string_app_nil_l. cbn iota beta. destruct (dec_digits_pretty_pos p s) as [m ->]. rewrite ?zabs_pos, ?zabs_neg.
    rewrite bool_decide_true by lia. by destruct (dec_digits _ s).
Qed.

(** A decimal literal that is [str(n)] and an exponent. *)
Lemma decimal_literal_int_exp (n : Z) r e :
  exponent_part r = Some e -> starts_with (fun c => is_digit c || Ascii.eqb c ".") r = false ->
  decimal_literal (pretty n +:+ r) = Some (inject_Z n * 10 ^ e)%Q.
Proof.
  intros He Hr. unfold decimal_literal. rewrite sign_prefix_pretty.
  destruct (take_digits_pretty_abs n r) as (k & Hk & Ht).
  { destruct r as [|c r]; [done|]. simpl in Hr |- *. by apply orb_false_iff in Hr as []. }
  cbn beta iota zeta. rewrite Ht.
  assert (Hm : match r with
               | String c r1' => if Ascii.eqb c "." then take_digits (Z.abs n) 0 r1' else (Z.abs n, 0%nat, r)
               | EmptyString => (Z.abs n, 0%nat, r)
               end = (Z.abs n, 0%nat, r)).
  { destruct r as [|c r]; [done|]. simpl in Hr. apply orb_false_iff in Hr as [_ ->]. done. }
  cbn beta iota zeta. rewrite Hm. cbn beta iota zeta.
  destruct k as [|k]; [lia|]. simpl. rewrite He, apply_sign_abs. by rewrite Z.sub_0_r.
Qed.

(** [str(n) + '.0']: the value of [n], written with one decimal. *)
Lemma decimal_literal_point_zero (n : Z) : decimal_literal (pretty n +:+ ".0") = Some (inject_Z (n * 10) * 10 ^ (-1))%Q.
Proof.
  unfold decimal_literal. rewrite sign_prefix_pretty.
  destruct (take_digits_pretty_abs n ".0") as (k & Hk & Ht); [done|].
  cbn beta iota zeta. rewrite Ht. cbn beta iota zeta.
  destruct k as [|k]; [lia|]. simpl. replace (apply_sign _ _) with (n * 10)%Z; [done|].
  change (digit_value "0") with 0%Z. unfold apply_sign. case_bool_decide; lia.
Qed.

(** [x == inject_Z n] reduces to [inject_Z n]. *)
Lemma Qred_inject_Z q n : q == inject_Z n -> Qred q = inject_Z n.
Proof. intros H. rewrite (Qred_complete _ _ H). apply Qred_inject_Z_id. Qed.

(** [str(n)] is a pure integer for SQLite. *)
Lemma integer_text_pretty (n : Z) : integer_text (pretty n) = true.
Proof.
  change (integer_text (pretty n)) with
    (string_all (fun c => negb (Ascii.eqb c "." || Ascii.eqb c "e" || Ascii.eqb c "E")) (pretty n)).
  apply string_all_number_char; [|apply pretty_Z_chars]. intros c Hc. by destruct (number_char_props c Hc) as (_ & _ & ->).
Qed.

(** The option the page writes, [str(k)], selects row [k] in SQLite:
    a pure integer, read exactly. *)
Lemma sqlite_text_rowid_pretty (k : Z) : sqlite_int k = true -> sqlite_text_rowid (pretty k) = Some k.
Proof.
  intros Hk. unfold sqlite_text_rowid, sql_numeric_text, ascii_strip.
  rewrite sql_strip_nonspace by apply pretty_sql_nonspace.
  rewrite <- (string_app_nil_r (pretty k)), (decimal_literal_int_exp k "" 0) by done.
  rewrite string_app_nil_r, integer_text_pretty, (Qred_inject_Z _ k) by (simpl; ring). simpl. by rewrite Hk.
Qed.

(** [str(k) + '.0'] goes through a double, which is [k] itself below
    [2^53], and selects row [k]. *)
Lemma sqlite_text_rowid_point_zero (k : Z) : (Z.abs k < 2 ^ 53)%Z -> sqlite_text_rowid (pretty k +:+ ".0") = Some k.
Proof.
  intros Hk. unfold sqlite_text_rowid, sql_numeric_text, ascii_strip.
  rewrite sql_strip_nonspace by (by rewrite string_all_app, pretty_sql_nonspace).
  assert (Hi : integer_text (pretty k +:+ ".0") = false).
  { change (integer_text (pretty k +:+ ".0")) with
      (string_all (fun c => negb (Ascii.eqb c "." || Ascii.eqb c "e" || Ascii.eqb c "E")) (pretty k +:+ ".0")).
    by rewrite string_all_app, andb_false_r. }
  rewrite decimal_literal_point_zero, Hi. cbn [andb].
  assert (Hq : (inject_Z (k * 10) * 10 ^ (-1) == inject_Z k)%Q) by (rewrite inject_Z_mult; simpl; field).
  destruct (round_double_int _ k Hq Hk) as (r & -> & Hr).
  rewrite (Qred_inject_Z _ k Hr). simpl. unfold INT64_MIN, INT64_MAX.
  assert (H63 : (2 ^ 53 < 2 ^ 63)%Z) by (apply Z.pow_lt_mono_r; lia).
  rewrite (proj2 (Z.ltb_lt _ _)), (proj2 (Z.ltb_lt _ _)) by lia. done.
Qed.

(** [int(str(k) + '.0')] raises [ValueError]. *)
Lemma py_int_point_zero (k : Z) : py_int (pretty k +:+ ".0") = Raise ValueError.
Proof. by rewrite py_int_pretty_app. Qed.






Lemma digit_count_cons c s : digit_count (String c s) = ((if is_digit c then 1 else 0) + digit_count s)%nat.
Proof. unfold digit_count. simpl. rewrite filter_cons. by destruct (is_digit c); case_decide. Qed.

(** [str(x)] for [x < 10 ^ n] has at most [n] digits. *)
Lemma pretty_N_go_digit_count x s n :
  (Z.of_N x < 10 ^ Z.of_nat n)%Z -> (digit_count (pretty_N_go x s) <= n + digit_count s)%nat.
Proof.
  revert s n. induction (N.lt_wf_0 x) as [x _ IH]; intros s n Hx.
  destruct (decide (x = 0)%N) as [->|Hx0]; [rewrite pretty_N_go_0; lia|].
  destruct n as [|n]; [simpl in Hx; lia|].
  rewrite pretty_N_go_step by lia.
  assert (Hd : (Z.of_N (x `div` 10) < 10 ^ Z.of_nat n)%Z).
  { rewrite N2Z.inj_div. apply Z.div_lt_upper_bound; [lia|].
    rewrite Nat2Z.inj_succ, Z.pow_succ_r in Hx by lia. simpl Z.of_N in *. lia. }
  specialize (IH (x `div` 10)%N ltac:(apply N.div_lt; lia) (String (pretty_N_char (x `mod` 10)) s) n Hd).
  rewrite digit_count_cons in IH.
  rewrite (proj1 (pretty_N_char_digit _ (N.mod_lt x 10 ltac:(lia)))) in IH. lia.
Qed.

Lemma digit_count_pretty (z : Z) n : (Z.abs z < 10 ^ Z.of_nat n)%Z -> (digit_count (pretty z) <= Nat.max 1 n)%nat.
Proof.
  intros Hz. destruct z as [|p|p]; [change (digit_count (pretty 0%Z)) with 1%nat; lia| |].
  - rewrite pretty_Zpos. pose proof (pretty_N_go_digit_count (Npos p) "" n Hz). change (digit_count "") with 0%nat in *. lia.
  - rewrite pretty_Zneg, digit_count_cons. pose proof (pretty_N_go_digit_count (Npos p) "" n Hz).
    change (digit_count "") with 0%nat in *. change ((if is_digit "-" then 1 else 0)%nat) with 0%nat. lia.
Qed.

(** A 64-bit integer has fewer than 4300 digits. *)
Lemma sqlite_int_digits (k : Z) : sqlite_int k = true -> (Z.abs k < 10 ^ Z.of_nat INT_MAX_STR_DIGITS)%Z.
Proof.
  unfold sqlite_int, INT64_MIN, INT64_MAX. intros [H1%Z.leb_le H2%Z.leb_le]%andb_true_iff.
  apply (Z.lt_le_trans _ (10 ^ 19)); [lia|]. apply Z.pow_le_mono_r; [lia|]. unfold INT_MAX_STR_DIGITS. lia.
Qed.

(** [int(str(n)) == n] for the integers [int()] converts. *)
Lemma py_int_pretty (z : Z) : (Z.abs z < 10 ^ Z.of_nat INT_MAX_STR_DIGITS)%Z -> py_int (pretty z) = Ok z.
Proof.
  intros Hz. rewrite <- (string_app_nil_r (pretty z)), py_int_pretty_app by done. simpl dec_digits.
  rewrite string_app_nil_r. pose proof (digit_count_pretty z _ Hz).
  rewrite (proj2 (Nat.leb_le _ _)) by (unfold INT_MAX_STR_DIGITS in *; lia). by rewrite apply_sign_abs.
Qed.

(** ** Properties *)




End Forms.
