(* ===== verification/Pages.v ===== *)
(** * The pages that read the database

    The view functions of src/app.py that only read: [dashboard] (lines
    483-538), [reports] (716-978), [api_engagement_data] and
    [api_reach_data] (981-1045), [api_predict_performance] (1268-1294) and
    [generate_project_report] (1421-1467).  Each is a function of the
    session, the evaluation time where the SQL says ['now'], and the
    committed database of [Store]; it returns the page it renders
    ([page]), and [result] where Python can raise.  They compose the
    analytics of the component files with the database queries of
    [Store]: the posts table in rowid order ([table_posts]) and the user's
    project ids ([user_project_ids]).

    The theorems: in every reachable state a project report never
    fails and every chart of the reports page is empty; the reports page fails exactly when [analyze_growth_trends]
    does; [generate_project_report] raises [TypeError] on every project
    with posts. *)

From Stdlib Require Import ZArith QArith.
From stdpp Require Import base list strings gmap sets sorting.
From S2P Require Import Prelude Sql Calendar Post Metrics Predict Trends Recommend Alerts Store Routes App Reports Forms.

Module Pages.

(** A page: the redirect to the login page, a redirect with flashed
    messages, or the view it renders. *)
Inductive page (V : Type) :=
  | ToLogin
  | RedirectTo (endpoint : string) (flashed : list string)
  | Show (v : V).
Arguments ToLogin {V}. Arguments RedirectTo {V} endpoint flashed. Arguments Show {V} v.

(** ** [dashboard] *)

Record stats := mkStats { total_posts : Z; avg_engagement : Q; total_reach : Z; new_followers : Z }.

Definition zero_stats : stats := mkStats 0 0 0 0.

(** [SELECT COUNT( * ), AVG(engagement_rate), SUM(reach), SUM(followers_gained)
    FROM posts WHERE project_id IN (...)], then [if post_stats['total_posts'] > 0]. *)
Definition post_stats (scoped : list Post) : stats :=
  if (0 <? Z.of_nat (length scoped))%Z then
    mkStats (Z.of_nat (length scoped))
      (py_round 1 (py_or (sql_avg (map engagement_rate scoped)) 0))
      (default 0 (sql_sum (map reach scoped)))
      (default 0 (sql_sum (map followers_gained scoped)))
  else zero_stats.

Record dashboard_view := mkDashboard {
  d_username : string; d_stats : stats;
  d_recommendations : list Recommend.recommendation; d_alerts : list Alerts.alert }.

Definition dashboard (session : option Session) (now : DateTime) (db : Db) : page dashboard_view :=
  match session with
  | None => ToLogin
  | Some s =>
      match user_project_ids db (s_user_id s) with
      | [] => Show (mkDashboard (s_username s) zero_stats [] [])
      | ids =>
          let posts := table_posts db in
          Show (mkDashboard (s_username s) (post_stats (scope ids posts))
                  (take 2 (Recommend.generate_smart_recommendations now ids posts))
                  (take 3 (Alerts.check_performance_alerts now ids posts)))
      end
  end.

(** ** [reports] *)

(** [FROM hashtags h JOIN posts p ON h.post_id = p.id WHERE p.project_id IN (...)]. *)
Definition hashtag_join (db : Db) (ids : list Z) : list (string * Post) :=
  omap (fun kv : Z * Hashtag =>
          p ← posts db !! h_post_id kv.2;
          if decide (project_id p ∈ ids) then Some (hashtag kv.2, p) else None)
       (rowid_order (hashtags db)).

(** The [analytics_data] dictionary; [growth_trends] and [recommendations]
    are only set when the user has a project. *)
Record reports_view := mkReports {
  r_engagement_over_time : list (Date * Q);
  r_reach_over_time : list (Date * Z);
  r_posting_time_analysis : list (Z * Q * Z);
  r_caption_category_performance : list (string * Q * Z);
  r_performance_distribution : list (string * Z);
  r_hashtag_performance : list Reports.hashtag_row;
  r_content_insights : list Reports.content_row;
  r_day_of_week_analysis : list Reports.day_row;
  r_monthly_trends : list Reports.month_trend;
  r_engagement_velocity : list Reports.velocity_row;
  r_growth_trends : option Trends.trend_report;
  r_recommendations : option (list Recommend.recommendation)
}.

Definition empty_reports : reports_view := mkReports [] [] [] [] [] [] [] [] [] [] None None.

Definition reports (session : option Session) (now : DateTime) (db : Db) : result (page reports_view) :=
  match session with
  | None => Ok ToLogin
  | Some s =>
      match user_project_ids db (s_user_id s) with
      | [] => Ok (Show empty_reports)
      | ids =>
          let posts := table_posts db in
          let scoped := scope ids posts in
          g ← Trends.analyze_growth_trends ids posts;
          Ok (Show (mkReports
                (Reports.engagement_over_time scoped) (Reports.reach_over_time scoped)
                (Reports.posting_time_analysis scoped) (Reports.caption_category_performance scoped)
                (Reports.performance_distribution scoped) (Reports.hashtag_performance (hashtag_join db ids))
                (Reports.content_insights scoped) (Reports.day_of_week_analysis scoped)
                (Reports.monthly_trends scoped) (Reports.engagement_velocity scoped)
                (Some g) (Some (Recommend.generate_smart_recommendations now ids posts))))
      end
  end.

(** ** The JSON endpoints *)

(** [api_engagement_data]: [None] is the 401 response. *)
Definition api_engagement_data (session : option Session) (db : Db) : option (list Date * list Q) :=
  match session with
  | None => None
  | Some s =>
      match user_project_ids db (s_user_id s) with
      | [] => Some ([], [])
      | ids => Some (Reports.api_engagement_data (scope ids (table_posts db)))
      end
  end.

Definition api_reach_data (session : option Session) (db : Db) : option (list Date * list Z) :=
  match session with
  | None => None
  | Some s =>
      match user_project_ids db (s_user_id s) with
      | [] => Some ([], [])
      | ids => Some (Reports.api_reach_data (scope ids (table_posts db)))
      end
  end.

(** [api_predict_performance]: 401 without a session; then the query
    arguments [type], [hour] and [category] with their defaults, [hour]
    through [int(...)] (a text that is not an integer raises [ValueError]
    before any query); 404 without a project, else the prediction. *)
Inductive predict_response :=
  | PredictUnauthorized
  | PredictNoProjects
  | PredictOk (pr : Predict.prediction).

(** [int(request.args.get('hour', 12))]: [int(12)] is [12]. *)
Definition predict_hour (args : Forms.form) : result Z :=
  match args !! "hour" with
  | None => Ok 12
  | Some t => Sql.py_int t
  end.

Definition api_predict_performance (session : option Session) (args : Forms.form) (db : Db)
    : result predict_response :=
  match session with
  | None => Ok PredictUnauthorized
  | Some s =>
      let ty := Forms.form_get args "type" "Reel" in
      hour ← predict_hour args;
      let category := Forms.form_get args "category" "Educational" in
      match user_project_ids db (s_user_id s) with
      | [] => Ok PredictNoProjects
      | ids => pr ← Predict.predict_post_performance ty hour category ids (table_posts db); Ok (PredictOk pr)
      end
  end.

(** ** [generate_project_report] *)

(** [SELECT * FROM posts WHERE project_id = ? ORDER BY post_date DESC], then
    [calculate_metrics(posts)]: a call with one argument of a function of
    eight parameters raises [TypeError] before its body runs. *)
Definition calculate_metrics_one_arg (posts : list Post) : result Metrics.metrics := Raise TypeError.

Definition generate_project_report (session : option Session) (prid : Z) (db : Db)
    : result (page (list Post * Metrics.metrics)) :=
  match session with
  | None => Ok ToLogin
  | Some s =>
      _ ← sqlite_bind [prid];
      if negb (project_owned db (s_user_id s) prid) then Ok (RedirectTo "projects" ["Project not found"])
      else
        match merge_sort Alerts.by_date_desc (filter (fun p => project_id p = prid) (table_posts db)) with
        | [] => Ok (RedirectTo "project_posts" ["No posts in this project to generate report"])
        | posts => m ← calculate_metrics_one_arg posts; Ok (Show (posts, m))
        end
  end.

(** ** Lemmas *)

(** In a reachable state the posts table is empty and so is every join
    with it: the invariant of [App], by rule induction over [step]. *)
Lemma reachable_tables h1 h2 db : reachable h1 h2 db -> table_posts db = [] /\ hashtags db = ∅.
Proof.
  intros Hr.
  assert (Hc : no_content db).
  { refine (rtc_step_invariant no_content _ (initial_db h1 h2) db Hr _).
    - intros ? ? [? session r _]. apply serve_no_content.
    - split_and!; reflexivity. }
  destruct Hc as (Hp & Hh & _). unfold table_posts. by rewrite Hp, Hh.
Qed.

Lemma filter_sort_nil (P : Post -> Prop) `{!forall p, Decision (P p)} (posts : list Post) :
  merge_sort Alerts.by_date_desc (filter P posts) = [] <-> forall p, p ∈ posts -> ~ P p.
Proof.
  split.
  - intros E p Hp HP. assert (Hin : p ∈ merge_sort Alerts.by_date_desc (filter P posts)).
    { rewrite (merge_sort_Permutation _ _). by apply list_elem_of_filter. }
    rewrite E in Hin. by apply elem_of_nil in Hin.
  - intros Hnone. apply Permutation_nil. rewrite (merge_sort_Permutation _ _).
    destruct (filter P posts) as [|x l] eqn:E; [done|].
    assert (Hx : x ∈ filter P posts) by (rewrite E; left).
    apply list_elem_of_filter in Hx as [HP Hx]. by destruct (Hnone x Hx).
Qed.

(** ** Properties *)

(** In every reachable state the reports page of a
    logged-in user renders, with every chart empty; a user with a project
    also gets the "insufficient data" growth report and no recommendation. *)
Theorem reports_reachable h1 h2 db s now :
  reachable h1 h2 db ->
  reports (Some s) now db =
    Ok (Show (if bool_decide (user_project_ids db (s_user_id s) = []) then empty_reports
              else mkReports [] [] [] [] [] [] [] [] [] [] (Some Trends.InsufficientData) (Some []))).
Proof.
  intros [Hp Hh]%reachable_tables. unfold reports, hashtag_join. rewrite Hp, Hh.
  by destruct (user_project_ids db (s_user_id s)).
Qed.

Lemma reports_reachable_witness :
  reachable "h1" "h2" after_add_project /\
  reports (Some sample_user1) (mkDateTime 20402 0) after_add_project =
    Ok (Show (mkReports [] [] [] [] [] [] [] [] [] [] (Some Trends.InsufficientData) (Some []))).
Proof.
  pose proof after_add_project_reachable as Hr. split; [exact Hr|].
  exact (reports_reachable "h1" "h2" after_add_project sample_user1 (mkDateTime 20402 0) Hr).
Defined.

(** In every reachable state [api_predict_performance] raises
    [ValueError] when the [hour] argument is not an integer, whether or not
    the user has a project, and otherwise answers 404 to a user without a
    project, raises [OverflowError] on an hour outside 64 bits, and gives
    the baseline defaults. *)
Theorem predict_reachable h1 h2 db s args :
  reachable h1 h2 db ->
  api_predict_performance (Some s) args db =
    match predict_hour args with
    | Raise e => Raise e
    | Ok h =>
        if bool_decide (user_project_ids db (s_user_id s) = []) then Ok PredictNoProjects
        else if sqlite_int h then Ok (PredictOk (Predict.mkPrediction 20 5 30 0)) else Raise OverflowError
    end.
Proof.
  intros [Hp _]%reachable_tables. unfold api_predict_performance. rewrite Hp.
  destruct (predict_hour args) as [h|]; [|done]. simpl.
  destruct (user_project_ids db (s_user_id s)); [done|]. simpl.
  unfold Predict.predict_post_performance. rewrite sqlite_bind_one. by destruct (sqlite_int h).
Qed.

Lemma predict_reachable_witness :
  reachable "h1" "h2" after_add_project /\
  api_predict_performance (Some sample_user1) {["hour" := " 9 "]} after_add_project =
    Ok (PredictOk (Predict.mkPrediction 20 5 30 0)) /\
  api_predict_performance (Some sample_user1) {["hour" := "9am"]} after_add_project = Raise ValueError.
Proof.
  pose proof after_add_project_reachable as Hr. split_and!; [exact Hr| |].
  - rewrite (predict_reachable "h1" "h2" after_add_project sample_user1 _ Hr). vm_compute. reflexivity.
  - rewrite (predict_reachable "h1" "h2" after_add_project sample_user1 _ Hr). vm_compute. reflexivity.
Defined.

(** C26 project_report_type_error: [generate_project_report] raises
    [TypeError] on every project the user owns that has a post, because it
    calls [calculate_metrics] with one argument. *)
Theorem project_report_type_error db s prid p :
  sqlite_int prid = true ->
  project_owned db (s_user_id s) prid = true -> p ∈ table_posts db -> project_id p = prid ->
  generate_project_report (Some s) prid db = Raise TypeError.
Proof.
  intros Hi Hown Hp Hid. unfold generate_project_report. rewrite sqlite_bind_one, Hi, Hown. simpl.
  destruct (merge_sort _ _) eqn:E; [|done].
  by destruct (proj1 (filter_sort_nil _ _) E p Hp).
Qed.

Lemma project_report_type_error_witness :
  sqlite_int 1 = true /\
  project_owned sample_db (s_user_id sample_user1) 1 = true /\ sample_p1 ∈ table_posts sample_db /\
  project_id sample_p1 = 1 /\ generate_project_report (Some sample_user1) 1 sample_db = Raise TypeError.
Proof.
  assert (H0 : sqlite_int 1 = true) by reflexivity.
  assert (H1 : project_owned sample_db (s_user_id sample_user1) 1 = true) by reflexivity.
  assert (H2 : sample_p1 ∈ table_posts sample_db) by (vm_compute; left).
  assert (H3 : project_id sample_p1 = 1) by reflexivity.
  split_and!; [exact H0|exact H1|exact H2|exact H3|exact (project_report_type_error _ _ _ _ H0 H1 H2 H3)].
Defined.

(** in every reachable state the project
    report never raises: it redirects to the projects page when the user
    does not own the project, and to the project's posts otherwise. *)
Theorem project_report_reachable h1 h2 db s prid :
  reachable h1 h2 db ->
  generate_project_report (Some s) prid db =
    if negb (sqlite_int prid) then Raise OverflowError
    else Ok (if project_owned db (s_user_id s) prid
             then RedirectTo "project_posts" ["No posts in this project to generate report"]
             else RedirectTo "projects" ["Project not found"]).
Proof.
  intros [Hp _]%reachable_tables. unfold generate_project_report. rewrite Hp, sqlite_bind_one.
  destruct (sqlite_int prid); [|done]. by destruct (project_owned db (s_user_id s) prid).
Qed.

Lemma project_report_reachable_witness :
  reachable "h1" "h2" after_add_project /\
  generate_project_report (Some sample_user1) 1 after_add_project =
    Ok (RedirectTo "project_posts" ["No posts in this project to generate report"]).
Proof.
  pose proof after_add_project_reachable as Hr. split; [exact Hr|].
  exact (project_report_reachable "h1" "h2" after_add_project sample_user1 1 Hr).
Defined.

End Pages.
