(* ===== verification/Views.v ===== *)
(** * Sessions and the listing pages

    [index], [login] and [logout] (src/app.py, lines 451-481) manage the
    Flask session; [posts] (673-714), [projects] (1114-1129) and
    [project_posts] (1170-1195) list the user's rows.  [login] calls
    werkzeug's [check_password_hash], a library function: it is the
    section variable [check_password_hash], and every theorem holds for
    any such function.  A session is the pair [session['user_id']],
    [session['username']] of [Store.Session]; [login] returns the session
    it leaves with the page.

    The theorems: a session written by [login] names a row of [users]
    with its username and a password the hash accepts, so [login] only
    creates sessions [App.step] admits ([valid_session]); the posts page
    lists exactly the user's posts, sorted by the validated column; the
    projects page counts each project's posts. *)

From Stdlib Require Import ZArith QArith Sorted.
From stdpp Require Import base list strings gmap sets sorting.
From S2P Require Import Prelude Sql Calendar Post Alerts Store Routes App Pages.

Set Warnings "-clear-no-such-hyp".

Module Views.
Import Pages.

(** ** [index] and [logout] *)

Definition index (session : option Session) : page unit :=
  match session with
  | None => ToLogin
  | Some _ => RedirectTo "dashboard" []
  end.

(** [session.clear()], then the redirect. *)
Definition logout (session : option Session) : option Session * page unit := (None, ToLogin).

(** ** [login] *)

Inductive login_request :=
  | LoginGet
  | LoginPost (username password : string).

(** [SELECT * FROM users WHERE username = ?] with [fetchone()]. *)
Definition user_named (db : Db) (name : string) : option (Z * User) :=
  head (filter (fun kv : Z * User => username kv.2 = name) (rowid_order (users db))).

Section Login.
Variable check_password_hash : string -> string -> bool.

(** The page is [login.html] with its flashed messages ([Show]) or the
    redirect to the dashboard. *)
Definition login (session : option Session) (req : login_request) (db : Db)
    : option Session * page (list string) :=
  match req with
  | LoginGet => (session, Show [])
  | LoginPost name password =>
      match user_named db name with
      | Some (uid, u) =>
          if check_password_hash (password_hash u) password
          then (Some (mkSession uid (username u)), RedirectTo "dashboard" [])
          else (session, Show ["Invalid username or password"])
      | None => (session, Show ["Invalid username or password"])
      end
  end.

End Login.

(** ** [posts] *)

Inductive sort_column := SortPostDate | SortEngagementRate | SortPerformanceScore | SortReach | SortLikes.

(** [if sort_by not in valid_sorts: sort_by = 'post_date']. *)
Definition valid_sort (sort_by : string) : sort_column :=
  if decide (sort_by = "engagement_rate") then SortEngagementRate
  else if decide (sort_by = "performance_score") then SortPerformanceScore
  else if decide (sort_by = "reach") then SortReach
  else if decide (sort_by = "likes") then SortLikes
  else SortPostDate.

Definition sort_name (c : sort_column) : string :=
  match c with
  | SortPostDate => "post_date"
  | SortEngagementRate => "engagement_rate"
  | SortPerformanceScore => "performance_score"
  | SortReach => "reach"
  | SortLikes => "likes"
  end.

(** [if order not in ['asc', 'desc']: order = 'desc']. *)
Definition valid_order (order : string) : string :=
  if decide (order = "asc") then "asc" else "desc".

(** The order of [ORDER BY {sort_by} {order.upper()}]; [post_date]
    compares as ISO text. *)
Definition sort_rel (c : sort_column) (desc : bool) : relation Post :=
  match c with
  | SortPostDate => order_rel post_date desc
  | SortEngagementRate => order_rel engagement_rate desc
  | SortPerformanceScore => order_rel performance_score desc
  | SortReach => order_rel reach desc
  | SortLikes => order_rel likes desc
  end.

#[export] Instance sort_rel_dec c desc : RelDecision (sort_rel c desc).
Proof. destruct c; simpl; apply _. Defined.

#[export] Instance sort_rel_trans c desc : Transitive (sort_rel c desc).
Proof. destruct c; simpl; apply _. Qed.

#[export] Instance sort_rel_total c desc : Total (sort_rel c desc).
Proof. destruct c; simpl; apply _. Qed.

Definition sort_posts (c : sort_column) (desc : bool) (ps : list Post) : list Post :=
  merge_sort (sort_rel c desc) ps.

(** [request.args.get('sort', 'post_date')] and
    [request.args.get('order', 'desc')]; the page renders [posts.html]
    with the rows and the validated [sort_by] and [order]. *)
Definition posts (session : option Session) (sort_arg order_arg : option string) (db : Db)
    : page (list Post * string * string) :=
  match session with
  | None => ToLogin
  | Some s =>
      let c := valid_sort (default "post_date" sort_arg) in
      let o := valid_order (default "desc" order_arg) in
      let rows :=
        match user_project_ids db (s_user_id s) with
        | [] => []
        | ids => sort_posts c (bool_decide (o = "desc")) (scope ids (table_posts db))
        end in
      Show (rows, sort_name c, o)
  end.

(** ** [projects] and [project_posts] *)

(** A row of [SELECT p.*, COUNT(posts.id) as post_count FROM projects p
    LEFT JOIN posts ON p.id = posts.project_id]. *)
Record project_row := mkProjectRow { row_id : Z; row_project : Project; post_count : Z }.

Definition project_row_of (db : Db) (kv : Z * Project) : project_row :=
  mkProjectRow kv.1 kv.2 (Z.of_nat (length (filter (fun p => project_id p = kv.1) (table_posts db)))).

(** [... WHERE p.user_id = ? GROUP BY p.id ORDER BY p.project_name]. *)
Definition projects (session : option Session) (db : Db) : page (list project_row) :=
  match session with
  | None => ToLogin
  | Some s =>
      Show (order_by (fun r => project_name (row_project r)) false
              (map (project_row_of db)
                 (filter (fun kv : Z * Project => pr_user_id kv.2 = s_user_id s) (rowid_order (projects db)))))
  end.

Definition project_posts (session : option Session) (prid : Z) (db : Db) : result (page (Project * list Post)) :=
  match session with
  | None => Ok ToLogin
  | Some s =>
      _ ← sqlite_bind [prid];
      match Store.projects db !! prid with
      | Some pr =>
          if decide (pr_user_id pr = s_user_id s) then
            Ok (Show (pr, merge_sort Alerts.by_date_desc (filter (fun p => project_id p = prid) (table_posts db))))
          else Ok (RedirectTo "projects" ["Project not found"])
      | None => Ok (RedirectTo "projects" ["Project not found"])
      end
  end.

(** ** Lemmas *)

Lemma user_named_Some db name uid u :
  user_named db name = Some (uid, u) -> users db !! uid = Some u /\ username u = name.
Proof.
  unfold user_named. intros [Hin Hname]%head_Some_elem_of%list_elem_of_filter.
  by rewrite elem_of_rowid_order in Hname.
Qed.

Lemma scope_no_ids (ps : list Post) : scope [] ps = [].
Proof.
  unfold scope, where_in. induction ps as [|p ps IH]; [done|].
  rewrite filter_cons. case_decide; [set_solver|exact IH].
Qed.

(** Counting the posts of [i :: ids] splits off the posts of [i]. *)
Lemma count_split (ps : list Post) i ids : i ∉ ids ->
  length (scope (i :: ids) ps) =
  (length (filter (fun p => project_id p = i) ps) + length (scope ids ps))%nat.
Proof.
  intros Hi. unfold scope, where_in in *. induction ps as [|p ps IH]; [done|].
  rewrite !filter_cons. repeat case_decide; simpl; rewrite ?IH; try lia; set_solver.
Qed.

(** [COUNT(posts.id)] per project adds up to the posts of all of them. *)
Lemma sum_counts ids (ps : list Post) : NoDup ids ->
  sumZ (map (fun i => Z.of_nat (length (filter (fun p => project_id p = i) ps))) ids) =
  Z.of_nat (length (scope ids ps)).
Proof.
  induction 1 as [|i ids Hi _ IH]; simpl.
  - by rewrite scope_no_ids.
  - rewrite IH, count_split by done. lia.
Qed.

(** The post counts of the projects page add up to the user's posts. *)
Lemma projects_rows_total s db rows :
  projects (Some s) db = Show rows ->
  sumZ (map post_count rows) = Z.of_nat (length (scope (user_project_ids db (s_user_id s)) (table_posts db))).
Proof.
  unfold projects. intros [= <-]. set (F := filter _ (rowid_order (Store.projects db))).
  pose proof (order_by_perm (fun r => project_name (row_project r)) false (map (project_row_of db) F)) as Hp.
  rewrite (Permutation_map post_count Hp), map_map, <- sum_counts by apply NoDup_rowid_keys.
  unfold user_project_ids. by rewrite map_map.
Qed.

Lemma sort_name_valid c :
  sort_name c ∈ ["post_date"; "engagement_rate"; "performance_score"; "reach"; "likes"].
Proof. destruct c; simpl; set_solver. Qed.

Lemma valid_order_in o : valid_order o ∈ ["asc"; "desc"].
Proof. unfold valid_order. case_decide; set_solver. Qed.

(** ** Properties *)

(** C17 login_sessions: a session left by [login] is the one the request
    came with, or names the [users] row of the submitted username, whose
    password hash accepts the submitted password. *)
Theorem login_sessions chk session req db s pg :
  login chk session req db = (Some s, pg) ->
  session = Some s \/
  exists name password u, req = LoginPost name password /\ users db !! s_user_id s = Some u /\
    username u = name /\ s_username s = name /\ chk (password_hash u) password = true.
Proof.
  unfold login. destruct req as [|name password]; [intros [= -> _]; by left|].
  destruct (user_named db name) as [[uid u]|] eqn:E; [|intros [= -> _]; by left].
  destruct (chk (password_hash u) password) eqn:Hc; [|intros [= -> _]; by left].
  intros [= <- _]. apply user_named_Some in E as [Hu Hn].
  right. exists name, password, u. by subst.
Qed.

Lemma login_sessions_witness :
  login String.eqb None (LoginPost "user1" "h1") (initial_db "h1" "h2") =
    (Some sample_user1, RedirectTo "dashboard" []) /\
  (None = Some sample_user1 \/
   exists name password u, LoginPost "user1" "h1" = LoginPost name password /\
     users (initial_db "h1" "h2") !! s_user_id sample_user1 = Some u /\
     username u = name /\ s_username sample_user1 = name /\ String.eqb (password_hash u) password = true).
Proof.
  assert (H : login String.eqb None (LoginPost "user1" "h1") (initial_db "h1" "h2") =
    (Some sample_user1, RedirectTo "dashboard" [])) by (vm_compute; reflexivity).
  split; [exact H|exact (login_sessions String.eqb None _ _ sample_user1 _ H)].
Defined.

(** C30 posts_listing: the posts page lists exactly the posts of the
    user's projects, sorted by the column and direction it reports, and
    the column and direction it interpolates into the SQL are always one
    of the five valid columns and ASC or DESC. *)
Theorem posts_listing s sort_arg order_arg db rows c o :
  posts (Some s) sort_arg order_arg db = Show (rows, c, o) ->
  rows ≡ₚ scope (user_project_ids db (s_user_id s)) (table_posts db) /\
  StronglySorted (sort_rel (valid_sort (default "post_date" sort_arg)) (bool_decide (o = "desc"))) rows /\
  c ∈ ["post_date"; "engagement_rate"; "performance_score"; "reach"; "likes"] /\ o ∈ ["asc"; "desc"].
Proof.
  unfold posts. intros [= <- <- <-]. split_and!; [| |apply sort_name_valid|apply valid_order_in].
  - destruct (user_project_ids db (s_user_id s)); [by rewrite scope_no_ids|apply merge_sort_Permutation].
  - destruct (user_project_ids db (s_user_id s)); [constructor|apply StronglySorted_merge_sort; apply _].
Qed.

Lemma posts_listing_witness :
  posts (Some sample_user1) (Some "reach") (Some "asc") sample_db = Show ([sample_p1], "reach", "asc") /\
  [sample_p1] ≡ₚ scope (user_project_ids sample_db (s_user_id sample_user1)) (table_posts sample_db) /\
  StronglySorted (sort_rel (valid_sort (default "post_date" (Some "reach"))) (bool_decide ("asc" = "desc"))) [sample_p1] /\
  "reach" ∈ ["post_date"; "engagement_rate"; "performance_score"; "reach"; "likes"] /\ "asc" ∈ ["asc"; "desc"].
Proof.
  assert (H : posts (Some sample_user1) (Some "reach") (Some "asc") sample_db = Show ([sample_p1], "reach", "asc"))
    by (vm_compute; reflexivity).
  split; [exact H|exact (posts_listing _ _ _ _ _ _ _ H)].
Defined.

(** the projects page lists each of the user's
    projects once, by name, and its post counts add up to the number of the
    user's posts. *)
Theorem projects_page_counts s db rows :
  projects (Some s) db = Show rows ->
  map row_id rows ≡ₚ user_project_ids db (s_user_id s) /\
  StronglySorted (order_rel (fun r => project_name (row_project r)) false) rows /\
  sumZ (map post_count rows) = Z.of_nat (length (scope (user_project_ids db (s_user_id s)) (table_posts db))).
Proof.
  intros Hr. pose proof (projects_rows_total s db rows Hr) as Ht. revert Hr.
  unfold projects. intros [= <-]. set (F := filter _ (rowid_order (Store.projects db))).
  pose proof (order_by_perm (fun r => project_name (row_project r)) false (map (project_row_of db) F)) as Hp.
  split_and!; [|apply order_by_sorted|].
  - rewrite Hp, map_map. unfold user_project_ids. by apply Permutation_refl'.
  - exact Ht.
Qed.

Lemma projects_page_counts_witness :
  projects (Some sample_user1) sample_db = Show [mkProjectRow 1 (mkProject 1 "Travel" "") 1] /\
  map row_id [mkProjectRow 1 (mkProject 1 "Travel" "") 1] ≡ₚ user_project_ids sample_db (s_user_id sample_user1) /\
  StronglySorted (order_rel (fun r => project_name (row_project r)) false) [mkProjectRow 1 (mkProject 1 "Travel" "") 1] /\
  sumZ (map post_count [mkProjectRow 1 (mkProject 1 "Travel" "") 1]) =
    Z.of_nat (length (scope (user_project_ids sample_db (s_user_id sample_user1)) (table_posts sample_db))).
Proof.
  assert (H : projects (Some sample_user1) sample_db = Show [mkProjectRow 1 (mkProject 1 "Travel" "") 1])
    by (vm_compute; reflexivity).
  split; [exact H|exact (projects_page_counts _ _ _ H)].
Defined.

End Views.
