(* ===== verification/Upload.v ===== *)
(** * Thumbnail upload

    [allowed_file] (src/app.py, lines 22-25) accepts a file name whose
    extension, the text after its last ['.'], is one of
    [ALLOWED_EXTENSIONS] once lower-cased; [add_post] (lines 576-596) runs
    the upload block: a non-empty, allowed file name is passed through
    werkzeug's [secure_filename], prefixed with a timestamp and saved; an
    [OSError] while saving leaves no thumbnail and flashes a note.

    [secure_filename] is a library function and the time of
    [datetime.now()] and the outcome of [os.makedirs] and [file.save] are
    inputs: the first is a section variable, the others are arguments.
    Characters are ASCII, as everywhere in the development.

    The theorem: [allowed_file] is equivalent to its reference reading, a
    name [base.ext] with a dot-free [ext] whose lower case is allowed. *)

From Stdlib Require Import ZArith Ascii.
From stdpp Require Import base list strings gmap sets.
From S2P Require Import Prelude Sql.

Module Upload.

(** [ALLOWED_EXTENSIONS = {'png', 'jpg', 'jpeg', 'gif', 'webp'}]. *)
Definition ALLOWED_EXTENSIONS : gset string := {[ "png"; "jpg"; "jpeg"; "gif"; "webp" ]}.

(** [c in s] for a one-character string [c]. *)
Fixpoint has_char (c : ascii) (s : string) : bool :=
  match s with
  | EmptyString => false
  | String c' s' => Ascii.eqb c' c || has_char c s'
  end.

(** [s.rsplit('.', 1)] when [s] has a dot: the text before and after the
    last one. *)
Fixpoint rsplit_dot (s : string) : option (string * string) :=
  match s with
  | EmptyString => None
  | String c s' =>
      match rsplit_dot s' with
      | Some (a, b) => Some (String c a, b)
      | None => if Ascii.eqb c "." then Some (EmptyString, s') else None
      end
  end.

Definition allowed_file (filename : string) : bool :=
  has_char "." filename &&
  match rsplit_dot filename with
  | Some (_, ext) => bool_decide (string_lower ext ∈ ALLOWED_EXTENSIONS)
  | None => false
  end.

(** The file field of the form: [None] when ['thumbnail' not in
    request.files], else the uploaded file's name (a [FileStorage] is
    falsy exactly when its name is empty). *)
Definition upload_field := option string.

(** The outcome of [os.makedirs] and [file.save]. *)
Inductive save_outcome := Saved | SaveOSError.

Section Thumbnail.
Variable secure_filename : string -> string.

(** The upload block of [add_post]: the [thumbnail_path] it leaves and the
    messages it flashes. *)
Definition upload_thumbnail (file : upload_field) (timestamp : string) (outcome : save_outcome)
    : option string * list string :=
  match file with
  | Some name =>
      if negb (String.eqb name "") && allowed_file name then
        match outcome with
        | Saved => (Some (timestamp +:+ secure_filename name), [])
        | SaveOSError =>
            (None, ["Note: File uploads are disabled in this environment. Post saved without thumbnail."])
        end
      else (None, [])
  | None => (None, [])
  end.

End Thumbnail.

(** ** Lemmas *)

Lemma has_char_app c s1 s2 : has_char c (s1 +:+ s2) = has_char c s1 || has_char c s2.
Proof. induction s1 as [|c' s1 IH]; [done|]. rewrite string_app_cons. simpl. rewrite IH. apply orb_assoc. Qed.

Lemma rsplit_dot_None s : rsplit_dot s = None <-> has_char "." s = false.
Proof.
  induction s as [|c s IH]; simpl; [done|].
  destruct (rsplit_dot s) as [[a b]|]; [split; [done|]|].
  - intros [_ Hs]%orb_false_iff. by apply IH in Hs.
  - rewrite (proj1 IH eq_refl), orb_false_r. by destruct (Ascii.eqb c ".").
Qed.

Lemma rsplit_dot_dot s p : rsplit_dot s = Some p -> has_char "." s = true.
Proof.
  intros E. destruct (has_char "." s) eqn:Hs; [done|].
  by rewrite (proj2 (rsplit_dot_None s) Hs) in E.
Qed.

Lemma rsplit_dot_Some s a b :
  rsplit_dot s = Some (a, b) <-> s = a +:+ String "." b /\ has_char "." b = false.
Proof.
  revert a. induction s as [|c s IH]; intros a; simpl; [split; [done|]; intros [Hs _]; destruct a; discriminate Hs|].
  destruct (rsplit_dot s) as [[a' b']|] eqn:E.
  - split.
    + intros [= <- <-]. destruct (proj1 (IH a') eq_refl) as [-> Hb]. by split.
    + intros [Hs Hb]. destruct a as [|c' a]; simpl in Hs; injection Hs as -> ->.
      * apply rsplit_dot_dot in E. by rewrite E in Hb.
      * pose proof (proj2 (IH a) (conj eq_refl Hb)). congruence.
  - pose proof (proj1 (rsplit_dot_None s) E) as Hs. split.
    + destruct (Ascii.eqb c ".") eqn:Hc; [|done]. intros [= <- <-].
      apply Ascii.eqb_eq in Hc as ->. by split.
    + intros [Hs' Hb]. destruct a as [|c' a]; simpl in Hs'; injection Hs' as -> ->.
      * by rewrite Ascii.eqb_refl.
      * rewrite has_char_app in Hs. simpl in Hs. by rewrite orb_true_r in Hs.
Qed.

(** ** Properties *)

(** C25 allowed_file_spec: [allowed_file] accepts exactly the names
    [base.ext] whose extension [ext], the text after the last dot, is one of
    png, jpg, jpeg, gif, webp in any letter case. *)
Theorem allowed_file_spec filename :
  allowed_file filename = true <->
  exists base ext, filename = base +:+ String "." ext /\ has_char "." ext = false /\
    string_lower ext ∈ ALLOWED_EXTENSIONS.
Proof.
  unfold allowed_file. split.
  - intros [Hdot Hext]%andb_true_iff.
    destruct (rsplit_dot filename) as [[base ext]|] eqn:E; [|done].
    apply rsplit_dot_Some in E as [-> Hb]. apply bool_decide_eq_true_1 in Hext. by exists base, ext.
  - intros (base & ext & -> & Hb & Hin).
    rewrite (proj2 (rsplit_dot_Some _ base ext) (conj eq_refl Hb)), has_char_app. simpl.
    rewrite ?Ascii.eqb_refl, orb_true_r. by apply bool_decide_eq_true_2.
Qed.

Lemma allowed_file_spec_witness :
  (allowed_file "cover.final.JPG" = true <->
   exists base ext, "cover.final.JPG" = base +:+ String "." ext /\ has_char "." ext = false /\
     string_lower ext ∈ ALLOWED_EXTENSIONS) /\
  allowed_file "cover.final.JPG" = true /\ allowed_file "photo.jpg.exe" = false /\ allowed_file "png" = false.
Proof. split; [exact (allowed_file_spec "cover.final.JPG")|]. split_and!; vm_compute; reflexivity. Defined.

End Upload.
