(* ===== verification/AddPostForm.v ===== *)
(** * [add_post] from the request

    The POST branch of [add_post] (src/app.py, lines 540-671) as the
    request reaches it: after the first connection and its query of the
    user's projects (lines 546-551) it reads [request.form] ([Forms],
    lines 555-574), runs the upload block ([Upload], lines 576-596) and
    goes on with the second connection ([Routes.add_post_db], lines
    598-671).  [add_post_request] composes the three components the way
    the handler does.

    The upload block only flashes: its note is prepended to the messages
    of the page [add_post_db] answers.  The block is computed before the
    reads in the definition; it changes no state, and its note is only
    returned when the reads succeed, as in the code where it runs after
    them.

    The [project_id] text: the page's select sends [str(k)], which the
    query [WHERE id = ?] matches to project [k] and [int()] reads back
    as [k]; for [|k| < 2^53], [str(k) + '.0'] is matched to project [k]
    as well (SQLite's numeric affinity reads it as the double [k]) but
    makes [int(project_id)] raise [ValueError]. *)

From Stdlib Require Import ZArith QArith.
From stdpp Require Import base list strings gmap sets pretty.
From S2P Require Import Prelude Sql Calendar Post Store Routes Forms Upload.

Module AddPostForm.

(** [flash(...)] before the page: the messages come first. *)
Definition with_flashes (msgs : list string) (r : response) : response :=
  match r with
  | Redirect ep fl => Redirect ep (msgs ++ fl)
  | Render t fl d => Render t (msgs ++ fl) d
  | r => r
  end.

Section Request.
Variable nonfinite : Forms.float_lit -> Q.
Variable secure_filename : string -> string.

(** The POST branch of [add_post]: [date_of] the date of the
    [post_date] text, the uploaded file, [datetime.now()]'s text and the
    outcome of the save as inputs. *)
Definition add_post_request (session : option Session)
    (date_of : string -> Date) (form : Forms.form) (file : Upload.upload_field)
    (timestamp : string) (outcome : Upload.save_outcome) : txM response :=
  match session with
  | None => mret (Redirect "login" [])
  | Some s =>
      _ ← get_db_connection;
      _ ← query (fun db => user_project_ids db (s_user_id s));
      _ ← close;
      let '(thumbnail, notes) := Upload.upload_thumbnail secure_filename file timestamp outcome in
      f ← lift (Forms.read_post_form nonfinite date_of thumbnail form);
      r ← add_post_db s f;
      mret (with_flashes notes r)
  end.

End Request.

(** ** Lemmas *)

(** The text the query and [int()] read, when it is [str(k)]. *)
Lemma project_owned_text_pretty db uid k :
  sqlite_int k = true -> project_owned_text db uid (pretty k) = project_owned db uid k.
Proof. intros Hk. unfold project_owned_text. by rewrite Forms.sqlite_text_rowid_pretty. Qed.

(** ** Properties *)

(** C19 resolve_project_str: the project select of the [add_post] page
    sends [str(k)]; for a project id within 64 bits, the query [WHERE id
    = ?] on that text matches project [k] and [int(project_id)] reads [k]
    back, so the request goes on into project [k] when the user owns it
    and redirects with 'Invalid project selected' otherwise, with no
    statement executed. *)
Theorem resolve_project_str s f k c :
  project_text f = Some (pretty k) -> sqlite_int k = true ->
  resolve_project s f c =
    (Ok (if project_owned (working c) (s_user_id s) k then inr k
         else inl (Redirect "add_post" ["Invalid project selected"])), c).
Proof.
  intros Hf Hk. unfold resolve_project. rewrite Hf. cbv [mbind txM_bind query lift mret txM_ret].
  rewrite project_owned_text_pretty by done.
  destruct (project_owned (working c) (s_user_id s) k); [|done].
  by rewrite Forms.py_int_pretty by (by apply Forms.sqlite_int_digits).
Qed.

Definition sample_form_of (project_id : option string) : PostForm :=
  mkPostForm project_id "Reel" (mkDate 2024 3 15) "18:30" "" "Educational" "" 1200 40 12 7 5000 3
    (Some 30) None (Some (15 # 1)) None.

Lemma resolve_project_str_witness :
  project_text (sample_form_of (Some "1")) = Some (pretty 1%Z) /\ sqlite_int 1 = true /\
  resolve_project sample_user1 (sample_form_of (Some "1")) (mkConn sample_db sample_db) =
    (Ok (inr 1%Z), mkConn sample_db sample_db).
Proof.
  assert (Hf : project_text (sample_form_of (Some "1")) = Some (pretty 1%Z)) by (vm_compute; reflexivity).
  assert (Hk : sqlite_int 1 = true) by reflexivity.
  split_and!; [exact Hf|exact Hk|]. rewrite (resolve_project_str _ _ _ _ Hf Hk). reflexivity.
Defined.

(** C15 add_post_project_point_zero: [project_id] written [str(k) + '.0']
    for a project [k] of the user with [|k| < 2^53]: SQLite's numeric
    affinity turns the text into the double [k] and the query matches
    project [k], then [int(project_id)] raises [ValueError], so the
    request ends in Flask's error page instead of saving the post or
    saying the project is invalid; the database is unchanged. *)
Theorem add_post_project_point_zero s f db k :
  project_text f = Some (pretty k +:+ ".0") -> (Z.abs k < 2 ^ 53)%Z -> project_owned db (s_user_id s) k = true ->
  serve (Some s) (AddPost f) db = (Crash ValueError, db).
Proof.
  intros Hf Hk Ho. rewrite serve_add_post, Hf. unfold project_owned_text.
  rewrite Forms.sqlite_text_rowid_point_zero, Ho by done.
  unfold add_post_exc. by rewrite Hf, Forms.py_int_point_zero.
Qed.

Lemma add_post_project_point_zero_witness :
  project_text (sample_form_of (Some "1.0")) = Some (pretty 1%Z +:+ ".0") /\ (Z.abs 1 < 2 ^ 53)%Z /\
  project_owned sample_db (s_user_id sample_user1) 1 = true /\
  serve (Some sample_user1) (AddPost (sample_form_of (Some "1.0"))) sample_db = (Crash ValueError, sample_db).
Proof.
  assert (Hf : project_text (sample_form_of (Some "1.0")) = Some (pretty 1%Z +:+ ".0")) by (vm_compute; reflexivity).
  assert (Hk : (Z.abs 1 < 2 ^ 53)%Z) by lia.
  assert (Ho : project_owned sample_db (s_user_id sample_user1) 1 = true) by reflexivity.
  split_and!; [exact Hf|exact Hk|exact Ho|exact (add_post_project_point_zero _ _ _ _ Hf Hk Ho)].
Defined.

End AddPostForm.
