(* ===== verification/Csv.v ===== *)
(** * CSV rows as Python's [csv.writer] writes them

    [export_csv] (src/app.py, lines 1080-1105) writes its rows with
    [csv.writer(output)], the default ['excel'] dialect: fields separated
    by [','], records ended by ["\r\n"], and [QUOTE_MINIMAL]: a field is
    quoted when it contains the delimiter, the quote character or a
    character of the line terminator, and a quote inside a quoted field is
    doubled.  A record made of one empty field is written as two quotes,
    so that it reads back as one field.  [writerow] below follows the
    library's [_csv.c] ([join_append], [csv_writerow]) for string fields;
    [export_csv] turns its values into strings first ([Export]).

    [parse] is the reference reader, the state machine of the library's
    [csv.reader] for the same dialect: a fold of [step] over the
    characters, then [finish].  [run_write_rows] says that the reader, run
    over the written text, appends every written row to what it has read;
    [CsvExport] uses it for the round trip of the exported file. *)

From Stdlib Require Import Ascii.
From stdpp Require Import base list strings.
From S2P Require Import Prelude.

Module Csv.

Definition DQ : ascii := Ascii.ascii_of_nat 34.
Definition CR : ascii := Ascii.ascii_of_nat 13.
Definition LF : ascii := Ascii.ascii_of_nat 10.
Definition COMMA : ascii := ",".
Definition CRLF : string := String CR (String LF EmptyString).

(** ** The writer *)

(** [QUOTE_MINIMAL]: the characters that force quoting. *)
Definition special (c : ascii) : bool :=
  Ascii.eqb c COMMA || Ascii.eqb c DQ || Ascii.eqb c CR || Ascii.eqb c LF.

Fixpoint needs_quote (s : string) : bool :=
  match s with
  | EmptyString => false
  | String c s' => special c || needs_quote s'
  end.

(** [doublequote=True]: a quote is written twice. *)
Fixpoint escape_quotes (s : string) : string :=
  match s with
  | EmptyString => EmptyString
  | String c s' => if Ascii.eqb c DQ then String DQ (String DQ (escape_quotes s')) else String c (escape_quotes s')
  end.

Definition quote (s : string) : string := String DQ (escape_quotes s +:+ String DQ EmptyString).

Definition write_field (s : string) : string := if needs_quote s then quote s else s.

Fixpoint join_fields (fields : list string) : string :=
  match fields with
  | [] => EmptyString
  | [f] => write_field f
  | f :: fs => write_field f +:+ String COMMA (join_fields fs)
  end.

(** [writer.writerow(fields)]. *)
Definition writerow (fields : list string) : string :=
  match fields with
  | [EmptyString] => quote EmptyString +:+ CRLF
  | _ => join_fields fields +:+ CRLF
  end.

Definition write_rows (rows : list (list string)) : string :=
  foldr (fun r acc => writerow r +:+ acc) EmptyString rows.

(** ** The reference reader *)

Inductive rstate := StartRecord | StartField | InField | InQuoted | QuoteInQuoted | EatCRNL.

(** The reader's state: its parser state, the current field (reversed),
    the fields of the current record and the records read so far. *)
Record reader := mkReader { rd_state : rstate; rd_field : list ascii; rd_row : list string; rd_out : list (list string) }.

Definition init : reader := mkReader StartRecord [] [] [].

Definition field_text (r : reader) : string := String.string_of_list_ascii (rev (rd_field r)).

Definition save_field (st : rstate) (r : reader) : reader :=
  mkReader st [] (rd_row r ++ [field_text r]) (rd_out r).

Definition end_record (r : reader) : reader :=
  mkReader EatCRNL [] [] (rd_out r ++ [rd_row r ++ [field_text r]]).

Definition is_eol (c : ascii) : bool := Ascii.eqb c CR || Ascii.eqb c LF.

(** The first character of a field. *)
Definition start_field (r : reader) (c : ascii) : reader :=
  if Ascii.eqb c DQ then mkReader InQuoted [] (rd_row r) (rd_out r)
  else if Ascii.eqb c COMMA then save_field StartField r
  else if is_eol c then end_record r
  else mkReader InField [c] (rd_row r) (rd_out r).

(** The first character of a record: an end of line right away is an
    empty record. *)
Definition start_record (r : reader) (c : ascii) : reader :=
  if is_eol c then mkReader EatCRNL [] [] (rd_out r ++ [[]]) else start_field r c.

Definition push (st : rstate) (c : ascii) (r : reader) : reader :=
  mkReader st (c :: rd_field r) (rd_row r) (rd_out r).

Definition step (r : reader) (c : ascii) : reader :=
  match rd_state r with
  | StartRecord => start_record r c
  | StartField => start_field r c
  | InField =>
      if Ascii.eqb c COMMA then save_field StartField r
      else if is_eol c then end_record r
      else push InField c r
  | InQuoted => if Ascii.eqb c DQ then mkReader QuoteInQuoted (rd_field r) (rd_row r) (rd_out r) else push InQuoted c r
  | QuoteInQuoted =>
      if Ascii.eqb c DQ then push InQuoted c r
      else if Ascii.eqb c COMMA then save_field StartField r
      else if is_eol c then end_record r
      else push InField c r
  | EatCRNL => if Ascii.eqb c LF then mkReader StartRecord [] [] (rd_out r) else start_record r c
  end.

(** End of input: a pending record is complete. *)
Definition finish (r : reader) : list (list string) :=
  match rd_state r with
  | StartRecord | EatCRNL => rd_out r
  | _ => rd_out r ++ [rd_row r ++ [field_text r]]
  end.

Definition parse (s : string) : list (list string) :=
  finish (foldl step init (String.list_ascii_of_string s)).

(** ** Lemmas *)

(** The reader after the characters of [s]. *)
Definition run (r : reader) (s : string) : reader := foldl step r (String.list_ascii_of_string s).

(** One reader step on known characters. *)
Ltac step_simpl :=
  repeat progress (cbn -[run escape_quotes write_field]; rewrite ?Ascii.eqb_refl;
                   unfold push, save_field, end_record, start_field, start_record, field_text;
                   cbv [CR LF COMMA is_eol]);
  rewrite ?rev_involutive, ?String.string_of_list_ascii_of_string.

Lemma run_app r s1 s2 : run r (s1 +:+ s2) = run (run r s1) s2.
Proof. unfold run. by rewrite list_ascii_of_string_app, foldl_app. Qed.

Lemma run_cons r c s : run r (String c s) = run (step r c) s.
Proof. done. Qed.

Definition S0 (out : list (list string)) : reader := mkReader StartRecord [] [] out.

Lemma field_text_rev st s row out :
  field_text (mkReader st (rev (String.list_ascii_of_string s)) row out) = s.
Proof. unfold field_text. simpl. by rewrite rev_involutive, String.string_of_list_ascii_of_string. Qed.

Lemma special_false c :
  special c = false -> Ascii.eqb c COMMA = false /\ Ascii.eqb c DQ = false /\ is_eol c = false.
Proof.
  unfold special, is_eol. intros H.
  apply orb_false_iff in H as [H H4]. apply orb_false_iff in H as [H H3]. apply orb_false_iff in H as [H1 H2].
  by rewrite H1, H2, H3, H4.
Qed.

Lemma special_cases c : special c = true -> Ascii.eqb c DQ = false -> Ascii.eqb c COMMA = true \/ is_eol c = true.
Proof.
  unfold special, is_eol. intros H Hq. rewrite Hq in H.
  destruct (Ascii.eqb c COMMA); [by left|right]. simpl in H. done.
Qed.

(** An unquoted field is copied character by character. *)
Lemma run_plain s acc row out : needs_quote s = false ->
  run (mkReader InField acc row out) s =
  mkReader InField (rev (String.list_ascii_of_string s) ++ acc) row out.
Proof.
  revert acc. induction s as [|c s IH]; intros acc; simpl; [done|].
  intros [Hc Hs]%orb_false_iff. destruct (special_false c Hc) as (H1 & _ & H3).
  rewrite run_cons. unfold step; simpl. rewrite H1, H3. unfold push; simpl.
  rewrite IH by done. by rewrite <- app_assoc.
Qed.

(** The body of a quoted field reads back as the field. *)
Lemma run_quoted s acc row out :
  run (mkReader InQuoted acc row out) (escape_quotes s) =
  mkReader InQuoted (rev (String.list_ascii_of_string s) ++ acc) row out.
Proof.
  revert acc. induction s as [|c s IH]; intros acc; simpl; [done|].
  destruct (Ascii.eqb c DQ) eqn:Hc.
  - apply Ascii.eqb_eq in Hc as ->. rewrite !run_cons. step_simpl.
    rewrite IH. by rewrite <- app_assoc.
  - rewrite run_cons. unfold step; simpl. rewrite Hc. unfold push; simpl.
    rewrite IH. by rewrite <- app_assoc.
Qed.

(** The states in which a field starts: after a delimiter, or at the
    start of a record. *)
Definition starts (r : reader) : Prop :=
  rd_field r = [] /\ (rd_state r = StartField \/ rd_state r = StartRecord /\ rd_row r = []).

(** A written field, then [c] (the delimiter or the end of line): the
    field is read, then [c] is handled after it. *)
Lemma run_field r f c s :
  starts r -> (f <> EmptyString \/ rd_state r = StartField \/ Ascii.eqb c COMMA = true) ->
  special c = true -> Ascii.eqb c DQ = false ->
  run r (write_field f +:+ String c s) =
  run (step (mkReader InField (rev (String.list_ascii_of_string f)) (rd_row r) (rd_out r)) c) s.
Proof.
  destruct r as [st fld row out]; intros [Hf Hst] Hne Hc Hcq; simpl in *; subst fld.
  unfold write_field. destruct (needs_quote f) eqn:Hq.
  - unfold quote. rewrite string_app_cons, run_cons, <- string_app_assoc, run_app.
    assert (Hs : step (mkReader st [] row out) DQ = mkReader InQuoted [] row out)
      by (destruct Hst as [->|[-> ->]]; reflexivity).
    rewrite Hs, run_quoted, app_nil_r, string_app_cons, string_app_nil_l, !run_cons.
    step_simpl. rewrite Hcq. reflexivity.
  - destruct f as [|c0 f]; simpl.
    + rewrite string_app_nil_l, run_cons. f_equal.
      destruct Hst as [->|[-> ->]].
      { unfold step, start_field; simpl. rewrite Hcq.
        destruct (special_cases c Hc Hcq) as [->| Heol]; [done|]. by destruct (Ascii.eqb c COMMA). }
      destruct Hne as [Hne|[Hne|Hcomma]]; [by destruct Hne|discriminate|].
      unfold step; simpl. unfold start_record, start_field. apply Ascii.eqb_eq in Hcomma as ->. done.
    + simpl in Hq. apply orb_false_iff in Hq as [Hc0 Hq]. destruct (special_false c0 Hc0) as (H1 & H2 & H3).
      rewrite string_app_cons, run_cons, run_app.
      assert (Hs : step (mkReader st [] row out) c0 = mkReader InField [c0] row out).
      { destruct Hst as [->|[-> ->]]; unfold step, start_record, start_field; simpl;
          rewrite ?H1, ?H2, ?H3; reflexivity. }
      rewrite Hs, run_plain by done. rewrite run_cons. simpl. by rewrite ?app_nil_r.
Qed.

Lemma special_CR : special CR = true.
Proof. reflexivity. Qed.

Lemma special_COMMA : special COMMA = true.
Proof. reflexivity. Qed.

(** The fields of a record, then its end of line. *)
Lemma run_join fs r :
  fs <> [] -> starts r -> (fs <> [EmptyString] \/ rd_state r = StartField) ->
  run r (join_fields fs +:+ CRLF) = S0 (rd_out r ++ [rd_row r ++ fs]).
Proof.
  revert r. induction fs as [|f [|f2 fs] IH]; intros r Hfs Hr Hne; [done| |].
  - simpl. unfold CRLF. rewrite run_field by (done || (destruct Hne as [Hne|Hne]; [left; congruence|by right; left])).
    by step_simpl.
  - cbn [join_fields]. rewrite <- string_app_assoc, string_app_cons.
    rewrite run_field by (done || by right; right). step_simpl.
    rewrite IH; [|done|split; [done|by left]|by right]. simpl. by rewrite <- app_assoc.
Qed.

Lemma run_writerow row out : run (S0 out) (writerow row) = S0 (out ++ [row]).
Proof.
  destruct row as [|f [|f2 fs]]; [reflexivity| |].
  - destruct f as [|c f]; [reflexivity|]. apply (run_join [String c f] (S0 out)); [done|by split; [|right]|by left].
  - destruct f; (apply (run_join (_ :: f2 :: fs) (S0 out)); [done|by split; [|right]|by left]).
Qed.

Lemma run_write_rows rows out : run (S0 out) (write_rows rows) = S0 (out ++ rows).
Proof.
  revert out. induction rows as [|row rows IH]; intros out; simpl.
  - by rewrite app_nil_r.
  - rewrite run_app, run_writerow, IH. by rewrite <- app_assoc.
Qed.

Lemma parse_run s : parse s = finish (run (S0 []) s).
Proof. done. Qed.

Lemma finish_S0 out : finish (S0 out) = out.
Proof. done. Qed.

End Csv.
