(* ===== verification/CsvExport.v ===== *)
(** * The CSV export

    [export_csv] (src/app.py, lines 1047-1112): the user's posts, newest
    first, as a CSV file with a header row and one row of twenty values
    per post, written with [csv.writer] ([Csv.writerow]).  A value is a
    [cell]: text, an integer (written as [str(n)], [pretty]), a REAL
    (written with Python's float [repr], the section variable
    [float_repr], since the model keeps REAL columns as exact rationals) or
    [None] (written as an empty field).  The file name carries the
    username and today's date ([strftime("%Y%m%d")], years 1000-9999).

    The theorems: reading the exported text back gives the header and
    exactly the user's posts, newest first, each as its twenty cells; in
    every reachable state the export of a user with a project is the
    header alone. *)

From Stdlib Require Import ZArith QArith Ascii.
From stdpp Require Import base list strings gmap sets sorting pretty.
From S2P Require Import Prelude Sql Calendar Post Alerts Store Routes App Pages Csv.

Set Warnings "-clear-no-such-hyp".

Module CsvExport.
Import Pages.

Inductive cell := CText (s : string) | CInt (z : Z) | CReal (q : Q) | CNone.

(** [n] digits, zero-padded, of a non-negative number. *)
Definition zpad (n : nat) (z : Z) : string :=
  let s := pretty z in String.append (String.string_of_list_ascii (replicate (n - String.length s) "0"%char)) s.

(** The stored text of [post_date], ['YYYY-MM-DD']. *)
Definition iso_date (d : Date) : string :=
  zpad 4 (year d) +:+ "-" +:+ zpad 2 (month d) +:+ "-" +:+ zpad 2 (day d).

(** [post['caption'][:100] + '...' if post['caption'] and len(post['caption']) > 100 else post['caption']]. *)
Definition caption_cell (c : option string) : cell :=
  match c with
  | Some t => if (100 <? String.length t)%nat then CText (String.substring 0 100 t +:+ "...") else CText t
  | None => CNone
  end.

Definition opt_text (o : option string) : cell := match o with Some t => CText t | None => CNone end.

(** [x or ''] on an INTEGER column: NULL and 0 are both falsy. *)
Definition int_or_empty (o : option Z) : cell :=
  match o with Some z => if Z.eqb z 0 then CText "" else CInt z | None => CText "" end.

(** [x or ''] on a REAL column: NULL and 0.0 are both falsy. *)
Definition real_or_empty (o : option Q) : cell :=
  match o with Some q => if Qeq_bool q 0 then CText "" else CReal q | None => CText "" end.

Definition header : list string :=
  ["Post Type"; "Date"; "Time"; "Caption"; "Category";
   "Likes"; "Comments"; "Shares"; "Saves"; "Reach"; "Followers Gained";
   "Reel Length (s)"; "Watch Time (s)"; "Avg View Duration (s)";
   "Engagement Rate (%)"; "Weighted Engagement (%)"; "AVD Ratio (%)";
   "Follower Gain Rate (%)"; "Performance Score"; "Dominant Color"].

(** The values of one [writer.writerow([...])] of the loop. *)
Definition post_cells (p : Post) : list cell :=
  [CText (post_type p); CText (iso_date (post_date p)); CText (post_time p);
   caption_cell (caption p); opt_text (caption_category p);
   CInt (likes p); CInt (comments p); CInt (shares p); CInt (saves p); CInt (reach p); CInt (followers_gained p);
   int_or_empty (reel_length p); int_or_empty (watch_time p); real_or_empty (avg_view_duration p);
   CReal (engagement_rate p); CReal (engagement_rate_weighted p); CReal (avd_ratio p);
   CReal (follower_gain_rate p); CReal (performance_score p); opt_text (dominant_color p)].

(** [SELECT ... FROM posts WHERE project_id IN (...) ORDER BY post_date DESC]. *)
Definition export_posts (ids : list Z) (db : Db) : list Post :=
  merge_sort Alerts.by_date_desc (scope ids (table_posts db)).

(** The response: the CSV text and the [Content-Disposition] file name. *)
Record csv_response := mkCsvResponse { body : string; filename : string }.

Section Writer.
Variable float_repr : Q -> string.

(** [str(v)] as [csv.writer] applies it; [None] is an empty field. *)
Definition cell_str (c : cell) : string :=
  match c with
  | CText s => s
  | CInt z => pretty z
  | CReal q => float_repr q
  | CNone => ""
  end.

Definition export_rows (posts : list Post) : list (list string) :=
  header :: map (fun p => map cell_str (post_cells p)) posts.

(** [strftime("%Y%m%d")] of [datetime.now()]. *)
Definition yyyymmdd (now : DateTime) : string :=
  let d := civil_from_days (dt_days now) in zpad 4 (year d) +:+ zpad 2 (month d) +:+ zpad 2 (day d).

Definition export_csv (session : option Session) (now : DateTime) (db : Db) : page csv_response :=
  match session with
  | None => ToLogin
  | Some s =>
      match user_project_ids db (s_user_id s) with
      | [] => RedirectTo "posts" ["No posts to export"]
      | ids =>
          Show (mkCsvResponse (Csv.write_rows (export_rows (export_posts ids db)))
                  ("instagram_posts_" +:+ s_username s +:+ "_" +:+ yyyymmdd now +:+ ".csv"))
      end
  end.

End Writer.

(** ** Lemmas *)

Lemma scope_nil_posts ids : scope ids [] = [].
Proof. done. Qed.

(** The text of a shown export reads back as the header and the rows. *)
Lemma export_csv_parse float_repr s now db r :
  export_csv float_repr (Some s) now db = Show r ->
  user_project_ids db (s_user_id s) <> [] /\
  Csv.parse (body r) = header :: map (fun p => map (cell_str float_repr) (post_cells p))
                                   (export_posts (user_project_ids db (s_user_id s)) db).
Proof.
  unfold export_csv. destruct (user_project_ids db (s_user_id s)) as [|i ids] eqn:E; [done|].
  intros Heq. assert (Hr : body r = Csv.write_rows (export_rows float_repr (export_posts (i :: ids) db)))
    by (destruct r; injection Heq as <- _; reflexivity).
  split; [done|]. rewrite Hr. by rewrite Csv.parse_run, Csv.run_write_rows, Csv.finish_S0.
Qed.

(** ** Properties *)

(** C18 export_csv_contents: the exported text reads back as the header
    and then exactly the user's posts, newest first, each as the strings of
    its twenty cells. *)
Theorem export_csv_contents float_repr s now db r :
  export_csv float_repr (Some s) now db = Show r ->
  let ids := user_project_ids db (s_user_id s) in
  ids <> [] /\
  Csv.parse (body r) = header :: map (fun p => map (cell_str float_repr) (post_cells p)) (export_posts ids db) /\
  export_posts ids db ≡ₚ scope ids (table_posts db) /\
  StronglySorted Alerts.by_date_desc (export_posts ids db).
Proof.
  intros Heq. destruct (export_csv_parse float_repr s now db r Heq) as [Hne Hp].
  split_and!; [done|done|apply merge_sort_Permutation|apply StronglySorted_merge_sort; first [exact Alerts.by_date_desc_trans|exact Alerts.by_date_desc_total]].
Qed.

Definition sample_float_repr (q : Q) : string := "0.0".

Definition sample_export : csv_response :=
  match export_csv sample_float_repr (Some sample_user1) (mkDateTime 20402 0) sample_db with
  | Show r => r
  | _ => mkCsvResponse "" ""
  end.

Lemma export_csv_contents_witness :
  export_csv sample_float_repr (Some sample_user1) (mkDateTime 20402 0) sample_db = Show sample_export /\
  (user_project_ids sample_db (s_user_id sample_user1) <> [] /\
   Csv.parse (body sample_export) =
     header :: map (fun p => map (cell_str sample_float_repr) (post_cells p))
                 (export_posts (user_project_ids sample_db (s_user_id sample_user1)) sample_db) /\
   export_posts (user_project_ids sample_db (s_user_id sample_user1)) sample_db ≡ₚ
     scope (user_project_ids sample_db (s_user_id sample_user1)) (table_posts sample_db) /\
   StronglySorted Alerts.by_date_desc (export_posts (user_project_ids sample_db (s_user_id sample_user1)) sample_db)).
Proof.
  assert (H : export_csv sample_float_repr (Some sample_user1) (mkDateTime 20402 0) sample_db = Show sample_export)
    by (vm_compute; reflexivity).
  split; [exact H|exact (export_csv_contents _ _ _ _ _ H)].
Defined.

(** In every reachable state the export of a user
    with a project is the header line alone, and a user without one is
    redirected to the posts page. *)
Theorem export_reachable h1 h2 db float_repr s now :
  reachable h1 h2 db ->
  export_csv float_repr (Some s) now db =
    if bool_decide (user_project_ids db (s_user_id s) = []) then RedirectTo "posts" ["No posts to export"]
    else Show (mkCsvResponse (Csv.writerow header)
                 ("instagram_posts_" +:+ s_username s +:+ "_" +:+ yyyymmdd now +:+ ".csv")).
Proof.
  intros [Hp _]%reachable_tables. unfold export_csv, export_posts. rewrite Hp.
  destruct (user_project_ids db (s_user_id s)) as [|i ids]; [done|].
  rewrite scope_nil_posts. simpl. by rewrite string_app_nil_r.
Qed.

Lemma export_reachable_witness :
  reachable "h1" "h2" after_add_project /\
  export_csv sample_float_repr (Some sample_user1) (mkDateTime 20402 0) after_add_project =
    Show (mkCsvResponse (Csv.writerow header) ("instagram_posts_user1_" +:+ yyyymmdd (mkDateTime 20402 0) +:+ ".csv")).
Proof.
  pose proof after_add_project_reachable as Hr. split; [exact Hr|].
  exact (export_reachable _ _ _ sample_float_repr sample_user1 (mkDateTime 20402 0) Hr).
Defined.

End CsvExport.
