(* ===== verification/Consistency.v ===== *)
(** * What the pages say about the same posts

    Three pages count the user's posts with three different queries: the
    dashboard's [COUNT( * )] over [project_id IN (...)] ([Pages.dashboard],
    src/app.py lines 509-517), the CSV export's rows
    ([CsvExport.export_csv], lines 1066-1076) and the per-project
    [COUNT(posts.id)] of the projects page's LEFT JOIN ... GROUP BY
    ([Views.projects], lines 1120-1126).  The theorem: on the same
    database the three agree. *)

From Stdlib Require Import ZArith QArith.
From stdpp Require Import base list strings gmap sets sorting.
From S2P Require Import Prelude Sql Calendar Post Store Routes Pages Views Csv CsvExport.

Module Consistency.
Import Pages.

Local Open Scope Z_scope.

(** ** Lemmas *)

(** [post_stats['total_posts']] is the number of scoped posts, also when
    the dashboard keeps its zero statistics. *)
Lemma post_stats_total scoped : total_posts (Pages.post_stats scoped) = Z.of_nat (length scoped).
Proof.
  unfold Pages.post_stats. destruct (0 <? Z.of_nat (length scoped)) eqn:Hlt; [done|].
  apply Z.ltb_ge in Hlt. simpl. lia.
Qed.

Lemma dashboard_total s now db d :
  Pages.dashboard (Some s) now db = Show d ->
  total_posts (d_stats d) = Z.of_nat (length (scope (user_project_ids db (s_user_id s)) (table_posts db))).
Proof.
  unfold Pages.dashboard. destruct (user_project_ids db (s_user_id s)) as [|i ids] eqn:E; intros [= <-]; simpl.
  - by rewrite Views.scope_no_ids.
  - apply post_stats_total.
Qed.

(** ** Properties *)

(** C24 pages_agree: on the same database the dashboard's post count, the
    number of data rows of the CSV export and the sum of the projects
    page's per-project counts are equal. *)
Theorem pages_agree float_repr s now db d r rows :
  Pages.dashboard (Some s) now db = Show d ->
  CsvExport.export_csv float_repr (Some s) now db = Show r ->
  Views.projects (Some s) db = Show rows ->
  total_posts (d_stats d) = Z.of_nat (length (Csv.parse (CsvExport.body r))) - 1 /\
  total_posts (d_stats d) = sumZ (map Views.post_count rows).
Proof.
  intros Hd He Hp. rewrite (dashboard_total s now db d Hd).
  destruct (CsvExport.export_csv_parse float_repr s now db r He) as [_ ->].
  rewrite (Views.projects_rows_total s db rows Hp). split; [|done].
  cbn [length]. rewrite length_map. unfold CsvExport.export_posts.
  rewrite (Permutation_length (merge_sort_Permutation _ _)). lia.
Qed.

Definition sample_dashboard : Pages.dashboard_view :=
  match Pages.dashboard (Some sample_user1) (mkDateTime 20402 0) sample_db with
  | Show d => d
  | _ => Pages.mkDashboard "" Pages.zero_stats [] []
  end.

Definition sample_rows : list Views.project_row :=
  match Views.projects (Some sample_user1) sample_db with Show rows => rows | _ => [] end.

Lemma pages_agree_witness :
  Pages.dashboard (Some sample_user1) (mkDateTime 20402 0) sample_db = Show sample_dashboard /\
  CsvExport.export_csv CsvExport.sample_float_repr (Some sample_user1) (mkDateTime 20402 0) sample_db =
    Show CsvExport.sample_export /\
  Views.projects (Some sample_user1) sample_db = Show sample_rows /\
  (total_posts (d_stats sample_dashboard) = Z.of_nat (length (Csv.parse (CsvExport.body CsvExport.sample_export))) - 1 /\
   total_posts (d_stats sample_dashboard) = sumZ (map Views.post_count sample_rows)) /\
  total_posts (d_stats sample_dashboard) = 1.
Proof.
  assert (Hd : Pages.dashboard (Some sample_user1) (mkDateTime 20402 0) sample_db = Show sample_dashboard)
    by (vm_compute; reflexivity).
  assert (He : CsvExport.export_csv CsvExport.sample_float_repr (Some sample_user1) (mkDateTime 20402 0) sample_db =
    Show CsvExport.sample_export) by (vm_compute; reflexivity).
  assert (Hp : Views.projects (Some sample_user1) sample_db = Show sample_rows) by (vm_compute; reflexivity).
  split; [exact Hd|split; [exact He|split; [exact Hp|split]]].
  - exact (pages_agree _ _ _ _ _ _ _ Hd He Hp).
  - vm_compute. reflexivity.
Defined.

End Consistency.
