(* ===== verification/HashtagsRef.v ===== *)
(** * The hashtag scan without fuel

    [Hashtags.findall_hashtags] is the left-to-right scan of
    [re.findall(r'#\w+', s)] written with fuel.  [findall_ref] is the same
    scan as a function defined by well-founded recursion on the length of
    the text left to scan (Equations): Rocq accepts it only with the proof
    that every step consumes at least one character, which is the
    termination argument of the scan.  [findall_hashtags_ref]: with fuel
    above the length of the text, the fuelled scan computes [findall_ref],
    so the fuel [length + 1] of [re_findall] never runs out. *)

From Stdlib Require Import Ascii Arith Lia.
From Equations Require Import Equations.
From stdpp Require Import base list strings.
From S2P Require Import Prelude Hashtags.

Module HashtagsRef.
Import Hashtags.

(** [inspect] keeps the equation of the value it matches on (the
    Equations idiom), here the split of the text after a character. *)
Definition inspect {A} (a : A) : {b | a = b} := exist _ a eq_refl.

Equations? findall_ref (s : string) : list string by wf (String.length s) lt :=
findall_ref EmptyString := [];
findall_ref (String c rest) with inspect (word_prefix rest) := {
  | exist _ (w, r) E =>
      if Ascii.eqb c "#" then
        match w with
        | EmptyString => findall_ref rest
        | _ => String "#" w :: findall_ref r
        end
      else findall_ref rest }.
Proof.
  all: simpl; try lia.
  apply word_prefix_length in E. lia.
Qed.

(** ** Lemmas *)

(** With fuel above the length, the fuelled scan is the terminating one. *)
Lemma findall_hashtags_ref s n : (String.length s < n)%nat -> findall_hashtags n s = findall_ref s.
Proof.
  revert n. funelim (findall_ref s); intros [|n] Hn; simpl in Hn; try lia; [done|].
  simpl. rewrite E. pose proof (word_prefix_length rest w r E) as Hr.
  destruct (Ascii.eqb c "#"); [|apply H; lia].
  destruct w as [|c' w]; [apply H; lia|]. f_equal. eapply H0; [exact c|exact rest|lia].
Qed.

End HashtagsRef.
